(** * Cadence client: the deterministic workflow execution core

    A shallow embedding of the decision state machine layer
    (the [decisionStateMachine] family and [decisionsHelper]) and of the
    workflow environment with its event handlers
    ([workflowEnvironmentImpl], [workflowExecutionEventHandlerImpl]),
    followed by the properties the specification states about them.

    Conventions of the embedding.
    - Go methods that mutate their receiver are computations in a small
      state-and-panic monad [M S]: a computation takes the state, returns
      either a value or the panic value, and in both cases the state as the
      Go code left it (a panic does not undo earlier writes).
    - [decisionsHelper.orderedDecisions] is the [container/list] of
      machines, front first.  The Go map [decisions], which indexes the
      elements of that list by [getID], is represented by key search in the
      list; a Go element pointer is represented by its key.  A machine that
      is mutated through a pointer is written through to the element that
      holds it ([sync]).
    - The scheduled waiters ([scheduledTimer], [scheduledActivity], ...)
      are heap objects reached through a machine's [data] pointer; they
      live in the environment's [waiters] store, keyed by address.
    - User code reached through a function value (result callbacks, the
      workflow definition, signal, cancel, query and completion handlers)
      is not executed: every such call is appended to the environment's
      [calls] log with its arguments.
    - Logging and metrics have no effect on the modelled state and are
      left out, except for what a call on them needs: the metrics scope of
      the environment is nil when the constructor was given none, and a
      call on it then panics.
    - Go visits the entries of a map in an order it does not specify.
      Where the code builds a list by ranging over a map, the order is
      taken from a choice sequence ([rangeOrder]) that is a parameter of
      the development, so that every order is covered. *)

From Stdlib Require Import ZArith String Ascii List Lia Bool DecimalString Decimal.
From Stdlib Require DecimalZ.
From stdpp Require Import base option list gmap strings.

Open Scope Z_scope.

(** ** Go values that cross the boundary of this code *)

Definition bytes := list Byte.byte.

(** A reference to a protobuf message that this code only passes through
    (retry policy, header, memo). *)
Definition ref := N.

(** [fmt.Sprintf("%v", n)] for an integer. *)
Definition fmt_int (z : Z) : string := NilZero.string_of_int (Z.to_int z).

(** [fmt.Sprintf("%v", b)] for a bool. *)
Definition fmt_bool (b : bool) : string := if b then "true" else "false".

(** [fmt.Sprintf("%v", l)] for a slice of strings. *)
Definition fmt_strings (l : list string) : string :=
  "[" +:+ String.concat " " l +:+ "]".

Definition dquote : string := String "034"%char EmptyString.

(** int32 arithmetic wraps around. *)
Definition wrap_int32 (z : Z) : Z := (z + 2147483648) mod 4294967296 - 2147483648.

(** Errors.  Constructors stand for the error values this code creates or
    receives; [constructError] and the typed error constructors live
    outside these two files and are kept as constructors applied to the
    arguments the code passes. *)
Inductive goError : Type :=
| ErrCanceled
| ErrNoData
| errSearchAttributesNotSet
| NewCanceledError (details : option bytes)
| NewTimeoutError (timeoutType : Z) (details : option bytes)
| newTerminatedError
| newUnknownExternalWorkflowExecutionError
| WorkflowExecutionAlreadyStartedError (Message : string)
| constructError (reason : string) (details : bytes)
| Errorf (message : string)
| ErrorfWrap (prefix : string) (cause : goError)
| externalError (message : string)
| newWorkflowPanicError (p : panicValue)
with panicValue : Type :=
| stateMachineIllegalStatePanic (message : string)
| panicString (message : string)
| panicError (err : goError)
| runtimePanic (what : string).

Inductive outcome (A : Type) : Type :=
| Returned (a : A)
| Panicked (p : panicValue).
Arguments Returned {A} a.
Arguments Panicked {A} p.

Definition M (S A : Type) : Type := S -> outcome A * S.

Definition ret {S A} (a : A) : M S A := fun s => (Returned a, s).

Definition bind {S A B} (c : M S A) (k : A -> M S B) : M S B :=
  fun s => match c s with
           | (Returned a, s') => k a s'
           | (Panicked p, s') => (Panicked p, s')
           end.

Definition panic {S A} (p : panicValue) : M S A := fun s => (Panicked p, s).

Definition get {S} : M S S := fun s => (Returned s, s).

Definition modify {S} (f : S -> S) : M S unit := fun s => (Returned tt, f s).

Notation "x <- c ;; k" := (bind c (fun x => k))
  (at level 100, c at next level, right associativity).
Notation "c ;;; k" := (bind c (fun _ => k))
  (at level 100, right associativity).

(** [panicIllegalState(message)] *)
Definition panicIllegalState {S A} (message : string) : M S A :=
  panic (stateMachineIllegalStatePanic message).

(** ** Decision state machines: types *)

Inductive decisionState : Set :=
| decisionStateCreated
| decisionStateDecisionSent
| decisionStateCanceledBeforeInitiated
| decisionStateInitiated
| decisionStateStarted
| decisionStateCanceledAfterInitiated
| decisionStateCanceledAfterStarted
| decisionStateCancellationDecisionSent
| decisionStateCompletedAfterCancellationDecisionSent
| decisionStateCompleted.

Inductive decisionType : Set :=
| decisionTypeActivity
| decisionTypeChildWorkflow
| decisionTypeCancellation
| decisionTypeMarker
| decisionTypeTimer
| decisionTypeSignal
| decisionTypeUpsertSearchAttributes.

#[global] Instance decisionState_eq_dec : EqDecision decisionState.
Proof. solve_decision. Defined.

#[global] Instance decisionType_eq_dec : EqDecision decisionType.
Proof. solve_decision. Defined.

Record decisionID : Set := makeDecisionID {
  decisionID_decisionType : decisionType;
  decisionID_id : string }.

#[global] Instance decisionID_eq_dec : EqDecision decisionID.
Proof. solve_decision. Defined.

Definition eventCancel : string := "cancel".
Definition eventDecisionSent : string := "handleDecisionSent".
Definition eventInitiated : string := "handleInitiatedEvent".
Definition eventInitiationFailed : string := "handleInitiationFailedEvent".
Definition eventStarted : string := "handleStartedEvent".
Definition eventCompletion : string := "handleCompletionEvent".
Definition eventCancelInitiated : string := "handleCancelInitiatedEvent".
Definition eventCancelFailed : string := "handleCancelFailedEvent".
Definition eventCanceled : string := "handleCanceledEvent".

Definition sideEffectMarkerName : string := "SideEffect".
Definition versionMarkerName : string := "Version".
Definition localActivityMarkerName : string := "LocalActivity".
Definition mutableSideEffectMarkerName : string := "MutableSideEffect".

Definition decisionState_String (d : decisionState) : string :=
  match d with
  | decisionStateCreated => "Created"
  | decisionStateDecisionSent => "DecisionSent"
  | decisionStateCanceledBeforeInitiated => "CanceledBeforeInitiated"
  | decisionStateInitiated => "Initiated"
  | decisionStateStarted => "Started"
  | decisionStateCanceledAfterInitiated => "CanceledAfterInitiated"
  | decisionStateCanceledAfterStarted => "CanceledAfterStarted"
  | decisionStateCancellationDecisionSent => "CancellationDecisionSent"
  | decisionStateCompletedAfterCancellationDecisionSent =>
      "CompletedAfterCancellationDecisionSent"
  | decisionStateCompleted => "Completed"
  end.

Definition decisionType_String (d : decisionType) : string :=
  match d with
  | decisionTypeActivity => "Activity"
  | decisionTypeChildWorkflow => "ChildWorkflow"
  | decisionTypeCancellation => "Cancellation"
  | decisionTypeMarker => "Marker"
  | decisionTypeTimer => "Timer"
  | decisionTypeSignal => "Signal"
  | decisionTypeUpsertSearchAttributes => "Unknown"
  end.

Definition decisionID_String (d : decisionID) : string :=
  "DecisionType: " +:+ decisionType_String (decisionID_decisionType d)
  +:+ ", ID: " +:+ decisionID_id d.

(** *** Decision payloads (the [apiv1] attribute messages) *)

Record ScheduleActivityTaskDecisionAttributes : Type := {
  sat_ActivityId : string;
  sat_ActivityType : string;
  sat_TaskList : string;
  sat_Input : bytes;
  sat_ScheduleToCloseTimeout : Z;
  sat_StartToCloseTimeout : Z;
  sat_ScheduleToStartTimeout : Z;
  sat_HeartbeatTimeout : Z;
  sat_RetryPolicy : option ref;
  sat_Header : option ref }.

Record StartTimerDecisionAttributes : Type := {
  st_TimerId : string;
  st_StartToFireTimeout : Z }.

Record SearchAttributes : Type := {
  IndexedFields : gmap string bytes }.

Record StartChildWorkflowExecutionDecisionAttributes : Type := {
  scw_Domain : string;
  scw_TaskList : string;
  scw_WorkflowId : string;
  scw_ExecutionStartToCloseTimeout : Z;
  scw_TaskStartToCloseTimeout : Z;
  scw_Input : bytes;
  scw_WorkflowType : string;
  scw_WorkflowIdReusePolicy : Z;
  scw_ParentClosePolicy : Z;
  scw_RetryPolicy : option ref;
  scw_Header : option ref;
  scw_Memo : option (gmap string bytes);
  scw_SearchAttributes : option SearchAttributes;
  scw_CronSchedule : string }.

Record RequestCancelExternalWorkflowExecutionDecisionAttributes : Type := {
  rce_Domain : string;
  rce_WorkflowId : string;
  rce_RunId : string;
  rce_Control : bytes;
  rce_ChildWorkflowOnly : bool }.

Record SignalExternalWorkflowExecutionDecisionAttributes : Type := {
  se_Domain : string;
  se_WorkflowId : string;
  se_RunId : string;
  se_SignalName : string;
  se_Input : bytes;
  se_Control : bytes;
  se_ChildWorkflowOnly : bool }.

Record RecordMarkerDecisionAttributes : Type := {
  rm_MarkerName : string;
  rm_Details : bytes }.

Record UpsertWorkflowSearchAttributesDecisionAttributes : Type := {
  up_SearchAttributes : option SearchAttributes }.

(** [apiv1.Decision]: a tagged union over the attribute messages. *)
Inductive Decision : Type :=
| Decision_ScheduleActivityTaskDecisionAttributes
    (a : ScheduleActivityTaskDecisionAttributes)
| Decision_RequestCancelActivityTaskDecisionAttributes (ActivityId : string)
| Decision_StartTimerDecisionAttributes (a : StartTimerDecisionAttributes)
| Decision_CancelTimerDecisionAttributes (TimerId : string)
| Decision_StartChildWorkflowExecutionDecisionAttributes
    (a : StartChildWorkflowExecutionDecisionAttributes)
| Decision_RequestCancelExternalWorkflowExecutionDecisionAttributes
    (a : RequestCancelExternalWorkflowExecutionDecisionAttributes)
| Decision_SignalExternalWorkflowExecutionDecisionAttributes
    (a : SignalExternalWorkflowExecutionDecisionAttributes)
| Decision_RecordMarkerDecisionAttributes (a : RecordMarkerDecisionAttributes)
| Decision_UpsertWorkflowSearchAttributesDecisionAttributes
    (a : UpsertWorkflowSearchAttributesDecisionAttributes).

(** *** Scheduled waiters: the values stored in a machine's [data] *)

(** A function value supplied by user code, identified by a name. *)
Definition resultHandler := N.

Record scheduledTimer : Type := {
  timer_callback : resultHandler;
  timer_handled : bool }.

Record scheduledActivity : Type := {
  activity_callback : resultHandler;
  activity_waitForCancelRequest : bool;
  activity_handled : bool }.

Record scheduledChildWorkflow : Type := {
  child_resultCallback : resultHandler;
  child_startedCallback : resultHandler;
  child_waitForCancellation : bool;
  child_handled : bool }.

Record scheduledCancellation : Type := {
  cancellation_callback : resultHandler;
  cancellation_handled : bool }.

Record scheduledSignal : Type := {
  signal_callback : resultHandler;
  signal_handled : bool }.

(** The dynamic type of a machine's [data interface{}]: a pointer to one
    of the five structs.  The structs live in the environment's store of
    waiters; a machine holds the address. *)
Definition waiterRef := N.

Inductive waiter : Type :=
| dataTimer (s : scheduledTimer)
| dataActivity (s : scheduledActivity)
| dataChildWorkflow (s : scheduledChildWorkflow)
| dataCancellation (s : scheduledCancellation)
| dataSignal (s : scheduledSignal).

(** *** The machine record *)

(** The concrete Go type of a machine with the fields it adds to
    [decisionStateMachineBase]. *)
Inductive machineKind : Type :=
| activityDecisionStateMachine (attributes : ScheduleActivityTaskDecisionAttributes)
| timerDecisionStateMachine (attributes : StartTimerDecisionAttributes)
    (canceled : bool)
| childWorkflowDecisionStateMachine
    (attributes : StartChildWorkflowExecutionDecisionAttributes)
| cancelExternalWorkflowDecisionStateMachine (decision : Decision)
| signalExternalWorkflowDecisionStateMachine (decision : Decision)
| markerDecisionStateMachine (decision : Decision)
| upsertSearchAttributesDecisionStateMachine (decision : Decision).

Record decisionStateMachine : Type := {
  id : decisionID;
  state : decisionState;
  history : list string;
  data : option waiterRef;
  kind : machineKind }.

Definition set_state (s : decisionState) (d : decisionStateMachine) :=
  {| id := id d; state := s; history := history d; data := data d; kind := kind d |}.

Definition add_history (e : string) (d : decisionStateMachine) :=
  {| id := id d; state := state d; history := history d ++ [e];
     data := data d; kind := kind d |}.

Definition set_data (x : option waiterRef) (d : decisionStateMachine) :=
  {| id := id d; state := state d; history := history d; data := x; kind := kind d |}.

Definition set_kind (k : machineKind) (d : decisionStateMachine) :=
  {| id := id d; state := state d; history := history d; data := data d; kind := k |}.

(** ** The per-workflow collection *)

Record decisionsHelper : Type := {
  orderedDecisions : list decisionStateMachine;
  scheduledEventIDToActivityID : gmap Z string;
  scheduledEventIDToCancellationID : gmap Z string;
  scheduledEventIDToSignalID : gmap Z string }.

Definition set_orderedDecisions (l : list decisionStateMachine) (h : decisionsHelper) :=
  {| orderedDecisions := l;
     scheduledEventIDToActivityID := scheduledEventIDToActivityID h;
     scheduledEventIDToCancellationID := scheduledEventIDToCancellationID h;
     scheduledEventIDToSignalID := scheduledEventIDToSignalID h |}.

Definition hasKey (k : decisionID) (d : decisionStateMachine) : bool :=
  bool_decide (id d = k).

(** [h.decisions[k]]: the element indexed by [k], if any. *)
Definition decisions (h : decisionsHelper) (k : decisionID) : option decisionStateMachine :=
  find (hasKey k) (orderedDecisions h).

(** [list.Remove] of the element with key [k]. *)
Fixpoint Remove (k : decisionID) (l : list decisionStateMachine) : list decisionStateMachine :=
  match l with
  | [] => []
  | d :: l' => if hasKey k d then l' else d :: Remove k l'
  end.

(** [list.MoveToBack] of the element with key [k]. *)
Definition MoveToBack (k : decisionID) (l : list decisionStateMachine) : list decisionStateMachine :=
  match find (hasKey k) l with
  | Some d => Remove k l ++ [d]
  | None => l
  end.

(** [list.PushBack] *)
Definition PushBack (d : decisionStateMachine) (l : list decisionStateMachine) :=
  l ++ [d].

(** Writing through a machine pointer: the element that holds the machine
    sees the new field values. *)
Fixpoint writeThrough (d : decisionStateMachine) (l : list decisionStateMachine) :=
  match l with
  | [] => []
  | x :: l' => if hasKey (id d) x then d :: l' else x :: writeThrough d l'
  end.

Definition sync (d : decisionStateMachine) : M decisionsHelper decisionStateMachine :=
  fun h => (Returned d, set_orderedDecisions (writeThrough d (orderedDecisions h)) h).

Definition newDecisionsHelper : decisionsHelper :=
  {| orderedDecisions := [];
     scheduledEventIDToActivityID := ∅;
     scheduledEventIDToCancellationID := ∅;
     scheduledEventIDToSignalID := ∅ |}.

(** ** History events *)

Inductive eventAttributes : Type :=
| WorkflowExecutionStartedEventAttributes (Header : option ref) (Input : bytes)
| WorkflowExecutionCompletedEventAttributes
| WorkflowExecutionFailedEventAttributes
| WorkflowExecutionTimedOutEventAttributes
| DecisionTaskScheduledEventAttributes
| DecisionTaskStartedEventAttributes
| DecisionTaskTimedOutEventAttributes
| DecisionTaskFailedEventAttributes
| DecisionTaskCompletedEventAttributes
| ActivityTaskScheduledEventAttributes (ActivityId : string)
| ActivityTaskStartedEventAttributes
| ActivityTaskCompletedEventAttributes (ScheduledEventId : Z) (Result : bytes)
| ActivityTaskFailedEventAttributes (ScheduledEventId : Z)
    (FailureReason : string) (FailureDetails : bytes)
| ActivityTaskTimedOutEventAttributes (ScheduledEventId : Z)
    (LastFailureReason : string) (LastFailureDetails : bytes)
    (TimeoutType : Z) (Details : option bytes)
| ActivityTaskCancelRequestedEventAttributes (ActivityId : string)
| RequestCancelActivityTaskFailedEventAttributes (ActivityId : string)
| ActivityTaskCanceledEventAttributes (ScheduledEventId : Z) (Details : option bytes)
| TimerStartedEventAttributes (TimerId : string)
| TimerFiredEventAttributes (TimerId : string)
| TimerCanceledEventAttributes (TimerId : string)
| CancelTimerFailedEventAttributes (TimerId : string)
| WorkflowExecutionCancelRequestedEventAttributes
| WorkflowExecutionCanceledEventAttributes
| RequestCancelExternalWorkflowExecutionInitiatedEventAttributes
    (WorkflowId : string) (Control : bytes)
| RequestCancelExternalWorkflowExecutionFailedEventAttributes
    (InitiatedEventId : Z) (WorkflowId : string) (Cause : Z)
| ExternalWorkflowExecutionCancelRequestedEventAttributes
    (InitiatedEventId : Z) (WorkflowId : string)
| WorkflowExecutionContinuedAsNewEventAttributes
| WorkflowExecutionSignaledEventAttributes (SignalName : string) (Input : bytes)
| SignalExternalWorkflowExecutionInitiatedEventAttributes (Control : bytes)
| SignalExternalWorkflowExecutionFailedEventAttributes (InitiatedEventId : Z) (Cause : Z)
| ExternalWorkflowExecutionSignaledEventAttributes (InitiatedEventId : Z)
| MarkerRecordedEventAttributes (MarkerName : string) (Details : option bytes)
| StartChildWorkflowExecutionInitiatedEventAttributes (WorkflowId : string)
| StartChildWorkflowExecutionFailedEventAttributes (WorkflowId : string)
| ChildWorkflowExecutionStartedEventAttributes (WorkflowId : string) (RunId : string)
| ChildWorkflowExecutionCompletedEventAttributes (WorkflowId : string) (Result : bytes)
| ChildWorkflowExecutionFailedEventAttributes (WorkflowId : string)
    (FailureReason : string) (FailureDetails : bytes)
| ChildWorkflowExecutionCanceledEventAttributes (WorkflowId : string)
    (Details : option bytes)
| ChildWorkflowExecutionTimedOutEventAttributes (WorkflowId : string) (TimeoutType : Z)
| ChildWorkflowExecutionTerminatedEventAttributes (WorkflowId : string)
| UpsertWorkflowSearchAttributesEventAttributes (attrs : option SearchAttributes)
| OtherEventAttributes (tag : N).

(** Instants ([time.Time] compared with [Before]) are nanoseconds on the
    time line. *)
Definition Time := Z.

Record HistoryEvent : Type := {
  EventId : Z;
  EventTime : Time;
  Attributes : eventAttributes }.

(** Values of static type [interface{}] that reach the data converter or
    the search-attribute map. *)
Record localActivityMarkerData : Type := {
  lamd_ActivityID : string;
  lamd_ActivityType : string;
  lamd_ErrReason : string;
  lamd_ErrJSON : string;
  lamd_ResultJSON : string;
  lamd_ReplayTime : Time;
  lamd_Attempt : Z;
  lamd_Backoff : Z }.

Inductive goValue : Type :=
| VNil
| VInt (z : Z)
| VInt32 (z : Z)
| VVersion (z : Z)
| VString (s : string)
| VBytes (b : bytes)
| VStrings (l : list string)
| VLocalActivityMarkerData (l : localActivityMarkerData)
| VSessions (l : list ref)
| VOther (tag : N).

(** The [DataConverter] interface.  [FromData] receives the pointers'
    current values and returns the values it stored through them. *)
Record DataConverter : Type := {
  ToData : list goValue -> bytes * option goError;
  FromData : bytes -> list goValue -> list goValue * option goError }.

(** ** The order of [range] over a map *)

(** [insertAt n x l] puts [x] before the element of [l] at index [n], and
    at the end when [l] is shorter. *)
Fixpoint insertAt {A} (n : nat) (x : A) (l : list A) : list A :=
  match n, l with
  | S n', y :: l' => y :: insertAt n' x l'
  | _, _ => x :: l
  end.

(** The entries [l] of a map in the order a [range] loop visits them, as
    the choice sequence tells: each entry is put into the order of the
    entries after it, at the index the sequence gives for it (0 when the
    sequence has run out).  Every choice sequence gives a permutation of
    [l], and every permutation of [l] is given by one. *)
Fixpoint rangeOrder {A} (choice : list nat) (l : list A) : list A :=
  match l with
  | [] => []
  | x :: l' => insertAt (hd 0%nat choice) x (rangeOrder (tl choice) l')
  end.

Section Core.

(** Functions and constants of the repository and of its libraries that
    these two files use and that are declared elsewhere:
    [util.GetHistoryEventType], [util.HistoryEventToString],
    [lastPartOfName], [json.Marshal], [getErrorDetails], the [%v] format of
    a function value, of a [time.Duration] and of a failure-cause enum, the
    names of the two built-in query types, and two enum values. *)
Variable GetHistoryEventType : HistoryEvent -> string.
Variable HistoryEventToString : HistoryEvent -> string.
Variable lastPartOfName : string -> string.
Variable json_Marshal : goValue -> bytes * option goError.
Variable getErrorDetails : goError -> DataConverter -> string * bytes.
Variable fmt_func : N -> string.
Variable fmt_Duration : Z -> string.
Variable fmt_Cause : Z -> string.
Variable QueryTypeStackTrace : string.
Variable QueryTypeOpenSessions : string.
Variable TIMEOUT_TYPE_START_TO_CLOSE : Z.
Variable SIGNAL_FAILED_CAUSE_UNKNOWN_EXTERNAL_WORKFLOW_EXECUTION : Z.

(** The choices of the Go runtime when the code ranges over the map of
    change versions and over the map of side-effect results. *)
Variable range_changeVersions : gmap string Z -> list nat.
Variable range_sideEffectResult : gmap Z bytes -> list nat.

(** ** [decisionStateMachineBase] *)

Definition newDecisionStateMachineBase (decisionType : decisionType) (i : string)
    (k : machineKind) : decisionStateMachine :=
  {| id := makeDecisionID decisionType i;
     state := decisionStateCreated;
     history := [decisionState_String decisionStateCreated];
     data := None;
     kind := k |}.

Definition isCompleted (s : decisionState) : bool :=
  match s with
  | decisionStateCompleted => true
  | _ => false
  end.

Definition base_isDone (d : decisionStateMachine) : bool :=
  isCompleted (state d)
  || match state d with
     | decisionStateCompletedAfterCancellationDecisionSent => true
     | _ => false
     end.

(** [decisionStateMachineBase.String] *)
Definition base_String (d : decisionStateMachine) : string :=
  decisionID_String (id d) +:+ ", state=" +:+ decisionState_String (state d)
  +:+ ", isDone()=" +:+ fmt_bool (base_isDone d)
  +:+ ", history=" +:+ fmt_strings (history d).

Definition removeDecision (k : decisionID) (h : decisionsHelper) : decisionsHelper :=
  set_orderedDecisions (Remove k (orderedDecisions h)) h.

Definition moveState (newState : decisionState) (event : string)
    (d : decisionStateMachine) : M decisionsHelper decisionStateMachine :=
  d' <- sync (add_history (decisionState_String newState)
                (set_state newState (add_history event d))) ;;
  (if isCompleted newState
   then modify (removeDecision (id d'))
   else ret tt) ;;;
  ret d'.

Definition failStateTransition {A} (event : string) (d : decisionStateMachine)
    : M decisionsHelper A :=
  panicIllegalState
    ("invalid state transition: attempt to " +:+ event +:+ ", " +:+ base_String d).

Definition base_handleDecisionSent (d : decisionStateMachine)
    : M decisionsHelper decisionStateMachine :=
  match state d with
  | decisionStateCreated => moveState decisionStateDecisionSent eventDecisionSent d
  | _ => ret d
  end.

Definition base_cancel (d : decisionStateMachine) : M decisionsHelper decisionStateMachine :=
  match state d with
  | decisionStateCompleted | decisionStateCompletedAfterCancellationDecisionSent =>
      ret d
  | decisionStateCreated => moveState decisionStateCompleted eventCancel d
  | decisionStateDecisionSent =>
      moveState decisionStateCanceledBeforeInitiated eventCancel d
  | decisionStateInitiated =>
      moveState decisionStateCanceledAfterInitiated eventCancel d
  | _ => failStateTransition eventCancel d
  end.

Definition base_handleInitiatedEvent (d : decisionStateMachine)
    : M decisionsHelper decisionStateMachine :=
  match state d with
  | decisionStateDecisionSent => moveState decisionStateInitiated eventInitiated d
  | decisionStateCanceledBeforeInitiated =>
      moveState decisionStateCanceledAfterInitiated eventInitiated d
  | _ => failStateTransition eventInitiated d
  end.

Definition base_handleInitiationFailedEvent (d : decisionStateMachine)
    : M decisionsHelper decisionStateMachine :=
  match state d with
  | decisionStateInitiated | decisionStateDecisionSent
  | decisionStateCanceledBeforeInitiated =>
      moveState decisionStateCompleted eventInitiationFailed d
  | _ => failStateTransition eventInitiationFailed d
  end.

Definition base_handleStartedEvent (d : decisionStateMachine)
    : M decisionsHelper decisionStateMachine :=
  sync (add_history eventStarted d).

Definition base_handleCompletionEvent (d : decisionStateMachine)
    : M decisionsHelper decisionStateMachine :=
  match state d with
  | decisionStateCanceledAfterInitiated | decisionStateInitiated =>
      moveState decisionStateCompleted eventCompletion d
  | decisionStateCancellationDecisionSent =>
      moveState decisionStateCompletedAfterCancellationDecisionSent eventCompletion d
  | _ => failStateTransition eventCompletion d
  end.

Definition base_handleCancelInitiatedEvent (d : decisionStateMachine)
    : M decisionsHelper decisionStateMachine :=
  d' <- sync (add_history eventCancelInitiated d) ;;
  match state d' with
  | decisionStateCancellationDecisionSent => ret d'
  | _ => failStateTransition eventCancelInitiated d'
  end.

Definition base_handleCancelFailedEvent (d : decisionStateMachine)
    : M decisionsHelper decisionStateMachine :=
  match state d with
  | decisionStateCompletedAfterCancellationDecisionSent =>
      moveState decisionStateCompleted eventCancelFailed d
  | _ => failStateTransition eventCancelFailed d
  end.

Definition base_handleCanceledEvent (d : decisionStateMachine)
    : M decisionsHelper decisionStateMachine :=
  match state d with
  | decisionStateCancellationDecisionSent =>
      moveState decisionStateCompleted eventCanceled d
  | _ => failStateTransition eventCanceled d
  end.

(** ** [activityDecisionStateMachine] *)

Definition activity_getDecision (attributes : ScheduleActivityTaskDecisionAttributes)
    (d : decisionStateMachine) : option Decision :=
  match state d with
  | decisionStateCreated =>
      Some (Decision_ScheduleActivityTaskDecisionAttributes attributes)
  | decisionStateCanceledAfterInitiated =>
      Some (Decision_RequestCancelActivityTaskDecisionAttributes
              (sat_ActivityId attributes))
  | _ => None
  end.

Definition activity_handleDecisionSent (d : decisionStateMachine)
    : M decisionsHelper decisionStateMachine :=
  match state d with
  | decisionStateCanceledAfterInitiated =>
      moveState decisionStateCancellationDecisionSent eventDecisionSent d
  | _ => base_handleDecisionSent d
  end.

Definition activity_handleCancelFailedEvent (d : decisionStateMachine)
    : M decisionsHelper decisionStateMachine :=
  match state d with
  | decisionStateCancellationDecisionSent =>
      moveState decisionStateInitiated eventCancelFailed d
  | _ => base_handleCancelFailedEvent d
  end.

(** ** [timerDecisionStateMachine] *)

Definition timer_cancel (attributes : StartTimerDecisionAttributes)
    (d : decisionStateMachine) : M decisionsHelper decisionStateMachine :=
  d' <- sync (set_kind (timerDecisionStateMachine attributes true) d) ;;
  base_cancel d'.

Definition timer_isDone (canceled : bool) (d : decisionStateMachine) : bool :=
  isCompleted (state d) || canceled.

Definition timer_handleDecisionSent (d : decisionStateMachine)
    : M decisionsHelper decisionStateMachine :=
  match state d with
  | decisionStateCanceledAfterInitiated =>
      moveState decisionStateCancellationDecisionSent eventDecisionSent d
  | _ => base_handleDecisionSent d
  end.

Definition timer_handleCancelFailedEvent (d : decisionStateMachine)
    : M decisionsHelper decisionStateMachine :=
  match state d with
  | decisionStateCancellationDecisionSent =>
      moveState decisionStateInitiated eventCancelFailed d
  | _ => base_handleCancelFailedEvent d
  end.

Definition timer_getDecision (attributes : StartTimerDecisionAttributes)
    (d : decisionStateMachine) : option Decision :=
  match state d with
  | decisionStateCreated => Some (Decision_StartTimerDecisionAttributes attributes)
  | decisionStateCanceledAfterInitiated =>
      Some (Decision_CancelTimerDecisionAttributes (st_TimerId attributes))
  | _ => None
  end.

(** ** [childWorkflowDecisionStateMachine] *)

Definition childWorkflow_getDecision
    (attributes : StartChildWorkflowExecutionDecisionAttributes)
    (d : decisionStateMachine) : option Decision :=
  match state d with
  | decisionStateCreated =>
      Some (Decision_StartChildWorkflowExecutionDecisionAttributes attributes)
  | decisionStateCanceledAfterStarted =>
      Some (Decision_RequestCancelExternalWorkflowExecutionDecisionAttributes
              {| rce_Domain := scw_Domain attributes;
                 rce_WorkflowId := scw_WorkflowId attributes;
                 rce_RunId := "";
                 rce_Control := [];
                 rce_ChildWorkflowOnly := true |})
  | _ => None
  end.

Definition childWorkflow_handleDecisionSent (d : decisionStateMachine)
    : M decisionsHelper decisionStateMachine :=
  match state d with
  | decisionStateCanceledAfterStarted =>
      moveState decisionStateCancellationDecisionSent eventDecisionSent d
  | _ => base_handleDecisionSent d
  end.

Definition childWorkflow_handleStartedEvent (d : decisionStateMachine)
    : M decisionsHelper decisionStateMachine :=
  match state d with
  | decisionStateInitiated => moveState decisionStateStarted eventStarted d
  | decisionStateCanceledAfterInitiated =>
      moveState decisionStateCanceledAfterStarted eventStarted d
  | _ => base_handleStartedEvent d
  end.

Definition childWorkflow_handleCancelFailedEvent (d : decisionStateMachine)
    : M decisionsHelper decisionStateMachine :=
  match state d with
  | decisionStateCancellationDecisionSent =>
      moveState decisionStateStarted eventCancelFailed d
  | _ => base_handleCancelFailedEvent d
  end.

Definition childWorkflow_cancel (d : decisionStateMachine)
    : M decisionsHelper decisionStateMachine :=
  match state d with
  | decisionStateStarted => moveState decisionStateCanceledAfterStarted eventCancel d
  | _ => base_cancel d
  end.

Definition childWorkflow_handleCanceledEvent (d : decisionStateMachine)
    : M decisionsHelper decisionStateMachine :=
  match state d with
  | decisionStateStarted => moveState decisionStateCompleted eventCanceled d
  | _ => base_handleCanceledEvent d
  end.

Definition childWorkflow_handleCompletionEvent (d : decisionStateMachine)
    : M decisionsHelper decisionStateMachine :=
  match state d with
  | decisionStateStarted | decisionStateCanceledAfterStarted =>
      moveState decisionStateCompleted eventCompletion d
  | _ => base_handleCompletionEvent d
  end.

(** ** [naiveDecisionStateMachine] and the machines built on it *)

Definition naive_getDecision (decision : Decision) (d : decisionStateMachine)
    : option Decision :=
  match state d with
  | decisionStateCreated => Some decision
  | _ => None
  end.

Definition naive_unsupported {A} : M decisionsHelper A :=
  panic (panicString "unsupported operation").

(** [cancelExternalWorkflowDecisionStateMachine.handleInitiatedEvent] and
    [signalExternalWorkflowDecisionStateMachine.handleInitiatedEvent] have
    the same body. *)
Definition external_handleInitiatedEvent (d : decisionStateMachine)
    : M decisionsHelper decisionStateMachine :=
  match state d with
  | decisionStateDecisionSent => moveState decisionStateInitiated eventInitiated d
  | _ => failStateTransition eventInitiated d
  end.

Definition external_handleCompletionEvent (d : decisionStateMachine)
    : M decisionsHelper decisionStateMachine :=
  match state d with
  | decisionStateInitiated => moveState decisionStateCompleted eventCompletion d
  | _ => failStateTransition eventCompletion d
  end.

(** [markerDecisionStateMachine.handleDecisionSent] and
    [upsertSearchAttributesDecisionStateMachine.handleDecisionSent] *)
Definition marker_handleDecisionSent (d : decisionStateMachine)
    : M decisionsHelper decisionStateMachine :=
  match state d with
  | decisionStateCreated => moveState decisionStateCompleted eventDecisionSent d
  | _ => ret d
  end.

(** ** The [decisionStateMachine] interface: dynamic dispatch on the
    concrete type *)

Definition dsm_getState (d : decisionStateMachine) : decisionState := state d.

Definition dsm_getID (d : decisionStateMachine) : decisionID := id d.

Definition dsm_getData (d : decisionStateMachine) : option waiterRef := data d.

Definition dsm_setData (x : waiterRef) (d : decisionStateMachine)
    : M decisionsHelper decisionStateMachine :=
  sync (set_data (Some x) d).

Definition dsm_isDone (d : decisionStateMachine) : bool :=
  match kind d with
  | timerDecisionStateMachine _ canceled => timer_isDone canceled d
  | _ => base_isDone d
  end.

Definition dsm_getDecision (d : decisionStateMachine) : option Decision :=
  match kind d with
  | activityDecisionStateMachine attributes => activity_getDecision attributes d
  | timerDecisionStateMachine attributes _ => timer_getDecision attributes d
  | childWorkflowDecisionStateMachine attributes =>
      childWorkflow_getDecision attributes d
  | cancelExternalWorkflowDecisionStateMachine decision
  | signalExternalWorkflowDecisionStateMachine decision
  | markerDecisionStateMachine decision
  | upsertSearchAttributesDecisionStateMachine decision =>
      naive_getDecision decision d
  end.

Definition dsm_cancel (d : decisionStateMachine)
    : M decisionsHelper decisionStateMachine :=
  match kind d with
  | activityDecisionStateMachine _ => base_cancel d
  | timerDecisionStateMachine attributes _ => timer_cancel attributes d
  | childWorkflowDecisionStateMachine _ => childWorkflow_cancel d
  | _ => naive_unsupported
  end.

Definition dsm_handleStartedEvent (d : decisionStateMachine)
    : M decisionsHelper decisionStateMachine :=
  match kind d with
  | activityDecisionStateMachine _ | timerDecisionStateMachine _ _ =>
      base_handleStartedEvent d
  | childWorkflowDecisionStateMachine _ => childWorkflow_handleStartedEvent d
  | _ => naive_unsupported
  end.

Definition dsm_handleCancelInitiatedEvent (d : decisionStateMachine)
    : M decisionsHelper decisionStateMachine :=
  match kind d with
  | activityDecisionStateMachine _ | timerDecisionStateMachine _ _
  | childWorkflowDecisionStateMachine _ => base_handleCancelInitiatedEvent d
  | _ => naive_unsupported
  end.

Definition dsm_handleCanceledEvent (d : decisionStateMachine)
    : M decisionsHelper decisionStateMachine :=
  match kind d with
  | activityDecisionStateMachine _ | timerDecisionStateMachine _ _ =>
      base_handleCanceledEvent d
  | childWorkflowDecisionStateMachine _ => childWorkflow_handleCanceledEvent d
  | _ => naive_unsupported
  end.

Definition dsm_handleCancelFailedEvent (d : decisionStateMachine)
    : M decisionsHelper decisionStateMachine :=
  match kind d with
  | activityDecisionStateMachine _ => activity_handleCancelFailedEvent d
  | timerDecisionStateMachine _ _ => timer_handleCancelFailedEvent d
  | childWorkflowDecisionStateMachine _ => childWorkflow_handleCancelFailedEvent d
  | _ => naive_unsupported
  end.

Definition dsm_handleCompletionEvent (d : decisionStateMachine)
    : M decisionsHelper decisionStateMachine :=
  match kind d with
  | activityDecisionStateMachine _ | timerDecisionStateMachine _ _ =>
      base_handleCompletionEvent d
  | childWorkflowDecisionStateMachine _ => childWorkflow_handleCompletionEvent d
  | cancelExternalWorkflowDecisionStateMachine _
  | signalExternalWorkflowDecisionStateMachine _ => external_handleCompletionEvent d
  | markerDecisionStateMachine _ | upsertSearchAttributesDecisionStateMachine _ =>
      naive_unsupported
  end.

Definition dsm_handleInitiationFailedEvent (d : decisionStateMachine)
    : M decisionsHelper decisionStateMachine :=
  match kind d with
  | activityDecisionStateMachine _ | timerDecisionStateMachine _ _
  | childWorkflowDecisionStateMachine _ => base_handleInitiationFailedEvent d
  | _ => naive_unsupported
  end.

Definition dsm_handleInitiatedEvent (d : decisionStateMachine)
    : M decisionsHelper decisionStateMachine :=
  match kind d with
  | activityDecisionStateMachine _ | timerDecisionStateMachine _ _
  | childWorkflowDecisionStateMachine _ => base_handleInitiatedEvent d
  | cancelExternalWorkflowDecisionStateMachine _
  | signalExternalWorkflowDecisionStateMachine _ => external_handleInitiatedEvent d
  | markerDecisionStateMachine _ | upsertSearchAttributesDecisionStateMachine _ =>
      naive_unsupported
  end.

Definition dsm_handleDecisionSent (d : decisionStateMachine)
    : M decisionsHelper decisionStateMachine :=
  match kind d with
  | activityDecisionStateMachine _ => activity_handleDecisionSent d
  | timerDecisionStateMachine _ _ => timer_handleDecisionSent d
  | childWorkflowDecisionStateMachine _ => childWorkflow_handleDecisionSent d
  | cancelExternalWorkflowDecisionStateMachine _
  | signalExternalWorkflowDecisionStateMachine _ => base_handleDecisionSent d
  | markerDecisionStateMachine _ | upsertSearchAttributesDecisionStateMachine _ =>
      marker_handleDecisionSent d
  end.

(** ** Constructors of the concrete machines *)

Definition newActivityDecisionStateMachine
    (attributes : ScheduleActivityTaskDecisionAttributes) : decisionStateMachine :=
  newDecisionStateMachineBase decisionTypeActivity (sat_ActivityId attributes)
    (activityDecisionStateMachine attributes).

Definition newTimerDecisionStateMachine (attributes : StartTimerDecisionAttributes)
    : decisionStateMachine :=
  newDecisionStateMachineBase decisionTypeTimer (st_TimerId attributes)
    (timerDecisionStateMachine attributes false).

Definition newChildWorkflowDecisionStateMachine
    (attributes : StartChildWorkflowExecutionDecisionAttributes)
    : decisionStateMachine :=
  newDecisionStateMachineBase decisionTypeChildWorkflow (scw_WorkflowId attributes)
    (childWorkflowDecisionStateMachine attributes).

Definition newMarkerDecisionStateMachine (i : string)
    (attributes : RecordMarkerDecisionAttributes) : decisionStateMachine :=
  newDecisionStateMachineBase decisionTypeMarker i
    (markerDecisionStateMachine (Decision_RecordMarkerDecisionAttributes attributes)).

Definition newCancelExternalWorkflowStateMachine
    (attributes : RequestCancelExternalWorkflowExecutionDecisionAttributes)
    (cancellationID : string) : decisionStateMachine :=
  newDecisionStateMachineBase decisionTypeCancellation cancellationID
    (cancelExternalWorkflowDecisionStateMachine
       (Decision_RequestCancelExternalWorkflowExecutionDecisionAttributes attributes)).

Definition newSignalExternalWorkflowStateMachine
    (attributes : SignalExternalWorkflowExecutionDecisionAttributes)
    (signalID : string) : decisionStateMachine :=
  newDecisionStateMachineBase decisionTypeSignal signalID
    (signalExternalWorkflowDecisionStateMachine
       (Decision_SignalExternalWorkflowExecutionDecisionAttributes attributes)).

Definition newUpsertSearchAttributesStateMachine
    (attributes : UpsertWorkflowSearchAttributesDecisionAttributes)
    (upsertID : string) : decisionStateMachine :=
  newDecisionStateMachineBase decisionTypeUpsertSearchAttributes upsertID
    (upsertSearchAttributesDecisionStateMachine
       (Decision_UpsertWorkflowSearchAttributesDecisionAttributes attributes)).

(** ** [decisionsHelper] *)

Definition helper_getDecision (k : decisionID) : M decisionsHelper decisionStateMachine :=
  h <- get ;;
  match decisions h k with
  | None =>
      panicIllegalState
        ("unknown decision " +:+ decisionID_String k
         +:+ ", possible causes are nondeterministic workflow definition code"
         +:+ " or incompatible change in the workflow definition")
  | Some decision =>
      modify (fun h => set_orderedDecisions (MoveToBack k (orderedDecisions h)) h) ;;;
      ret decision
  end.

Definition helper_addDecision (decision : decisionStateMachine) : M decisionsHelper unit :=
  h <- get ;;
  match decisions h (dsm_getID decision) with
  | Some _ =>
      panicIllegalState ("adding duplicate decision " +:+ base_String decision)
  | None =>
      modify (fun h => set_orderedDecisions (PushBack decision (orderedDecisions h)) h)
  end.

Definition helper_scheduleActivityTask
    (attributes : ScheduleActivityTaskDecisionAttributes)
    : M decisionsHelper decisionStateMachine :=
  let decision := newActivityDecisionStateMachine attributes in
  helper_addDecision decision ;;;
  ret decision.

Definition helper_requestCancelActivityTask (activityID : string)
    : M decisionsHelper decisionStateMachine :=
  decision <- helper_getDecision (makeDecisionID decisionTypeActivity activityID) ;;
  dsm_cancel decision.

Definition helper_handleActivityTaskClosed (activityID : string)
    : M decisionsHelper decisionStateMachine :=
  decision <- helper_getDecision (makeDecisionID decisionTypeActivity activityID) ;;
  dsm_handleCompletionEvent decision.

Definition set_scheduledEventIDToActivityID (m : gmap Z string) (h : decisionsHelper) :=
  {| orderedDecisions := orderedDecisions h;
     scheduledEventIDToActivityID := m;
     scheduledEventIDToCancellationID := scheduledEventIDToCancellationID h;
     scheduledEventIDToSignalID := scheduledEventIDToSignalID h |}.

Definition set_scheduledEventIDToCancellationID (m : gmap Z string) (h : decisionsHelper) :=
  {| orderedDecisions := orderedDecisions h;
     scheduledEventIDToActivityID := scheduledEventIDToActivityID h;
     scheduledEventIDToCancellationID := m;
     scheduledEventIDToSignalID := scheduledEventIDToSignalID h |}.

Definition set_scheduledEventIDToSignalID (m : gmap Z string) (h : decisionsHelper) :=
  {| orderedDecisions := orderedDecisions h;
     scheduledEventIDToActivityID := scheduledEventIDToActivityID h;
     scheduledEventIDToCancellationID := scheduledEventIDToCancellationID h;
     scheduledEventIDToSignalID := m |}.

Definition helper_handleActivityTaskScheduled (scheduledEventID : Z) (activityID : string)
    : M decisionsHelper unit :=
  modify (fun h => set_scheduledEventIDToActivityID
                     (<[scheduledEventID := activityID]> (scheduledEventIDToActivityID h)) h) ;;;
  decision <- helper_getDecision (makeDecisionID decisionTypeActivity activityID) ;;
  dsm_handleInitiatedEvent decision ;;;
  ret tt.

Definition helper_handleActivityTaskCancelRequested (activityID : string)
    : M decisionsHelper unit :=
  decision <- helper_getDecision (makeDecisionID decisionTypeActivity activityID) ;;
  dsm_handleCancelInitiatedEvent decision ;;;
  ret tt.

Definition helper_handleActivityTaskCanceled (activityID : string)
    : M decisionsHelper decisionStateMachine :=
  decision <- helper_getDecision (makeDecisionID decisionTypeActivity activityID) ;;
  dsm_handleCanceledEvent decision.

Definition helper_handleRequestCancelActivityTaskFailed (activityID : string)
    : M decisionsHelper unit :=
  decision <- helper_getDecision (makeDecisionID decisionTypeActivity activityID) ;;
  dsm_handleCancelFailedEvent decision ;;;
  ret tt.

Definition helper_getActivityID (event : HistoryEvent) : M decisionsHelper string :=
  scheduledEventID <-
    match Attributes event with
    | ActivityTaskCanceledEventAttributes i _ => ret i
    | ActivityTaskCompletedEventAttributes i _ => ret i
    | ActivityTaskFailedEventAttributes i _ _ => ret i
    | ActivityTaskTimedOutEventAttributes i _ _ _ _ => ret i
    | _ => panicIllegalState
             ("unexpected event type " +:+ GetHistoryEventType event)
    end ;;
  h <- get ;;
  match scheduledEventIDToActivityID h !! scheduledEventID with
  | Some activityID => ret activityID
  | None => panicIllegalState
              ("unable to find activity ID for the event "
               +:+ HistoryEventToString event)
  end.

(** [encodeArgs(dc, args)]: the converter's [ToData] on the argument list. *)
Definition encodeArgs (dc : DataConverter) (args : list goValue)
    : bytes * option goError :=
  ToData dc args.

Definition helper_recordVersionMarker (changeID : string) (version : Z)
    (dataConverter : DataConverter) : M decisionsHelper decisionStateMachine :=
  let markerID := versionMarkerName +:+ "_" +:+ changeID in
  match encodeArgs dataConverter [VString changeID; VVersion version] with
  | (_, Some err) => panic (panicError err)
  | (details, None) =>
      let recordMarker :=
        {| rm_MarkerName := versionMarkerName; rm_Details := details |} in
      let decision := newMarkerDecisionStateMachine markerID recordMarker in
      helper_addDecision decision ;;;
      ret decision
  end.

Definition helper_recordSideEffectMarker (sideEffectID : Z) (data : bytes)
    : M decisionsHelper decisionStateMachine :=
  let markerID := sideEffectMarkerName +:+ "_" +:+ fmt_int sideEffectID in
  let attributes := {| rm_MarkerName := sideEffectMarkerName; rm_Details := data |} in
  let decision := newMarkerDecisionStateMachine markerID attributes in
  helper_addDecision decision ;;;
  ret decision.

Definition helper_recordLocalActivityMarker (activityID : string) (result : bytes)
    : M decisionsHelper decisionStateMachine :=
  let markerID := localActivityMarkerName +:+ "_" +:+ activityID in
  let attributes := {| rm_MarkerName := localActivityMarkerName; rm_Details := result |} in
  let decision := newMarkerDecisionStateMachine markerID attributes in
  helper_addDecision decision ;;;
  ret decision.

Definition helper_recordMutableSideEffectMarker (mutableSideEffectID : string)
    (data : bytes) : M decisionsHelper decisionStateMachine :=
  let markerID := mutableSideEffectMarkerName +:+ "_" +:+ mutableSideEffectID in
  let attributes :=
    {| rm_MarkerName := mutableSideEffectMarkerName; rm_Details := data |} in
  let decision := newMarkerDecisionStateMachine markerID attributes in
  helper_addDecision decision ;;;
  ret decision.

Definition helper_startChildWorkflowExecution
    (attributes : StartChildWorkflowExecutionDecisionAttributes)
    : M decisionsHelper decisionStateMachine :=
  let decision := newChildWorkflowDecisionStateMachine attributes in
  helper_addDecision decision ;;;
  ret decision.

Definition helper_handleStartChildWorkflowExecutionInitiated (workflowID : string)
    : M decisionsHelper unit :=
  decision <- helper_getDecision (makeDecisionID decisionTypeChildWorkflow workflowID) ;;
  dsm_handleInitiatedEvent decision ;;;
  ret tt.

Definition helper_handleStartChildWorkflowExecutionFailed (workflowID : string)
    : M decisionsHelper decisionStateMachine :=
  decision <- helper_getDecision (makeDecisionID decisionTypeChildWorkflow workflowID) ;;
  dsm_handleInitiationFailedEvent decision.

Definition helper_requestCancelExternalWorkflowExecution
    (domain workflowID runID cancellationID : string) (childWorkflowOnly : bool)
    : M decisionsHelper decisionStateMachine :=
  if childWorkflowOnly then
    if negb (String.length cancellationID =? 0)%nat then
      panic (panicString "cancellation on child workflow should not use cancellation ID")
    else if negb (String.length runID =? 0)%nat then
      panic (panicString "cancellation on child workflow should not use run ID")
    else
      decision <- helper_getDecision
                    (makeDecisionID decisionTypeChildWorkflow workflowID) ;;
      dsm_cancel decision
  else
    if (String.length cancellationID =? 0)%nat then
      panic (panicString "cancellation on external workflow should use cancellation ID")
    else
      let attributes :=
        {| rce_Domain := domain;
           rce_WorkflowId := workflowID;
           rce_RunId := runID;
           rce_Control := list_byte_of_string cancellationID;
           rce_ChildWorkflowOnly := false |} in
      let decision := newCancelExternalWorkflowStateMachine attributes cancellationID in
      helper_addDecision decision ;;;
      ret decision.

Definition isCancelExternalWorkflowEventForChildWorkflow (cancellationID : string) : bool :=
  (String.length cancellationID =? 0)%nat.

Definition helper_handleRequestCancelExternalWorkflowExecutionInitiated
    (initiatedeventID : Z) (workflowID cancellationID : string)
    : M decisionsHelper unit :=
  if isCancelExternalWorkflowEventForChildWorkflow cancellationID then
    decision <- helper_getDecision
                  (makeDecisionID decisionTypeChildWorkflow workflowID) ;;
    dsm_handleCancelInitiatedEvent decision ;;;
    ret tt
  else
    modify (fun h => set_scheduledEventIDToCancellationID
                       (<[initiatedeventID := cancellationID]>
                          (scheduledEventIDToCancellationID h)) h) ;;;
    decision <- helper_getDecision
                  (makeDecisionID decisionTypeCancellation cancellationID) ;;
    dsm_handleInitiatedEvent decision ;;;
    ret tt.

Definition helper_handleExternalWorkflowExecutionCancelRequested
    (initiatedeventID : Z) (workflowID : string)
    : M decisionsHelper (bool * decisionStateMachine) :=
  h <- get ;;
  match scheduledEventIDToCancellationID h !! initiatedeventID with
  | None =>
      decision <- helper_getDecision
                    (makeDecisionID decisionTypeChildWorkflow workflowID) ;;
      ret (false, decision)
  | Some cancellationID =>
      decision <- helper_getDecision
                    (makeDecisionID decisionTypeCancellation cancellationID) ;;
      decision' <- dsm_handleCompletionEvent decision ;;
      ret (true, decision')
  end.

Definition helper_handleRequestCancelExternalWorkflowExecutionFailed
    (initiatedeventID : Z) (workflowID : string)
    : M decisionsHelper (bool * decisionStateMachine) :=
  h <- get ;;
  match scheduledEventIDToCancellationID h !! initiatedeventID with
  | None =>
      decision <- helper_getDecision
                    (makeDecisionID decisionTypeChildWorkflow workflowID) ;;
      decision' <- dsm_handleCancelFailedEvent decision ;;
      ret (false, decision')
  | Some cancellationID =>
      decision <- helper_getDecision
                    (makeDecisionID decisionTypeCancellation cancellationID) ;;
      decision' <- dsm_handleCompletionEvent decision ;;
      ret (true, decision')
  end.

Definition helper_signalExternalWorkflowExecution
    (domain workflowID runID signalName : string) (input : bytes) (signalID : string)
    (childWorkflowOnly : bool) : M decisionsHelper decisionStateMachine :=
  let attributes :=
    {| se_Domain := domain;
       se_WorkflowId := workflowID;
       se_RunId := runID;
       se_SignalName := signalName;
       se_Input := input;
       se_Control := list_byte_of_string signalID;
       se_ChildWorkflowOnly := childWorkflowOnly |} in
  let decision := newSignalExternalWorkflowStateMachine attributes signalID in
  helper_addDecision decision ;;;
  ret decision.

Definition helper_upsertSearchAttributes (upsertID : string)
    (searchAttr : option SearchAttributes) : M decisionsHelper decisionStateMachine :=
  let attributes := {| up_SearchAttributes := searchAttr |} in
  let decision := newUpsertSearchAttributesStateMachine attributes upsertID in
  helper_addDecision decision ;;;
  ret decision.

Definition helper_getSignalID (initiatedEventID : Z) : M decisionsHelper string :=
  h <- get ;;
  match scheduledEventIDToSignalID h !! initiatedEventID with
  | Some signalID => ret signalID
  | None => panic (panicString
                     ("unable to find signal ID: " +:+ fmt_int initiatedEventID))
  end.

Definition helper_handleSignalExternalWorkflowExecutionInitiated
    (initiatedEventID : Z) (signalID : string) : M decisionsHelper unit :=
  modify (fun h => set_scheduledEventIDToSignalID
                     (<[initiatedEventID := signalID]> (scheduledEventIDToSignalID h)) h) ;;;
  decision <- helper_getDecision (makeDecisionID decisionTypeSignal signalID) ;;
  dsm_handleInitiatedEvent decision ;;;
  ret tt.

Definition helper_handleSignalExternalWorkflowExecutionCompleted (initiatedEventID : Z)
    : M decisionsHelper decisionStateMachine :=
  signalID <- helper_getSignalID initiatedEventID ;;
  decision <- helper_getDecision (makeDecisionID decisionTypeSignal signalID) ;;
  dsm_handleCompletionEvent decision.

Definition helper_handleSignalExternalWorkflowExecutionFailed (initiatedEventID : Z)
    : M decisionsHelper decisionStateMachine :=
  signalID <- helper_getSignalID initiatedEventID ;;
  decision <- helper_getDecision (makeDecisionID decisionTypeSignal signalID) ;;
  dsm_handleCompletionEvent decision.

Definition helper_startTimer (attributes : StartTimerDecisionAttributes)
    : M decisionsHelper decisionStateMachine :=
  let decision := newTimerDecisionStateMachine attributes in
  helper_addDecision decision ;;;
  ret decision.

Definition helper_cancelTimer (timerID : string) : M decisionsHelper decisionStateMachine :=
  decision <- helper_getDecision (makeDecisionID decisionTypeTimer timerID) ;;
  dsm_cancel decision.

Definition helper_handleTimerClosed (timerID : string)
    : M decisionsHelper decisionStateMachine :=
  decision <- helper_getDecision (makeDecisionID decisionTypeTimer timerID) ;;
  dsm_handleCompletionEvent decision.

Definition helper_handleTimerStarted (timerID : string) : M decisionsHelper unit :=
  decision <- helper_getDecision (makeDecisionID decisionTypeTimer timerID) ;;
  dsm_handleInitiatedEvent decision ;;;
  ret tt.

Definition helper_handleTimerCanceled (timerID : string) : M decisionsHelper unit :=
  decision <- helper_getDecision (makeDecisionID decisionTypeTimer timerID) ;;
  dsm_handleCanceledEvent decision ;;;
  ret tt.

Definition helper_handleCancelTimerFailed (timerID : string) : M decisionsHelper unit :=
  decision <- helper_getDecision (makeDecisionID decisionTypeTimer timerID) ;;
  dsm_handleCancelFailedEvent decision ;;;
  ret tt.

Definition helper_handleChildWorkflowExecutionStarted (workflowID : string)
    : M decisionsHelper decisionStateMachine :=
  decision <- helper_getDecision (makeDecisionID decisionTypeChildWorkflow workflowID) ;;
  dsm_handleStartedEvent decision.

Definition helper_handleChildWorkflowExecutionClosed (workflowID : string)
    : M decisionsHelper decisionStateMachine :=
  decision <- helper_getDecision (makeDecisionID decisionTypeChildWorkflow workflowID) ;;
  dsm_handleCompletionEvent decision.

Definition helper_handleChildWorkflowExecutionCanceled (workflowID : string)
    : M decisionsHelper decisionStateMachine :=
  decision <- helper_getDecision (makeDecisionID decisionTypeChildWorkflow workflowID) ;;
  dsm_handleCanceledEvent decision.

(** The loop of [getDecisions] over the elements from [Front] on.  The
    loop body touches only the current element, so the elements still to
    visit are the ones the list held when the loop started. *)
Fixpoint getDecisions_loop (markAsSent : bool) (rest : list decisionStateMachine)
    (result : list Decision) : M decisionsHelper (list Decision) :=
  match rest with
  | [] => ret result
  | d :: next =>
      let result' := match dsm_getDecision d with
                     | Some decision => result ++ [decision]
                     | None => result
                     end in
      d' <- (if markAsSent then dsm_handleDecisionSent d else ret d) ;;
      (if isCompleted (dsm_getState d')
       then modify (removeDecision (dsm_getID d'))
       else ret tt) ;;;
      getDecisions_loop markAsSent next result'
  end.

Definition helper_getDecisions (markAsSent : bool) : M decisionsHelper (list Decision) :=
  h <- get ;;
  getDecisions_loop markAsSent (orderedDecisions h) [].

(** ** The workflow environment: types *)

Definition handlerRef := N.

Record WorkflowInfo : Type := {
  wi_WorkflowExecution_ID : string;
  wi_WorkflowExecution_RunID : string;
  wi_WorkflowType_Name : string;
  wi_TaskListName : string;
  wi_SearchAttributes : option SearchAttributes }.

(** The fields of [RetryPolicy] that [newLocalActivityTask] reads. *)
Record RetryPolicy : Type := {
  rp_ExpirationInterval : Z }.

Record executeLocalActivityParams : Type := {
  lap_ActivityType : string;
  lap_RetryPolicy : option RetryPolicy;
  lap_Attempt : Z;
  lap_ScheduledTime : Time;
  lap_Header : option ref }.

Record localActivityTask : Type := {
  lat_activityID : string;
  lat_params : executeLocalActivityParams;
  lat_callback : handlerRef;
  lat_canceled : bool;
  lat_cancelFunc : option handlerRef;
  lat_attempt : Z;
  lat_retryPolicy : option RetryPolicy;
  lat_expireTime : Time;
  lat_header : option ref }.

Record localActivityResultWrapper : Type := {
  lar_err : option goError;
  lar_result : option bytes;
  lar_attempt : Z;
  lar_backoff : Z }.

(** A workflow definition: its identity and what [StackTrace] returns. *)
Record workflowDefinition : Type := {
  wd_name : N;
  wd_StackTrace : string }.

(** Calls out of this code into function values and interfaces supplied
    from outside, in the order they are made.  [call_resultHandler] carries
    the waiter whose [handle] made the call, if any. *)
Inductive outcall : Type :=
| call_resultHandler (via : option waiterRef) (callback : handlerRef)
    (result : option bytes) (err : option goError)
| call_startedCallback (callback : handlerRef) (ID RunID : string)
    (err : option goError)
| call_laResultHandler (callback : handlerRef) (lar : localActivityResultWrapper)
| call_cancelFunc (f : handlerRef)
| call_completeHandler (f : handlerRef) (result : option bytes) (err : option goError)
| call_cancelHandler (f : handlerRef)
| call_signalHandler (f : handlerRef) (name : string) (input : bytes)
| call_Execute (wd : N) (header : option ref) (input : bytes)
| call_OnDecisionTaskStarted (wd : N)
| call_Close (wd : N).

(** [workflowEnvironmentImpl], with the [workflowDefinition] field of the
    [workflowExecutionEventHandlerImpl] that embeds it, the store of
    waiters, and the log of calls.  Of [metricsScope] only whether it is
    nil is kept. *)
Record workflowEnvironmentImpl : Type := {
  wc_workflowInfo : WorkflowInfo;
  wc_decisionsHelper : decisionsHelper;
  wc_sideEffectResult : gmap Z bytes;
  wc_changeVersions : gmap string Z;
  wc_pendingLaTasks : gmap string localActivityTask;
  wc_mutableSideEffect : gmap string bytes;
  wc_unstartedLaTasks : gset string;
  wc_openSessions : gmap string ref;
  wc_counterID : Z;
  wc_currentReplayTime : Time;
  wc_currentLocalTime : Time;
  wc_completeHandler : option handlerRef;
  wc_cancelHandler : option handlerRef;
  wc_signalHandler : option handlerRef;
  wc_queryHandler : option (string -> bytes -> bytes * option goError);
  wc_isReplay : bool;
  wc_enableLoggingInReplay : bool;
  wc_registry : string -> option workflowDefinition * option goError;
  wc_dataConverter : DataConverter;
  wc_metricsScope : option ref;
  weh_workflowDefinition : option workflowDefinition;
  wc_waiters : gmap waiterRef waiter;
  wc_nextWaiter : waiterRef;
  wc_calls : list outcall }.

Definition set_wc_workflowInfo (x : WorkflowInfo) (e : workflowEnvironmentImpl) : workflowEnvironmentImpl :=
  {| wc_workflowInfo := x;
     wc_decisionsHelper := wc_decisionsHelper e;
     wc_sideEffectResult := wc_sideEffectResult e;
     wc_changeVersions := wc_changeVersions e;
     wc_pendingLaTasks := wc_pendingLaTasks e;
     wc_mutableSideEffect := wc_mutableSideEffect e;
     wc_unstartedLaTasks := wc_unstartedLaTasks e;
     wc_openSessions := wc_openSessions e;
     wc_counterID := wc_counterID e;
     wc_currentReplayTime := wc_currentReplayTime e;
     wc_currentLocalTime := wc_currentLocalTime e;
     wc_completeHandler := wc_completeHandler e;
     wc_cancelHandler := wc_cancelHandler e;
     wc_signalHandler := wc_signalHandler e;
     wc_queryHandler := wc_queryHandler e;
     wc_isReplay := wc_isReplay e;
     wc_enableLoggingInReplay := wc_enableLoggingInReplay e;
     wc_registry := wc_registry e;
     wc_dataConverter := wc_dataConverter e;
     wc_metricsScope := wc_metricsScope e;
     weh_workflowDefinition := weh_workflowDefinition e;
     wc_waiters := wc_waiters e;
     wc_nextWaiter := wc_nextWaiter e;
     wc_calls := wc_calls e |}.

Definition set_wc_decisionsHelper (x : decisionsHelper) (e : workflowEnvironmentImpl) : workflowEnvironmentImpl :=
  {| wc_workflowInfo := wc_workflowInfo e;
     wc_decisionsHelper := x;
     wc_sideEffectResult := wc_sideEffectResult e;
     wc_changeVersions := wc_changeVersions e;
     wc_pendingLaTasks := wc_pendingLaTasks e;
     wc_mutableSideEffect := wc_mutableSideEffect e;
     wc_unstartedLaTasks := wc_unstartedLaTasks e;
     wc_openSessions := wc_openSessions e;
     wc_counterID := wc_counterID e;
     wc_currentReplayTime := wc_currentReplayTime e;
     wc_currentLocalTime := wc_currentLocalTime e;
     wc_completeHandler := wc_completeHandler e;
     wc_cancelHandler := wc_cancelHandler e;
     wc_signalHandler := wc_signalHandler e;
     wc_queryHandler := wc_queryHandler e;
     wc_isReplay := wc_isReplay e;
     wc_enableLoggingInReplay := wc_enableLoggingInReplay e;
     wc_registry := wc_registry e;
     wc_dataConverter := wc_dataConverter e;
     wc_metricsScope := wc_metricsScope e;
     weh_workflowDefinition := weh_workflowDefinition e;
     wc_waiters := wc_waiters e;
     wc_nextWaiter := wc_nextWaiter e;
     wc_calls := wc_calls e |}.

Definition set_wc_sideEffectResult (x : gmap Z bytes) (e : workflowEnvironmentImpl) : workflowEnvironmentImpl :=
  {| wc_workflowInfo := wc_workflowInfo e;
     wc_decisionsHelper := wc_decisionsHelper e;
     wc_sideEffectResult := x;
     wc_changeVersions := wc_changeVersions e;
     wc_pendingLaTasks := wc_pendingLaTasks e;
     wc_mutableSideEffect := wc_mutableSideEffect e;
     wc_unstartedLaTasks := wc_unstartedLaTasks e;
     wc_openSessions := wc_openSessions e;
     wc_counterID := wc_counterID e;
     wc_currentReplayTime := wc_currentReplayTime e;
     wc_currentLocalTime := wc_currentLocalTime e;
     wc_completeHandler := wc_completeHandler e;
     wc_cancelHandler := wc_cancelHandler e;
     wc_signalHandler := wc_signalHandler e;
     wc_queryHandler := wc_queryHandler e;
     wc_isReplay := wc_isReplay e;
     wc_enableLoggingInReplay := wc_enableLoggingInReplay e;
     wc_registry := wc_registry e;
     wc_dataConverter := wc_dataConverter e;
     wc_metricsScope := wc_metricsScope e;
     weh_workflowDefinition := weh_workflowDefinition e;
     wc_waiters := wc_waiters e;
     wc_nextWaiter := wc_nextWaiter e;
     wc_calls := wc_calls e |}.

Definition set_wc_changeVersions (x : gmap string Z) (e : workflowEnvironmentImpl) : workflowEnvironmentImpl :=
  {| wc_workflowInfo := wc_workflowInfo e;
     wc_decisionsHelper := wc_decisionsHelper e;
     wc_sideEffectResult := wc_sideEffectResult e;
     wc_changeVersions := x;
     wc_pendingLaTasks := wc_pendingLaTasks e;
     wc_mutableSideEffect := wc_mutableSideEffect e;
     wc_unstartedLaTasks := wc_unstartedLaTasks e;
     wc_openSessions := wc_openSessions e;
     wc_counterID := wc_counterID e;
     wc_currentReplayTime := wc_currentReplayTime e;
     wc_currentLocalTime := wc_currentLocalTime e;
     wc_completeHandler := wc_completeHandler e;
     wc_cancelHandler := wc_cancelHandler e;
     wc_signalHandler := wc_signalHandler e;
     wc_queryHandler := wc_queryHandler e;
     wc_isReplay := wc_isReplay e;
     wc_enableLoggingInReplay := wc_enableLoggingInReplay e;
     wc_registry := wc_registry e;
     wc_dataConverter := wc_dataConverter e;
     wc_metricsScope := wc_metricsScope e;
     weh_workflowDefinition := weh_workflowDefinition e;
     wc_waiters := wc_waiters e;
     wc_nextWaiter := wc_nextWaiter e;
     wc_calls := wc_calls e |}.

Definition set_wc_pendingLaTasks (x : gmap string localActivityTask) (e : workflowEnvironmentImpl) : workflowEnvironmentImpl :=
  {| wc_workflowInfo := wc_workflowInfo e;
     wc_decisionsHelper := wc_decisionsHelper e;
     wc_sideEffectResult := wc_sideEffectResult e;
     wc_changeVersions := wc_changeVersions e;
     wc_pendingLaTasks := x;
     wc_mutableSideEffect := wc_mutableSideEffect e;
     wc_unstartedLaTasks := wc_unstartedLaTasks e;
     wc_openSessions := wc_openSessions e;
     wc_counterID := wc_counterID e;
     wc_currentReplayTime := wc_currentReplayTime e;
     wc_currentLocalTime := wc_currentLocalTime e;
     wc_completeHandler := wc_completeHandler e;
     wc_cancelHandler := wc_cancelHandler e;
     wc_signalHandler := wc_signalHandler e;
     wc_queryHandler := wc_queryHandler e;
     wc_isReplay := wc_isReplay e;
     wc_enableLoggingInReplay := wc_enableLoggingInReplay e;
     wc_registry := wc_registry e;
     wc_dataConverter := wc_dataConverter e;
     wc_metricsScope := wc_metricsScope e;
     weh_workflowDefinition := weh_workflowDefinition e;
     wc_waiters := wc_waiters e;
     wc_nextWaiter := wc_nextWaiter e;
     wc_calls := wc_calls e |}.

Definition set_wc_mutableSideEffect (x : gmap string bytes) (e : workflowEnvironmentImpl) : workflowEnvironmentImpl :=
  {| wc_workflowInfo := wc_workflowInfo e;
     wc_decisionsHelper := wc_decisionsHelper e;
     wc_sideEffectResult := wc_sideEffectResult e;
     wc_changeVersions := wc_changeVersions e;
     wc_pendingLaTasks := wc_pendingLaTasks e;
     wc_mutableSideEffect := x;
     wc_unstartedLaTasks := wc_unstartedLaTasks e;
     wc_openSessions := wc_openSessions e;
     wc_counterID := wc_counterID e;
     wc_currentReplayTime := wc_currentReplayTime e;
     wc_currentLocalTime := wc_currentLocalTime e;
     wc_completeHandler := wc_completeHandler e;
     wc_cancelHandler := wc_cancelHandler e;
     wc_signalHandler := wc_signalHandler e;
     wc_queryHandler := wc_queryHandler e;
     wc_isReplay := wc_isReplay e;
     wc_enableLoggingInReplay := wc_enableLoggingInReplay e;
     wc_registry := wc_registry e;
     wc_dataConverter := wc_dataConverter e;
     wc_metricsScope := wc_metricsScope e;
     weh_workflowDefinition := weh_workflowDefinition e;
     wc_waiters := wc_waiters e;
     wc_nextWaiter := wc_nextWaiter e;
     wc_calls := wc_calls e |}.

Definition set_wc_unstartedLaTasks (x : gset string) (e : workflowEnvironmentImpl) : workflowEnvironmentImpl :=
  {| wc_workflowInfo := wc_workflowInfo e;
     wc_decisionsHelper := wc_decisionsHelper e;
     wc_sideEffectResult := wc_sideEffectResult e;
     wc_changeVersions := wc_changeVersions e;
     wc_pendingLaTasks := wc_pendingLaTasks e;
     wc_mutableSideEffect := wc_mutableSideEffect e;
     wc_unstartedLaTasks := x;
     wc_openSessions := wc_openSessions e;
     wc_counterID := wc_counterID e;
     wc_currentReplayTime := wc_currentReplayTime e;
     wc_currentLocalTime := wc_currentLocalTime e;
     wc_completeHandler := wc_completeHandler e;
     wc_cancelHandler := wc_cancelHandler e;
     wc_signalHandler := wc_signalHandler e;
     wc_queryHandler := wc_queryHandler e;
     wc_isReplay := wc_isReplay e;
     wc_enableLoggingInReplay := wc_enableLoggingInReplay e;
     wc_registry := wc_registry e;
     wc_dataConverter := wc_dataConverter e;
     wc_metricsScope := wc_metricsScope e;
     weh_workflowDefinition := weh_workflowDefinition e;
     wc_waiters := wc_waiters e;
     wc_nextWaiter := wc_nextWaiter e;
     wc_calls := wc_calls e |}.

Definition set_wc_openSessions (x : gmap string ref) (e : workflowEnvironmentImpl) : workflowEnvironmentImpl :=
  {| wc_workflowInfo := wc_workflowInfo e;
     wc_decisionsHelper := wc_decisionsHelper e;
     wc_sideEffectResult := wc_sideEffectResult e;
     wc_changeVersions := wc_changeVersions e;
     wc_pendingLaTasks := wc_pendingLaTasks e;
     wc_mutableSideEffect := wc_mutableSideEffect e;
     wc_unstartedLaTasks := wc_unstartedLaTasks e;
     wc_openSessions := x;
     wc_counterID := wc_counterID e;
     wc_currentReplayTime := wc_currentReplayTime e;
     wc_currentLocalTime := wc_currentLocalTime e;
     wc_completeHandler := wc_completeHandler e;
     wc_cancelHandler := wc_cancelHandler e;
     wc_signalHandler := wc_signalHandler e;
     wc_queryHandler := wc_queryHandler e;
     wc_isReplay := wc_isReplay e;
     wc_enableLoggingInReplay := wc_enableLoggingInReplay e;
     wc_registry := wc_registry e;
     wc_dataConverter := wc_dataConverter e;
     wc_metricsScope := wc_metricsScope e;
     weh_workflowDefinition := weh_workflowDefinition e;
     wc_waiters := wc_waiters e;
     wc_nextWaiter := wc_nextWaiter e;
     wc_calls := wc_calls e |}.

Definition set_wc_counterID (x : Z) (e : workflowEnvironmentImpl) : workflowEnvironmentImpl :=
  {| wc_workflowInfo := wc_workflowInfo e;
     wc_decisionsHelper := wc_decisionsHelper e;
     wc_sideEffectResult := wc_sideEffectResult e;
     wc_changeVersions := wc_changeVersions e;
     wc_pendingLaTasks := wc_pendingLaTasks e;
     wc_mutableSideEffect := wc_mutableSideEffect e;
     wc_unstartedLaTasks := wc_unstartedLaTasks e;
     wc_openSessions := wc_openSessions e;
     wc_counterID := x;
     wc_currentReplayTime := wc_currentReplayTime e;
     wc_currentLocalTime := wc_currentLocalTime e;
     wc_completeHandler := wc_completeHandler e;
     wc_cancelHandler := wc_cancelHandler e;
     wc_signalHandler := wc_signalHandler e;
     wc_queryHandler := wc_queryHandler e;
     wc_isReplay := wc_isReplay e;
     wc_enableLoggingInReplay := wc_enableLoggingInReplay e;
     wc_registry := wc_registry e;
     wc_dataConverter := wc_dataConverter e;
     wc_metricsScope := wc_metricsScope e;
     weh_workflowDefinition := weh_workflowDefinition e;
     wc_waiters := wc_waiters e;
     wc_nextWaiter := wc_nextWaiter e;
     wc_calls := wc_calls e |}.

Definition set_wc_currentReplayTime (x : Time) (e : workflowEnvironmentImpl) : workflowEnvironmentImpl :=
  {| wc_workflowInfo := wc_workflowInfo e;
     wc_decisionsHelper := wc_decisionsHelper e;
     wc_sideEffectResult := wc_sideEffectResult e;
     wc_changeVersions := wc_changeVersions e;
     wc_pendingLaTasks := wc_pendingLaTasks e;
     wc_mutableSideEffect := wc_mutableSideEffect e;
     wc_unstartedLaTasks := wc_unstartedLaTasks e;
     wc_openSessions := wc_openSessions e;
     wc_counterID := wc_counterID e;
     wc_currentReplayTime := x;
     wc_currentLocalTime := wc_currentLocalTime e;
     wc_completeHandler := wc_completeHandler e;
     wc_cancelHandler := wc_cancelHandler e;
     wc_signalHandler := wc_signalHandler e;
     wc_queryHandler := wc_queryHandler e;
     wc_isReplay := wc_isReplay e;
     wc_enableLoggingInReplay := wc_enableLoggingInReplay e;
     wc_registry := wc_registry e;
     wc_dataConverter := wc_dataConverter e;
     wc_metricsScope := wc_metricsScope e;
     weh_workflowDefinition := weh_workflowDefinition e;
     wc_waiters := wc_waiters e;
     wc_nextWaiter := wc_nextWaiter e;
     wc_calls := wc_calls e |}.

Definition set_wc_currentLocalTime (x : Time) (e : workflowEnvironmentImpl) : workflowEnvironmentImpl :=
  {| wc_workflowInfo := wc_workflowInfo e;
     wc_decisionsHelper := wc_decisionsHelper e;
     wc_sideEffectResult := wc_sideEffectResult e;
     wc_changeVersions := wc_changeVersions e;
     wc_pendingLaTasks := wc_pendingLaTasks e;
     wc_mutableSideEffect := wc_mutableSideEffect e;
     wc_unstartedLaTasks := wc_unstartedLaTasks e;
     wc_openSessions := wc_openSessions e;
     wc_counterID := wc_counterID e;
     wc_currentReplayTime := wc_currentReplayTime e;
     wc_currentLocalTime := x;
     wc_completeHandler := wc_completeHandler e;
     wc_cancelHandler := wc_cancelHandler e;
     wc_signalHandler := wc_signalHandler e;
     wc_queryHandler := wc_queryHandler e;
     wc_isReplay := wc_isReplay e;
     wc_enableLoggingInReplay := wc_enableLoggingInReplay e;
     wc_registry := wc_registry e;
     wc_dataConverter := wc_dataConverter e;
     wc_metricsScope := wc_metricsScope e;
     weh_workflowDefinition := weh_workflowDefinition e;
     wc_waiters := wc_waiters e;
     wc_nextWaiter := wc_nextWaiter e;
     wc_calls := wc_calls e |}.

Definition set_wc_completeHandler (x : option handlerRef) (e : workflowEnvironmentImpl) : workflowEnvironmentImpl :=
  {| wc_workflowInfo := wc_workflowInfo e;
     wc_decisionsHelper := wc_decisionsHelper e;
     wc_sideEffectResult := wc_sideEffectResult e;
     wc_changeVersions := wc_changeVersions e;
     wc_pendingLaTasks := wc_pendingLaTasks e;
     wc_mutableSideEffect := wc_mutableSideEffect e;
     wc_unstartedLaTasks := wc_unstartedLaTasks e;
     wc_openSessions := wc_openSessions e;
     wc_counterID := wc_counterID e;
     wc_currentReplayTime := wc_currentReplayTime e;
     wc_currentLocalTime := wc_currentLocalTime e;
     wc_completeHandler := x;
     wc_cancelHandler := wc_cancelHandler e;
     wc_signalHandler := wc_signalHandler e;
     wc_queryHandler := wc_queryHandler e;
     wc_isReplay := wc_isReplay e;
     wc_enableLoggingInReplay := wc_enableLoggingInReplay e;
     wc_registry := wc_registry e;
     wc_dataConverter := wc_dataConverter e;
     wc_metricsScope := wc_metricsScope e;
     weh_workflowDefinition := weh_workflowDefinition e;
     wc_waiters := wc_waiters e;
     wc_nextWaiter := wc_nextWaiter e;
     wc_calls := wc_calls e |}.

Definition set_wc_cancelHandler (x : option handlerRef) (e : workflowEnvironmentImpl) : workflowEnvironmentImpl :=
  {| wc_workflowInfo := wc_workflowInfo e;
     wc_decisionsHelper := wc_decisionsHelper e;
     wc_sideEffectResult := wc_sideEffectResult e;
     wc_changeVersions := wc_changeVersions e;
     wc_pendingLaTasks := wc_pendingLaTasks e;
     wc_mutableSideEffect := wc_mutableSideEffect e;
     wc_unstartedLaTasks := wc_unstartedLaTasks e;
     wc_openSessions := wc_openSessions e;
     wc_counterID := wc_counterID e;
     wc_currentReplayTime := wc_currentReplayTime e;
     wc_currentLocalTime := wc_currentLocalTime e;
     wc_completeHandler := wc_completeHandler e;
     wc_cancelHandler := x;
     wc_signalHandler := wc_signalHandler e;
     wc_queryHandler := wc_queryHandler e;
     wc_isReplay := wc_isReplay e;
     wc_enableLoggingInReplay := wc_enableLoggingInReplay e;
     wc_registry := wc_registry e;
     wc_dataConverter := wc_dataConverter e;
     wc_metricsScope := wc_metricsScope e;
     weh_workflowDefinition := weh_workflowDefinition e;
     wc_waiters := wc_waiters e;
     wc_nextWaiter := wc_nextWaiter e;
     wc_calls := wc_calls e |}.

Definition set_wc_signalHandler (x : option handlerRef) (e : workflowEnvironmentImpl) : workflowEnvironmentImpl :=
  {| wc_workflowInfo := wc_workflowInfo e;
     wc_decisionsHelper := wc_decisionsHelper e;
     wc_sideEffectResult := wc_sideEffectResult e;
     wc_changeVersions := wc_changeVersions e;
     wc_pendingLaTasks := wc_pendingLaTasks e;
     wc_mutableSideEffect := wc_mutableSideEffect e;
     wc_unstartedLaTasks := wc_unstartedLaTasks e;
     wc_openSessions := wc_openSessions e;
     wc_counterID := wc_counterID e;
     wc_currentReplayTime := wc_currentReplayTime e;
     wc_currentLocalTime := wc_currentLocalTime e;
     wc_completeHandler := wc_completeHandler e;
     wc_cancelHandler := wc_cancelHandler e;
     wc_signalHandler := x;
     wc_queryHandler := wc_queryHandler e;
     wc_isReplay := wc_isReplay e;
     wc_enableLoggingInReplay := wc_enableLoggingInReplay e;
     wc_registry := wc_registry e;
     wc_dataConverter := wc_dataConverter e;
     wc_metricsScope := wc_metricsScope e;
     weh_workflowDefinition := weh_workflowDefinition e;
     wc_waiters := wc_waiters e;
     wc_nextWaiter := wc_nextWaiter e;
     wc_calls := wc_calls e |}.

Definition set_wc_queryHandler (x : option (string -> bytes -> bytes * option goError)) (e : workflowEnvironmentImpl) : workflowEnvironmentImpl :=
  {| wc_workflowInfo := wc_workflowInfo e;
     wc_decisionsHelper := wc_decisionsHelper e;
     wc_sideEffectResult := wc_sideEffectResult e;
     wc_changeVersions := wc_changeVersions e;
     wc_pendingLaTasks := wc_pendingLaTasks e;
     wc_mutableSideEffect := wc_mutableSideEffect e;
     wc_unstartedLaTasks := wc_unstartedLaTasks e;
     wc_openSessions := wc_openSessions e;
     wc_counterID := wc_counterID e;
     wc_currentReplayTime := wc_currentReplayTime e;
     wc_currentLocalTime := wc_currentLocalTime e;
     wc_completeHandler := wc_completeHandler e;
     wc_cancelHandler := wc_cancelHandler e;
     wc_signalHandler := wc_signalHandler e;
     wc_queryHandler := x;
     wc_isReplay := wc_isReplay e;
     wc_enableLoggingInReplay := wc_enableLoggingInReplay e;
     wc_registry := wc_registry e;
     wc_dataConverter := wc_dataConverter e;
     wc_metricsScope := wc_metricsScope e;
     weh_workflowDefinition := weh_workflowDefinition e;
     wc_waiters := wc_waiters e;
     wc_nextWaiter := wc_nextWaiter e;
     wc_calls := wc_calls e |}.

Definition set_wc_isReplay (x : bool) (e : workflowEnvironmentImpl) : workflowEnvironmentImpl :=
  {| wc_workflowInfo := wc_workflowInfo e;
     wc_decisionsHelper := wc_decisionsHelper e;
     wc_sideEffectResult := wc_sideEffectResult e;
     wc_changeVersions := wc_changeVersions e;
     wc_pendingLaTasks := wc_pendingLaTasks e;
     wc_mutableSideEffect := wc_mutableSideEffect e;
     wc_unstartedLaTasks := wc_unstartedLaTasks e;
     wc_openSessions := wc_openSessions e;
     wc_counterID := wc_counterID e;
     wc_currentReplayTime := wc_currentReplayTime e;
     wc_currentLocalTime := wc_currentLocalTime e;
     wc_completeHandler := wc_completeHandler e;
     wc_cancelHandler := wc_cancelHandler e;
     wc_signalHandler := wc_signalHandler e;
     wc_queryHandler := wc_queryHandler e;
     wc_isReplay := x;
     wc_enableLoggingInReplay := wc_enableLoggingInReplay e;
     wc_registry := wc_registry e;
     wc_dataConverter := wc_dataConverter e;
     wc_metricsScope := wc_metricsScope e;
     weh_workflowDefinition := weh_workflowDefinition e;
     wc_waiters := wc_waiters e;
     wc_nextWaiter := wc_nextWaiter e;
     wc_calls := wc_calls e |}.

Definition set_wc_enableLoggingInReplay (x : bool) (e : workflowEnvironmentImpl) : workflowEnvironmentImpl :=
  {| wc_workflowInfo := wc_workflowInfo e;
     wc_decisionsHelper := wc_decisionsHelper e;
     wc_sideEffectResult := wc_sideEffectResult e;
     wc_changeVersions := wc_changeVersions e;
     wc_pendingLaTasks := wc_pendingLaTasks e;
     wc_mutableSideEffect := wc_mutableSideEffect e;
     wc_unstartedLaTasks := wc_unstartedLaTasks e;
     wc_openSessions := wc_openSessions e;
     wc_counterID := wc_counterID e;
     wc_currentReplayTime := wc_currentReplayTime e;
     wc_currentLocalTime := wc_currentLocalTime e;
     wc_completeHandler := wc_completeHandler e;
     wc_cancelHandler := wc_cancelHandler e;
     wc_signalHandler := wc_signalHandler e;
     wc_queryHandler := wc_queryHandler e;
     wc_isReplay := wc_isReplay e;
     wc_enableLoggingInReplay := x;
     wc_registry := wc_registry e;
     wc_dataConverter := wc_dataConverter e;
     wc_metricsScope := wc_metricsScope e;
     weh_workflowDefinition := weh_workflowDefinition e;
     wc_waiters := wc_waiters e;
     wc_nextWaiter := wc_nextWaiter e;
     wc_calls := wc_calls e |}.

Definition set_wc_registry (x : string -> option workflowDefinition * option goError) (e : workflowEnvironmentImpl) : workflowEnvironmentImpl :=
  {| wc_workflowInfo := wc_workflowInfo e;
     wc_decisionsHelper := wc_decisionsHelper e;
     wc_sideEffectResult := wc_sideEffectResult e;
     wc_changeVersions := wc_changeVersions e;
     wc_pendingLaTasks := wc_pendingLaTasks e;
     wc_mutableSideEffect := wc_mutableSideEffect e;
     wc_unstartedLaTasks := wc_unstartedLaTasks e;
     wc_openSessions := wc_openSessions e;
     wc_counterID := wc_counterID e;
     wc_currentReplayTime := wc_currentReplayTime e;
     wc_currentLocalTime := wc_currentLocalTime e;
     wc_completeHandler := wc_completeHandler e;
     wc_cancelHandler := wc_cancelHandler e;
     wc_signalHandler := wc_signalHandler e;
     wc_queryHandler := wc_queryHandler e;
     wc_isReplay := wc_isReplay e;
     wc_enableLoggingInReplay := wc_enableLoggingInReplay e;
     wc_registry := x;
     wc_dataConverter := wc_dataConverter e;
     wc_metricsScope := wc_metricsScope e;
     weh_workflowDefinition := weh_workflowDefinition e;
     wc_waiters := wc_waiters e;
     wc_nextWaiter := wc_nextWaiter e;
     wc_calls := wc_calls e |}.

Definition set_wc_dataConverter (x : DataConverter) (e : workflowEnvironmentImpl) : workflowEnvironmentImpl :=
  {| wc_workflowInfo := wc_workflowInfo e;
     wc_decisionsHelper := wc_decisionsHelper e;
     wc_sideEffectResult := wc_sideEffectResult e;
     wc_changeVersions := wc_changeVersions e;
     wc_pendingLaTasks := wc_pendingLaTasks e;
     wc_mutableSideEffect := wc_mutableSideEffect e;
     wc_unstartedLaTasks := wc_unstartedLaTasks e;
     wc_openSessions := wc_openSessions e;
     wc_counterID := wc_counterID e;
     wc_currentReplayTime := wc_currentReplayTime e;
     wc_currentLocalTime := wc_currentLocalTime e;
     wc_completeHandler := wc_completeHandler e;
     wc_cancelHandler := wc_cancelHandler e;
     wc_signalHandler := wc_signalHandler e;
     wc_queryHandler := wc_queryHandler e;
     wc_isReplay := wc_isReplay e;
     wc_enableLoggingInReplay := wc_enableLoggingInReplay e;
     wc_registry := wc_registry e;
     wc_dataConverter := x;
     wc_metricsScope := wc_metricsScope e;
     weh_workflowDefinition := weh_workflowDefinition e;
     wc_waiters := wc_waiters e;
     wc_nextWaiter := wc_nextWaiter e;
     wc_calls := wc_calls e |}.

Definition set_weh_workflowDefinition (x : option workflowDefinition) (e : workflowEnvironmentImpl) : workflowEnvironmentImpl :=
  {| wc_workflowInfo := wc_workflowInfo e;
     wc_decisionsHelper := wc_decisionsHelper e;
     wc_sideEffectResult := wc_sideEffectResult e;
     wc_changeVersions := wc_changeVersions e;
     wc_pendingLaTasks := wc_pendingLaTasks e;
     wc_mutableSideEffect := wc_mutableSideEffect e;
     wc_unstartedLaTasks := wc_unstartedLaTasks e;
     wc_openSessions := wc_openSessions e;
     wc_counterID := wc_counterID e;
     wc_currentReplayTime := wc_currentReplayTime e;
     wc_currentLocalTime := wc_currentLocalTime e;
     wc_completeHandler := wc_completeHandler e;
     wc_cancelHandler := wc_cancelHandler e;
     wc_signalHandler := wc_signalHandler e;
     wc_queryHandler := wc_queryHandler e;
     wc_isReplay := wc_isReplay e;
     wc_enableLoggingInReplay := wc_enableLoggingInReplay e;
     wc_registry := wc_registry e;
     wc_dataConverter := wc_dataConverter e;
     wc_metricsScope := wc_metricsScope e;
     weh_workflowDefinition := x;
     wc_waiters := wc_waiters e;
     wc_nextWaiter := wc_nextWaiter e;
     wc_calls := wc_calls e |}.

Definition set_wc_waiters (x : gmap waiterRef waiter) (e : workflowEnvironmentImpl) : workflowEnvironmentImpl :=
  {| wc_workflowInfo := wc_workflowInfo e;
     wc_decisionsHelper := wc_decisionsHelper e;
     wc_sideEffectResult := wc_sideEffectResult e;
     wc_changeVersions := wc_changeVersions e;
     wc_pendingLaTasks := wc_pendingLaTasks e;
     wc_mutableSideEffect := wc_mutableSideEffect e;
     wc_unstartedLaTasks := wc_unstartedLaTasks e;
     wc_openSessions := wc_openSessions e;
     wc_counterID := wc_counterID e;
     wc_currentReplayTime := wc_currentReplayTime e;
     wc_currentLocalTime := wc_currentLocalTime e;
     wc_completeHandler := wc_completeHandler e;
     wc_cancelHandler := wc_cancelHandler e;
     wc_signalHandler := wc_signalHandler e;
     wc_queryHandler := wc_queryHandler e;
     wc_isReplay := wc_isReplay e;
     wc_enableLoggingInReplay := wc_enableLoggingInReplay e;
     wc_registry := wc_registry e;
     wc_dataConverter := wc_dataConverter e;
     wc_metricsScope := wc_metricsScope e;
     weh_workflowDefinition := weh_workflowDefinition e;
     wc_waiters := x;
     wc_nextWaiter := wc_nextWaiter e;
     wc_calls := wc_calls e |}.

Definition set_wc_nextWaiter (x : waiterRef) (e : workflowEnvironmentImpl) : workflowEnvironmentImpl :=
  {| wc_workflowInfo := wc_workflowInfo e;
     wc_decisionsHelper := wc_decisionsHelper e;
     wc_sideEffectResult := wc_sideEffectResult e;
     wc_changeVersions := wc_changeVersions e;
     wc_pendingLaTasks := wc_pendingLaTasks e;
     wc_mutableSideEffect := wc_mutableSideEffect e;
     wc_unstartedLaTasks := wc_unstartedLaTasks e;
     wc_openSessions := wc_openSessions e;
     wc_counterID := wc_counterID e;
     wc_currentReplayTime := wc_currentReplayTime e;
     wc_currentLocalTime := wc_currentLocalTime e;
     wc_completeHandler := wc_completeHandler e;
     wc_cancelHandler := wc_cancelHandler e;
     wc_signalHandler := wc_signalHandler e;
     wc_queryHandler := wc_queryHandler e;
     wc_isReplay := wc_isReplay e;
     wc_enableLoggingInReplay := wc_enableLoggingInReplay e;
     wc_registry := wc_registry e;
     wc_dataConverter := wc_dataConverter e;
     wc_metricsScope := wc_metricsScope e;
     weh_workflowDefinition := weh_workflowDefinition e;
     wc_waiters := wc_waiters e;
     wc_nextWaiter := x;
     wc_calls := wc_calls e |}.

Definition set_wc_calls (x : list outcall) (e : workflowEnvironmentImpl) : workflowEnvironmentImpl :=
  {| wc_workflowInfo := wc_workflowInfo e;
     wc_decisionsHelper := wc_decisionsHelper e;
     wc_sideEffectResult := wc_sideEffectResult e;
     wc_changeVersions := wc_changeVersions e;
     wc_pendingLaTasks := wc_pendingLaTasks e;
     wc_mutableSideEffect := wc_mutableSideEffect e;
     wc_unstartedLaTasks := wc_unstartedLaTasks e;
     wc_openSessions := wc_openSessions e;
     wc_counterID := wc_counterID e;
     wc_currentReplayTime := wc_currentReplayTime e;
     wc_currentLocalTime := wc_currentLocalTime e;
     wc_completeHandler := wc_completeHandler e;
     wc_cancelHandler := wc_cancelHandler e;
     wc_signalHandler := wc_signalHandler e;
     wc_queryHandler := wc_queryHandler e;
     wc_isReplay := wc_isReplay e;
     wc_enableLoggingInReplay := wc_enableLoggingInReplay e;
     wc_registry := wc_registry e;
     wc_dataConverter := wc_dataConverter e;
     wc_metricsScope := wc_metricsScope e;
     weh_workflowDefinition := weh_workflowDefinition e;
     wc_waiters := wc_waiters e;
     wc_nextWaiter := wc_nextWaiter e;
     wc_calls := x |}.

(** ** The workflow environment: operations *)

#[warnings="-notation-for-abbreviation"]
Notation env := workflowEnvironmentImpl.

Definition queryResultSizeLimit : Z := 2000000.

(** The reserved search-attribute key, as the unit tests of
    [createSearchAttributesForChangeVersion] spell it. *)
Definition CadenceChangeVersion : string := "CadenceChangeVersion".

(** [DefaultVersion], as [Test_GetChangeVersion] prints it. *)
Definition DefaultVersion : Z := -1.

(** Running a helper method on [wc.decisionsHelper]. *)
Definition liftH {A} (c : M decisionsHelper A) : M env A :=
  fun e => match c (wc_decisionsHelper e) with
           | (r, h') => (r, set_wc_decisionsHelper h' e)
           end.

Definition logCall (c : outcall) : M env unit :=
  modify (fun e => set_wc_calls (wc_calls e ++ [c]) e).

Definition nilDereference {A} : M env A :=
  panic (runtimePanic "invalid memory address or nil pointer dereference").

Definition interfaceConversion {A} : M env A :=
  panic (runtimePanic "interface conversion").

(** [&T{...}]: a fresh object in the store of waiters. *)
Definition newWaiter (w : waiter) : M env waiterRef :=
  fun e => (Returned (wc_nextWaiter e),
            set_wc_nextWaiter (N.succ (wc_nextWaiter e))
              (set_wc_waiters (<[wc_nextWaiter e := w]> (wc_waiters e)) e)).

Definition storeWaiter (p : waiterRef) (w : waiter) : M env unit :=
  modify (fun e => set_wc_waiters (<[p := w]> (wc_waiters e)) e).

(** The type assertions [decision.getData().( *scheduledX)]. *)
Definition asScheduledTimer (x : option waiterRef) : M env (waiterRef * scheduledTimer) :=
  e <- get ;;
  match x with
  | Some p => match wc_waiters e !! p with
              | Some (dataTimer s) => ret (p, s)
              | _ => interfaceConversion
              end
  | None => interfaceConversion
  end.

Definition asScheduledActivity (x : option waiterRef)
    : M env (waiterRef * scheduledActivity) :=
  e <- get ;;
  match x with
  | Some p => match wc_waiters e !! p with
              | Some (dataActivity s) => ret (p, s)
              | _ => interfaceConversion
              end
  | None => interfaceConversion
  end.

Definition asScheduledChildWorkflow (x : option waiterRef)
    : M env (waiterRef * scheduledChildWorkflow) :=
  e <- get ;;
  match x with
  | Some p => match wc_waiters e !! p with
              | Some (dataChildWorkflow s) => ret (p, s)
              | _ => interfaceConversion
              end
  | None => interfaceConversion
  end.

Definition asScheduledCancellation (x : option waiterRef)
    : M env (waiterRef * scheduledCancellation) :=
  e <- get ;;
  match x with
  | Some p => match wc_waiters e !! p with
              | Some (dataCancellation s) => ret (p, s)
              | _ => interfaceConversion
              end
  | None => interfaceConversion
  end.

Definition asScheduledSignal (x : option waiterRef) : M env (waiterRef * scheduledSignal) :=
  e <- get ;;
  match x with
  | Some p => match wc_waiters e !! p with
              | Some (dataSignal s) => ret (p, s)
              | _ => interfaceConversion
              end
  | None => interfaceConversion
  end.

(** [fmt.Sprintf("%v", s)] for a pointer to a waiter struct. *)
Definition fmt_waiter (w : waiter) : string :=
  match w with
  | dataTimer s =>
      "&{" +:+ fmt_func (timer_callback s) +:+ " " +:+ fmt_bool (timer_handled s) +:+ "}"
  | dataActivity s =>
      "&{" +:+ fmt_func (activity_callback s) +:+ " "
      +:+ fmt_bool (activity_waitForCancelRequest s) +:+ " "
      +:+ fmt_bool (activity_handled s) +:+ "}"
  | dataChildWorkflow s =>
      "&{" +:+ fmt_func (child_resultCallback s) +:+ " "
      +:+ fmt_func (child_startedCallback s) +:+ " "
      +:+ fmt_bool (child_waitForCancellation s) +:+ " "
      +:+ fmt_bool (child_handled s) +:+ "}"
  | dataCancellation s =>
      "&{" +:+ fmt_func (cancellation_callback s) +:+ " "
      +:+ fmt_bool (cancellation_handled s) +:+ "}"
  | dataSignal s =>
      "&{" +:+ fmt_func (signal_callback s) +:+ " " +:+ fmt_bool (signal_handled s) +:+ "}"
  end.

Definition scheduledTimer_handle (p : waiterRef) (result : option bytes)
    (err : option goError) : M env unit :=
  e <- get ;;
  match wc_waiters e !! p with
  | Some (dataTimer s) =>
      if timer_handled s then
        panic (panicString ("timer already handled " +:+ fmt_waiter (dataTimer s)))
      else
        storeWaiter p (dataTimer {| timer_callback := timer_callback s;
                                    timer_handled := true |}) ;;;
        logCall (call_resultHandler (Some p) (timer_callback s) result err)
  | _ => nilDereference
  end.

Definition scheduledActivity_handle (p : waiterRef) (result : option bytes)
    (err : option goError) : M env unit :=
  e <- get ;;
  match wc_waiters e !! p with
  | Some (dataActivity s) =>
      if activity_handled s then
        panic (panicString ("activity already handled " +:+ fmt_waiter (dataActivity s)))
      else
        storeWaiter p
          (dataActivity {| activity_callback := activity_callback s;
                           activity_waitForCancelRequest := activity_waitForCancelRequest s;
                           activity_handled := true |}) ;;;
        logCall (call_resultHandler (Some p) (activity_callback s) result err)
  | _ => nilDereference
  end.

Definition scheduledChildWorkflow_handle (p : waiterRef) (result : option bytes)
    (err : option goError) : M env unit :=
  e <- get ;;
  match wc_waiters e !! p with
  | Some (dataChildWorkflow s) =>
      if child_handled s then
        panic (panicString
                 ("child workflow already handled " +:+ fmt_waiter (dataChildWorkflow s)))
      else
        storeWaiter p
          (dataChildWorkflow {| child_resultCallback := child_resultCallback s;
                                child_startedCallback := child_startedCallback s;
                                child_waitForCancellation := child_waitForCancellation s;
                                child_handled := true |}) ;;;
        logCall (call_resultHandler (Some p) (child_resultCallback s) result err)
  | _ => nilDereference
  end.

Definition scheduledCancellation_handle (p : waiterRef) (result : option bytes)
    (err : option goError) : M env unit :=
  e <- get ;;
  match wc_waiters e !! p with
  | Some (dataCancellation s) =>
      if cancellation_handled s then
        panic (panicString
                 ("cancellation already handled " +:+ fmt_waiter (dataCancellation s)))
      else
        storeWaiter p
          (dataCancellation {| cancellation_callback := cancellation_callback s;
                               cancellation_handled := true |}) ;;;
        logCall (call_resultHandler (Some p) (cancellation_callback s) result err)
  | _ => nilDereference
  end.

Definition scheduledSignal_handle (p : waiterRef) (result : option bytes)
    (err : option goError) : M env unit :=
  e <- get ;;
  match wc_waiters e !! p with
  | Some (dataSignal s) =>
      if signal_handled s then
        panic (panicString ("signal already handled " +:+ fmt_waiter (dataSignal s)))
      else
        storeWaiter p (dataSignal {| signal_callback := signal_callback s;
                                     signal_handled := true |}) ;;;
        logCall (call_resultHandler (Some p) (signal_callback s) result err)
  | _ => nilDereference
  end.

Definition localActivityTask_cancel (activityID : string) (t : localActivityTask)
    : M env unit :=
  modify (fun e => set_wc_pendingLaTasks
            (<[activityID :=
                 {| lat_activityID := lat_activityID t;
                    lat_params := lat_params t;
                    lat_callback := lat_callback t;
                    lat_canceled := true;
                    lat_cancelFunc := lat_cancelFunc t;
                    lat_attempt := lat_attempt t;
                    lat_retryPolicy := lat_retryPolicy t;
                    lat_expireTime := lat_expireTime t;
                    lat_header := lat_header t |}]> (wc_pendingLaTasks e)) e) ;;;
  match lat_cancelFunc t with
  | Some f => logCall (call_cancelFunc f)
  | None => ret tt
  end.

Definition Complete (result : option bytes) (err : option goError) : M env unit :=
  e <- get ;;
  match wc_completeHandler e with
  | Some f => logCall (call_completeHandler f result err)
  | None => nilDereference
  end.

Definition GenerateSequence : M env Z :=
  e <- get ;;
  let result := wc_counterID e in
  modify (set_wc_counterID (wrap_int32 (wc_counterID e + 1))) ;;;
  ret result.

Definition GenerateSequenceID : M env string :=
  n <- GenerateSequence ;;
  ret (fmt_int n).

Definition RequestCancelChildWorkflow (domainName workflowID : string) : M env unit :=
  let isChildWorkflowOnly := true in
  let cancellationID := "" in
  let runID := "" in
  liftH (helper_requestCancelExternalWorkflowExecution
           domainName workflowID runID cancellationID isChildWorkflowOnly) ;;;
  ret tt.

Definition RequestCancelExternalWorkflow (domainName workflowID runID : string)
    (callback : handlerRef) : M env unit :=
  let isChildWorkflowOnly := false in
  cancellationID <- GenerateSequenceID ;;
  decision <- liftH (helper_requestCancelExternalWorkflowExecution
                       domainName workflowID runID cancellationID isChildWorkflowOnly) ;;
  p <- newWaiter (dataCancellation {| cancellation_callback := callback;
                                      cancellation_handled := false |}) ;;
  liftH (dsm_setData p decision) ;;;
  ret tt.

Definition SignalExternalWorkflow (domainName workflowID runID signalName : string)
    (input : bytes) (childWorkflowOnly : bool) (callback : handlerRef) : M env unit :=
  signalID <- GenerateSequenceID ;;
  decision <- liftH (helper_signalExternalWorkflowExecution
                       domainName workflowID runID signalName input signalID
                       childWorkflowOnly) ;;
  p <- newWaiter (dataSignal {| signal_callback := callback; signal_handled := false |}) ;;
  liftH (dsm_setData p decision) ;;;
  ret tt.

(** Encoding the values of a Go map one by one, stopping at the first
    failure.  Go ranges over a map in an unspecified order; the order taken
    here is the one of [map_to_list]. *)
Fixpoint encodeFields (enc : goValue -> bytes * option goError)
    (wrapErr : string -> goError -> goError) (l : list (string * goValue))
    (acc : gmap string bytes) : gmap string bytes * option goError :=
  match l with
  | [] => (acc, None)
  | (k, v) :: l' =>
      match enc v with
      | (_, Some err) => (acc, Some (wrapErr k err))
      | (b, None) => encodeFields enc wrapErr l' (<[k := b]> acc)
      end
  end.

Definition serializeSearchAttributes (input : option (gmap string goValue))
    : option SearchAttributes * option goError :=
  match input with
  | None => (None, None)
  | Some input =>
      match encodeFields json_Marshal
              (fun k err => ErrorfWrap ("encode search attribute [" +:+ k +:+ "] error: ") err)
              (map_to_list input) ∅ with
      | (_, Some err) => (None, Some err)
      | (attr, None) => (Some {| IndexedFields := attr |}, None)
      end
  end.

Definition getWorkflowMemo (input : option (gmap string goValue)) (dc : DataConverter)
    : option (gmap string bytes) * option goError :=
  match input with
  | None => (None, None)
  | Some input =>
      match encodeFields (fun v => ToData dc [v])
              (fun _ err => ErrorfWrap "encode workflow memo error: " err)
              (map_to_list input) ∅ with
      | (_, Some err) => (None, Some err)
      | (memo, None) => (Some memo, None)
      end
  end.

Definition validateAndSerializeSearchAttributes (attributes : gmap string goValue)
    : option SearchAttributes * option goError :=
  if decide (size attributes = 0%nat) then (None, Some errSearchAttributesNotSet)
  else
    match serializeSearchAttributes (Some attributes) with
    | (_, Some err) => (None, Some err)
    | (attr, None) => (attr, None)
    end.

Definition lenIndexedFields (a : option SearchAttributes) : nat :=
  match a with
  | Some a => size (IndexedFields a)
  | None => 0%nat
  end.

Definition mergeSearchAttributes (current upsert : option SearchAttributes)
    : outcome (option SearchAttributes) :=
  let merge (fields : gmap string bytes) :=
    match upsert with
    | Some u => Returned (Some {| IndexedFields := IndexedFields u ∪ fields |})
    | None => Panicked (runtimePanic "invalid memory address or nil pointer dereference")
    end in
  if decide (lenIndexedFields current = 0%nat) then
    if decide (lenIndexedFields upsert = 0%nat) then Returned None
    else merge ∅
  else
    match current with
    | Some c => merge (IndexedFields c)
    | None => merge ∅
    end.

Definition set_wi_SearchAttributes (x : option SearchAttributes) (w : WorkflowInfo) :=
  {| wi_WorkflowExecution_ID := wi_WorkflowExecution_ID w;
     wi_WorkflowExecution_RunID := wi_WorkflowExecution_RunID w;
     wi_WorkflowType_Name := wi_WorkflowType_Name w;
     wi_TaskListName := wi_TaskListName w;
     wi_SearchAttributes := x |}.

Definition updateWorkflowInfoWithSearchAttributes (attributes : option SearchAttributes)
    : M env unit :=
  e <- get ;;
  match mergeSearchAttributes (wi_SearchAttributes (wc_workflowInfo e)) attributes with
  | Returned merged =>
      modify (fun e => set_wc_workflowInfo
                         (set_wi_SearchAttributes merged (wc_workflowInfo e)) e)
  | Panicked p => panic p
  end.

Definition UpsertSearchAttributes (attributes : gmap string goValue)
    : M env (option goError) :=
  match validateAndSerializeSearchAttributes attributes with
  | (_, Some err) => ret (Some err)
  | (attr, None) =>
      upsertID <-
        match attributes !! CadenceChangeVersion with
        | Some changeVersion =>
            match changeVersion with
            | VStrings (first :: _) => ret first
            | VStrings [] => panic (runtimePanic "index out of range [0] with length 0")
            | _ => interfaceConversion
            end
        | None => GenerateSequenceID
        end ;;
      liftH (helper_upsertSearchAttributes upsertID attr) ;;;
      updateWorkflowInfoWithSearchAttributes attr ;;;
      ret None
  end.

Definition RegisterCancelHandler (handler : handlerRef) : M env unit :=
  modify (set_wc_cancelHandler (Some handler)).

Definition RegisterSignalHandler (handler : handlerRef) : M env unit :=
  modify (set_wc_signalHandler (Some handler)).

Definition RegisterQueryHandler (handler : string -> bytes -> bytes * option goError)
    : M env unit :=
  modify (set_wc_queryHandler (Some handler)).

Definition IsReplaying : M env bool :=
  e <- get ;; ret (wc_isReplay e).

Definition deref {A} (x : option A) : M env A :=
  match x with
  | Some a => ret a
  | None => nilDereference
  end.

Record executeWorkflowParams : Type := {
  wp_domain : option string;
  wp_taskListName : option string;
  wp_workflowID : string;
  wp_executionStartToCloseTimeoutSeconds : option Z;
  wp_taskStartToCloseTimeoutSeconds : option Z;
  wp_workflowIDReusePolicy : Z;
  wp_parentClosePolicy : Z;
  wp_retryPolicy : option ref;
  wp_header : option ref;
  wp_memo : option (gmap string goValue);
  wp_searchAttributes : option (gmap string goValue);
  wp_cronSchedule : string;
  wp_waitForCancellation : bool;
  wp_workflowType : option string;
  wp_input : bytes }.

Definition ExecuteChildWorkflow (params : executeWorkflowParams)
    (callback startedHandler : handlerRef) : M env (option goError) :=
  workflowID <-
    (if String.eqb (wp_workflowID params) "" then
       e <- get ;;
       n <- GenerateSequenceID ;;
       ret (wi_WorkflowExecution_RunID (wc_workflowInfo e) +:+ "_" +:+ n)
     else ret (wp_workflowID params)) ;;
  e <- get ;;
  match getWorkflowMemo (wp_memo params) (wc_dataConverter e) with
  | (_, Some err) => ret (Some err)
  | (memo, None) =>
      match serializeSearchAttributes (wp_searchAttributes params) with
      | (_, Some err) => ret (Some err)
      | (searchAttr, None) =>
          domain <- deref (wp_domain params) ;;
          taskList <- deref (wp_taskListName params) ;;
          executionTimeout <- deref (wp_executionStartToCloseTimeoutSeconds params) ;;
          taskTimeout <- deref (wp_taskStartToCloseTimeoutSeconds params) ;;
          workflowType <- deref (wp_workflowType params) ;;
          let attributes :=
            {| scw_Domain := domain;
               scw_TaskList := taskList;
               scw_WorkflowId := workflowID;
               scw_ExecutionStartToCloseTimeout := executionTimeout;
               scw_TaskStartToCloseTimeout := taskTimeout;
               scw_Input := wp_input params;
               scw_WorkflowType := workflowType;
               scw_WorkflowIdReusePolicy := wp_workflowIDReusePolicy params;
               scw_ParentClosePolicy := wp_parentClosePolicy params;
               scw_RetryPolicy := wp_retryPolicy params;
               scw_Header := wp_header params;
               scw_Memo := memo;
               scw_SearchAttributes := searchAttr;
               scw_CronSchedule := wp_cronSchedule params |} in
          decision <- liftH (helper_startChildWorkflowExecution attributes) ;;
          p <- newWaiter
                 (dataChildWorkflow
                    {| child_resultCallback := callback;
                       child_startedCallback := startedHandler;
                       child_waitForCancellation := wp_waitForCancellation params;
                       child_handled := false |}) ;;
          liftH (dsm_setData p decision) ;;;
          ret None
      end
  end.

Record executeActivityParams : Type := {
  ap_ActivityID : option string;
  ap_TaskListName : string;
  ap_ScheduleToCloseTimeoutSeconds : Z;
  ap_ScheduleToStartTimeoutSeconds : Z;
  ap_StartToCloseTimeoutSeconds : Z;
  ap_HeartbeatTimeoutSeconds : Z;
  ap_WaitForCancellation : bool;
  ap_RetryPolicy : option ref;
  ap_ActivityType : string;
  ap_Input : bytes;
  ap_Header : option ref }.

(** Returns the [activityID] of the [activityInfo] it creates. *)
Definition ExecuteActivity (parameters : executeActivityParams) (callback : handlerRef)
    : M env string :=
  activityID <-
    match ap_ActivityID parameters with
    | None => GenerateSequenceID
    | Some a => if String.eqb a "" then GenerateSequenceID else ret a
    end ;;
  let scheduleTaskAttr :=
    {| sat_ActivityId := activityID;
       sat_ActivityType := ap_ActivityType parameters;
       sat_TaskList := ap_TaskListName parameters;
       sat_Input := ap_Input parameters;
       sat_ScheduleToCloseTimeout := ap_ScheduleToCloseTimeoutSeconds parameters;
       sat_StartToCloseTimeout := ap_StartToCloseTimeoutSeconds parameters;
       sat_ScheduleToStartTimeout := ap_ScheduleToStartTimeoutSeconds parameters;
       sat_HeartbeatTimeout := ap_HeartbeatTimeoutSeconds parameters;
       sat_RetryPolicy := ap_RetryPolicy parameters;
       sat_Header := ap_Header parameters |} in
  decision <- liftH (helper_scheduleActivityTask scheduleTaskAttr) ;;
  p <- newWaiter
         (dataActivity
            {| activity_callback := callback;
               activity_waitForCancelRequest := ap_WaitForCancellation parameters;
               activity_handled := false |}) ;;
  liftH (dsm_setData p decision) ;;;
  ret activityID.

Definition RequestCancelActivity (activityID : string) : M env unit :=
  decision <- liftH (helper_requestCancelActivityTask activityID) ;;
  a <- asScheduledActivity (dsm_getData decision) ;;
  let (p, activity) := a in
  if activity_handled activity then ret tt
  else
    if dsm_isDone decision || negb (activity_waitForCancelRequest activity)
    then scheduledActivity_handle p None (Some ErrCanceled)
    else ret tt.

Definition newLocalActivityTask (params : executeLocalActivityParams)
    (callback : handlerRef) (activityID : string) : localActivityTask :=
  {| lat_activityID := activityID;
     lat_params := params;
     lat_callback := callback;
     lat_canceled := false;
     lat_cancelFunc := None;
     lat_attempt := lap_Attempt params;
     lat_retryPolicy := lap_RetryPolicy params;
     lat_expireTime :=
       match lap_RetryPolicy params with
       | Some rp => if 0 <? rp_ExpirationInterval rp
                    then lap_ScheduledTime params + rp_ExpirationInterval rp
                    else 0
       | None => 0
       end;
     lat_header := lap_Header params |}.

(** Returns the [activityID] of the [localActivityInfo] it creates. *)
Definition ExecuteLocalActivity (params : executeLocalActivityParams)
    (callback : handlerRef) : M env string :=
  activityID <- GenerateSequenceID ;;
  let task := newLocalActivityTask params callback activityID in
  modify (fun e => set_wc_pendingLaTasks (<[activityID := task]> (wc_pendingLaTasks e)) e) ;;;
  modify (fun e => set_wc_unstartedLaTasks ({[activityID]} ∪ wc_unstartedLaTasks e) e) ;;;
  ret activityID.

Definition RequestCancelLocalActivity (activityID : string) : M env unit :=
  e <- get ;;
  match wc_pendingLaTasks e !! activityID with
  | Some task => localActivityTask_cancel activityID task
  | None => ret tt
  end.

(** [now] is the reading of the wall clock ([time.Now()]). *)
Definition SetCurrentReplayTime (now : Time) (replayTime : Time) : M env unit :=
  e <- get ;;
  if replayTime <? wc_currentReplayTime e then ret tt
  else
    modify (set_wc_currentReplayTime replayTime) ;;;
    modify (set_wc_currentLocalTime now).

Definition Now : M env Time :=
  e <- get ;; ret (wc_currentReplayTime e).

(** Returns the [timerID] of the [timerInfo] it creates, if any. *)
Definition NewTimer (d : Z) (callback : handlerRef) : M env (option string) :=
  if d <? 0 then
    logCall (call_resultHandler None callback None
               (Some (Errorf ("negative duration provided " +:+ fmt_Duration d)))) ;;;
    ret None
  else if d =? 0 then
    logCall (call_resultHandler None callback None None) ;;;
    ret None
  else
    timerID <- GenerateSequenceID ;;
    let startTimerAttr := {| st_TimerId := timerID; st_StartToFireTimeout := d |} in
    decision <- liftH (helper_startTimer startTimerAttr) ;;
    p <- newWaiter (dataTimer {| timer_callback := callback; timer_handled := false |}) ;;
    liftH (dsm_setData p decision) ;;;
    ret (Some timerID).

Definition RequestCancelTimer (timerID : string) : M env unit :=
  decision <- liftH (helper_cancelTimer timerID) ;;
  t <- asScheduledTimer (dsm_getData decision) ;;
  let (p, timer) := t in
  if timer_handled timer then ret tt
  else scheduledTimer_handle p None (Some ErrCanceled).

Definition validateVersion (changeID : string) (version minSupported maxSupported : Z)
    : M env unit :=
  if version <? minSupported then
    panic (panicString
             ("Workflow code removed support of version " +:+ fmt_int version
              +:+ ". for " +:+ dquote +:+ changeID +:+ dquote
              +:+ " changeID. The oldest supported version is "
              +:+ fmt_int minSupported))
  else if maxSupported <? version then
    panic (panicString
             ("Workflow code is too old to support version " +:+ fmt_int version
              +:+ " for " +:+ dquote +:+ changeID +:+ dquote
              +:+ " changeID. The maximum supported version is "
              +:+ fmt_int maxSupported))
  else ret tt.

Definition getChangeVersion (changeID : string) (version : Z) : string :=
  changeID +:+ "-" +:+ fmt_int version.

(** Go ranges over [existingChangeVersions] in an unspecified order. *)
Definition getChangeVersions (changeID : string) (version : Z)
    (existingChangeVersions : gmap string Z) : list string :=
  getChangeVersion changeID version
  :: map (fun kv => getChangeVersion (fst kv) (snd kv))
       (rangeOrder (range_changeVersions existingChangeVersions)
          (map_to_list existingChangeVersions)).

Definition createSearchAttributesForChangeVersion (changeID : string) (version : Z)
    (existingChangeVersions : gmap string Z) : gmap string goValue :=
  {[ CadenceChangeVersion :=
       VStrings (getChangeVersions changeID version existingChangeVersions) ]}.

Definition GetVersion (changeID : string) (minSupported maxSupported : Z) : M env Z :=
  e <- get ;;
  match wc_changeVersions e !! changeID with
  | Some version =>
      validateVersion changeID version minSupported maxSupported ;;;
      ret version
  | None =>
      version <-
        (if wc_isReplay e then ret DefaultVersion
         else
           let version := maxSupported in
           liftH (helper_recordVersionMarker changeID version (wc_dataConverter e)) ;;;
           UpsertSearchAttributes
             (createSearchAttributesForChangeVersion changeID version
                (wc_changeVersions e)) ;;;
           ret version) ;;
      validateVersion changeID version minSupported maxSupported ;;;
      modify (fun e => set_wc_changeVersions
                         (<[changeID := version]> (wc_changeVersions e)) e) ;;;
      ret version
  end.

(** [f] is the user function, run by applying it to [tt].  The keys in the
    panic text are collected by ranging over the map. *)
Definition SideEffect (f : unit -> bytes * option goError) (callback : handlerRef)
    : M env unit :=
  sideEffectID <- GenerateSequence ;;
  e <- get ;;
  if wc_isReplay e then
    match wc_sideEffectResult e !! sideEffectID with
    | None =>
        panic (panicString
                 ("No cached result found for side effectID=" +:+ fmt_int sideEffectID
                  +:+ ". KnownSideEffects="
                  +:+ fmt_strings
                        (map (fun kv => fmt_int (fst kv))
                           (rangeOrder
                              (range_sideEffectResult (wc_sideEffectResult e))
                              (map_to_list (wc_sideEffectResult e))))))
    | Some result =>
        let details := result in
        liftH (helper_recordSideEffectMarker sideEffectID details) ;;;
        logCall (call_resultHandler None callback (Some result) None)
    end
  else
    match f tt with
    | (result, Some err) =>
        logCall (call_resultHandler None callback (Some result) (Some err))
    | (result, None) =>
        match encodeArgs (wc_dataConverter e) [VInt32 sideEffectID; VBytes result] with
        | (_, Some err) =>
            logCall (call_resultHandler None callback None
                       (Some (ErrorfWrap "failure encoding sideEffectID: " err)))
        | (details, None) =>
            liftH (helper_recordSideEffectMarker sideEffectID details) ;;;
            logCall (call_resultHandler None callback (Some result) None)
        end
    end.

Definition AddSession (sessionID : string) (sessionInfo : ref) : M env unit :=
  modify (fun e => set_wc_openSessions (<[sessionID := sessionInfo]> (wc_openSessions e)) e).

Definition RemoveSession (sessionID : string) : M env unit :=
  modify (fun e => set_wc_openSessions (delete sessionID (wc_openSessions e)) e).

Definition getOpenSessions (e : env) : list ref :=
  map snd (map_to_list (wc_openSessions e)).

(** ** The event handler *)

Definition OnDecisionTaskStarted : M env unit :=
  e <- get ;;
  match weh_workflowDefinition e with
  | Some wd => logCall (call_OnDecisionTaskStarted (wd_name wd))
  | None => nilDereference
  end.

Definition StackTrace : M env string :=
  e <- get ;;
  match weh_workflowDefinition e with
  | Some wd => ret (wd_StackTrace wd)
  | None => nilDereference
  end.

Definition Close : M env unit :=
  e <- get ;;
  match weh_workflowDefinition e with
  | Some wd => logCall (call_Close (wd_name wd))
  | None => ret tt
  end.

Definition handleWorkflowExecutionStarted (header : option ref) (input : bytes)
    : M env (option goError) :=
  e <- get ;;
  let (wd, err) := wc_registry e (wi_WorkflowType_Name (wc_workflowInfo e)) in
  modify (set_weh_workflowDefinition wd) ;;;
  match err with
  | Some err => ret (Some err)
  | None =>
      match wd with
      | Some wd => logCall (call_Execute (wd_name wd) header input) ;;; ret None
      | None => nilDereference
      end
  end.

Definition handleActivityTaskCompleted (event : HistoryEvent) (result : bytes)
    : M env (option goError) :=
  activityID <- liftH (helper_getActivityID event) ;;
  decision <- liftH (helper_handleActivityTaskClosed activityID) ;;
  a <- asScheduledActivity (dsm_getData decision) ;;
  let (p, activity) := a in
  if activity_handled activity then ret None
  else scheduledActivity_handle p (Some result) None ;;; ret None.

Definition handleActivityTaskFailed (event : HistoryEvent) (reason : string)
    (details : bytes) : M env (option goError) :=
  activityID <- liftH (helper_getActivityID event) ;;
  decision <- liftH (helper_handleActivityTaskClosed activityID) ;;
  a <- asScheduledActivity (dsm_getData decision) ;;
  let (p, activity) := a in
  if activity_handled activity then ret None
  else
    let err := constructError reason details in
    scheduledActivity_handle p None (Some err) ;;; ret None.

Definition handleActivityTaskTimedOut (event : HistoryEvent)
    (lastFailureReason : string) (lastFailureDetails : bytes) (timeoutType : Z)
    (details : option bytes) : M env (option goError) :=
  activityID <- liftH (helper_getActivityID event) ;;
  decision <- liftH (helper_handleActivityTaskClosed activityID) ;;
  a <- asScheduledActivity (dsm_getData decision) ;;
  let (p, activity) := a in
  if activity_handled activity then ret None
  else
    let err :=
      if (0 <? String.length lastFailureReason)%nat
         && (timeoutType =? TIMEOUT_TYPE_START_TO_CLOSE)
      then constructError lastFailureReason lastFailureDetails
      else NewTimeoutError timeoutType details in
    scheduledActivity_handle p None (Some err) ;;; ret None.

Definition handleActivityTaskCanceled (event : HistoryEvent) (details : option bytes)
    : M env (option goError) :=
  activityID <- liftH (helper_getActivityID event) ;;
  decision <- liftH (helper_handleActivityTaskCanceled activityID) ;;
  a <- asScheduledActivity (dsm_getData decision) ;;
  let (p, activity) := a in
  if activity_handled activity then ret None
  else
    if dsm_isDone decision || negb (activity_waitForCancelRequest activity) then
      let err := NewCanceledError details in
      scheduledActivity_handle p None (Some err) ;;; ret None
    else ret None.

Definition handleTimerFired (timerID : string) : M env unit :=
  decision <- liftH (helper_handleTimerClosed timerID) ;;
  t <- asScheduledTimer (dsm_getData decision) ;;
  let (p, timer) := t in
  if timer_handled timer then ret tt
  else scheduledTimer_handle p None None.

Definition handleWorkflowExecutionCancelRequested : M env unit :=
  e <- get ;;
  match wc_cancelHandler e with
  | Some f => logCall (call_cancelHandler f)
  | None => nilDereference
  end.

(** [EncodedValues.Get]: [ErrNoData] without values, else the converter's
    [FromData].  The single-value [EncodedValue.Get] is taken to behave the
    same way on its one pointer. *)
Definition EncodedValues_Get (dc : DataConverter) (values : option bytes)
    (valuePtr : list goValue) : list goValue * option goError :=
  match values with
  | None => (valuePtr, Some ErrNoData)
  | Some v => FromData dc v valuePtr
  end.

Definition zero_localActivityMarkerData : localActivityMarkerData :=
  {| lamd_ActivityID := ""; lamd_ActivityType := ""; lamd_ErrReason := "";
     lamd_ErrJSON := ""; lamd_ResultJSON := ""; lamd_ReplayTime := 0;
     lamd_Attempt := 0; lamd_Backoff := 0 |}.

Definition handleLocalActivityMarker (now : Time) (markerData : option bytes)
    : M env (option goError) :=
  e <- get ;;
  match EncodedValues_Get (wc_dataConverter e) markerData
          [VLocalActivityMarkerData zero_localActivityMarkerData] with
  | (_, Some err) => ret (Some err)
  | (vals, None) =>
      let lamd := match vals with
                  | [VLocalActivityMarkerData l] => l
                  | _ => zero_localActivityMarkerData
                  end in
      let markerBytes := default [] markerData in
      match wc_pendingLaTasks e !! lamd_ActivityID lamd with
      | Some la =>
          (if (0 <? String.length (lamd_ActivityType lamd))%nat
              && negb (String.eqb (lastPartOfName (lamd_ActivityType lamd))
                         (lastPartOfName (lap_ActivityType (lat_params la))))
           then liftH (panicIllegalState
                         ("code execute local activity "
                          +:+ lap_ActivityType (lat_params la)
                          +:+ ", but history event found " +:+ lamd_ActivityType lamd
                          +:+ ", markerData: " +:+ string_of_list_byte markerBytes))
           else ret tt) ;;;
          liftH (helper_recordLocalActivityMarker (lamd_ActivityID lamd) markerBytes) ;;;
          modify (fun e => set_wc_pendingLaTasks
                             (delete (lamd_ActivityID lamd) (wc_pendingLaTasks e)) e) ;;;
          modify (fun e => set_wc_unstartedLaTasks
                             (wc_unstartedLaTasks e ∖ {[lamd_ActivityID lamd]}) e) ;;;
          let lar :=
            if (0 <? String.length (lamd_ErrReason lamd))%nat then
              {| lar_err := Some (constructError (lamd_ErrReason lamd)
                                    (list_byte_of_string (lamd_ErrJSON lamd)));
                 lar_result := None;
                 lar_attempt := lamd_Attempt lamd;
                 lar_backoff := lamd_Backoff lamd |}
            else if (0 <? String.length (lamd_ResultJSON lamd))%nat then
              {| lar_err := None;
                 lar_result := Some (list_byte_of_string (lamd_ResultJSON lamd));
                 lar_attempt := 0; lar_backoff := 0 |}
            else
              {| lar_err := None; lar_result := None;
                 lar_attempt := 0; lar_backoff := 0 |} in
          logCall (call_laResultHandler (lat_callback la) lar) ;;;
          SetCurrentReplayTime now (lamd_ReplayTime lamd) ;;;
          OnDecisionTaskStarted ;;;
          ret None
      | None => ret None
      end
  end.

Definition handleMarkerRecorded (now : Time) (eventID : Z) (markerName : string)
    (details : option bytes) : M env (option goError) :=
  e <- get ;;
  let dc := wc_dataConverter e in
  if String.eqb markerName sideEffectMarkerName then
    let vals := fst (EncodedValues_Get dc details [VInt32 0; VBytes []]) in
    let sideEffectID := match vals with VInt32 i :: _ => i | _ => 0 end in
    let result := match vals with [_; VBytes r] => r | _ => [] end in
    modify (fun e => set_wc_sideEffectResult
                       (<[sideEffectID := result]> (wc_sideEffectResult e)) e) ;;;
    ret None
  else if String.eqb markerName versionMarkerName then
    let vals := fst (EncodedValues_Get dc details [VString ""; VVersion 0]) in
    let changeID := match vals with VString s :: _ => s | _ => "" end in
    let version := match vals with [_; VVersion v] => v | _ => 0 end in
    modify (fun e => set_wc_changeVersions
                       (<[changeID := version]> (wc_changeVersions e)) e) ;;;
    ret None
  else if String.eqb markerName localActivityMarkerName then
    handleLocalActivityMarker now details
  else if String.eqb markerName mutableSideEffectMarkerName then
    let vals := fst (EncodedValues_Get dc details [VString ""; VString ""]) in
    let fixedID := match vals with VString s :: _ => s | _ => "" end in
    let result := match vals with [_; VString r] => r | _ => "" end in
    modify (fun e => set_wc_mutableSideEffect
                       (<[fixedID := list_byte_of_string result]>
                          (wc_mutableSideEffect e)) e) ;;;
    ret None
  else
    ret (Some (Errorf ("unknown marker name " +:+ dquote +:+ markerName +:+ dquote
                       +:+ " for eventID " +:+ dquote +:+ fmt_int eventID +:+ dquote))).

Definition handleWorkflowExecutionSignaled (signalName : string) (input : bytes)
    : M env unit :=
  e <- get ;;
  match wc_signalHandler e with
  | Some f => logCall (call_signalHandler f signalName input)
  | None => nilDereference
  end.

Definition handleStartChildWorkflowExecutionFailed (childWorkflowID : string)
    : M env (option goError) :=
  decision <- liftH (helper_handleStartChildWorkflowExecutionFailed childWorkflowID) ;;
  c <- asScheduledChildWorkflow (dsm_getData decision) ;;
  let (p, childWorkflow) := c in
  if child_handled childWorkflow then ret None
  else
    let err := WorkflowExecutionAlreadyStartedError "Workflow execution already started" in
    logCall (call_startedCallback (child_startedCallback childWorkflow) "" "" (Some err)) ;;;
    scheduledChildWorkflow_handle p None (Some err) ;;;
    ret None.

Definition handleChildWorkflowExecutionStarted (childWorkflowID childRunID : string)
    : M env (option goError) :=
  decision <- liftH (helper_handleChildWorkflowExecutionStarted childWorkflowID) ;;
  c <- asScheduledChildWorkflow (dsm_getData decision) ;;
  let (p, childWorkflow) := c in
  if child_handled childWorkflow then ret None
  else
    logCall (call_startedCallback (child_startedCallback childWorkflow)
               childWorkflowID childRunID None) ;;;
    ret None.

Definition handleChildWorkflowExecutionCompleted (childWorkflowID : string)
    (result : bytes) : M env (option goError) :=
  decision <- liftH (helper_handleChildWorkflowExecutionClosed childWorkflowID) ;;
  c <- asScheduledChildWorkflow (dsm_getData decision) ;;
  let (p, childWorkflow) := c in
  if child_handled childWorkflow then ret None
  else scheduledChildWorkflow_handle p (Some result) None ;;; ret None.

Definition handleChildWorkflowExecutionFailed (childWorkflowID : string)
    (reason : string) (details : bytes) : M env (option goError) :=
  decision <- liftH (helper_handleChildWorkflowExecutionClosed childWorkflowID) ;;
  c <- asScheduledChildWorkflow (dsm_getData decision) ;;
  let (p, childWorkflow) := c in
  if child_handled childWorkflow then ret None
  else
    let err := constructError reason details in
    scheduledChildWorkflow_handle p None (Some err) ;;; ret None.

Definition handleChildWorkflowExecutionCanceled (childWorkflowID : string)
    (details : option bytes) : M env (option goError) :=
  decision <- liftH (helper_handleChildWorkflowExecutionCanceled childWorkflowID) ;;
  c <- asScheduledChildWorkflow (dsm_getData decision) ;;
  let (p, childWorkflow) := c in
  if child_handled childWorkflow then ret None
  else
    let err := NewCanceledError details in
    scheduledChildWorkflow_handle p None (Some err) ;;; ret None.

Definition handleChildWorkflowExecutionTimedOut (childWorkflowID : string)
    (timeoutType : Z) : M env (option goError) :=
  decision <- liftH (helper_handleChildWorkflowExecutionClosed childWorkflowID) ;;
  c <- asScheduledChildWorkflow (dsm_getData decision) ;;
  let (p, childWorkflow) := c in
  if child_handled childWorkflow then ret None
  else
    let err := NewTimeoutError timeoutType None in
    scheduledChildWorkflow_handle p None (Some err) ;;; ret None.

Definition handleChildWorkflowExecutionTerminated (childWorkflowID : string)
    : M env (option goError) :=
  decision <- liftH (helper_handleChildWorkflowExecutionClosed childWorkflowID) ;;
  c <- asScheduledChildWorkflow (dsm_getData decision) ;;
  let (p, childWorkflow) := c in
  if child_handled childWorkflow then ret None
  else
    let err := newTerminatedError in
    scheduledChildWorkflow_handle p None (Some err) ;;; ret None.

Definition handleUpsertWorkflowSearchAttributes (attrs : option SearchAttributes)
    : M env unit :=
  updateWorkflowInfoWithSearchAttributes attrs.

Definition handleRequestCancelExternalWorkflowExecutionInitiated (eventID : Z)
    (workflowID : string) (control : bytes) : M env (option goError) :=
  let cancellationID := string_of_list_byte control in
  liftH (helper_handleRequestCancelExternalWorkflowExecutionInitiated
           eventID workflowID cancellationID) ;;;
  ret None.

Definition handleExternalWorkflowExecutionCancelRequested (initiatedEventID : Z)
    (workflowID : string) : M env (option goError) :=
  r <- liftH (helper_handleExternalWorkflowExecutionCancelRequested
                initiatedEventID workflowID) ;;
  let (isExternal, decision) := r in
  if isExternal then
    c <- asScheduledCancellation (dsm_getData decision) ;;
    let (p, cancellation) := c in
    if cancellation_handled cancellation then ret None
    else scheduledCancellation_handle p None None ;;; ret None
  else ret None.

Definition handleRequestCancelExternalWorkflowExecutionFailed (initiatedEventID : Z)
    (workflowID : string) (cause : Z) : M env (option goError) :=
  r <- liftH (helper_handleRequestCancelExternalWorkflowExecutionFailed
                initiatedEventID workflowID) ;;
  let (isExternal, decision) := r in
  if isExternal then
    c <- asScheduledCancellation (dsm_getData decision) ;;
    let (p, cancellation) := c in
    if cancellation_handled cancellation then ret None
    else
      let err := Errorf ("cancel external workflow failed, " +:+ fmt_Cause cause) in
      scheduledCancellation_handle p None (Some err) ;;; ret None
  else ret None.

Definition handleSignalExternalWorkflowExecutionCompleted (initiatedEventID : Z)
    : M env (option goError) :=
  decision <- liftH (helper_handleSignalExternalWorkflowExecutionCompleted
                       initiatedEventID) ;;
  s <- asScheduledSignal (dsm_getData decision) ;;
  let (p, signal) := s in
  if signal_handled signal then ret None
  else scheduledSignal_handle p None None ;;; ret None.

Definition handleSignalExternalWorkflowExecutionFailed (initiatedEventID : Z)
    (cause : Z) : M env (option goError) :=
  decision <- liftH (helper_handleSignalExternalWorkflowExecutionFailed
                       initiatedEventID) ;;
  s <- asScheduledSignal (dsm_getData decision) ;;
  let (p, signal) := s in
  if signal_handled signal then ret None
  else
    let err :=
      if cause =? SIGNAL_FAILED_CAUSE_UNKNOWN_EXTERNAL_WORKFLOW_EXECUTION
      then newUnknownExternalWorkflowExecutionError
      else Errorf ("signal external workflow failed, " +:+ fmt_Cause cause) in
    scheduledSignal_handle p None (Some err) ;;; ret None.

Definition isDecisionTaskStarted (event : HistoryEvent) : bool :=
  match Attributes event with
  | DecisionTaskStartedEventAttributes => true
  | _ => false
  end.

(** The body of [ProcessEvent] for a non-nil event, before the deferred
    [recover]. *)
Definition ProcessEvent_body (now : Time) (event : HistoryEvent)
    (isReplay isLast : bool) : M env (option goError) :=
  modify (set_wc_isReplay isReplay) ;;;
  err <-
    match Attributes event with
    | WorkflowExecutionStartedEventAttributes header input =>
        handleWorkflowExecutionStarted header input
    | DecisionTaskStartedEventAttributes =>
        SetCurrentReplayTime now (EventTime event) ;;;
        OnDecisionTaskStarted ;;;
        ret None
    | ActivityTaskScheduledEventAttributes activityId =>
        liftH (helper_handleActivityTaskScheduled (EventId event) activityId) ;;;
        ret None
    | ActivityTaskCompletedEventAttributes _ result =>
        handleActivityTaskCompleted event result
    | ActivityTaskFailedEventAttributes _ reason details =>
        handleActivityTaskFailed event reason details
    | ActivityTaskTimedOutEventAttributes _ reason lastDetails timeoutType details =>
        handleActivityTaskTimedOut event reason lastDetails timeoutType details
    | ActivityTaskCancelRequestedEventAttributes activityId =>
        liftH (helper_handleActivityTaskCancelRequested activityId) ;;;
        ret None
    | RequestCancelActivityTaskFailedEventAttributes activityId =>
        liftH (helper_handleRequestCancelActivityTaskFailed activityId) ;;;
        ret None
    | ActivityTaskCanceledEventAttributes _ details =>
        handleActivityTaskCanceled event details
    | TimerStartedEventAttributes timerId =>
        liftH (helper_handleTimerStarted timerId) ;;;
        ret None
    | TimerFiredEventAttributes timerId =>
        handleTimerFired timerId ;;;
        ret None
    | TimerCanceledEventAttributes timerId =>
        liftH (helper_handleTimerCanceled timerId) ;;;
        ret None
    | CancelTimerFailedEventAttributes timerId =>
        liftH (helper_handleCancelTimerFailed timerId) ;;;
        ret None
    | WorkflowExecutionCancelRequestedEventAttributes =>
        handleWorkflowExecutionCancelRequested ;;;
        ret None
    | RequestCancelExternalWorkflowExecutionInitiatedEventAttributes workflowId control =>
        handleRequestCancelExternalWorkflowExecutionInitiated
          (EventId event) workflowId control ;;;
        ret None
    | RequestCancelExternalWorkflowExecutionFailedEventAttributes
        initiatedEventId workflowId cause =>
        handleRequestCancelExternalWorkflowExecutionFailed
          initiatedEventId workflowId cause ;;;
        ret None
    | ExternalWorkflowExecutionCancelRequestedEventAttributes
        initiatedEventId workflowId =>
        handleExternalWorkflowExecutionCancelRequested initiatedEventId workflowId ;;;
        ret None
    | WorkflowExecutionSignaledEventAttributes signalName input =>
        handleWorkflowExecutionSignaled signalName input ;;;
        ret None
    | SignalExternalWorkflowExecutionInitiatedEventAttributes control =>
        let signalID := string_of_list_byte control in
        liftH (helper_handleSignalExternalWorkflowExecutionInitiated
                 (EventId event) signalID) ;;;
        ret None
    | SignalExternalWorkflowExecutionFailedEventAttributes initiatedEventId cause =>
        handleSignalExternalWorkflowExecutionFailed initiatedEventId cause ;;;
        ret None
    | ExternalWorkflowExecutionSignaledEventAttributes initiatedEventId =>
        handleSignalExternalWorkflowExecutionCompleted initiatedEventId ;;;
        ret None
    | MarkerRecordedEventAttributes markerName details =>
        handleMarkerRecorded now (EventId event) markerName details
    | StartChildWorkflowExecutionInitiatedEventAttributes workflowId =>
        liftH (helper_handleStartChildWorkflowExecutionInitiated workflowId) ;;;
        ret None
    | StartChildWorkflowExecutionFailedEventAttributes workflowId =>
        handleStartChildWorkflowExecutionFailed workflowId
    | ChildWorkflowExecutionStartedEventAttributes workflowId runId =>
        handleChildWorkflowExecutionStarted workflowId runId
    | ChildWorkflowExecutionCompletedEventAttributes workflowId result =>
        handleChildWorkflowExecutionCompleted workflowId result
    | ChildWorkflowExecutionFailedEventAttributes workflowId reason details =>
        handleChildWorkflowExecutionFailed workflowId reason details
    | ChildWorkflowExecutionCanceledEventAttributes workflowId details =>
        handleChildWorkflowExecutionCanceled workflowId details
    | ChildWorkflowExecutionTimedOutEventAttributes workflowId timeoutType =>
        handleChildWorkflowExecutionTimedOut workflowId timeoutType
    | ChildWorkflowExecutionTerminatedEventAttributes workflowId =>
        handleChildWorkflowExecutionTerminated workflowId
    | UpsertWorkflowSearchAttributesEventAttributes attrs =>
        handleUpsertWorkflowSearchAttributes attrs ;;;
        ret None
    | WorkflowExecutionCompletedEventAttributes
    | WorkflowExecutionFailedEventAttributes
    | WorkflowExecutionTimedOutEventAttributes
    | DecisionTaskScheduledEventAttributes
    | DecisionTaskTimedOutEventAttributes
    | DecisionTaskFailedEventAttributes
    | DecisionTaskCompletedEventAttributes
    | ActivityTaskStartedEventAttributes
    | WorkflowExecutionCanceledEventAttributes
    | WorkflowExecutionContinuedAsNewEventAttributes
    | OtherEventAttributes _ => ret None
    end ;;
  match err with
  | Some _ => ret err
  | None =>
      if isLast && negb (isDecisionTaskStarted event)
      then OnDecisionTaskStarted ;;; ret None
      else ret None
  end.

(** [weh.metricsScope.Counter(metrics.DecisionTaskPanicCounter).Inc(1)]:
    the counter has no effect here, but the call is made on the scope and
    panics when the scope is nil. *)
Definition countDecisionTaskPanic : M env unit :=
  e <- get ;;
  match wc_metricsScope e with
  | Some _ => ret tt
  | None => nilDereference
  end.

(** The deferred function of [ProcessEvent]: a panic is recovered, counted
    and handed to the completion handler.  A panic of the deferred function
    itself leaves [ProcessEvent] as a panic. *)
Definition recoverAndComplete (c : M env (option goError)) : M env (option goError) :=
  fun e => match c e with
           | (Panicked p, e') =>
               (countDecisionTaskPanic ;;;
                Complete None (Some (newWorkflowPanicError p)) ;;;
                ret None) e'
           | r => r
           end.

Definition ProcessEvent (now : Time) (event : option HistoryEvent)
    (isReplay isLast : bool) : M env (option goError) :=
  match event with
  | None => ret (Some (Errorf "nil event provided"))
  | Some event => recoverAndComplete (ProcessEvent_body now event isReplay isLast)
  end.

(** [len(result)] as a Go [int]. *)
Definition len (b : bytes) : Z := Z.of_nat (length b).

Definition encodeArg (arg : goValue) : M env (bytes * option goError) :=
  e <- get ;; ret (ToData (wc_dataConverter e) [arg]).

Definition ProcessQuery (queryType : string) (queryArgs : bytes)
    : M env (option bytes * option goError) :=
  if String.eqb queryType QueryTypeStackTrace then
    st <- StackTrace ;;
    r <- encodeArg (VString st) ;;
    ret (Some (fst r), snd r)
  else if String.eqb queryType QueryTypeOpenSessions then
    e <- get ;;
    r <- encodeArg (VSessions (getOpenSessions e)) ;;
    ret (Some (fst r), snd r)
  else
    e <- get ;;
    match wc_queryHandler e with
    | None => nilDereference
    | Some queryHandler =>
        match queryHandler queryType queryArgs with
        | (_, Some err) => ret (None, Some err)
        | (result, None) =>
            let resultSize := len result in
            if queryResultSizeLimit <? resultSize then
              ret (None,
                   Some (Errorf ("query result size (" +:+ fmt_int resultSize
                                 +:+ ") exceeds limit ("
                                 +:+ fmt_int queryResultSizeLimit +:+ ")")))
            else ret (Some result, None)
        end
    end.

Record localActivityResult : Type := {
  lres_task : localActivityTask;
  lres_err : option goError;
  lres_result : bytes;
  lres_backoff : Z }.

(** [now] and [now'] are the two readings of the wall clock, the first
    taken here and the second when the marker event is applied. *)
Definition ProcessLocalActivityResult (now now' : Time) (lar : localActivityResult)
    : M env (option goError) :=
  e <- get ;;
  let replayTime := wc_currentReplayTime e + (now - wc_currentLocalTime e) in
  let lamd :=
    match lres_err lar with
    | Some err =>
        let (errReason, errDetails) := getErrorDetails err (wc_dataConverter e) in
        {| lamd_ActivityID := lat_activityID (lres_task lar);
           lamd_ActivityType := lap_ActivityType (lat_params (lres_task lar));
           lamd_ErrReason := errReason;
           lamd_ErrJSON := string_of_list_byte errDetails;
           lamd_ResultJSON := "";
           lamd_ReplayTime := replayTime;
           lamd_Attempt := lat_attempt (lres_task lar);
           lamd_Backoff := lres_backoff lar |}
    | None =>
        {| lamd_ActivityID := lat_activityID (lres_task lar);
           lamd_ActivityType := lap_ActivityType (lat_params (lres_task lar));
           lamd_ErrReason := "";
           lamd_ErrJSON := "";
           lamd_ResultJSON := string_of_list_byte (lres_result lar);
           lamd_ReplayTime := replayTime;
           lamd_Attempt := lat_attempt (lres_task lar);
           lamd_Backoff := 0 |}
    end in
  r <- encodeArg (VLocalActivityMarkerData lamd) ;;
  match r with
  | (_, Some err) => ret (Some err)
  | (markerData, None) =>
      let markerEvent :=
        {| EventId := 0; EventTime := 0;
           Attributes := MarkerRecordedEventAttributes localActivityMarkerName
                           (Some markerData) |} in
      ProcessEvent now' (Some markerEvent) false false
  end.

(** [newWorkflowExecutionEventHandler]: the environment a workflow run
    starts with.  The zero [time.Time] is 0.  The metrics scope is set only
    when [scope] is not nil (the tags it gets have no effect here). *)
Definition newWorkflowExecutionEventHandler (workflowInfo : WorkflowInfo)
    (completeHandler : option handlerRef) (enableLoggingInReplay : bool)
    (scope : option ref)
    (registry : string -> option workflowDefinition * option goError)
    (dataConverter : DataConverter) : env :=
  {| wc_workflowInfo := workflowInfo;
     wc_decisionsHelper := newDecisionsHelper;
     wc_sideEffectResult := ∅;
     wc_changeVersions := ∅;
     wc_pendingLaTasks := ∅;
     wc_mutableSideEffect := ∅;
     wc_unstartedLaTasks := ∅;
     wc_openSessions := ∅;
     wc_counterID := 0;
     wc_currentReplayTime := 0;
     wc_currentLocalTime := 0;
     wc_completeHandler := completeHandler;
     wc_cancelHandler := None;
     wc_signalHandler := None;
     wc_queryHandler := None;
     wc_isReplay := false;
     wc_enableLoggingInReplay := enableLoggingInReplay;
     wc_registry := registry;
     wc_dataConverter := dataConverter;
     wc_metricsScope := scope;
     weh_workflowDefinition := None;
     wc_waiters := ∅;
     wc_nextWaiter := 0%N;
     wc_calls := [] |}.

(** * Notions used in the statements *)

(** The keys of the collection, front first. *)
Definition keys (h : decisionsHelper) : list decisionID :=
  id <$> orderedDecisions h.

(** The machine after [moveState]. *)
Definition moved (s : decisionState) (ev : string) (d : decisionStateMachine) :=
  add_history (decisionState_String s) (set_state s (add_history ev d)).

(** The methods of the interface, as events applied to a machine. *)
Inductive dsmEvent : Set :=
| evCancel | evDecisionSent | evInitiated | evInitiationFailed | evStarted
| evCompletion | evCancelInitiated | evCancelFailed | evCanceled.

Definition dsm_apply (ev : dsmEvent) (d : decisionStateMachine)
    : M decisionsHelper decisionStateMachine :=
  match ev with
  | evCancel => dsm_cancel d
  | evDecisionSent => dsm_handleDecisionSent d
  | evInitiated => dsm_handleInitiatedEvent d
  | evInitiationFailed => dsm_handleInitiationFailedEvent d
  | evStarted => dsm_handleStartedEvent d
  | evCompletion => dsm_handleCompletionEvent d
  | evCancelInitiated => dsm_handleCancelInitiatedEvent d
  | evCancelFailed => dsm_handleCancelFailedEvent d
  | evCanceled => dsm_handleCanceledEvent d
  end.

(** Applying a list of events in turn; the result lists, after each event,
    the state reached and the decision the machine offers there. *)

Fixpoint dsm_trace (evs : list dsmEvent) (d : decisionStateMachine)
    : M decisionsHelper (list (decisionState * option Decision)) :=
  match evs with
  | [] => ret []
  | ev :: evs' =>
      d' <- dsm_apply ev d ;;
      rest <- dsm_trace evs' d' ;;
      ret ((state d', dsm_getDecision d') :: rest)
  end.

(** Applying a list of events in turn; the result is the machine reached. *)

Fixpoint dsm_run (evs : list dsmEvent) (d : decisionStateMachine)
    : M decisionsHelper decisionStateMachine :=
  match evs with
  | [] => ret d
  | ev :: evs' => d' <- dsm_apply ev d ;; dsm_run evs' d'
  end.

Definition timerOf (d : decisionStateMachine) : option (StartTimerDecisionAttributes * bool) :=
  match kind d with
  | timerDecisionStateMachine a c => Some (a, c)
  | _ => None
  end.


(** The helper with one machine in its collection. *)
Definition holding (d : decisionStateMachine) : decisionsHelper :=
  set_orderedDecisions [d] newDecisionsHelper.

Definition isCancelTimer (x : option Decision) : bool :=
  match x with
  | Some (Decision_CancelTimerDecisionAttributes _) => true
  | _ => false
  end.

(** The run of scenario 3 through the helper: start a timer, send the
    decisions, cancel, send, apply TimerStarted, send, apply TimerCanceled,
    send.  The result lists the four batches of decisions. *)

Definition timerCanceledBeforeStarted (a : StartTimerDecisionAttributes)
    : M decisionsHelper (list (list Decision)) :=
  helper_startTimer a ;;;
  ds1 <- helper_getDecisions true ;;
  helper_cancelTimer (st_TimerId a) ;;;
  ds2 <- helper_getDecisions true ;;
  helper_handleTimerStarted (st_TimerId a) ;;;
  ds3 <- helper_getDecisions true ;;
  helper_handleTimerCanceled (st_TimerId a) ;;;
  ds4 <- helper_getDecisions true ;;
  ret [ds1; ds2; ds3; ds4].

(** The operations of the helper that create a machine. *)
Inductive creation : Type :=
| byAddDecision (decision : decisionStateMachine)
| byScheduleActivityTask (attributes : ScheduleActivityTaskDecisionAttributes)
| byStartTimer (attributes : StartTimerDecisionAttributes)
| byStartChildWorkflowExecution
    (attributes : StartChildWorkflowExecutionDecisionAttributes)
| byRequestCancelExternalWorkflowExecution
    (domain workflowID runID cancellationID : string)
| bySignalExternalWorkflowExecution (domain workflowID runID signalName : string)
    (input : bytes) (signalID : string) (childWorkflowOnly : bool)
| byUpsertSearchAttributes (upsertID : string) (searchAttr : option SearchAttributes)
| byRecordVersionMarker (changeID : string) (version : Z) (dc : DataConverter)
| byRecordSideEffectMarker (sideEffectID : Z) (data : bytes)
| byRecordLocalActivityMarker (activityID : string) (result : bytes)
| byRecordMutableSideEffectMarker (mutableSideEffectID : string) (data : bytes).

Definition create (c : creation) : M decisionsHelper unit :=
  match c with
  | byAddDecision d => helper_addDecision d
  | byScheduleActivityTask a => helper_scheduleActivityTask a ;;; ret tt
  | byStartTimer a => helper_startTimer a ;;; ret tt
  | byStartChildWorkflowExecution a => helper_startChildWorkflowExecution a ;;; ret tt
  | byRequestCancelExternalWorkflowExecution domain workflowID runID cancellationID =>
      helper_requestCancelExternalWorkflowExecution
        domain workflowID runID cancellationID false ;;; ret tt
  | bySignalExternalWorkflowExecution domain workflowID runID signalName input
      signalID childWorkflowOnly =>
      helper_signalExternalWorkflowExecution domain workflowID runID signalName input
        signalID childWorkflowOnly ;;; ret tt
  | byUpsertSearchAttributes upsertID searchAttr =>
      helper_upsertSearchAttributes upsertID searchAttr ;;; ret tt
  | byRecordVersionMarker changeID version dc =>
      helper_recordVersionMarker changeID version dc ;;; ret tt
  | byRecordSideEffectMarker i data => helper_recordSideEffectMarker i data ;;; ret tt
  | byRecordLocalActivityMarker i result =>
      helper_recordLocalActivityMarker i result ;;; ret tt
  | byRecordMutableSideEffectMarker i data =>
      helper_recordMutableSideEffectMarker i data ;;; ret tt
  end.

(** The key under which a creating operation adds its machine. *)

Definition createdKey (c : creation) : decisionID :=
  match c with
  | byAddDecision d => dsm_getID d
  | byScheduleActivityTask a => makeDecisionID decisionTypeActivity (sat_ActivityId a)
  | byStartTimer a => makeDecisionID decisionTypeTimer (st_TimerId a)
  | byStartChildWorkflowExecution a =>
      makeDecisionID decisionTypeChildWorkflow (scw_WorkflowId a)
  | byRequestCancelExternalWorkflowExecution _ _ _ cancellationID =>
      makeDecisionID decisionTypeCancellation cancellationID
  | bySignalExternalWorkflowExecution _ _ _ _ _ signalID _ =>
      makeDecisionID decisionTypeSignal signalID
  | byUpsertSearchAttributes upsertID _ =>
      makeDecisionID decisionTypeUpsertSearchAttributes upsertID
  | byRecordVersionMarker changeID _ _ =>
      makeDecisionID decisionTypeMarker (versionMarkerName +:+ "_" +:+ changeID)
  | byRecordSideEffectMarker i _ =>
      makeDecisionID decisionTypeMarker (sideEffectMarkerName +:+ "_" +:+ fmt_int i)
  | byRecordLocalActivityMarker i _ =>
      makeDecisionID decisionTypeMarker (localActivityMarkerName +:+ "_" +:+ i)
  | byRecordMutableSideEffectMarker i _ =>
      makeDecisionID decisionTypeMarker (mutableSideEffectMarkerName +:+ "_" +:+ i)
  end.

(** Whether the operation gets as far as [addDecision]: cancelling an
    external workflow checks its cancellation ID first, and the version
    marker encodes its details first. *)

Definition reachesAddDecision (c : creation) : bool :=
  match c with
  | byRequestCancelExternalWorkflowExecution _ _ _ cancellationID =>
      negb (String.length cancellationID =? 0)%nat
  | byRecordVersionMarker changeID version dc =>
      match encodeArgs dc [VString changeID; VVersion version] with
      | (_, None) => true
      | (_, Some _) => false
      end
  | _ => true
  end.

Definition isDuplicatePanic (k : decisionID) (p : panicValue) : Prop :=
  exists rest : string,
    p = stateMachineIllegalStatePanic
          ("adding duplicate decision " +:+ decisionID_String k +:+ rest).

(** The decisions the machines of a collection offer, front first: what
    [getDecisions] returns. *)
Definition offered (h : decisionsHelper) : list Decision :=
  omap dsm_getDecision (orderedDecisions h).

(** A RecordMarker decision. *)
Definition recordMarker (markerName : string) (details : bytes) : Decision :=
  Decision_RecordMarkerDecisionAttributes
    {| rm_MarkerName := markerName; rm_Details := details |}.

(** The machine a side effect is recorded with, written out: a marker
    machine in state Created under the key Marker, SideEffect_<ID>, that
    carries the RecordMarker decision with the name SideEffect and the
    details. *)
Definition sideEffectMarker (sideEffectID : Z) (details : bytes) : decisionStateMachine :=
  {| id := {| decisionID_decisionType := decisionTypeMarker;
              decisionID_id := "SideEffect_" +:+ fmt_int sideEffectID |};
     state := decisionStateCreated;
     history := ["Created"];
     data := None;
     kind := markerDecisionStateMachine (recordMarker "SideEffect" details) |}.

(** The environment after [SideEffect] took sequence number [wc_counterID e],
    added the machines [added] at the back of the collection and made the
    calls [made]. *)
Definition afterSideEffect (e : env) (added : list decisionStateMachine)
    (made : list outcall) : env :=
  set_wc_calls (wc_calls e ++ made)
    (set_wc_decisionsHelper
       (set_orderedDecisions
          (orderedDecisions (wc_decisionsHelper e) ++ added) (wc_decisionsHelper e))
       (set_wc_counterID (wrap_int32 (wc_counterID e + 1)) e)).

Definition inRange (version minSupported maxSupported : Z) : bool :=
  (minSupported <=? version) && (version <=? maxSupported).

(** The machine a version is recorded with, written out: a marker machine
    in state Created under the key Marker, Version_<changeID>, that carries
    the RecordMarker decision with the name Version and the details. *)
Definition versionMarker (changeID : string) (details : bytes) : decisionStateMachine :=
  {| id := {| decisionID_decisionType := decisionTypeMarker;
              decisionID_id := "Version_" +:+ changeID |};
     state := decisionStateCreated;
     history := ["Created"];
     data := None;
     kind := markerDecisionStateMachine (recordMarker "Version" details) |}.

(** The search attributes [GetVersion] upserts: the reserved key, bound to
    the JSON encoding [encoded] of the list of change versions. *)
Definition changeVersionAttributes (encoded : bytes) : SearchAttributes :=
  {| IndexedFields := {[ "CadenceChangeVersion" := encoded ]} |}.

(** The UpsertWorkflowSearchAttributes decision that binds the reserved key
    CadenceChangeVersion to [encoded]. *)
Definition upsertChangeVersion (encoded : bytes) : Decision :=
  Decision_UpsertWorkflowSearchAttributesDecisionAttributes
    {| up_SearchAttributes :=
         Some {| IndexedFields := {[ "CadenceChangeVersion" := encoded ]} |} |}.

(** The machine the upsert is recorded with, written out: a machine in
    state Created under the key UpsertSearchAttributes,
    <changeID>-<version>, that carries this decision. *)
Definition changeVersionUpsert (changeID : string) (version : Z) (encoded : bytes)
    : decisionStateMachine :=
  {| id := {| decisionID_decisionType := decisionTypeUpsertSearchAttributes;
              decisionID_id := changeID +:+ "-" +:+ fmt_int version |};
     state := decisionStateCreated;
     history := ["Created"];
     data := None;
     kind := upsertSearchAttributesDecisionStateMachine (upsertChangeVersion encoded) |}.

(** The environment after the machines [added] were put at the back of the
    collection. *)
Definition withAdded (added : list decisionStateMachine) (e : env) : env :=
  set_wc_decisionsHelper
    (set_orderedDecisions
       (orderedDecisions (wc_decisionsHelper e) ++ added) (wc_decisionsHelper e)) e.

(** The environment after the change-version attributes were merged into
    the workflow info. *)
Definition withChangeVersionAttributes (encoded : bytes) (e : env) : env :=
  set_wc_workflowInfo
    (set_wi_SearchAttributes
       (Some {| IndexedFields :=
                  {[ "CadenceChangeVersion" := encoded ]}
                  ∪ match wi_SearchAttributes (wc_workflowInfo e) with
                    | Some current => IndexedFields current
                    | None => ∅
                    end |})
       (wc_workflowInfo e)) e.

Definition withChangeVersion (changeID : string) (version : Z) (e : env) : env :=
  set_wc_changeVersions (<[changeID := version]> (wc_changeVersions e)) e.

(** The machine after [handleDecisionSent] (the method never panics, and
    the machine it leaves does not depend on the collection). *)
Definition afterDecisionSent (d : decisionStateMachine) : decisionStateMachine :=
  match fst (dsm_handleDecisionSent d newDecisionsHelper) with
  | Returned d' => d'
  | Panicked _ => d
  end.

(** What [getDecisions] leaves of a machine in the collection: the machine
    as it is after the optional [handleDecisionSent], unless it is
    Completed. *)
Definition keptByGetDecisions (markAsSent : bool) (d : decisionStateMachine)
    : option decisionStateMachine :=
  let d' := if markAsSent then afterDecisionSent d else d in
  if isCompleted (state d') then None else Some d'.

(** A touch of the collection: a machine is added, a machine is looked up
    with [getDecision], or an event (or a local cancel request) is routed to
    the machine that [getDecision] finds under a key. *)
Inductive touch : Type :=
| touchAdd (d : decisionStateMachine)
| touchGet (k : decisionID)
| touchRoute (k : decisionID) (ev : dsmEvent).

Definition touchKey (t : touch) : decisionID :=
  match t with
  | touchAdd d => dsm_getID d
  | touchGet k => k
  | touchRoute k _ => k
  end.

Definition applyTouch (t : touch) : M decisionsHelper unit :=
  match t with
  | touchAdd d => helper_addDecision d
  | touchGet k => helper_getDecision k ;;; ret tt
  | touchRoute k ev =>
      d <- helper_getDecision k ;;
      dsm_apply ev d ;;;
      ret tt
  end.

Fixpoint applyTouches (ts : list touch) : M decisionsHelper unit :=
  match ts with
  | [] => ret tt
  | t :: ts' => applyTouch t ;;; applyTouches ts'
  end.

(** The keys of a list after the element with key [k] was removed. *)
Fixpoint withoutKey (k : decisionID) (ks : list decisionID) : list decisionID :=
  match ks with
  | [] => []
  | x :: ks' => if decide (x = k) then ks' else x :: withoutKey k ks'
  end.

(** What a decision task does to the collection: touches, and traversals by
    [getDecisions]. *)
Inductive helperOp : Type :=
| helperTouch (t : touch)
| helperGetDecisions (markAsSent : bool).

Definition runOp (o : helperOp) : M decisionsHelper unit :=
  match o with
  | helperTouch t => applyTouch t
  | helperGetDecisions markAsSent => helper_getDecisions markAsSent ;;; ret tt
  end.

Fixpoint runOps (os : list helperOp) : M decisionsHelper unit :=
  match os with
  | [] => ret tt
  | o :: os' => runOp o ;;; runOps os'
  end.

(** The keys touched by a sequence of operations, in the order of the
    touches. *)
Fixpoint touched (os : list helperOp) : list decisionID :=
  match os with
  | [] => []
  | helperTouch t :: os' => touchKey t :: touched os'
  | helperGetDecisions _ :: os' => touched os'
  end.

(** The keys of a collection that were touched, each once, in the order of
    their last touch; [remove_dups] keeps the last occurrence of a key. *)
Definition lastTouchOrder (os : list helperOp) : list decisionID :=
  remove_dups (touched os).

(** The keys after one operation, if every machine stays in the collection. *)
Definition keysAfter (o : helperOp) (ks : list decisionID) : list decisionID :=
  match o with
  | helperTouch t => filter (fun x => x <> touchKey t) ks ++ [touchKey t]
  | helperGetDecisions _ => ks
  end.

(** A computation keeps a relation between the environment it starts in and
    the environment it leaves, whether it returns or panics. *)
Definition preserves (P : env -> env -> Prop) {A} (c : M env A) : Prop :=
  forall e, P e (snd (c e)).

Definition clockMonotone (e e' : env) : Prop :=
  wc_currentReplayTime e <= wc_currentReplayTime e'.

Definition clockKept (e e' : env) : Prop :=
  wc_currentReplayTime e' = wc_currentReplayTime e.

(** The operations on a workflow environment: the methods the workflow code
    calls, and the entry points the worker calls. *)
Inductive envOp : Type :=
| opProcessEvent (now : Time) (event : option HistoryEvent) (isReplay isLast : bool)
| opProcessQuery (queryType : string) (queryArgs : bytes)
| opProcessLocalActivityResult (now now' : Time) (lar : localActivityResult)
| opStackTrace
| opClose
| opGetDecisions (markAsSent : bool)
| opSetCurrentReplayTime (now replayTime : Time)
| opNow
| opComplete (result : option bytes) (err : option goError)
| opGenerateSequence
| opGenerateSequenceID
| opIsReplaying
| opRegisterCancelHandler (handler : handlerRef)
| opRegisterSignalHandler (handler : handlerRef)
| opRegisterQueryHandler (handler : string -> bytes -> bytes * option goError)
| opExecuteActivity (parameters : executeActivityParams) (callback : handlerRef)
| opRequestCancelActivity (activityID : string)
| opExecuteLocalActivity (params : executeLocalActivityParams) (callback : handlerRef)
| opRequestCancelLocalActivity (activityID : string)
| opNewTimer (d : Z) (callback : handlerRef)
| opRequestCancelTimer (timerID : string)
| opExecuteChildWorkflow (params : executeWorkflowParams)
    (callback startedHandler : handlerRef)
| opRequestCancelChildWorkflow (domainName workflowID : string)
| opRequestCancelExternalWorkflow (domainName workflowID runID : string)
    (callback : handlerRef)
| opSignalExternalWorkflow (domainName workflowID runID signalName : string)
    (input : bytes) (childWorkflowOnly : bool) (callback : handlerRef)
| opUpsertSearchAttributes (attributes : gmap string goValue)
| opGetVersion (changeID : string) (minSupported maxSupported : Z)
| opSideEffect (f : unit -> bytes * option goError) (callback : handlerRef)
| opAddSession (sessionID : string) (sessionInfo : ref)
| opRemoveSession (sessionID : string).

Definition runEnvOp (o : envOp) : M env unit :=
  match o with
  | opProcessEvent now event isReplay isLast =>
      ProcessEvent now event isReplay isLast ;;; ret tt
  | opProcessQuery queryType queryArgs => ProcessQuery queryType queryArgs ;;; ret tt
  | opProcessLocalActivityResult now now' lar =>
      ProcessLocalActivityResult now now' lar ;;; ret tt
  | opStackTrace => StackTrace ;;; ret tt
  | opClose => Close
  | opGetDecisions markAsSent => liftH (helper_getDecisions markAsSent) ;;; ret tt
  | opSetCurrentReplayTime now replayTime => SetCurrentReplayTime now replayTime
  | opNow => Now ;;; ret tt
  | opComplete result err => Complete result err
  | opGenerateSequence => GenerateSequence ;;; ret tt
  | opGenerateSequenceID => GenerateSequenceID ;;; ret tt
  | opIsReplaying => IsReplaying ;;; ret tt
  | opRegisterCancelHandler handler => RegisterCancelHandler handler
  | opRegisterSignalHandler handler => RegisterSignalHandler handler
  | opRegisterQueryHandler handler => RegisterQueryHandler handler
  | opExecuteActivity parameters callback =>
      ExecuteActivity parameters callback ;;; ret tt
  | opRequestCancelActivity activityID => RequestCancelActivity activityID
  | opExecuteLocalActivity params callback =>
      ExecuteLocalActivity params callback ;;; ret tt
  | opRequestCancelLocalActivity activityID => RequestCancelLocalActivity activityID
  | opNewTimer d callback => NewTimer d callback ;;; ret tt
  | opRequestCancelTimer timerID => RequestCancelTimer timerID
  | opExecuteChildWorkflow params callback startedHandler =>
      ExecuteChildWorkflow params callback startedHandler ;;; ret tt
  | opRequestCancelChildWorkflow domainName workflowID =>
      RequestCancelChildWorkflow domainName workflowID
  | opRequestCancelExternalWorkflow domainName workflowID runID callback =>
      RequestCancelExternalWorkflow domainName workflowID runID callback
  | opSignalExternalWorkflow domainName workflowID runID signalName input
      childWorkflowOnly callback =>
      SignalExternalWorkflow domainName workflowID runID signalName input
        childWorkflowOnly callback
  | opUpsertSearchAttributes attributes => UpsertSearchAttributes attributes ;;; ret tt
  | opGetVersion changeID minSupported maxSupported =>
      GetVersion changeID minSupported maxSupported ;;; ret tt
  | opSideEffect f callback => SideEffect f callback
  | opAddSession sessionID sessionInfo => AddSession sessionID sessionInfo
  | opRemoveSession sessionID => RemoveSession sessionID
  end.

(** The environment after a sequence of operations; an operation that
    panics leaves the environment as the panic found it, and the life of
    the environment goes on from there. *)
Fixpoint runEnvOps (os : list envOp) (e : env) : env :=
  match os with
  | [] => e
  | o :: os' => runEnvOps os' (snd (runEnvOp o e))
  end.

(** What [Now()] returns before the first operation and after each one. *)
Fixpoint observedNow (os : list envOp) (e : env) : list Time :=
  match fst (Now e) with
  | Returned t =>
      t :: match os with
           | [] => []
           | o :: os' => observedNow os' (snd (runEnvOp o e))
           end
  | Panicked _ => []
  end.





(** ** Waiters *)

Definition handledOf (w : waiter) : bool :=
  match w with
  | dataTimer s => timer_handled s
  | dataActivity s => activity_handled s
  | dataChildWorkflow s => child_handled s
  | dataCancellation s => cancellation_handled s
  | dataSignal s => signal_handled s
  end.

(** The completion callback of a waiter. *)
Definition callbackOf (w : waiter) : handlerRef :=
  match w with
  | dataTimer s => timer_callback s
  | dataActivity s => activity_callback s
  | dataChildWorkflow s => child_resultCallback s
  | dataCancellation s => cancellation_callback s
  | dataSignal s => signal_callback s
  end.

(** The waiter with its [handled] flag set. *)
Definition markHandled (w : waiter) : waiter :=
  match w with
  | dataTimer s =>
      dataTimer {| timer_callback := timer_callback s; timer_handled := true |}
  | dataActivity s =>
      dataActivity {| activity_callback := activity_callback s;
                      activity_waitForCancelRequest := activity_waitForCancelRequest s;
                      activity_handled := true |}
  | dataChildWorkflow s =>
      dataChildWorkflow {| child_resultCallback := child_resultCallback s;
                           child_startedCallback := child_startedCallback s;
                           child_waitForCancellation := child_waitForCancellation s;
                           child_handled := true |}
  | dataCancellation s =>
      dataCancellation {| cancellation_callback := cancellation_callback s;
                          cancellation_handled := true |}
  | dataSignal s =>
      dataSignal {| signal_callback := signal_callback s; signal_handled := true |}
  end.



(** The waiter whose [handle] made a call, if any. *)
Definition callVia (c : outcall) : option waiterRef :=
  match c with
  | call_resultHandler via _ _ _ => via
  | _ => None
  end.

(** How often the completion callback of waiter [p] was invoked. *)
Definition invocations (p : waiterRef) (calls : list outcall) : nat :=
  length (filter (fun c => callVia c = Some p) calls).

(** The store of waiters and the log of calls agree: references not yet
    allocated hold nothing, and the callback of a waiter was invoked once if
    its flag is set and never if it is not. *)
Definition waitersConsistent (e : env) : Prop :=
  (forall p : waiterRef, (wc_nextWaiter e <= p)%N -> wc_waiters e !! p = None)
  /\ (forall p : waiterRef,
        invocations p (wc_calls e) =
          match wc_waiters e !! p with
          | Some w => if handledOf w then 1%nat else 0%nat
          | None => 0%nat
          end).

(** A waiter stays a waiter with the same callback, and a flag that is set
    stays set. *)
Definition flagsKept (e e' : env) : Prop :=
  forall (p : waiterRef) (w : waiter),
    wc_waiters e !! p = Some w ->
    exists w',
      wc_waiters e' !! p = Some w'
      /\ callbackOf w' = callbackOf w
      /\ (handledOf w = true -> handledOf w' = true).

Definition waitersStep (e e' : env) : Prop :=
  waitersConsistent e -> waitersConsistent e' /\ flagsKept e e'.



(** ** Notions for the further properties *)

(** No machine in the collection is Completed. *)
Definition noCompleted (h : decisionsHelper) : Prop :=
  Forall (fun d => state d <> decisionStateCompleted) (orderedDecisions h).

(** The machines a sequence of operations adds are added in state Created,
    as the constructors of the helper make them. *)
Fixpoint addsCreated (os : list helperOp) : Prop :=
  match os with
  | [] => True
  | helperTouch (touchAdd d) :: os' =>
      state d = decisionStateCreated /\ addsCreated os'
  | _ :: os' => addsCreated os'
  end.

(** The scheduled-event ID an activity close event carries, if the event is
    one of the four close events. *)
Definition closedScheduledEventID (event : HistoryEvent) : option Z :=
  match Attributes event with
  | ActivityTaskCanceledEventAttributes i _ => Some i
  | ActivityTaskCompletedEventAttributes i _ => Some i
  | ActivityTaskFailedEventAttributes i _ _ => Some i
  | ActivityTaskTimedOutEventAttributes i _ _ _ _ => Some i
  | _ => None
  end.

(** The completion handler and the metrics scope are the ones the
    environment was created with. *)
Definition completeHandlerKept (e e' : env) : Prop :=
  wc_completeHandler e' = wc_completeHandler e
  /\ wc_metricsScope e' = wc_metricsScope e.

(** The helper with machine [d] behind the machines it holds. *)
Definition withBack (d : decisionStateMachine) (h : decisionsHelper) : decisionsHelper :=
  set_orderedDecisions (orderedDecisions h ++ [d]) h.

(** A MarkerRecorded event. *)
Definition markerRecorded (eventID : Z) (markerName : string) (details : option bytes)
    : HistoryEvent :=
  {| EventId := eventID; EventTime := 0;
     Attributes := MarkerRecordedEventAttributes markerName details |}.

(** The marker of a local activity names another activity type than the
    code now executes. *)
Definition activityTypeMismatch (lamd : localActivityMarkerData) (la : localActivityTask)
    : bool :=
  (0 <? String.length (lamd_ActivityType lamd))%nat
  && negb (String.eqb (lastPartOfName (lamd_ActivityType lamd))
             (lastPartOfName (lap_ActivityType (lat_params la)))).

(** The result a local activity marker carries. *)
Definition markerResult (lamd : localActivityMarkerData) : localActivityResultWrapper :=
  if (0 <? String.length (lamd_ErrReason lamd))%nat then
    {| lar_err := Some (constructError (lamd_ErrReason lamd)
                          (list_byte_of_string (lamd_ErrJSON lamd)));
       lar_result := None;
       lar_attempt := lamd_Attempt lamd;
       lar_backoff := lamd_Backoff lamd |}
  else if (0 <? String.length (lamd_ResultJSON lamd))%nat then
    {| lar_err := None;
       lar_result := Some (list_byte_of_string (lamd_ResultJSON lamd));
       lar_attempt := 0; lar_backoff := 0 |}
  else
    {| lar_err := None; lar_result := None; lar_attempt := 0; lar_backoff := 0 |}.

(** The IDs that [n] calls of [GenerateSequenceID] in a row return. *)
Fixpoint sequenceIDs (n : nat) (e : env) : list string :=
  match n with
  | O => []
  | S n' =>
      match GenerateSequenceID e with
      | (Returned i, e') => i :: sequenceIDs n' e'
      | (Panicked _, _) => []
      end
  end.

(** The counter after [n] draws. *)
Fixpoint counterAfter (n : nat) (c : Z) : Z :=
  match n with
  | O => c
  | S n' => counterAfter n' (wrap_int32 (c + 1))
  end.

(** The map of change versions is as it was. *)
Definition changeVersionsSame (e e' : env) : Prop :=
  wc_changeVersions e' = wc_changeVersions e.

(** A version recorded for a change ID is still recorded. *)
Definition changeVersionKept (changeID : string) (version : Z) (e e' : env) : Prop :=
  wc_changeVersions e !! changeID = Some version ->
  wc_changeVersions e' !! changeID = Some version.

Definition isVersionMarker (event : HistoryEvent) : bool :=
  match Attributes event with
  | MarkerRecordedEventAttributes markerName _ =>
      String.eqb markerName versionMarkerName
  | _ => false
  end.

(** The operations that write a version the history recorded: processing
    the MarkerRecorded event of a Version marker. *)
Definition replaysVersionMarker (o : envOp) : bool :=
  match o with
  | opProcessEvent _ (Some event) _ _ => isVersionMarker event
  | _ => false
  end.

(** * Properties *)

(** A proof depends on the outside functions its statement depends on. *)
Set Default Proof Using "Type".

Ltac outside_free :=
  try clear GetHistoryEventType; try clear HistoryEventToString;
  try clear lastPartOfName; try clear json_Marshal; try clear getErrorDetails;
  try clear fmt_func; try clear fmt_Duration; try clear fmt_Cause;
  try clear QueryTypeStackTrace; try clear QueryTypeOpenSessions;
  try clear TIMEOUT_TYPE_START_TO_CLOSE;
  try clear SIGNAL_FAILED_CAUSE_UNKNOWN_EXTERNAL_WORKFLOW_EXECUTION.

Ltac tauto_here := outside_free; tauto.

(** ** The list primitives *)

Lemma hasKey_id (d : decisionStateMachine) : hasKey (id d) d = true.
Proof. unfold hasKey. apply bool_decide_eq_true_2. reflexivity. Qed.

Lemma hasKey_true (k : decisionID) (d : decisionStateMachine) :
  hasKey k d = true <-> id d = k.
Proof. unfold hasKey. apply bool_decide_eq_true. Qed.

Lemma hasKey_false (k : decisionID) (d : decisionStateMachine) :
  hasKey k d = false <-> id d <> k.
Proof. unfold hasKey. apply bool_decide_eq_false. Qed.

Lemma find_hasKey_Some (k : decisionID) (l : list decisionStateMachine) d :
  find (hasKey k) l = Some d -> id d = k /\ In d l.
Proof.
  intros H. apply find_some in H. destruct H as [Hin Hk].
  apply hasKey_true in Hk. auto.
Qed.

Lemma find_hasKey_None (k : decisionID) (l : list decisionStateMachine) :
  find (hasKey k) l = None <-> ~ In k (map id l).
Proof.
  induction l as [|x l IH]; simpl.
  - tauto_here.
  - destruct (hasKey k x) eqn:E.
    + apply hasKey_true in E. split; [discriminate | intros H; exfalso; apply H; auto].
    + apply hasKey_false in E. rewrite IH. tauto_here.
Qed.

Lemma find_hasKey_app_fresh (k : decisionID) (l : list decisionStateMachine) d :
  find (hasKey k) l = None ->
  find (hasKey k) (l ++ [d]) = if hasKey k d then Some d else None.
Proof.
  induction l as [|x l IH]; simpl; [reflexivity|].
  destruct (hasKey k x); [discriminate | exact IH].
Qed.

Lemma find_hasKey_app_found (k : decisionID) (l l' : list decisionStateMachine) d :
  find (hasKey k) l = Some d -> find (hasKey k) (l ++ l') = Some d.
Proof.
  induction l as [|x l IH]; simpl; [discriminate|].
  destruct (hasKey k x); [auto | exact IH].
Qed.

Lemma writeThrough_keys (d : decisionStateMachine) (l : list decisionStateMachine) :
  map id (writeThrough d l) = map id l.
Proof.
  induction l as [|x l IH]; simpl; [reflexivity|].
  destruct (hasKey (id d) x) eqn:E; simpl.
  - apply hasKey_true in E. congruence.
  - congruence.
Qed.

Lemma writeThrough_find (k : decisionID) (d : decisionStateMachine)
    (l : list decisionStateMachine) :
  find (hasKey k) (writeThrough d l) =
    if decide (id d = k)
    then match find (hasKey k) l with Some _ => Some d | None => None end
    else find (hasKey k) l.
Proof.
  induction l as [|x l IH]; simpl.
  - destruct (decide (id d = k)); reflexivity.
  - destruct (hasKey (id d) x) eqn:E1; simpl.
    + apply hasKey_true in E1.
      destruct (decide (id d = k)) as [Hk|Hk].
      * rewrite (proj2 (hasKey_true k d) Hk).
        rewrite (proj2 (hasKey_true k x)) by congruence. reflexivity.
      * rewrite (proj2 (hasKey_false k d) Hk).
        rewrite (proj2 (hasKey_false k x)) by congruence. reflexivity.
    + apply hasKey_false in E1.
      destruct (hasKey k x) eqn:E2.
      * apply hasKey_true in E2. destruct (decide (id d = k)); [congruence | reflexivity].
      * exact IH.
Qed.

(** ** The state machines one transition at a time *)

Lemma moveState_eq (s : decisionState) (ev : string) (d : decisionStateMachine)
    (h : decisionsHelper) :
  moveState s ev d h =
    (Returned (moved s ev d),
     set_orderedDecisions
       (if isCompleted s
        then Remove (id d) (writeThrough (moved s ev d) (orderedDecisions h))
        else writeThrough (moved s ev d) (orderedDecisions h)) h).
Proof.
  destruct h; destruct s; reflexivity.
Qed.


(** Every method leaves the concrete type and the key of a machine alone;
    a timer's [canceled] flag is only ever set. *)
Lemma dsm_apply_timer (ev : dsmEvent) (d d' : decisionStateMachine)
    (h h' : decisionsHelper) a c :
  timerOf d = Some (a, c) ->
  dsm_apply ev d h = (Returned d', h') ->
  id d' = id d /\
  timerOf d' = Some (a, match ev with evCancel => true | _ => c end).
Proof.
  unfold timerOf. destruct d as [i st hi da k]; simpl.
  destruct k; try discriminate. intros [= -> ->].
  destruct ev, st; cbn; rewrite ?moveState_eq; cbn;
    rewrite ?moveState_eq; cbn;
    intros [= <- <-]; split; reflexivity.
Qed.

Lemma dsm_run_timer (evs : list dsmEvent) (d d' : decisionStateMachine)
    (h h' : decisionsHelper) a :
  timerOf d = Some (a, true) ->
  dsm_run evs d h = (Returned d', h') ->
  timerOf d' = Some (a, true).
Proof.
  revert d h. induction evs as [|ev evs IH]; intros d h Hk; simpl.
  - intros [= <- <-]. exact Hk.
  - unfold bind. destruct (dsm_apply ev d h) as [[d1|p] h1] eqn:E; [|discriminate].
    apply (dsm_apply_timer ev d d1 h h1 a true Hk) in E. destruct E as [_ E].
    apply IH. destruct ev; exact E.
Qed.

Lemma timer_canceled_isDone (d : decisionStateMachine) a :
  timerOf d = Some (a, true) -> dsm_isDone d = true.
Proof.
  unfold timerOf, dsm_isDone. destruct (kind d); try discriminate.
  intros [= -> ->]. unfold timer_isDone. apply orb_true_r.
Qed.

(** C8.  For a timer machine, [isDone] is true once [cancel] has been
    called: after [cancel] and any further accepted events the machine
    reports done, whatever state it is in; [cancel] is accepted (and the
    machine is done right after it) in the states Created, DecisionSent and
    Initiated, where it leaves the machine Completed,
    CanceledBeforeInitiated and CanceledAfterInitiated; the following
    decision-sent step to CancellationDecisionSent keeps it done; and a
    timer in state Completed is done. *)

Theorem timer_isDone_after_cancel (d : decisionStateMachine)
    (a : StartTimerDecisionAttributes) (c : bool) :
  timerOf d = Some (a, c) ->
  (forall evs h d' h',
      dsm_run (evCancel :: evs) d h = (Returned d', h') -> dsm_isDone d' = true)
  /\ (forall h,
        state d = decisionStateCreated \/ state d = decisionStateDecisionSent
        \/ state d = decisionStateInitiated ->
        exists d' h',
          dsm_cancel d h = (Returned d', h') /\ dsm_isDone d' = true
          /\ state d' = match state d with
                        | decisionStateCreated => decisionStateCompleted
                        | decisionStateDecisionSent => decisionStateCanceledBeforeInitiated
                        | _ => decisionStateCanceledAfterInitiated
                        end)
  /\ (forall h d1 h1,
        dsm_cancel d h = (Returned d1, h1) ->
        state d1 = decisionStateCanceledAfterInitiated ->
        exists d2 h2,
          dsm_handleDecisionSent d1 h1 = (Returned d2, h2)
          /\ state d2 = decisionStateCancellationDecisionSent
          /\ dsm_isDone d2 = true)
  /\ (state d = decisionStateCompleted -> dsm_isDone d = true).
Proof.
  intros Hk. repeat split.
  - intros evs h d' h' Hrun. simpl in Hrun. unfold bind in Hrun.
    destruct (dsm_cancel d h) as [[d1|p] h1] eqn:E; [|discriminate].
    pose proof (dsm_apply_timer evCancel d d1 h h1 a c Hk E) as [_ Hk1].
    apply (timer_canceled_isDone d' a).
    exact (dsm_run_timer evs d1 d' h1 h' a Hk1 Hrun).
  - intros h Hst. unfold timerOf in Hk.
    destruct d as [i st hi da k]; simpl in *. destruct k; try discriminate.
    injection Hk as -> ->.
    destruct Hst as [-> | [-> | ->]]; cbn; rewrite ?moveState_eq; cbn;
      eexists; eexists; (split; [reflexivity|]); split; reflexivity.
  - intros h d1 h1 Hc Hst.
    pose proof (dsm_apply_timer evCancel d d1 h h1 a c Hk Hc) as [_ Hk1].
    unfold timerOf in Hk1. destruct d1 as [i st hi da k]; simpl in *.
    destruct k; try discriminate. injection Hk1 as -> ->. subst st.
    cbn. rewrite ?moveState_eq. cbn.
    eexists; eexists; (split; [reflexivity|]); split; reflexivity.
  - intros Hst. unfold timerOf in Hk. unfold dsm_isDone.
    destruct (kind d); try discriminate. unfold timer_isDone. rewrite Hst. reflexivity.
Qed.


Lemma hasKey_refl (k : decisionID) (d : decisionStateMachine) :
  id d = k -> hasKey k d = true.
Proof. apply hasKey_true. Qed.

Ltac key_steps :=
  repeat (progress (cbn; unfold MoveToBack, decisions;
                    rewrite ?hasKey_refl by reflexivity)).

(** ** Adding a machine under a key that is taken *)

Lemma addDecision_taken (decision existing : decisionStateMachine)
    (h : decisionsHelper) :
  decisions h (dsm_getID decision) = Some existing ->
  helper_addDecision decision h =
    (Panicked (stateMachineIllegalStatePanic
                 ("adding duplicate decision " +:+ base_String decision)), h).
Proof.
  intros H. unfold helper_addDecision, bind, get. rewrite H. reflexivity.
Qed.

Lemma addDecision_free (decision : decisionStateMachine) (h : decisionsHelper) :
  decisions h (dsm_getID decision) = None ->
  helper_addDecision decision h =
    (Returned tt, set_orderedDecisions (orderedDecisions h ++ [decision]) h).
Proof.
  intros H. unfold helper_addDecision, bind, get. rewrite H. reflexivity.
Qed.


Lemma base_String_prefix (d : decisionStateMachine) :
  exists rest, base_String d = decisionID_String (id d) +:+ rest.
Proof. unfold base_String. eexists. reflexivity. Qed.

Lemma create_taken (c : creation) (h : decisionsHelper) existing :
  reachesAddDecision c = true ->
  decisions h (createdKey c) = Some existing ->
  exists p, create c h = (Panicked p, h) /\ isDuplicatePanic (createdKey c) p.
Proof.
  intros Hr Hk.
  assert (Hadd : forall d, dsm_getID d = createdKey c ->
            exists p, helper_addDecision d h = (Panicked p, h)
                      /\ isDuplicatePanic (createdKey c) p).
  { intros d Hd. eexists. split.
    - apply (addDecision_taken d existing). rewrite Hd. exact Hk.
    - destruct (base_String_prefix d) as [rest Hs]. exists rest.
      rewrite Hs. unfold dsm_getID in Hd. rewrite Hd. reflexivity. }
  assert (Hfin : forall (c' : M decisionsHelper unit),
            (exists d, dsm_getID d = createdKey c
                       /\ forall p, helper_addDecision d h = (Panicked p, h) ->
                                    c' h = (Panicked p, h)) ->
            exists p, c' h = (Panicked p, h) /\ isDuplicatePanic (createdKey c) p).
  { intros c' [d [Hd Hc]]. destruct (Hadd d Hd) as [p [Hp Hdup]]. exists p.
    split; [apply Hc; exact Hp | exact Hdup]. }
  apply Hfin.
  destruct c; simpl in Hr |- *;
    unfold helper_scheduleActivityTask, helper_startTimer,
      helper_startChildWorkflowExecution, helper_signalExternalWorkflowExecution,
      helper_upsertSearchAttributes, helper_recordSideEffectMarker,
      helper_recordLocalActivityMarker, helper_recordMutableSideEffectMarker,
      helper_requestCancelExternalWorkflowExecution, helper_recordVersionMarker;
    try (apply negb_true_iff in Hr; rewrite Hr);
    try (destruct (encodeArgs dc [VString changeID; VVersion version])
           as [details [err|]]; [discriminate|]);
    match goal with
    | |- context [helper_addDecision ?d] =>
        exists d; split; [reflexivity|];
        intros p Hp; unfold bind; rewrite Hp; reflexivity
    end.
Qed.

Lemma addDecision_returned (d : decisionStateMachine) (h h1 : decisionsHelper) :
  helper_addDecision d h = (Returned tt, h1) ->
  decisions h (dsm_getID d) = None
  /\ h1 = set_orderedDecisions (orderedDecisions h ++ [d]) h
  /\ decisions h1 (dsm_getID d) = Some d.
Proof.
  unfold helper_addDecision, bind, get.
  destruct (decisions h (dsm_getID d)) eqn:E; [discriminate|].
  intros [= <-]. split; [reflexivity|]. split; [reflexivity|].
  unfold decisions in *. destruct h as [l m1 m2 m3]; simpl in *.
  unfold PushBack. rewrite (find_hasKey_app_fresh _ _ d E).
  unfold dsm_getID. rewrite hasKey_id. reflexivity.
Qed.

Lemma startTimer_returned (a : StartTimerDecisionAttributes) (h h1 : decisionsHelper) d :
  helper_startTimer a h = (Returned d, h1) ->
  decisions h1 (makeDecisionID decisionTypeTimer (st_TimerId a)) = Some d.
Proof.
  unfold helper_startTimer, bind.
  destruct (helper_addDecision (newTimerDecisionStateMachine a) h) as [[[]|p] h'] eqn:E;
    [|discriminate].
  intros [= <- <-]. apply addDecision_returned in E. apply E.
Qed.

Lemma liftH_eq {A} (c : M decisionsHelper A) (e : env) :
  liftH c e = (fst (c (wc_decisionsHelper e)),
               set_wc_decisionsHelper (snd (c (wc_decisionsHelper e))) e).
Proof. unfold liftH. destruct (c (wc_decisionsHelper e)). reflexivity. Qed.

Lemma liftH_run {A} (c : M decisionsHelper A) (e : env) (r : outcome A)
    (h' : decisionsHelper) :
  c (wc_decisionsHelper e) = (r, h') ->
  liftH c e = (r, set_wc_decisionsHelper h' e).
Proof. intros H. unfold liftH. rewrite H. reflexivity. Qed.

Lemma ExecuteActivity_returned (params : executeActivityParams) (cb : handlerRef)
    (aid : string) (e e1 : env) r :
  ap_ActivityID params = Some aid -> aid <> "" ->
  ExecuteActivity params cb e = (Returned r, e1) ->
  exists d, decisions (wc_decisionsHelper e1) (makeDecisionID decisionTypeActivity aid)
            = Some d.
Proof.
  intros Ha Hne. unfold ExecuteActivity. rewrite Ha.
  destruct (String.eqb aid "") eqn:Eq; [apply String.eqb_eq in Eq; contradiction|].
  unfold helper_scheduleActivityTask, helper_addDecision, bind, ret, get, liftH,
    modify, panicIllegalState, panic. simpl.
  destruct (decisions (wc_decisionsHelper e) (makeDecisionID decisionTypeActivity aid))
    eqn:E; simpl; [discriminate|].
  intros [= <- <-]. simpl.
  unfold decisions in *. unfold set_orderedDecisions; simpl.
  rewrite writeThrough_find. simpl.
  rewrite decide_True by reflexivity. unfold PushBack.
  rewrite (find_hasKey_app_fresh _ _ _ E). rewrite hasKey_refl by reflexivity.
  eauto.
Qed.

(** C10.  Adding a machine under a key that the collection already holds
    panics with an illegal-state panic whose message starts with "adding
    duplicate decision" and names the key, and leaves the collection as it
    was; this holds for [addDecision] and for every helper operation that
    creates a machine.  In particular a second timer with the timer ID of a
    timer just started, and a second activity with the user-supplied
    ActivityID of an activity just scheduled, panic and change nothing. *)

Theorem duplicate_decision_panics :
  (forall (c : creation) (h : decisionsHelper) (existing : decisionStateMachine),
      reachesAddDecision c = true ->
      decisions h (createdKey c) = Some existing ->
      exists p, create c h = (Panicked p, h) /\ isDuplicatePanic (createdKey c) p)
  /\ (forall (a a' : StartTimerDecisionAttributes) (h h1 : decisionsHelper) d,
        st_TimerId a' = st_TimerId a ->
        helper_startTimer a h = (Returned d, h1) ->
        exists p,
          helper_startTimer a' h1 = (Panicked p, h1)
          /\ isDuplicatePanic (makeDecisionID decisionTypeTimer (st_TimerId a)) p)
  /\ (forall (params params' : executeActivityParams) (cb cb' : handlerRef)
             (aid : string) (e e1 : env) r,
        ap_ActivityID params = Some aid -> aid <> "" ->
        ap_ActivityID params' = Some aid ->
        ExecuteActivity params cb e = (Returned r, e1) ->
        exists p,
          ExecuteActivity params' cb' e1 = (Panicked p, e1)
          /\ isDuplicatePanic (makeDecisionID decisionTypeActivity aid) p).
Proof.
  split; [exact create_taken|]. split.
  - intros a a' h h1 d Hid Hs. apply startTimer_returned in Hs.
    destruct (create_taken (byStartTimer a') h1 d eq_refl) as [p [Hp Hd]].
    { simpl. rewrite Hid. exact Hs. }
    exists p. simpl in Hp, Hd. rewrite Hid in Hd. split; [|exact Hd].
    unfold bind in Hp.
    destruct (helper_startTimer a' h1) as [[x|q] h2]; [discriminate|].
    injection Hp as -> ->. reflexivity.
  - intros params params' cb cb' aid e e1 r Ha Hne Ha' Hex.
    destruct (ExecuteActivity_returned params cb aid e e1 r Ha Hne Hex) as [d Hd].
    unfold ExecuteActivity. rewrite Ha'.
    destruct (String.eqb aid "") eqn:Eq; [apply String.eqb_eq in Eq; contradiction|].
    unfold bind at 1. unfold ret at 1. unfold bind at 1. rewrite liftH_eq.
    match goal with
    | |- context [helper_scheduleActivityTask ?a ?h] =>
        destruct (create_taken (byScheduleActivityTask a) h d eq_refl Hd)
          as [p [Hp Hdup]]
    end.
    exists p. split; [|exact Hdup]. simpl in Hp. unfold bind in Hp.
    match goal with
    | |- context [helper_scheduleActivityTask ?a ?h] =>
        destruct (helper_scheduleActivityTask a h) as [[x|q] h2]
    end; [discriminate|].
    injection Hp as -> ->. simpl. f_equal. destruct e1; reflexivity.
Qed.

(** ** Queries *)


(** ** Side effects and versions *)

Lemma app_nil_r_helper (h : decisionsHelper) :
  set_orderedDecisions (orderedDecisions h ++ []) h = h.
Proof. destruct h; unfold set_orderedDecisions; simpl. rewrite app_nil_r. reflexivity. Qed.

Lemma insertAt_perm {A} (n : nat) (x : A) (l : list A) :
  insertAt n x l ≡ₚ x :: l.
Proof.
  revert n. induction l as [|y l IH]; intros [|n]; simpl; try reflexivity.
  rewrite IH. apply perm_swap.
Qed.

Lemma rangeOrder_perm {A} (l : list A) :
  forall choice, rangeOrder choice l ≡ₚ l.
Proof.
  induction l as [|x l IH]; intros choice; simpl; [reflexivity|].
  rewrite insertAt_perm. rewrite IH. reflexivity.
Qed.

Lemma insertAt_app {A} (x : A) (l1 l2 : list A) :
  insertAt (length l1) x (l1 ++ l2) = l1 ++ x :: l2.
Proof.
  induction l1 as [|y l1 IH]; simpl.
  - destruct l2; reflexivity.
  - rewrite IH. reflexivity.
Qed.

(** Every order of the entries is the order of some choice sequence. *)
Lemma rangeOrder_any {A} (l : list A) :
  forall l', l' ≡ₚ l -> exists choice, rangeOrder choice l = l'.
Proof.
  induction l as [|x l IH]; intros l' Hp.
  - apply Permutation_nil_r in Hp. subst l'. exists []. reflexivity.
  - assert (Hin : x ∈ l') by (rewrite Hp; left).
    apply list_elem_of_split in Hin. destruct Hin as (l1 & l2 & ->).
    symmetry in Hp. apply Permutation_cons_app_inv in Hp. symmetry in Hp.
    destruct (IH _ Hp) as [choice Hc].
    exists (length l1 :: choice). simpl. rewrite Hc. apply insertAt_app.
Qed.

Lemma offered_added (added : list decisionStateMachine) (h : decisionsHelper) :
  offered (set_orderedDecisions (orderedDecisions h ++ added) h)
  = offered h ++ omap dsm_getDecision added.
Proof. unfold offered. destruct h; simpl. apply omap_app. Qed.

Lemma offered_afterSideEffect (e : env) (added : list decisionStateMachine)
    (made : list outcall) :
  offered (wc_decisionsHelper (afterSideEffect e added made))
  = offered (wc_decisionsHelper e) ++ omap dsm_getDecision added.
Proof. unfold afterSideEffect. destruct e; simpl. apply offered_added. Qed.

(** C3.  [SideEffect] takes the next sequence number as the side-effect
    ID.  In replay the result is the cache entry under that ID, and a miss
    panics with a text that lists the known IDs in the order the map is
    ranged over; live, [f] is run, its result is encoded together with the
    ID, and the encoding is the detail of the marker.  On a replay hit and
    on a live success one marker machine is added at the back of the
    collection, so that the collection offers one more decision, RecordMarker
    with the name SideEffect and these details (in replay the cached result
    itself), and the callback is called once, with the result and a nil
    error.  (When [f] fails the callback gets its error and no marker is
    added.)  The marker's key is assumed not to be in the collection. *)
Theorem SideEffect_replay_and_live (e : env) (f : unit -> bytes * option goError)
    (callback : handlerRef) :
  decisions (wc_decisionsHelper e)
    (makeDecisionID decisionTypeMarker ("SideEffect_" +:+ fmt_int (wc_counterID e)))
    = None ->
  (forall result,
      wc_isReplay e = true ->
      wc_sideEffectResult e !! wc_counterID e = Some result ->
      let e1 :=
        afterSideEffect e [sideEffectMarker (wc_counterID e) result]
          [call_resultHandler None callback (Some result) None] in
      SideEffect f callback e = (Returned tt, e1)
      /\ offered (wc_decisionsHelper e1)
         = offered (wc_decisionsHelper e) ++ [recordMarker "SideEffect" result])
  /\ (wc_isReplay e = true ->
      wc_sideEffectResult e !! wc_counterID e = None ->
      exists known : list Z,
        known ≡ₚ (fst <$> map_to_list (wc_sideEffectResult e))
        /\ SideEffect f callback e =
             (Panicked
                (panicString
                   ("No cached result found for side effectID="
                    +:+ fmt_int (wc_counterID e) +:+ ". KnownSideEffects="
                    +:+ fmt_strings (fmt_int <$> known))),
              afterSideEffect e [] []))
  /\ (forall result details,
        wc_isReplay e = false ->
        f tt = (result, None) ->
        encodeArgs (wc_dataConverter e) [VInt32 (wc_counterID e); VBytes result]
          = (details, None) ->
        let e1 :=
          afterSideEffect e [sideEffectMarker (wc_counterID e) details]
            [call_resultHandler None callback (Some result) None] in
        SideEffect f callback e = (Returned tt, e1)
        /\ offered (wc_decisionsHelper e1)
           = offered (wc_decisionsHelper e) ++ [recordMarker "SideEffect" details])
  /\ (forall result err,
        wc_isReplay e = false ->
        f tt = (result, Some err) ->
        SideEffect f callback e =
          (Returned tt,
           afterSideEffect e []
             [call_resultHandler None callback (Some result) (Some err)])).
Proof.
  intros Hfresh.
  assert (Hadd : forall details (e1 : env),
             wc_decisionsHelper e1 = wc_decisionsHelper e ->
             liftH (helper_recordSideEffectMarker (wc_counterID e) details) e1 =
               (Returned (sideEffectMarker (wc_counterID e) details),
                set_wc_decisionsHelper
                  (set_orderedDecisions
                     (orderedDecisions (wc_decisionsHelper e)
                      ++ [sideEffectMarker (wc_counterID e) details])
                     (wc_decisionsHelper e)) e1)).
  { intros details e1 He1. rewrite liftH_eq. rewrite He1.
    unfold helper_recordSideEffectMarker, bind.
    change (newMarkerDecisionStateMachine _ _)
      with (sideEffectMarker (wc_counterID e) details).
    rewrite addDecision_free by exact Hfresh. reflexivity. }
  split; [|split; [|split]].
  - intros result Hr Hc e1. split; [|apply offered_afterSideEffect].
    unfold SideEffect, GenerateSequence.
    unfold bind at 1. unfold bind at 1. unfold get at 1. unfold bind at 1.
    unfold modify at 1. unfold ret at 1. unfold bind at 1. unfold get at 1.
    simpl. rewrite Hr, Hc. unfold bind. rewrite Hadd by reflexivity.
    unfold logCall, modify, e1, afterSideEffect. reflexivity.
  - intros Hr Hc.
    exists (fst <$> rangeOrder (range_sideEffectResult (wc_sideEffectResult e))
                      (map_to_list (wc_sideEffectResult e))).
    split; [rewrite rangeOrder_perm; reflexivity|].
    unfold SideEffect, GenerateSequence.
    unfold bind at 1. unfold bind at 1. unfold get at 1. unfold bind at 1.
    unfold modify at 1. unfold ret at 1. unfold bind at 1. unfold get at 1.
    simpl. rewrite Hr, Hc. unfold panic, afterSideEffect.
    rewrite !app_nil_r. rewrite <- list_fmap_compose.
    f_equal. destruct e as [? [] ]; reflexivity.
  - intros result details Hr Hf Henc e1. split; [|apply offered_afterSideEffect].
    unfold SideEffect, GenerateSequence.
    unfold bind at 1. unfold bind at 1. unfold get at 1. unfold bind at 1.
    unfold modify at 1. unfold ret at 1. unfold bind at 1. unfold get at 1.
    simpl. rewrite Hr, Hf, Henc. unfold bind. rewrite Hadd by reflexivity.
    unfold logCall, modify, e1, afterSideEffect. reflexivity.
  - intros result err Hr Hf. unfold SideEffect, GenerateSequence.
    unfold bind at 1. unfold bind at 1. unfold get at 1. unfold bind at 1.
    unfold modify at 1. unfold ret at 1. unfold bind at 1. unfold get at 1.
    simpl. rewrite Hr, Hf. unfold logCall, modify, afterSideEffect.
    rewrite !app_nil_r. f_equal. destruct e as [? [] ]; reflexivity.
Qed.

Lemma decisions_added_fresh (h : decisionsHelper) (k : decisionID)
    (d : decisionStateMachine) :
  decisions h k = None ->
  decisions (set_orderedDecisions (orderedDecisions h ++ [d]) h) k =
    if hasKey k d then Some d else None.
Proof.
  unfold decisions. destruct h as [l m1 m2 m3]. simpl.
  apply find_hasKey_app_fresh.
Qed.

Lemma validateVersion_eq (changeID : string) (version minSupported maxSupported : Z)
    (e : env) :
  (inRange version minSupported maxSupported = true
   /\ validateVersion changeID version minSupported maxSupported e = (Returned tt, e))
  \/ (inRange version minSupported maxSupported = false
      /\ exists message,
           validateVersion changeID version minSupported maxSupported e
           = (Panicked (panicString message), e)).
Proof.
  unfold validateVersion, inRange.
  destruct (version <? minSupported) eqn:E1.
  - right. split; [|eexists; reflexivity].
    apply Z.ltb_lt in E1. apply andb_false_iff. left. apply Z.leb_gt. exact E1.
  - destruct (maxSupported <? version) eqn:E2.
    + right. split; [|eexists; reflexivity].
      apply Z.ltb_lt in E2. apply andb_false_iff. right. apply Z.leb_gt. exact E2.
    + left. split; [|reflexivity].
      apply Z.ltb_ge in E1, E2. apply andb_true_iff. split; apply Z.leb_le; assumption.
Qed.

Lemma mergeSearchAttributes_changeVersion (current : option SearchAttributes)
    (encoded : bytes) :
  mergeSearchAttributes current (Some (changeVersionAttributes encoded)) =
    Returned (Some {| IndexedFields :=
                        {[ CadenceChangeVersion := encoded ]}
                        ∪ match current with
                          | Some c => IndexedFields c
                          | None => ∅
                          end |}).
Proof.
  unfold mergeSearchAttributes, changeVersionAttributes. simpl.
  rewrite map_size_singleton.
  destruct (decide (lenIndexedFields current = 0%nat)) as [H0|H0].
  - rewrite decide_False by discriminate.
    destruct current as [c|]; [|reflexivity].
    simpl in H0. apply map_size_empty_inv in H0. rewrite H0. reflexivity.
  - destruct current as [c|]; [reflexivity|]. simpl in H0. contradiction.
Qed.

Lemma UpsertSearchAttributes_changeVersion (changeID : string) (version : Z)
    (existing : gmap string Z) (encoded : bytes) (e : env) :
  json_Marshal (VStrings (getChangeVersions changeID version existing))
    = (encoded, None) ->
  decisions (wc_decisionsHelper e)
    (makeDecisionID decisionTypeUpsertSearchAttributes
       (getChangeVersion changeID version)) = None ->
  UpsertSearchAttributes
    (createSearchAttributesForChangeVersion changeID version existing) e =
    (Returned None,
     withChangeVersionAttributes encoded
       (withAdded [changeVersionUpsert changeID version encoded] e)).
Proof.
  intros Hj Hfresh.
  unfold UpsertSearchAttributes, createSearchAttributesForChangeVersion,
    validateAndSerializeSearchAttributes, serializeSearchAttributes.
  rewrite map_size_singleton. rewrite decide_False by discriminate.
  rewrite map_to_list_singleton. cbn [encodeFields]. rewrite Hj. rewrite insert_empty.
  rewrite lookup_singleton_eq. unfold getChangeVersions at 1.
  unfold bind at 1. unfold ret at 1. unfold bind at 1.
  rewrite liftH_eq. unfold helper_upsertSearchAttributes, bind.
  change (newUpsertSearchAttributesStateMachine _ _)
    with (changeVersionUpsert changeID version encoded).
  rewrite addDecision_free by exact Hfresh. cbn [fst snd].
  unfold updateWorkflowInfoWithSearchAttributes, bind, get.
  change {| IndexedFields := {[CadenceChangeVersion := encoded]} |}
    with (changeVersionAttributes encoded).
  rewrite mergeSearchAttributes_changeVersion. reflexivity.
Qed.

(** C4.  [GetVersion] returns the version recorded for the change ID if
    there is one.  On the first encounter it takes [DefaultVersion] in
    replay; live it takes [maxSupported] and adds two machines at the back
    of the collection, so that the collection offers two more decisions:
    RecordMarker with the name Version and the encoding of the change ID and
    the version as details, and UpsertWorkflowSearchAttributes that binds
    CadenceChangeVersion to the JSON encoding of the list of change
    versions, which holds the new one first and then every recorded one
    once, in the order the map is ranged over; the attribute is also merged
    into the workflow info.  In each case the version is validated: inside
    [minSupported, maxSupported] it is returned (and, on a first encounter,
    recorded); outside, the call panics.  For the live case the converter
    and the JSON encoder are assumed to succeed and the two keys not to be
    in the collection. *)
Theorem GetVersion_cases (e : env) (changeID : string) (minSupported maxSupported : Z) :
  (forall version,
      wc_changeVersions e !! changeID = Some version ->
      (inRange version minSupported maxSupported = true
       /\ GetVersion changeID minSupported maxSupported e = (Returned version, e))
      \/ (inRange version minSupported maxSupported = false
          /\ exists message,
               GetVersion changeID minSupported maxSupported e
               = (Panicked (panicString message), e)))
  /\ (wc_changeVersions e !! changeID = None ->
      wc_isReplay e = true ->
      (inRange DefaultVersion minSupported maxSupported = true
       /\ GetVersion changeID minSupported maxSupported e
          = (Returned DefaultVersion, withChangeVersion changeID DefaultVersion e))
      \/ (inRange DefaultVersion minSupported maxSupported = false
          /\ exists message,
               GetVersion changeID minSupported maxSupported e
               = (Panicked (panicString message), e)))
  /\ (forall details encoded,
        wc_changeVersions e !! changeID = None ->
        wc_isReplay e = false ->
        encodeArgs (wc_dataConverter e) [VString changeID; VVersion maxSupported]
          = (details, None) ->
        json_Marshal
          (VStrings (getChangeVersions changeID maxSupported (wc_changeVersions e)))
          = (encoded, None) ->
        decisions (wc_decisionsHelper e)
          (makeDecisionID decisionTypeMarker ("Version_" +:+ changeID)) = None ->
        decisions (wc_decisionsHelper e)
          (makeDecisionID decisionTypeUpsertSearchAttributes
             (getChangeVersion changeID maxSupported)) = None ->
        let recorded :=
          withChangeVersionAttributes encoded
            (withAdded [versionMarker changeID details;
                        changeVersionUpsert changeID maxSupported encoded] e) in
        (exists existing : list string,
            getChangeVersions changeID maxSupported (wc_changeVersions e)
            = (changeID +:+ "-" +:+ fmt_int maxSupported) :: existing
            /\ existing
               ≡ₚ ((fun kv => fst kv +:+ "-" +:+ fmt_int (snd kv))
                     <$> map_to_list (wc_changeVersions e)))
        /\ offered (wc_decisionsHelper recorded)
           = offered (wc_decisionsHelper e)
             ++ [recordMarker "Version" details; upsertChangeVersion encoded]
        /\ ((inRange maxSupported minSupported maxSupported = true
             /\ GetVersion changeID minSupported maxSupported e
                = (Returned maxSupported,
                   withChangeVersion changeID maxSupported recorded))
            \/ (inRange maxSupported minSupported maxSupported = false
                /\ exists message,
                     GetVersion changeID minSupported maxSupported e
                     = (Panicked (panicString message), recorded)))).
Proof.
  split; [|split].
  - intros version Hv.
    assert (Heq : GetVersion changeID minSupported maxSupported e =
                  (validateVersion changeID version minSupported maxSupported ;;;
                   ret version) e).
    { unfold GetVersion. unfold bind at 1. unfold get at 1. rewrite Hv. reflexivity. }
    rewrite Heq. unfold bind.
    destruct (validateVersion_eq changeID version minSupported maxSupported e)
      as [[Hr Hval]|[Hr [message Hval]]]; rewrite Hval.
    + left. split; [exact Hr | reflexivity].
    + right. split; [exact Hr | exists message; reflexivity].
  - intros Hv Hrep.
    assert (Heq : GetVersion changeID minSupported maxSupported e =
                  (validateVersion changeID DefaultVersion minSupported maxSupported ;;;
                   modify (withChangeVersion changeID DefaultVersion) ;;;
                   ret DefaultVersion) e).
    { unfold GetVersion. unfold bind at 1. unfold get at 1. rewrite Hv, Hrep.
      reflexivity. }
    rewrite Heq. unfold bind.
    destruct (validateVersion_eq changeID DefaultVersion minSupported maxSupported e)
      as [[Hr Hval]|[Hr [message Hval]]]; rewrite Hval.
    + left. split; [exact Hr | reflexivity].
    + right. split; [exact Hr | exists message; reflexivity].
  - intros details encoded Hv Hrep Henc Hj Hm Hu recorded.
    split; [|split].
    { eexists. split; [reflexivity|].
      rewrite rangeOrder_perm. reflexivity. }
    { unfold recorded, withChangeVersionAttributes, withAdded.
      destruct e; simpl. apply offered_added. }
    assert (Heq : GetVersion changeID minSupported maxSupported e =
                  (validateVersion changeID maxSupported minSupported maxSupported ;;;
                   modify (withChangeVersion changeID maxSupported) ;;;
                   ret maxSupported) recorded).
    { unfold GetVersion. unfold bind at 1. unfold get at 1.
      rewrite Hv, Hrep. unfold bind at 1. unfold bind at 1.
      rewrite (liftH_run _ e (Returned (versionMarker changeID details))
                 (set_orderedDecisions
                    (orderedDecisions (wc_decisionsHelper e)
                     ++ [versionMarker changeID details]) (wc_decisionsHelper e)))
        by (unfold helper_recordVersionMarker; rewrite Henc; unfold bind;
            change (newMarkerDecisionStateMachine _ _)
              with (versionMarker changeID details);
            rewrite addDecision_free by exact Hm; reflexivity).
      unfold bind at 1.
      rewrite (UpsertSearchAttributes_changeVersion changeID maxSupported _ encoded)
        by (try exact Hj;
            unfold set_wc_decisionsHelper; cbn [wc_decisionsHelper];
            rewrite (decisions_added_fresh _ _ _ Hu);
            rewrite (proj2 (hasKey_false _ _)) by discriminate; reflexivity).
      unfold ret at 1.
      assert (Hrec : withChangeVersionAttributes encoded
                (withAdded [changeVersionUpsert changeID maxSupported encoded]
                   (set_wc_decisionsHelper
                      (set_orderedDecisions
                         (orderedDecisions (wc_decisionsHelper e)
                          ++ [versionMarker changeID details])
                         (wc_decisionsHelper e)) e)) = recorded).
      { unfold recorded, withChangeVersionAttributes, withAdded. simpl.
        rewrite <- app_assoc. reflexivity. }
      rewrite Hrec. reflexivity. }
    rewrite Heq. unfold bind.
    destruct (validateVersion_eq changeID maxSupported minSupported maxSupported
                recorded)
      as [[Hr Hval]|[Hr [message Hval]]]; rewrite Hval.
    + left. split; [exact Hr | reflexivity].
    + right. split; [exact Hr | exists message; reflexivity].
Qed.



(** ** The order of the collection *)

Lemma Remove_notin (k : decisionID) (l : list decisionStateMachine) :
  k ∉ (id <$> l) -> Remove k l = l.
Proof.
  induction l as [|x l IH]; simpl; [reflexivity|]. intros H.
  apply not_elem_of_cons in H. destruct H as [Hx Hl].
  rewrite (proj2 (hasKey_false k x)) by congruence.
  f_equal. apply IH. exact Hl.
Qed.

Lemma Remove_app_notin (k : decisionID) (l1 l2 : list decisionStateMachine) :
  k ∉ (id <$> l1) -> Remove k (l1 ++ l2) = l1 ++ Remove k l2.
Proof.
  induction l1 as [|x l1 IH]; simpl; [reflexivity|]. intros H.
  apply not_elem_of_cons in H. destruct H as [Hx Hl].
  rewrite (proj2 (hasKey_false k x)) by congruence.
  f_equal. apply IH. exact Hl.
Qed.

Lemma writeThrough_app_notin (d : decisionStateMachine)
    (l1 l2 : list decisionStateMachine) :
  id d ∉ (id <$> l1) -> writeThrough d (l1 ++ l2) = l1 ++ writeThrough d l2.
Proof.
  induction l1 as [|x l1 IH]; simpl; [reflexivity|]. intros H.
  apply not_elem_of_cons in H. destruct H as [Hx Hl].
  rewrite (proj2 (hasKey_false (id d) x)) by congruence.
  f_equal. apply IH. exact Hl.
Qed.

Lemma find_app_notin (k : decisionID) (l1 l2 : list decisionStateMachine) :
  k ∉ (id <$> l1) -> find (hasKey k) (l1 ++ l2) = find (hasKey k) l2.
Proof.
  induction l1 as [|x l1 IH]; simpl; [reflexivity|]. intros H.
  apply not_elem_of_cons in H. destruct H as [Hx Hl].
  rewrite (proj2 (hasKey_false k x)) by congruence.
  apply IH. exact Hl.
Qed.

Lemma find_hasKey_split (k : decisionID) (l : list decisionStateMachine) d :
  find (hasKey k) l = Some d ->
  exists l1 l2, l = l1 ++ d :: l2 /\ id d = k /\ k ∉ (id <$> l1).
Proof.
  induction l as [|x l IH]; simpl; [discriminate|].
  destruct (hasKey k x) eqn:E.
  - intros [= ->]. apply hasKey_true in E. exists [], l. split; [reflexivity|].
    split; [exact E|]. simpl. apply not_elem_of_nil.
  - intros H. destruct (IH H) as [l1 [l2 [-> [Hid Hn]]]].
    exists (x :: l1), l2. split; [reflexivity|]. split; [exact Hid|].
    simpl. apply not_elem_of_cons. split; [|exact Hn].
    apply hasKey_false in E. congruence.
Qed.

Lemma set_orderedDecisions_same (h : decisionsHelper) :
  set_orderedDecisions (orderedDecisions h) h = h.
Proof. destruct h; reflexivity. Qed.

Lemma set_orderedDecisions_twice (l l' : list decisionStateMachine) (h : decisionsHelper) :
  set_orderedDecisions l (set_orderedDecisions l' h) = set_orderedDecisions l h.
Proof. reflexivity. Qed.

(** [handleDecisionSent] returns [afterDecisionSent]; it leaves the
    collection alone, or writes the machine through and, if the step
    completed it, removes it. *)
Lemma handleDecisionSent_eq (d : decisionStateMachine) (h : decisionsHelper) :
  id (afterDecisionSent d) = id d
  /\ (dsm_handleDecisionSent d h = (Returned (afterDecisionSent d), h)
      /\ afterDecisionSent d = d
      \/ dsm_handleDecisionSent d h =
           (Returned (afterDecisionSent d),
            set_orderedDecisions
              (if isCompleted (state (afterDecisionSent d))
               then Remove (id d)
                      (writeThrough (afterDecisionSent d) (orderedDecisions h))
               else writeThrough (afterDecisionSent d) (orderedDecisions h)) h)).
Proof.
  unfold afterDecisionSent.
  destruct d as [i st hi da k].
  destruct k, st; cbn; rewrite ?moveState_eq; cbn;
    (split; [reflexivity|]);
    first [left; split; reflexivity | right; reflexivity].
Qed.

(** One turn of the loop of [getDecisions], on the element [d] that the
    collection holds between [visited] and [rest]. *)
Lemma getDecisions_turn (markAsSent : bool) (d : decisionStateMachine)
    (visited rest : list decisionStateMachine) (h : decisionsHelper) :
  orderedDecisions h = visited ++ d :: rest ->
  id d ∉ (id <$> visited) -> id d ∉ (id <$> rest) ->
  (d1 <- (if markAsSent then dsm_handleDecisionSent d else ret d) ;;
   if isCompleted (dsm_getState d1)
   then modify (removeDecision (dsm_getID d1))
   else ret tt) h =
  (Returned tt,
   set_orderedDecisions
     (visited ++ match keptByGetDecisions markAsSent d with
                 | Some x => x :: rest
                 | None => rest
                 end) h).
Proof.
  intros Hl Hv Hr.
  assert (Hrm : forall x, id x = id d -> Remove (id d) (visited ++ x :: rest)
                                          = visited ++ rest).
  { intros x Hx. rewrite Remove_app_notin by exact Hv. simpl.
    rewrite hasKey_refl by exact Hx. reflexivity. }
  assert (Hwt : forall x, id x = id d -> writeThrough x (visited ++ d :: rest)
                                          = visited ++ x :: rest).
  { intros x Hx. rewrite writeThrough_app_notin by (rewrite Hx; exact Hv).
    simpl. rewrite Hx, hasKey_id. reflexivity. }
  assert (Hrm0 : Remove (id d) (visited ++ rest) = visited ++ rest).
  { apply Remove_notin. rewrite fmap_app. intros Hin.
    apply elem_of_app in Hin. tauto_here. }
  unfold keptByGetDecisions. cbv zeta. unfold dsm_getState, dsm_getID.
  destruct markAsSent.
  - destruct (handleDecisionSent_eq d h) as [Hid [[Hs Hsame] | Hs]].
    + unfold bind. rewrite Hs. rewrite Hsame.
      destruct (isCompleted (state d)); unfold modify, ret, removeDecision.
      * rewrite Hl, (Hrm d eq_refl). reflexivity.
      * rewrite <- Hl, set_orderedDecisions_same. reflexivity.
    + unfold bind. rewrite Hs. rewrite Hid. rewrite Hl, (Hwt _ Hid).
      destruct (isCompleted (state (afterDecisionSent d)));
        unfold modify, ret, removeDecision; cbn [orderedDecisions set_orderedDecisions].
      * rewrite (Hrm _ Hid). unfold set_orderedDecisions; simpl.
        rewrite Hrm0. reflexivity.
      * reflexivity.
  - unfold bind, ret at 1.
    destruct (isCompleted (state d)); unfold modify, ret, removeDecision.
    + rewrite Hl, (Hrm d eq_refl). reflexivity.
    + rewrite <- Hl, set_orderedDecisions_same. reflexivity.
Qed.

Lemma omap_cons_match {A B} (f : A -> option B) (x : A) (l : list A) :
  omap f (x :: l) = match f x with Some y => y :: omap f l | None => omap f l end.
Proof. reflexivity. Qed.

Lemma getDecisions_loop_eq (markAsSent : bool) (rest : list decisionStateMachine) :
  forall (visited : list decisionStateMachine) (acc : list Decision)
         (h : decisionsHelper),
    orderedDecisions h = visited ++ rest ->
    NoDup (id <$> (visited ++ rest)) ->
    getDecisions_loop markAsSent rest acc h =
      (Returned (acc ++ omap dsm_getDecision rest),
       set_orderedDecisions (visited ++ omap (keptByGetDecisions markAsSent) rest) h).
Proof.
  induction rest as [|d rest IH]; intros visited acc h Hl Hnd.
  - simpl. unfold ret. rewrite !app_nil_r. rewrite app_nil_r in Hl.
    rewrite <- Hl, set_orderedDecisions_same. reflexivity.
  - rewrite fmap_app, fmap_cons in Hnd.
    apply NoDup_app in Hnd. destruct Hnd as [Hnv [Hdisj Hnr]].
    apply NoDup_cons in Hnr. destruct Hnr as [Hdr Hnr].
    assert (Hdv : id d ∉ (id <$> visited)).
    { intros Hin. apply (Hdisj _ Hin). apply elem_of_cons. left. reflexivity. }
    cbn [getDecisions_loop].
    pose proof (getDecisions_turn markAsSent d visited rest h Hl Hdv Hdr) as Hturn.
    unfold bind in Hturn |- *.
    destruct ((if markAsSent then dsm_handleDecisionSent d else ret d) h)
      as [[d1|p] h1].
    + destruct ((if isCompleted (dsm_getState d1)
                 then modify (removeDecision (dsm_getID d1))
                 else ret tt) h1) as [[[]|p] h2]; [|discriminate].
      injection Hturn as ->.
      rewrite !omap_cons_match.
      destruct (keptByGetDecisions markAsSent d) as [x|] eqn:Ek.
      * assert (Hx : id x = id d).
        { unfold keptByGetDecisions in Ek. cbv zeta in Ek.
          destruct (isCompleted _); [discriminate|]. injection Ek as <-.
          destruct markAsSent; [|reflexivity].
          apply (handleDecisionSent_eq d h). }
        rewrite (IH (visited ++ [x])).
        -- rewrite <- app_assoc. simpl.
           destruct (dsm_getDecision d); rewrite <- ?app_assoc; reflexivity.
        -- simpl. rewrite <- app_assoc. reflexivity.
        -- rewrite <- app_assoc. simpl. rewrite fmap_app, fmap_cons, Hx.
           apply NoDup_app. split; [exact Hnv|]. split; [exact Hdisj|].
           apply NoDup_cons. split; assumption.
      * rewrite (IH visited).
        -- destruct (dsm_getDecision d); rewrite <- ?app_assoc; reflexivity.
        -- reflexivity.
        -- rewrite fmap_app. apply NoDup_app. split; [exact Hnv|].
           split; [|exact Hnr].
           intros k Hk Hk'. apply (Hdisj k Hk). apply elem_of_cons. right. exact Hk'.
    + discriminate.
Qed.

Lemma getDecisions_eq (markAsSent : bool) (h : decisionsHelper) :
  NoDup (keys h) ->
  helper_getDecisions markAsSent h =
    (Returned (omap dsm_getDecision (orderedDecisions h)),
     set_orderedDecisions
       (omap (keptByGetDecisions markAsSent) (orderedDecisions h)) h).
Proof.
  intros Hnd. unfold helper_getDecisions, bind, get.
  exact (getDecisions_loop_eq markAsSent (orderedDecisions h) [] [] h eq_refl Hnd).
Qed.

Lemma fmap_Remove (k : decisionID) (l : list decisionStateMachine) :
  id <$> Remove k l = withoutKey k (id <$> l).
Proof.
  induction l as [|x l IH]; simpl; [reflexivity|].
  unfold hasKey. destruct (decide (id x = k)) as [E|E].
  - rewrite bool_decide_eq_true_2 by exact E. reflexivity.
  - rewrite bool_decide_eq_false_2 by exact E. simpl. f_equal. exact IH.
Qed.

Lemma fmap_writeThrough (d : decisionStateMachine) (l : list decisionStateMachine) :
  id <$> writeThrough d l = id <$> l.
Proof. exact (writeThrough_keys d l). Qed.

Lemma withoutKey_filter (k : decisionID) (ks : list decisionID) :
  NoDup ks -> withoutKey k ks = filter (fun x => x <> k) ks.
Proof.
  induction 1 as [|x ks Hx Hnd IH]; simpl; [reflexivity|].
  destruct (decide (x = k)) as [->|E].
  - rewrite filter_cons_False by (intros H; apply H; reflexivity).
    symmetry. clear IH Hnd. induction ks as [|y ks IH]; [reflexivity|].
    apply not_elem_of_cons in Hx. destruct Hx as [Hy Hks].
    rewrite filter_cons_True by congruence. f_equal. apply IH. exact Hks.
  - rewrite filter_cons_True by exact E. f_equal. exact IH.
Qed.

Lemma withoutKey_notin (k : decisionID) (ks : list decisionID) :
  k ∉ ks -> withoutKey k ks = ks.
Proof.
  induction ks as [|x ks IH]; simpl; [reflexivity|]. intros H.
  apply not_elem_of_cons in H. destruct H as [Hx Hks].
  rewrite decide_False by congruence. f_equal. apply IH. exact Hks.
Qed.

(** A method changes the keys of the collection at most by removing the key
    of its machine. *)
Lemma dsm_apply_keys (ev : dsmEvent) (d : decisionStateMachine) (h : decisionsHelper) :
  keys (snd (dsm_apply ev d h)) = keys h
  \/ keys (snd (dsm_apply ev d h)) = withoutKey (id d) (keys h).
Proof.
  unfold keys. destruct d as [i st hi da k]. destruct h as [l m1 m2 m3].
  destruct ev, k, st; cbn; rewrite ?moveState_eq; cbn;
    rewrite ?fmap_Remove, ?fmap_writeThrough; auto.
Qed.

Lemma getDecision_eq (k : decisionID) (h : decisionsHelper) (d : decisionStateMachine) :
  decisions h k = Some d ->
  helper_getDecision k h =
    (Returned d, set_orderedDecisions (Remove k (orderedDecisions h) ++ [d]) h).
Proof.
  intros H. unfold helper_getDecision, bind, get. rewrite H.
  unfold modify, ret, MoveToBack. unfold decisions in H. rewrite H. reflexivity.
Qed.

Lemma getDecision_missing (k : decisionID) (h : decisionsHelper) :
  decisions h k = None ->
  helper_getDecision k h =
    (Panicked
       (stateMachineIllegalStatePanic
          ("unknown decision " +:+ decisionID_String k
           +:+ ", possible causes are nondeterministic workflow definition code"
           +:+ " or incompatible change in the workflow definition")), h).
Proof.
  intros H. unfold helper_getDecision, bind, get. rewrite H. reflexivity.
Qed.

Lemma filter_ext_elem {A} (P Q : A -> Prop) `{!forall x, stdpp.base.Decision (P x)}
    `{!forall x, stdpp.base.Decision (Q x)} (l : list A) :
  (forall x, x ∈ l -> (P x <-> Q x)) -> filter P l = filter Q l.
Proof.
  induction l as [|a l IH]; intros HPQ; [reflexivity|].
  rewrite !filter_cons.
  assert (Ha : P a <-> Q a) by (apply HPQ; left).
  assert (Hl : filter P l = filter Q l)
    by (apply IH; intros x Hx; apply HPQ; right; exact Hx).
  destruct (decide (P a)), (decide (Q a)); try tauto_here; congruence.
Qed.

Lemma filter_all {A} (P : A -> Prop) `{!forall x, stdpp.base.Decision (P x)} (l : list A) :
  (forall x, x ∈ l -> P x) -> filter P l = l.
Proof.
  induction l as [|a l IH]; intros HP; [reflexivity|].
  rewrite filter_cons_True by (apply HP; left). f_equal.
  apply IH. intros x Hx. apply HP. right. exact Hx.
Qed.

Lemma find_hasKey_None_keys (k : decisionID) (l : list decisionStateMachine) :
  find (hasKey k) l = None <-> k ∉ (id <$> l).
Proof. rewrite find_hasKey_None, list_elem_of_In. reflexivity. Qed.

Lemma find_hasKey_Some_keys (k : decisionID) (l : list decisionStateMachine) d :
  find (hasKey k) l = Some d -> id d = k /\ k ∈ (id <$> l).
Proof.
  intros H. destruct (find (hasKey k) l) eqn:E; [|discriminate].
  injection H as ->. split; [apply (find_hasKey_Some _ _ _ E)|].
  destruct (decide (k ∈ (id <$> l))) as [Hin|Hin]; [exact Hin|].
  apply find_hasKey_None_keys in Hin. congruence.
Qed.

Lemma kept_id (markAsSent : bool) (d d' : decisionStateMachine) :
  keptByGetDecisions markAsSent d = Some d' -> id d' = id d.
Proof.
  unfold keptByGetDecisions.
  destruct (isCompleted _); [discriminate|]. intros [= <-].
  destruct markAsSent; [|reflexivity].
  apply (handleDecisionSent_eq d newDecisionsHelper).
Qed.

(** A list of keys [ks'] keeps the order of [ks]: it is [ks] without the
    keys that are not in [ks']. *)
Lemma keeps_order_cons (k : decisionID) (ks ks' : list decisionID) :
  k ∉ ks -> ks' = filter (fun x => x ∈ ks') ks ->
  k :: ks' = filter (fun x => x ∈ k :: ks') (k :: ks).
Proof.
  intros Hk H. rewrite filter_cons_True by left. f_equal.
  rewrite H at 1. apply filter_ext_elem. intros x Hx.
  rewrite elem_of_cons. split; [auto|]. intros [->|Hin]; [contradiction|exact Hin].
Qed.

Lemma keeps_order_skip (k : decisionID) (ks ks' : list decisionID) :
  k ∉ ks -> ks' = filter (fun x => x ∈ ks') ks ->
  ks' = filter (fun x => x ∈ ks') (k :: ks).
Proof.
  intros Hk H. rewrite filter_cons_False; [exact H|].
  intros Hin. rewrite H in Hin. apply list_elem_of_filter in Hin. tauto_here.
Qed.

Lemma keys_omap_kept (markAsSent : bool) (l : list decisionStateMachine) :
  NoDup (id <$> l) ->
  NoDup (id <$> omap (keptByGetDecisions markAsSent) l)
  /\ id <$> omap (keptByGetDecisions markAsSent) l =
       filter (fun k => k ∈ (id <$> omap (keptByGetDecisions markAsSent) l))
         (id <$> l).
Proof.
  induction l as [|d l IH]; intros Hnd.
  - split; [constructor | reflexivity].
  - rewrite fmap_cons in Hnd. apply NoDup_cons in Hnd. destruct Hnd as [Hd Hnd].
    destruct (IH Hnd) as [IH1 IH2]. rewrite omap_cons_match.
    assert (Hsub : forall k, k ∈ (id <$> omap (keptByGetDecisions markAsSent) l) ->
                             k ∈ (id <$> l)).
    { intros k Hk. rewrite IH2 in Hk. apply list_elem_of_filter in Hk. tauto_here. }
    destruct (keptByGetDecisions markAsSent d) as [d'|] eqn:Ek.
    + apply kept_id in Ek. rewrite !fmap_cons, Ek. split.
      * apply NoDup_cons. split; [|exact IH1]. intros Hin. apply Hd, Hsub, Hin.
      * apply keeps_order_cons; assumption.
    + split; [exact IH1|]. rewrite fmap_cons. apply keeps_order_skip; assumption.
Qed.

Lemma withoutKey_snoc (k : decisionID) (ks : list decisionID) :
  k ∉ ks -> withoutKey k (ks ++ [k]) = ks.
Proof.
  induction ks as [|x ks IH]; simpl; intros H.
  - rewrite decide_True by reflexivity. reflexivity.
  - apply not_elem_of_cons in H. destruct H as [Hx Hks].
    rewrite decide_False by congruence. f_equal. apply IH. exact Hks.
Qed.

Lemma not_elem_of_filter_ne (k : decisionID) (ks : list decisionID) :
  k ∉ filter (fun x => x <> k) ks.
Proof. intros H. apply list_elem_of_filter in H. destruct H as [H _]. apply H. reflexivity. Qed.

Lemma NoDup_moved (k : decisionID) (ks : list decisionID) :
  NoDup ks -> NoDup (filter (fun x => x <> k) ks ++ [k]).
Proof.
  intros H. apply NoDup_app. split; [apply NoDup_filter, H|]. split.
  - intros x Hx Hin. apply list_elem_of_singleton in Hin. subst x.
    exact (not_elem_of_filter_ne k ks Hx).
  - apply NoDup_singleton.
Qed.

Lemma keys_set_orderedDecisions (l : list decisionStateMachine) (h : decisionsHelper) :
  keys (set_orderedDecisions l h) = id <$> l.
Proof. destruct h. reflexivity. Qed.

(** One operation that returns leaves a collection without duplicate keys,
    whose keys are those of [keysAfter] without the keys of the machines
    that left the collection. *)
Lemma runOp_keys (o : helperOp) (h h' : decisionsHelper) :
  NoDup (keys h) -> runOp o h = (Returned tt, h') ->
  NoDup (keys h')
  /\ keys h' = filter (fun k => k ∈ keys h') (keysAfter o (keys h)).
Proof.
  intros Hnd Hrun. destruct o as [[d|k|k ev]|markAsSent]; simpl in Hrun.
  - apply addDecision_returned in Hrun. destruct Hrun as (Hfree & -> & _).
    unfold decisions in Hfree. apply find_hasKey_None_keys in Hfree.
    fold (keys h) in Hfree. rewrite keys_set_orderedDecisions, fmap_app. simpl.
    fold (keys h). rewrite (filter_all (fun x => x <> dsm_getID d))
      by (intros x Hx ->; contradiction).
    assert (Hnd' : NoDup (keys h ++ [dsm_getID d])).
    { apply NoDup_app. split; [exact Hnd|]. split; [|apply NoDup_singleton].
      intros x Hx Hin. apply list_elem_of_singleton in Hin. subst x. contradiction. }
    split; [exact Hnd'|]. symmetry. apply filter_all. auto.
  - unfold bind in Hrun. destruct (decisions h k) as [d|] eqn:Ed.
    2:{ rewrite (getDecision_missing k h Ed) in Hrun. discriminate. }
    rewrite (getDecision_eq k h d Ed) in Hrun. injection Hrun as <-.
    unfold decisions in Ed. apply find_hasKey_Some_keys in Ed. destruct Ed as [Hid Hin].
    rewrite keys_set_orderedDecisions, fmap_app, fmap_Remove. simpl.
    rewrite Hid. fold (keys h). rewrite withoutKey_filter by exact Hnd.
    split; [apply NoDup_moved, Hnd|]. symmetry. apply filter_all. auto.
  - unfold bind in Hrun. destruct (decisions h k) as [d|] eqn:Ed.
    2:{ rewrite (getDecision_missing k h Ed) in Hrun. discriminate. }
    rewrite (getDecision_eq k h d Ed) in Hrun.
    unfold decisions in Ed. apply find_hasKey_Some_keys in Ed. destruct Ed as [Hid Hin].
    set (h1 := set_orderedDecisions (Remove k (orderedDecisions h) ++ [d]) h) in *.
    assert (Hk1 : keys h1 = filter (fun x => x <> k) (keys h) ++ [k]).
    { unfold h1. rewrite keys_set_orderedDecisions, fmap_app, fmap_Remove. simpl.
      rewrite Hid. fold (keys h). rewrite withoutKey_filter by exact Hnd. reflexivity. }
    assert (Hh' : h' = snd (dsm_apply ev d h1)).
    { destruct (dsm_apply ev d h1) as [[x|x] h2]; unfold ret in Hrun; simpl in *;
      congruence. }
    simpl. destruct (dsm_apply_keys ev d h1) as [Hsame|Hgone]; rewrite <- Hh' in *.
    + rewrite Hsame, Hk1. split; [apply NoDup_moved, Hnd|].
      symmetry. apply filter_all. auto.
    + rewrite Hid, Hk1, withoutKey_snoc in Hgone by apply not_elem_of_filter_ne.
      rewrite Hgone. split; [apply NoDup_filter, Hnd|].
      rewrite filter_app, filter_cons_False by apply not_elem_of_filter_ne.
      rewrite filter_nil, app_nil_r. symmetry. apply filter_all. auto.
  - unfold bind in Hrun. rewrite (getDecisions_eq markAsSent h Hnd) in Hrun.
    simpl in Hrun. injection Hrun as <-. rewrite keys_set_orderedDecisions.
    simpl. apply keys_omap_kept. exact Hnd.
Qed.

Lemma filter_filter_elem {A} (P Q R : A -> Prop)
    `{!forall x, stdpp.base.Decision (P x)} `{!forall x, stdpp.base.Decision (Q x)}
    `{!forall x, stdpp.base.Decision (R x)} (l : list A) :
  (forall x, x ∈ l -> (P x /\ Q x <-> R x)) -> filter P (filter Q l) = filter R l.
Proof.
  intros HPQ. rewrite list_filter_filter. apply filter_ext_elem. exact HPQ.
Qed.

(** After a sequence of operations that returns, the collection holds first
    its untouched machines in their old order, then the touched machines in
    the order of their last touch, without machines that left the collection. *)
Lemma runOps_keys (os : list helperOp) :
  forall h h' : decisionsHelper,
  NoDup (keys h) -> runOps os h = (Returned tt, h') ->
  NoDup (keys h')
  /\ keys h' =
       filter (fun k => k ∈ keys h')
         (filter (fun k => k ∉ touched os) (keys h) ++ lastTouchOrder os).
Proof.
  induction os as [|o os IH]; intros h h' Hnd Hrun.
  - injection Hrun as <-. split; [exact Hnd|]. unfold lastTouchOrder. simpl.
    rewrite app_nil_r. rewrite (filter_all (fun k => k ∉ [])).
    + symmetry. apply filter_all. auto.
    + intros x _. apply not_elem_of_nil.
  - simpl in Hrun. unfold bind in Hrun.
    destruct (runOp o h) as [[[]|p] h1] eqn:Ho; [|discriminate].
    destruct (runOp_keys o h h1 Hnd Ho) as [Hnd1 Hk1].
    destruct (IH h1 h' Hnd1 Hrun) as [Hnd' Hk']. split; [exact Hnd'|].
    assert (Hmem : forall x, x ∈ keys h' -> x ∈ keys h1 \/ x ∈ touched os).
    { intros x Hx. rewrite Hk' in Hx. apply list_elem_of_filter in Hx.
      destruct Hx as [_ Hx]. apply elem_of_app in Hx. destruct Hx as [Hx|Hx].
      - apply list_elem_of_filter in Hx. destruct Hx as [_ Hx]. left. exact Hx.
      - unfold lastTouchOrder in Hx. rewrite elem_of_remove_dups in Hx.
        right. exact Hx. }
    rewrite Hk' at 1. rewrite !filter_app.
    destruct o as [t|markAsSent]; simpl in Hk1 |- *.
    + set (k := touchKey t) in *. rewrite Hk1 at 1.
      rewrite !filter_app, <- app_assoc. f_equal.
      * rewrite (filter_filter_elem (fun x => x ∈ keys h1) (fun x => x <> k)
                   (fun x => x ∈ keys h1 /\ x <> k)) by (intros; simpl; tauto_here).
        rewrite (filter_filter_elem (fun x => x ∉ touched os) _
                   (fun x => (x ∉ touched os) /\ x ∈ keys h1 /\ x <> k))
          by (intros; simpl; tauto_here).
        rewrite !list_filter_filter. apply filter_ext_elem. intros x _.
        rewrite not_elem_of_cons. split; [tauto_here|]. intros [Hx [Hne Hnt]].
        destruct (Hmem x Hx); tauto_here.
      * unfold lastTouchOrder. simpl. fold k.
        rewrite !filter_cons, !filter_nil.
        destruct (decide_rel elem_of k (touched os)) as [Ht|Ht].
        -- destruct (decide (k ∈ keys h1)); simpl;
             rewrite ?filter_cons, ?filter_nil; [|reflexivity].
           destruct (decide (k ∉ touched os)); [contradiction|reflexivity].
        -- rewrite filter_cons.
           destruct (decide (k ∈ keys h')) as [Hin|Hin].
           ++ destruct (Hmem k Hin) as [Hin1|]; [|contradiction].
              rewrite decide_True by exact Hin1. rewrite !filter_cons, !filter_nil.
              rewrite decide_True by exact Ht. rewrite !filter_cons, !filter_nil.
              rewrite decide_True by exact Hin. reflexivity.
           ++ destruct (decide (k ∈ keys h1)); simpl;
                rewrite ?filter_cons, ?filter_nil; [|reflexivity].
              destruct (decide (k ∉ touched os)); simpl;
                rewrite ?filter_cons, ?filter_nil; [|reflexivity].
              rewrite decide_False by exact Hin. reflexivity.
    + f_equal. rewrite Hk1 at 1.
      rewrite (filter_filter_elem (fun x => x ∉ touched os) _
                 (fun x => (x ∉ touched os) /\ x ∈ keys h1))
        by (intros; simpl; tauto_here).
      rewrite !list_filter_filter. apply filter_ext_elem. intros x _.
      split; [tauto_here|]. intros [Hx Hnt]. destruct (Hmem x Hx); tauto_here.
Qed.

Lemma isCompleted_spec (s : decisionState) :
  isCompleted s = true <-> s = decisionStateCompleted.
Proof. destruct s; simpl; split; congruence. Qed.

Lemma kept_None (markAsSent : bool) (d : decisionStateMachine) :
  keptByGetDecisions markAsSent d = None <->
  state (if markAsSent then afterDecisionSent d else d) = decisionStateCompleted.
Proof.
  unfold keptByGetDecisions. rewrite <- isCompleted_spec.
  destruct (isCompleted _); split; congruence.
Qed.

Lemma kept_not_Completed (markAsSent : bool) (l : list decisionStateMachine)
    (d : decisionStateMachine) :
  d ∈ omap (keptByGetDecisions markAsSent) l -> state d <> decisionStateCompleted.
Proof.
  intros H. apply list_elem_of_omap in H. destruct H as (d0 & _ & H).
  unfold keptByGetDecisions in H. rewrite <- isCompleted_spec.
  destruct (isCompleted _) eqn:E; [discriminate|]. injection H as <-. congruence.
Qed.

(** C1. [getDecision] moves the machine it finds to the back of the ordered
    list, and [getDecisions] walks the list from the front, collecting the
    decision of every machine that has one and removing the machines that
    are Completed.  So after any operations of a decision task (machines
    added, events and cancel requests routed through [getDecision],
    traversals) the collection holds its machines in the order of their last
    touch, behind the machines that were never touched, and the decisions
    collected come out in that order. *)
Theorem decisions_in_order_of_last_touch (os : list helperOp) (markAsSent : bool)
    (h h' : decisionsHelper) :
  NoDup (keys h) ->
  runOps os h = (Returned tt, h') ->
  (forall k d, decisions h' k = Some d ->
     helper_getDecision k h' =
       (Returned d,
        set_orderedDecisions (Remove k (orderedDecisions h') ++ [d]) h'))
  /\ NoDup (keys h')
  /\ keys h' =
       filter (fun k => k ∈ keys h')
         (filter (fun k => k ∉ touched os) (keys h) ++ lastTouchOrder os)
  /\ (keys h = [] ->
      keys h' = filter (fun k => k ∈ keys h') (lastTouchOrder os))
  /\ helper_getDecisions markAsSent h' =
       (Returned (omap dsm_getDecision (orderedDecisions h')),
        set_orderedDecisions
          (omap (keptByGetDecisions markAsSent) (orderedDecisions h')) h')
  /\ (forall d, d ∈ omap (keptByGetDecisions markAsSent) (orderedDecisions h') ->
        state d <> decisionStateCompleted)
  /\ (forall d, d ∈ orderedDecisions h' ->
        (keptByGetDecisions markAsSent d = None <->
         state (if markAsSent then afterDecisionSent d else d)
           = decisionStateCompleted)).
Proof.
  intros Hnd Hrun. destruct (runOps_keys os h h' Hnd Hrun) as [Hnd' Hk'].
  split; [intros k d; apply getDecision_eq|].
  split; [exact Hnd'|]. split; [exact Hk'|].
  split; [intros E; rewrite E in Hk'; exact Hk'|].
  split; [apply getDecisions_eq, Hnd'|].
  split; [intros d; apply kept_not_Completed|].
  intros d _. apply kept_None.
Qed.


(** ** A timer cancelled before it is started, through the helper *)

Lemma only_find (k : decisionID) (d : decisionStateMachine) :
  id d = k -> find (hasKey k) [d] = Some d.
Proof. intros H. simpl. rewrite hasKey_refl by exact H. reflexivity. Qed.

Lemma only_Remove (k : decisionID) (d : decisionStateMachine) :
  id d = k -> Remove k [d] = [].
Proof. intros H. simpl. rewrite hasKey_refl by exact H. reflexivity. Qed.

Lemma only_writeThrough (d' d : decisionStateMachine) :
  id d = id d' -> writeThrough d' [d] = [d'].
Proof. intros H. simpl. rewrite hasKey_refl by exact H. reflexivity. Qed.

Lemma holding_getDecision (d : decisionStateMachine) :
  helper_getDecision (id d) (holding d) = (Returned d, holding d).
Proof.
  rewrite (getDecision_eq (id d) (holding d) d).
  - unfold holding. cbn [set_orderedDecisions orderedDecisions newDecisionsHelper].
    rewrite only_Remove by reflexivity. reflexivity.
  - unfold decisions, holding. cbn [set_orderedDecisions orderedDecisions newDecisionsHelper]. apply only_find. reflexivity.
Qed.

Lemma holding_route (ev : dsmEvent) (d : decisionStateMachine) :
  (d1 <- helper_getDecision (id d) ;; dsm_apply ev d1) (holding d)
  = dsm_apply ev d (holding d).
Proof. unfold bind. rewrite holding_getDecision. reflexivity. Qed.

Lemma holding_moveState (s : decisionState) (ev : string) (d0 d : decisionStateMachine) :
  id d0 = id d ->
  moveState s ev d (holding d0) =
    (Returned (moved s ev d),
     if isCompleted s then newDecisionsHelper else holding (moved s ev d)).
Proof.
  intros H. rewrite moveState_eq. unfold holding. cbn [set_orderedDecisions orderedDecisions newDecisionsHelper].
  rewrite only_writeThrough by exact H.
  destruct (isCompleted s); [|reflexivity].
  rewrite only_Remove by reflexivity. reflexivity.
Qed.

Lemma holding_sync (d0 d : decisionStateMachine) :
  id d0 = id d -> sync d (holding d0) = (Returned d, holding d).
Proof.
  intros H. unfold sync, holding. cbn [set_orderedDecisions orderedDecisions newDecisionsHelper].
  rewrite only_writeThrough by exact H. reflexivity.
Qed.

Lemma holding_getDecisions (markAsSent : bool) (d : decisionStateMachine) :
  helper_getDecisions markAsSent (holding d) =
    (Returned (omap dsm_getDecision [d]),
     match keptByGetDecisions markAsSent d with
     | Some d' => holding d'
     | None => newDecisionsHelper
     end).
Proof.
  rewrite getDecisions_eq.
  - unfold holding. cbn [set_orderedDecisions orderedDecisions newDecisionsHelper]. rewrite (omap_cons_match (keptByGetDecisions markAsSent)).
    destruct (keptByGetDecisions markAsSent d); reflexivity.
  - unfold keys, holding. simpl. apply NoDup_singleton.
Qed.

Section TimerRun.
Variable a : StartTimerDecisionAttributes.
Let d0 := newTimerDecisionStateMachine a.
Let d1 := moved decisionStateDecisionSent eventDecisionSent d0.
Let d2 := moved decisionStateCanceledBeforeInitiated eventCancel
            (set_kind (timerDecisionStateMachine a true) d1).
Let d3 := moved decisionStateCanceledAfterInitiated eventInitiated d2.
Let d4 := moved decisionStateCancellationDecisionSent eventDecisionSent d3.

Lemma run_startTimer :
  helper_startTimer a newDecisionsHelper = (Returned d0, holding d0).
Proof. reflexivity. Qed.

Lemma run_sent1 :
  helper_getDecisions true (holding d0)
  = (Returned [Decision_StartTimerDecisionAttributes a], holding d1).
Proof. rewrite holding_getDecisions. reflexivity. Qed.

Lemma run_cancel :
  helper_cancelTimer (st_TimerId a) (holding d1) = (Returned d2, holding d2).
Proof.
  unfold helper_cancelTimer, bind.
  change (makeDecisionID decisionTypeTimer (st_TimerId a)) with (id d1).
  rewrite (holding_getDecision d1). cbn -[holding sync moveState base_cancel].
  unfold timer_cancel, bind. rewrite holding_sync by reflexivity.
  cbn -[holding sync moveState]. rewrite holding_moveState by reflexivity.
  reflexivity.
Qed.

Lemma run_sent2 :
  helper_getDecisions true (holding d2) = (Returned [], holding d2).
Proof. rewrite holding_getDecisions. reflexivity. Qed.

Lemma run_started :
  helper_handleTimerStarted (st_TimerId a) (holding d2) = (Returned tt, holding d3).
Proof.
  unfold helper_handleTimerStarted, bind.
  change (makeDecisionID decisionTypeTimer (st_TimerId a)) with (id d2).
  rewrite (holding_getDecision d2). cbn -[holding sync moveState].
  rewrite holding_moveState by reflexivity. reflexivity.
Qed.

Lemma run_sent3 :
  helper_getDecisions true (holding d3)
  = (Returned [Decision_CancelTimerDecisionAttributes (st_TimerId a)], holding d4).
Proof. rewrite holding_getDecisions. reflexivity. Qed.

Lemma run_canceled :
  helper_handleTimerCanceled (st_TimerId a) (holding d4)
  = (Returned tt, newDecisionsHelper).
Proof.
  unfold helper_handleTimerCanceled, bind.
  change (makeDecisionID decisionTypeTimer (st_TimerId a)) with (id d4).
  rewrite (holding_getDecision d4). cbn -[holding sync moveState].
  rewrite holding_moveState by reflexivity. reflexivity.
Qed.

Lemma run_sent4 :
  helper_getDecisions true newDecisionsHelper = (Returned [], newDecisionsHelper).
Proof. reflexivity. Qed.

Lemma run_timerCanceledBeforeStarted :
  fst (timerCanceledBeforeStarted a newDecisionsHelper)
     = Returned [[Decision_StartTimerDecisionAttributes a]; [];
                 [Decision_CancelTimerDecisionAttributes (st_TimerId a)]; []].
Proof.
  unfold timerCanceledBeforeStarted, bind.
  rewrite run_startTimer, run_sent1, run_cancel, run_sent2, run_started,
    run_sent3, run_canceled, run_sent4.
  reflexivity.
Qed.
End TimerRun.

(** C6.  A timer cancelled before its TimerStarted event is applied goes
    Created, DecisionSent, CanceledBeforeInitiated, CanceledAfterInitiated,
    CancellationDecisionSent, Completed, every step accepted; a timer
    machine offers a CancelTimer decision exactly in state
    CanceledAfterInitiated; and the run through the helper emits the
    StartTimer decision and then exactly one CancelTimer decision. *)

Theorem timer_cancel_before_initiated (a : StartTimerDecisionAttributes) :
  let d0 := newTimerDecisionStateMachine a in
  state d0 = decisionStateCreated
  /\ fst (dsm_trace [evDecisionSent; evCancel; evInitiated; evDecisionSent; evCanceled]
            d0 (holding d0))
     = Returned
         [(decisionStateDecisionSent, None);
          (decisionStateCanceledBeforeInitiated, None);
          (decisionStateCanceledAfterInitiated,
           Some (Decision_CancelTimerDecisionAttributes (st_TimerId a)));
          (decisionStateCancellationDecisionSent, None);
          (decisionStateCompleted, None)]
  /\ (forall i st hi da c,
        isCancelTimer
          (dsm_getDecision {| id := i; state := st; history := hi; data := da;
                              kind := timerDecisionStateMachine a c |})
        = match st with
          | decisionStateCanceledAfterInitiated => true
          | _ => false
          end)
  /\ fst (timerCanceledBeforeStarted a newDecisionsHelper)
     = Returned [[Decision_StartTimerDecisionAttributes a]; [];
                 [Decision_CancelTimerDecisionAttributes (st_TimerId a)]; []].
Proof.
  cbv zeta. split; [reflexivity|]. split; [|split].
  - unfold holding. key_steps. reflexivity.
  - intros i st hi da c. destruct st; reflexivity.
  - apply run_timerCanceledBeforeStarted.
Qed.


(** ** Cancel requests for activities that are closed *)

Lemma set_wc_decisionsHelper_same (e : env) :
  set_wc_decisionsHelper (wc_decisionsHelper e) e = e.
Proof. destruct e. reflexivity. Qed.

Lemma Remove_gone (k : decisionID) (l : list decisionStateMachine) :
  NoDup (id <$> l) -> find (hasKey k) (Remove k l) = None.
Proof.
  intros Hnd. apply find_hasKey_None_keys.
  rewrite fmap_Remove, withoutKey_filter by exact Hnd.
  apply not_elem_of_filter_ne.
Qed.

(** A completion event that leaves the machine Completed takes it out of the
    collection. *)
Lemma handleCompletionEvent_Completed (d d' : decisionStateMachine)
    (h h' : decisionsHelper) :
  dsm_handleCompletionEvent d h = (Returned d', h') ->
  state d' = decisionStateCompleted ->
  orderedDecisions h' = Remove (id d) (writeThrough d' (orderedDecisions h)).
Proof.
  destruct d as [i st hi da k]. destruct h as [l m1 m2 m3].
  destruct k, st; cbn; rewrite ?moveState_eq; cbn;
    intros [= <- <-]; cbn; try discriminate; reflexivity.
Qed.

Lemma handleActivityTaskClosed_removes (activityID : string)
    (d' : decisionStateMachine) (h h' : decisionsHelper) :
  NoDup (keys h) ->
  helper_handleActivityTaskClosed activityID h = (Returned d', h') ->
  state d' = decisionStateCompleted ->
  decisions h' (makeDecisionID decisionTypeActivity activityID) = None.
Proof.
  intros Hnd. unfold helper_handleActivityTaskClosed, bind.
  set (k := makeDecisionID decisionTypeActivity activityID).
  destruct (decisions h k) as [d|] eqn:Ed.
  2:{ rewrite (getDecision_missing k h Ed). discriminate. }
  rewrite (getDecision_eq k h d Ed). intros Hc Hst.
  apply handleCompletionEvent_Completed in Hc; [|exact Hst].
  unfold decisions. rewrite Hc.
  unfold decisions in Ed. apply find_hasKey_Some_keys in Ed. destruct Ed as [Hid _].
  rewrite Hid. apply Remove_gone.
  rewrite fmap_writeThrough. destruct h as [l m1 m2 m3]. simpl.
  rewrite fmap_app, fmap_Remove. simpl. rewrite Hid.
  rewrite withoutKey_filter by exact Hnd. apply NoDup_moved, Hnd.
Qed.

Lemma RequestCancelActivity_unknown (activityID : string) (e : env) :
  decisions (wc_decisionsHelper e) (makeDecisionID decisionTypeActivity activityID)
    = None ->
  RequestCancelActivity activityID e =
    (Panicked
       (stateMachineIllegalStatePanic
          ("unknown decision "
           +:+ decisionID_String (makeDecisionID decisionTypeActivity activityID)
           +:+ ", possible causes are nondeterministic workflow definition code"
           +:+ " or incompatible change in the workflow definition")), e).
Proof.
  intros H. unfold RequestCancelActivity, bind.
  rewrite liftH_eq. unfold helper_requestCancelActivityTask, bind.
  rewrite (getDecision_missing _ _ H). simpl.
  rewrite set_wc_decisionsHelper_same. reflexivity.
Qed.

(** C5. When the close event of an activity has moved its state machine to
    Completed, the machine is no longer in the collection, and a cancel
    request for the activity panics with an unknown decision and leaves the
    environment as it was: the request is not a no-op. *)
Theorem RequestCancelActivity_after_Completed_panics (activityID : string)
    (d' : decisionStateMachine) (e e1 : env) :
  NoDup (keys (wc_decisionsHelper e)) ->
  liftH (helper_handleActivityTaskClosed activityID) e = (Returned d', e1) ->
  state d' = decisionStateCompleted ->
  decisions (wc_decisionsHelper e1)
    (makeDecisionID decisionTypeActivity activityID) = None
  /\ RequestCancelActivity activityID e1 =
       (Panicked
          (stateMachineIllegalStatePanic
             ("unknown decision "
              +:+ decisionID_String (makeDecisionID decisionTypeActivity activityID)
              +:+ ", possible causes are nondeterministic workflow definition code"
              +:+ " or incompatible change in the workflow definition")), e1).
Proof.
  intros Hnd Hc Hst. rewrite liftH_eq in Hc.
  destruct (helper_handleActivityTaskClosed activityID (wc_decisionsHelper e))
    as [r h1] eqn:Eh.
  simpl in Hc. injection Hc as -> <-.
  pose proof (handleActivityTaskClosed_removes activityID d' _ h1 Hnd Eh Hst) as Hgone.
  assert (Hd : wc_decisionsHelper (set_wc_decisionsHelper h1 e) = h1)
    by (destruct e; reflexivity).
  rewrite Hd. split; [exact Hgone|].
  apply RequestCancelActivity_unknown. rewrite Hd. exact Hgone.
Qed.


(** ** Relations kept by every operation on the environment *)

Lemma preserves_ret (P : env -> env -> Prop) `{!Reflexive P} {A} (a : A) :
  preserves P (ret a).
Proof. intros e. simpl. reflexivity. Qed.

Lemma preserves_panic (P : env -> env -> Prop) `{!Reflexive P} {A} (p : panicValue) :
  preserves P (@panic env A p).
Proof. intros e. simpl. reflexivity. Qed.

Lemma preserves_get (P : env -> env -> Prop) `{!Reflexive P} :
  preserves P (@get env).
Proof. intros e. simpl. reflexivity. Qed.

Lemma preserves_bind (P : env -> env -> Prop) `{!Transitive P} {A B}
    (c : M env A) (k : A -> M env B) :
  preserves P c -> (forall a, preserves P (k a)) -> preserves P (bind c k).
Proof.
  intros Hc Hk e. unfold bind. specialize (Hc e).
  destruct (c e) as [[a|p] e1]; simpl in *.
  - transitivity e1; [exact Hc | apply Hk].
  - exact Hc.
Qed.

Lemma preserves_modify (P : env -> env -> Prop) (f : env -> env) :
  (forall e, P e (f e)) -> preserves P (modify f).
Proof. intros H e. apply H. Qed.

Lemma preserves_liftH (P : env -> env -> Prop) {A} (c : M decisionsHelper A) :
  (forall e h, P e (set_wc_decisionsHelper h e)) -> preserves P (liftH c).
Proof. intros H e. rewrite liftH_eq. simpl. apply H. Qed.

Lemma countDecisionTaskPanic_eq (e : env) :
  countDecisionTaskPanic e =
    match wc_metricsScope e with
    | Some _ => (Returned tt, e)
    | None =>
        (Panicked (runtimePanic "invalid memory address or nil pointer dereference"), e)
    end.
Proof.
  unfold countDecisionTaskPanic, bind, get. destruct (wc_metricsScope e); reflexivity.
Qed.

Lemma preserves_recoverAndComplete (P : env -> env -> Prop) `{!Transitive P}
    (c : M env (option goError)) :
  preserves P c ->
  (forall p, preserves P (Complete None (Some (newWorkflowPanicError p)))) ->
  preserves P (recoverAndComplete c).
Proof.
  intros Hc Hk e. unfold recoverAndComplete. specialize (Hc e).
  destruct (c e) as [[a|p] e1]; simpl in *; [exact Hc|].
  unfold bind at 1. rewrite countDecisionTaskPanic_eq.
  destruct (wc_metricsScope e1); [|exact Hc].
  transitivity e1; [exact Hc|]. unfold bind. specialize (Hk p e1).
  destruct (Complete None (Some (newWorkflowPanicError p)) e1) as [[x|x] e2];
    exact Hk.
Qed.

Lemma preserves_newWaiter (P : env -> env -> Prop) (w : waiter) :
  (forall e, P e (set_wc_nextWaiter (N.succ (wc_nextWaiter e))
                    (set_wc_waiters (<[wc_nextWaiter e := w]> (wc_waiters e)) e))) ->
  preserves P (newWaiter w).
Proof. intros H e. apply H. Qed.

Ltac head_of c :=
  lazymatch c with
  | ?f _ => head_of f
  | _ => c
  end.

(** One step of a proof that a computation keeps a relation: [known] closes
    the computations with a lemma of their own, [leaf] the updates of the
    environment. *)
Ltac preserves_step known leaf :=
  first
    [ known
    | lazymatch goal with
      | |- preserves _ (bind _ _) =>
          refine (preserves_bind _ _ _ _ _); [|intros ?; cbv beta]
      | |- preserves _ (ret _) => refine (preserves_ret _ _)
      | |- preserves _ (panic _) => refine (preserves_panic _ _)
      | |- preserves _ get => refine (preserves_get _)
      | |- preserves _ (modify _) => apply preserves_modify; leaf
      | |- preserves _ (liftH _) => apply preserves_liftH; leaf
      | |- preserves _ (newWaiter _) => apply preserves_newWaiter; leaf
      | |- preserves _ (recoverAndComplete _) =>
          refine (preserves_recoverAndComplete _ _ _ _); [|intros ?]
      | |- preserves _ (match ?x with _ => _ end) => destruct x
      | |- preserves _ (let _ := _ in _) => cbv zeta
      | |- preserves _ ?c => let h := head_of c in unfold h
      end ].

Ltac preserves_auto known leaf := repeat preserves_step known leaf.

(** ** Panics a computation never ends in *)













(** ** The replay clock *)

#[local] Instance clockMonotone_refl : Reflexive clockMonotone.
Proof. intros e. unfold clockMonotone. lia. Qed.

#[local] Instance clockMonotone_trans : Transitive clockMonotone.
Proof. intros e1 e2 e3. unfold clockMonotone. lia. Qed.

#[local] Instance clockKept_refl : Reflexive clockKept.
Proof. intros e. reflexivity. Qed.

#[local] Instance clockKept_trans : Transitive clockKept.
Proof. intros e1 e2 e3. unfold clockKept. congruence. Qed.







Ltac no_known := idtac; fail.







(** ** Waiters are resumed at most once *)





#[local] Instance flagsKept_refl : Reflexive flagsKept.
Proof. intros e p w H. exists w. auto. Qed.

#[local] Instance flagsKept_trans : Transitive flagsKept.
Proof.
  intros e1 e2 e3 H12 H23 p w H.
  destruct (H12 p w H) as (w2 & H2 & Hc2 & Hh2).
  destruct (H23 p w2 H2) as (w3 & H3 & Hc3 & Hh3).
  exists w3. split; [exact H3|]. split; [congruence | auto].
Qed.

#[local] Instance waitersStep_refl : Reflexive waitersStep.
Proof. intros e H. split; [exact H | reflexivity]. Qed.

#[local] Instance waitersStep_trans : Transitive waitersStep.
Proof.
  intros e1 e2 e3 H12 H23 H1.
  destruct (H12 H1) as [H2 K12]. destruct (H23 H2) as [H3 K23].
  split; [exact H3 | etransitivity; eassumption].
Qed.

















(** *** No handler reaches [handle] with the flag set *)


















(** * Further properties of the code *)

(** ** Decisions are sent once *)

Lemma kept_sent_settled (d d' : decisionStateMachine) :
  keptByGetDecisions true d = Some d' ->
  dsm_getDecision d' = None /\ keptByGetDecisions true d' = Some d'.
Proof.
  unfold keptByGetDecisions, afterDecisionSent.
  destruct d as [i st hi da k]; destruct k, st; cbn;
    intros H; try discriminate H; injection H as <-; cbn; split; reflexivity.
Qed.

Lemma omap_kept_settled (l : list decisionStateMachine) :
  omap dsm_getDecision (omap (keptByGetDecisions true) l) = []
  /\ omap (keptByGetDecisions true) (omap (keptByGetDecisions true) l)
     = omap (keptByGetDecisions true) l.
Proof.
  induction l as [|d l [IH1 IH2]]; [split; reflexivity|].
  rewrite (omap_cons_match (keptByGetDecisions true) d l).
  destruct (keptByGetDecisions true d) as [d'|] eqn:E; [|split; assumption].
  destruct (kept_sent_settled d d' E) as [Hn Hk].
  rewrite (omap_cons_match dsm_getDecision), Hn.
  rewrite (omap_cons_match (keptByGetDecisions true) d'), Hk, IH2.
  split; [exact IH1 | reflexivity].
Qed.

(** X1. Decisions are sent once: when [getDecisions(true)] has collected the
    pending decisions and marked them as sent, a second [getDecisions(true)]
    right after it returns no decision and leaves the collection as it is. *)
Theorem getDecisions_sent_once (h : decisionsHelper) :
  NoDup (keys h) ->
  exists ds h1,
    helper_getDecisions true h = (Returned ds, h1)
    /\ ds = omap dsm_getDecision (orderedDecisions h)
    /\ helper_getDecisions true h1 = (Returned [], h1).
Proof.
  intros Hnd. rewrite (getDecisions_eq true h Hnd).
  eexists; eexists. split; [reflexivity|]. split; [reflexivity|].
  destruct (keys_omap_kept true (orderedDecisions h) Hnd) as [Hnd1 _].
  destruct (omap_kept_settled (orderedDecisions h)) as [H1 H2].
  rewrite getDecisions_eq by (rewrite keys_set_orderedDecisions; exact Hnd1).
  destruct h as [l m1 m2 m3]; simpl in *. rewrite H1, H2. reflexivity.
Qed.

(** ** Completed machines leave the collection *)

Lemma Remove_writeThrough (k : decisionID) (d : decisionStateMachine)
    (l : list decisionStateMachine) :
  id d = k -> Remove k (writeThrough d l) = Remove k l.
Proof.
  intros <-. induction l as [|x l IH]; simpl; [reflexivity|].
  destruct (hasKey (id d) x) eqn:E; simpl.
  - rewrite hasKey_id. reflexivity.
  - rewrite E. f_equal. exact IH.
Qed.

Lemma Forall_Remove (P : decisionStateMachine -> Prop) (k : decisionID)
    (l : list decisionStateMachine) :
  Forall P l -> Forall P (Remove k l).
Proof.
  induction 1 as [|x l Hx Hl IH]; simpl; [constructor|].
  destruct (hasKey k x); [exact Hl | constructor; assumption].
Qed.

Lemma Forall_writeThrough (P : decisionStateMachine -> Prop) (d : decisionStateMachine)
    (l : list decisionStateMachine) :
  P d -> Forall P l -> Forall P (writeThrough d l).
Proof.
  intros Hd. induction 1 as [|x l Hx Hl IH]; simpl; [constructor|].
  destruct (hasKey (id d) x); constructor; assumption.
Qed.

Lemma dsm_apply_noCompleted (ev : dsmEvent) (d : decisionStateMachine)
    (h : decisionsHelper) :
  state d <> decisionStateCompleted -> noCompleted h ->
  noCompleted (snd (dsm_apply ev d h)).
Proof.
  unfold noCompleted. destruct d as [i st hi da k]. destruct h as [l m1 m2 m3].
  intros Hst Hl.
  destruct ev, k, st; try (exfalso; apply Hst; reflexivity);
    cbn; rewrite ?moveState_eq; cbn;
    rewrite ?Remove_writeThrough by reflexivity;
    repeat first [ assumption
                 | apply Forall_Remove
                 | apply Forall_writeThrough; [cbn; discriminate|] ].
Qed.

Lemma runOp_noCompleted (o : helperOp) (h : decisionsHelper) :
  addsCreated [o] -> noCompleted h -> noCompleted (snd (runOp o h)).
Proof.
  intros Ho Hh. destruct o as [[d|k|k ev]|markAsSent]; simpl.
  - unfold helper_addDecision, bind, get.
    destruct (decisions h (dsm_getID d)); simpl; [exact Hh|].
    unfold noCompleted. destruct h as [l m1 m2 m3]; simpl. unfold PushBack.
    apply Forall_app. split; [exact Hh|]. constructor; [|constructor].
    simpl in Ho. destruct Ho as [-> _]. discriminate.
  - unfold bind. destruct (decisions h k) as [d|] eqn:Ed.
    + rewrite (getDecision_eq k h d Ed). simpl.
      unfold noCompleted in *. destruct h as [l m1 m2 m3]; simpl in *.
      apply Forall_app. split; [apply Forall_Remove, Hh|].
      constructor; [|constructor].
      unfold decisions in Ed. apply find_some in Ed. destruct Ed as [Hin _].
      rewrite Forall_forall in Hh. apply Hh. apply list_elem_of_In. exact Hin.
    + rewrite (getDecision_missing k h Ed). exact Hh.
  - unfold bind. destruct (decisions h k) as [d|] eqn:Ed.
    + rewrite (getDecision_eq k h d Ed).
      assert (Hd : state d <> decisionStateCompleted).
      { unfold decisions in Ed. apply find_some in Ed. destruct Ed as [Hin _].
        unfold noCompleted in Hh. rewrite Forall_forall in Hh.
        apply Hh. apply list_elem_of_In. exact Hin. }
      set (h1 := set_orderedDecisions (Remove k (orderedDecisions h) ++ [d]) h).
      assert (H1 : noCompleted h1).
      { unfold noCompleted, h1. destruct h as [l m1 m2 m3]; simpl in *.
        apply Forall_app. split; [apply Forall_Remove, Hh|].
        constructor; [exact Hd|constructor]. }
      pose proof (dsm_apply_noCompleted ev d h1 Hd H1) as H2.
      destruct (dsm_apply ev d h1) as [[x|x] h2]; exact H2.
    + rewrite (getDecision_missing k h Ed). exact Hh.
  - unfold bind.
    assert (H : noCompleted (snd (helper_getDecisions markAsSent h))).
    { clear Ho. unfold helper_getDecisions, bind, get.
      generalize (@nil Decision).
      assert (G : forall rest result h0, noCompleted h0 ->
                    noCompleted (snd (getDecisions_loop markAsSent rest result h0))).
      { induction rest as [|d rest IH]; intros result h0 H0; simpl; [exact H0|].
        unfold bind.
        destruct ((if markAsSent then dsm_handleDecisionSent d else ret d) h0)
          as [[d1|p] h1] eqn:E1.
        2:{ destruct markAsSent; [|discriminate E1].
            pose proof (handleDecisionSent_eq d h0) as [_ [[Hs _]|Hs]];
              rewrite Hs in E1; discriminate E1. }
        assert (H1 : noCompleted h1 /\
                     (isCompleted (dsm_getState d1) = false ->
                      True)).
        { split; [|auto]. destruct markAsSent.
          - pose proof (handleDecisionSent_eq d h0) as [Hid [[Hs _]|Hs]];
              rewrite Hs in E1; injection E1 as <- <-; [exact H0|].
            unfold noCompleted in *. destruct h0 as [l m1 m2 m3]; simpl in *.
            destruct (isCompleted (state (afterDecisionSent d))) eqn:Ec.
            + rewrite Remove_writeThrough by exact Hid. apply Forall_Remove, H0.
            + apply Forall_writeThrough; [|exact H0].
              intros Hc. apply isCompleted_spec in Hc. congruence.
          - injection E1 as <- <-. exact H0. }
        destruct H1 as [H1 _].
        destruct (isCompleted (dsm_getState d1)); simpl.
        - apply IH. unfold removeDecision. unfold noCompleted in *.
          destruct h1 as [l m1 m2 m3]; simpl in *. apply Forall_Remove, H1.
        - apply IH. exact H1. }
      intros result. apply G. exact Hh. }
    destruct (helper_getDecisions markAsSent h) as [[x|x] h1]; exact H.
Qed.

Lemma addsCreated_cons (o : helperOp) (os : list helperOp) :
  addsCreated (o :: os) -> addsCreated [o] /\ addsCreated os.
Proof.
  destruct o as [[d|k|k ev]|m]; simpl; intros H; try (split; [exact I|exact H]).
  destruct H as [H1 H2]. split; [split; [exact H1|exact I] | exact H2].
Qed.

(** X2. A machine that reaches Completed leaves the collection: whatever
    machines are added (in state Created, as every constructor makes them),
    looked up, sent events or traversed, and whether the operations return
    or panic, no machine in the collection is in state Completed. *)
Theorem collection_never_holds_Completed (os : list helperOp) :
  forall h : decisionsHelper,
  addsCreated os -> noCompleted h -> noCompleted (snd (runOps os h)).
Proof.
  induction os as [|o os IH]; intros h Hos Hh; simpl; [exact Hh|].
  apply addsCreated_cons in Hos. destruct Hos as [Ho Hos].
  pose proof (runOp_noCompleted o h Ho Hh) as H1. unfold bind.
  destruct (runOp o h) as [[x|x] h1]; simpl in *; [apply IH; assumption | exact H1].
Qed.

Lemma omap_kept_false (l : list decisionStateMachine) :
  Forall (fun d => state d <> decisionStateCompleted) l ->
  omap (keptByGetDecisions false) l = l.
Proof.
  induction 1 as [|d l Hd Hl IH]; [reflexivity|].
  rewrite omap_cons_match. unfold keptByGetDecisions at 1.
  destruct (isCompleted (state d)) eqn:E.
  - apply isCompleted_spec in E. contradiction.
  - rewrite IH. reflexivity.
Qed.

(** X3. [getDecisions(false)] only reads: on a collection without a
    Completed machine it returns the decisions [getDecisions(true)] would
    return, in the same order, and leaves the collection exactly as it was. *)
Theorem getDecisions_false_only_reads (h : decisionsHelper) :
  NoDup (keys h) -> noCompleted h ->
  helper_getDecisions false h
    = (Returned (omap dsm_getDecision (orderedDecisions h)), h)
  /\ fst (helper_getDecisions true h) = fst (helper_getDecisions false h).
Proof.
  intros Hnd Hh. rewrite !getDecisions_eq by exact Hnd.
  rewrite (omap_kept_false _ Hh). split; [|reflexivity].
  destruct h; reflexivity.
Qed.

(** ** The scheduled event of an activity is remembered *)

Lemma dsm_apply_maps (ev : dsmEvent) (d : decisionStateMachine) (h : decisionsHelper) :
  scheduledEventIDToActivityID (snd (dsm_apply ev d h)) = scheduledEventIDToActivityID h
  /\ scheduledEventIDToCancellationID (snd (dsm_apply ev d h))
     = scheduledEventIDToCancellationID h
  /\ scheduledEventIDToSignalID (snd (dsm_apply ev d h)) = scheduledEventIDToSignalID h.
Proof.
  destruct d as [i st hi da k]. destruct h as [l m1 m2 m3].
  destruct ev, k, st; cbn; rewrite ?moveState_eq; cbn; repeat split; reflexivity.
Qed.

Lemma getDecision_maps (k : decisionID) (h : decisionsHelper) :
  scheduledEventIDToActivityID (snd (helper_getDecision k h))
    = scheduledEventIDToActivityID h
  /\ scheduledEventIDToCancellationID (snd (helper_getDecision k h))
     = scheduledEventIDToCancellationID h
  /\ scheduledEventIDToSignalID (snd (helper_getDecision k h))
     = scheduledEventIDToSignalID h.
Proof.
  destruct (decisions h k) as [d|] eqn:E.
  - rewrite (getDecision_eq k h d E). destruct h; repeat split; reflexivity.
  - rewrite (getDecision_missing k h E). repeat split; reflexivity.
Qed.

Lemma handleActivityTaskScheduled_map (scheduledEventID : Z) (activityID : string)
    (h : decisionsHelper) :
  scheduledEventIDToActivityID
    (snd (helper_handleActivityTaskScheduled scheduledEventID activityID h))
  = <[scheduledEventID := activityID]> (scheduledEventIDToActivityID h).
Proof.
  unfold helper_handleActivityTaskScheduled.
  unfold bind at 1. unfold modify at 1.
  set (h0 := set_scheduledEventIDToActivityID _ h).
  change (<[scheduledEventID:=activityID]> (scheduledEventIDToActivityID h))
    with (scheduledEventIDToActivityID h0).
  unfold bind.
  pose proof (getDecision_maps (makeDecisionID decisionTypeActivity activityID) h0)
    as [Hg _].
  destruct (helper_getDecision (makeDecisionID decisionTypeActivity activityID) h0)
    as [[d|p] h1]; simpl in *; [|exact Hg].
  pose proof (dsm_apply_maps evInitiated d h1) as [Ha _]. simpl in Ha.
  destruct (dsm_handleInitiatedEvent d h1) as [[d'|p] h2]; simpl in *; congruence.
Qed.

Lemma getActivityID_eq (event : HistoryEvent) (h : decisionsHelper) :
  helper_getActivityID event h =
    match closedScheduledEventID event with
    | None =>
        (Panicked (stateMachineIllegalStatePanic
                     ("unexpected event type " +:+ GetHistoryEventType event)), h)
    | Some i =>
        match scheduledEventIDToActivityID h !! i with
        | Some activityID => (Returned activityID, h)
        | None =>
            (Panicked (stateMachineIllegalStatePanic
                         ("unable to find activity ID for the event "
                          +:+ HistoryEventToString event)), h)
        end
    end.
Proof.
  unfold helper_getActivityID, closedScheduledEventID, bind, get.
  destruct (Attributes event); try reflexivity; simpl;
    match goal with |- context [?m !! ?i] => destruct (m !! i) end; reflexivity.
Qed.

(** X4. The helper remembers which activity an ActivityTaskScheduled event
    belongs to: once [handleActivityTaskScheduled] ran for event ID and
    activity ID (even when the state machine rejected the event), the
    activity ID of a close event with that scheduled-event ID is this
    activity ID, and close events with other scheduled-event IDs resolve as
    before.  An event that is no activity close event, and a scheduled-event
    ID that was never seen, make [getActivityID] panic and change nothing. *)
Theorem getActivityID_after_scheduled (scheduledEventID : Z) (activityID : string)
    (event : HistoryEvent) (h : decisionsHelper) :
  let h1 := snd (helper_handleActivityTaskScheduled scheduledEventID activityID h) in
  (forall i, closedScheduledEventID event = Some i ->
     helper_getActivityID event h1 =
       if decide (i = scheduledEventID) then (Returned activityID, h1)
       else match scheduledEventIDToActivityID h !! i with
            | Some a => (Returned a, h1)
            | None =>
                (Panicked (stateMachineIllegalStatePanic
                             ("unable to find activity ID for the event "
                              +:+ HistoryEventToString event)), h1)
            end)
  /\ (closedScheduledEventID event = None ->
      forall h0,
        helper_getActivityID event h0 =
          (Panicked (stateMachineIllegalStatePanic
                       ("unexpected event type " +:+ GetHistoryEventType event)), h0)).
Proof.
  cbv zeta. split.
  - intros i Hi. rewrite getActivityID_eq, Hi, handleActivityTaskScheduled_map.
    destruct (decide (i = scheduledEventID)) as [->|Hne].
    + rewrite lookup_insert_eq. reflexivity.
    + rewrite lookup_insert_ne by congruence. reflexivity.
  - intros Hn h0. rewrite getActivityID_eq, Hn. reflexivity.
Qed.

(** ** Panics of event handling *)

#[local] Instance completeHandlerKept_refl : Reflexive completeHandlerKept.
Proof. intros e. split; reflexivity. Qed.

#[local] Instance completeHandlerKept_trans : Transitive completeHandlerKept.
Proof.
  intros e1 e2 e3 [H1 H2] [H3 H4]. split; congruence.
Qed.

Ltac kept_leaf := intros; unfold completeHandlerKept; split; reflexivity.

Lemma ProcessEvent_body_completeHandler (now : Time) (event : HistoryEvent)
    (isReplay isLast : bool) :
  preserves completeHandlerKept (ProcessEvent_body now event isReplay isLast).
Proof.
  unfold ProcessEvent_body. preserves_auto no_known kept_leaf.
Qed.

(** X5. [ProcessEvent] turns a panic of event handling into the completion
    of the workflow, when the environment has a metrics scope and a
    completion handler: it calls the completion handler once, with no
    result and the panic wrapped as a workflow panic error, and returns no
    error.  Without a metrics scope (the constructor was given none)
    counting the panic is itself a nil dereference: [ProcessEvent] panics
    with it and the completion handler is not called.  When the handling
    returns, [ProcessEvent] returns the same.  A nil event is refused with
    an error and changes nothing. *)
Theorem ProcessEvent_recovers_panics (now : Time) (event : HistoryEvent)
    (isReplay isLast : bool) (e : env) (f : handlerRef) :
  wc_completeHandler e = Some f ->
  ProcessEvent now (Some event) isReplay isLast e =
    match ProcessEvent_body now event isReplay isLast e with
    | (Returned r, e1) => (Returned r, e1)
    | (Panicked p, e1) =>
        match wc_metricsScope e with
        | Some _ =>
            (Returned None,
             set_wc_calls
               (wc_calls e1
                ++ [call_completeHandler f None (Some (newWorkflowPanicError p))]) e1)
        | None =>
            (Panicked
               (runtimePanic "invalid memory address or nil pointer dereference"),
             e1)
        end
    end
  /\ ProcessEvent now None isReplay isLast e
     = (Returned (Some (Errorf "nil event provided")), e).
Proof.
  intros Hf. split; [|reflexivity].
  unfold ProcessEvent, recoverAndComplete.
  pose proof (ProcessEvent_body_completeHandler now event isReplay isLast e) as Hk.
  destruct (ProcessEvent_body now event isReplay isLast e) as [[r|p] e1];
    [reflexivity|].
  destruct Hk as [Hk Hm]. simpl in Hk, Hm.
  unfold bind at 1. rewrite countDecisionTaskPanic_eq, Hm.
  destruct (wc_metricsScope e); [|reflexivity].
  unfold Complete, bind, get. rewrite Hk, Hf. reflexivity.
Qed.

(** ** A machine at the back of the collection *)

Lemma decisions_keys (h : decisionsHelper) (k : decisionID) :
  decisions h k = None -> k ∉ keys h.
Proof. unfold decisions, keys. apply find_hasKey_None_keys. Qed.

Lemma withBack_decisions (d : decisionStateMachine) (h : decisionsHelper) :
  decisions h (id d) = None -> decisions (withBack d h) (id d) = Some d.
Proof.
  intros H. unfold decisions, withBack in *. destruct h as [l m1 m2 m3]; simpl in *.
  rewrite (find_hasKey_app_fresh _ _ d H), hasKey_id. reflexivity.
Qed.

Lemma withBack_getDecision (d : decisionStateMachine) (h : decisionsHelper) :
  decisions h (id d) = None ->
  helper_getDecision (id d) (withBack d h) = (Returned d, withBack d h).
Proof.
  intros H. rewrite (getDecision_eq _ _ d (withBack_decisions d h H)).
  apply decisions_keys in H. unfold withBack, keys in *.
  destruct h as [l m1 m2 m3]; simpl in *.
  rewrite Remove_app_notin by exact H. simpl. rewrite hasKey_id.
  rewrite app_nil_r. reflexivity.
Qed.

Lemma withBack_sync (d d' : decisionStateMachine) (h : decisionsHelper) :
  decisions h (id d) = None -> id d' = id d ->
  sync d' (withBack d h) = (Returned d', withBack d' h).
Proof.
  intros H Hid. apply decisions_keys in H. unfold sync, withBack, keys in *.
  destruct h as [l m1 m2 m3]; simpl in *.
  rewrite writeThrough_app_notin by (rewrite Hid; exact H). simpl.
  rewrite hasKey_refl by (symmetry; exact Hid). reflexivity.
Qed.

Lemma withBack_moveState (s : decisionState) (ev : string)
    (d d' : decisionStateMachine) (h : decisionsHelper) :
  decisions h (id d) = None -> id d' = id d ->
  moveState s ev d' (withBack d h) =
    (Returned (moved s ev d'),
     if isCompleted s then h else withBack (moved s ev d') h).
Proof.
  intros H Hid. apply decisions_keys in H. rewrite moveState_eq.
  unfold withBack, keys in *. destruct h as [l m1 m2 m3]; simpl in *.
  assert (Hw : writeThrough (moved s ev d') (l ++ [d]) = l ++ [moved s ev d']).
  { rewrite writeThrough_app_notin by (simpl; rewrite Hid; exact H). simpl.
    rewrite hasKey_refl by (simpl; symmetry; exact Hid). reflexivity. }
  rewrite Hw. destruct (isCompleted s); [|reflexivity].
  rewrite Remove_app_notin by (rewrite Hid; exact H). simpl.
  rewrite hasKey_refl by reflexivity. rewrite app_nil_r. reflexivity.
Qed.

(** ** Cancelled before the decision was sent *)

Lemma bind_run {S A B} (c : M S A) (k : A -> M S B) (s s' : S) (a : A) :
  c s = (Returned a, s') -> bind c k s = k a s'.
Proof. intros H. unfold bind. rewrite H. reflexivity. Qed.

Lemma bind_panicked {S A B} (c : M S A) (k : A -> M S B) (s s' : S) (p : panicValue) :
  c s = (Panicked p, s') -> bind c k s = (Panicked p, s').
Proof. intros H. unfold bind. rewrite H. reflexivity. Qed.

Lemma GenerateSequenceID_eq (e : env) :
  GenerateSequenceID e
  = (Returned (fmt_int (wc_counterID e)),
     set_wc_counterID (wrap_int32 (wc_counterID e + 1)) e).
Proof. reflexivity. Qed.

Lemma startTimer_free (a : StartTimerDecisionAttributes) (h : decisionsHelper) :
  decisions h (makeDecisionID decisionTypeTimer (st_TimerId a)) = None ->
  helper_startTimer a h
    = (Returned (newTimerDecisionStateMachine a),
       withBack (newTimerDecisionStateMachine a) h).
Proof.
  intros H. unfold helper_startTimer, bind.
  rewrite addDecision_free by exact H. reflexivity.
Qed.

Lemma cancelTimer_before_sent (a : StartTimerDecisionAttributes) (p : waiterRef)
    (h : decisionsHelper) :
  decisions h (makeDecisionID decisionTypeTimer (st_TimerId a)) = None ->
  helper_cancelTimer (st_TimerId a)
    (withBack (set_data (Some p) (newTimerDecisionStateMachine a)) h)
  = (Returned
       (moved decisionStateCompleted eventCancel
          (set_kind (timerDecisionStateMachine a true)
             (set_data (Some p) (newTimerDecisionStateMachine a)))), h).
Proof.
  intros H. unfold helper_cancelTimer, bind.
  set (d := set_data (Some p) (newTimerDecisionStateMachine a)).
  change (makeDecisionID decisionTypeTimer (st_TimerId a)) with (id d) in *.
  rewrite (withBack_getDecision d h H).
  change (dsm_cancel d) with (timer_cancel a d). unfold timer_cancel, bind.
  rewrite (withBack_sync d _ h H) by reflexivity.
  change (base_cancel (set_kind (timerDecisionStateMachine a true) d))
    with (moveState decisionStateCompleted eventCancel
            (set_kind (timerDecisionStateMachine a true) d)).
  rewrite (withBack_moveState _ _ (set_kind (timerDecisionStateMachine a true) d)
             (set_kind (timerDecisionStateMachine a true) d) h) by (exact H || reflexivity).
  reflexivity.
Qed.

(** X6. A timer that is cancelled before its StartTimer decision was sent
    leaves no decision behind: after [NewTimer] with a positive duration and
    [RequestCancelTimer] for the timer it returned, the collection of
    decision state machines is exactly what it was before [NewTimer], and
    the timer's callback was called once, with [ErrCanceled]. *)
Theorem timer_cancelled_before_sent (d : Z) (callback : handlerRef) (e : env) :
  0 < d ->
  decisions (wc_decisionsHelper e)
    (makeDecisionID decisionTypeTimer (fmt_int (wc_counterID e))) = None ->
  exists e1 e2,
    NewTimer d callback e = (Returned (Some (fmt_int (wc_counterID e))), e1)
    /\ RequestCancelTimer (fmt_int (wc_counterID e)) e1 = (Returned tt, e2)
    /\ wc_decisionsHelper e2 = wc_decisionsHelper e
    /\ wc_calls e2
       = wc_calls e ++ [call_resultHandler (Some (wc_nextWaiter e)) callback None
                          (Some ErrCanceled)]
    /\ wc_waiters e2 !! wc_nextWaiter e
       = Some (dataTimer {| timer_callback := callback; timer_handled := true |}).
Proof.
  intros Hd Hfree.
  set (a := {| st_TimerId := fmt_int (wc_counterID e); st_StartToFireTimeout := d |}).
  set (d0 := newTimerDecisionStateMachine a).
  set (d1 := set_data (Some (wc_nextWaiter e)) d0).
  set (w := dataTimer {| timer_callback := callback; timer_handled := false |}).
  set (e0 := set_wc_counterID (wrap_int32 (wc_counterID e + 1)) e).
  set (e1 := set_wc_decisionsHelper (withBack d0 (wc_decisionsHelper e)) e0).
  set (e2 := set_wc_nextWaiter (N.succ (wc_nextWaiter e))
               (set_wc_waiters (<[wc_nextWaiter e := w]> (wc_waiters e)) e1)).
  set (e3 := set_wc_decisionsHelper (withBack d1 (wc_decisionsHelper e)) e2).
  assert (S1 : liftH (helper_startTimer a) e0 = (Returned d0, e1))
    by (apply liftH_run; exact (startTimer_free a (wc_decisionsHelper e) Hfree)).
  assert (S2 : liftH (dsm_setData (wc_nextWaiter e) d0) e2 = (Returned d1, e3))
    by (apply liftH_run;
        exact (withBack_sync d0 d1 (wc_decisionsHelper e) Hfree eq_refl)).
  assert (S3 : liftH (helper_cancelTimer (fmt_int (wc_counterID e))) e3
               = (Returned
                    (moved decisionStateCompleted eventCancel
                       (set_kind (timerDecisionStateMachine a true) d1)),
                  set_wc_decisionsHelper (wc_decisionsHelper e) e3))
    by (apply liftH_run;
        exact (cancelTimer_before_sent a (wc_nextWaiter e) (wc_decisionsHelper e) Hfree)).
  exists e3. eexists. split; [|split].
  - unfold NewTimer. rewrite (proj2 (Z.ltb_ge d 0)) by lia.
    rewrite (proj2 (Z.eqb_neq d 0)) by lia.
    rewrite (bind_run _ _ _ _ _ (GenerateSequenceID_eq e)).
    fold a e0. rewrite (bind_run _ _ _ _ _ S1).
    rewrite (bind_run (newWaiter w) _ e1 e2 (wc_nextWaiter e) eq_refl).
    rewrite (bind_run _ _ _ _ _ S2). reflexivity.
  - unfold RequestCancelTimer. rewrite (bind_run _ _ _ _ _ S3).
    unfold asScheduledTimer, bind, get. simpl.
    rewrite lookup_insert_eq. simpl.
    unfold scheduledTimer_handle, bind, get. simpl.
    rewrite lookup_insert_eq. simpl. reflexivity.
  - simpl. rewrite lookup_insert_eq. repeat split; reflexivity.
Qed.

Lemma scheduleActivityTask_free (a : ScheduleActivityTaskDecisionAttributes)
    (h : decisionsHelper) :
  decisions h (makeDecisionID decisionTypeActivity (sat_ActivityId a)) = None ->
  helper_scheduleActivityTask a h
    = (Returned (newActivityDecisionStateMachine a),
       withBack (newActivityDecisionStateMachine a) h).
Proof.
  intros H. unfold helper_scheduleActivityTask, bind.
  rewrite addDecision_free by exact H. reflexivity.
Qed.

Lemma scheduleActivityTask_taken (a : ScheduleActivityTaskDecisionAttributes)
    (h : decisionsHelper) (existing : decisionStateMachine) :
  decisions h (makeDecisionID decisionTypeActivity (sat_ActivityId a)) = Some existing ->
  exists p, helper_scheduleActivityTask a h = (Panicked p, h).
Proof.
  intros H. unfold helper_scheduleActivityTask, bind.
  rewrite (addDecision_taken _ existing) by exact H. eexists. reflexivity.
Qed.

Lemma requestCancelActivityTask_before_sent (a : ScheduleActivityTaskDecisionAttributes)
    (p : waiterRef) (h : decisionsHelper) :
  decisions h (makeDecisionID decisionTypeActivity (sat_ActivityId a)) = None ->
  helper_requestCancelActivityTask (sat_ActivityId a)
    (withBack (set_data (Some p) (newActivityDecisionStateMachine a)) h)
  = (Returned
       (moved decisionStateCompleted eventCancel
          (set_data (Some p) (newActivityDecisionStateMachine a))), h).
Proof.
  intros H. unfold helper_requestCancelActivityTask, bind.
  set (d := set_data (Some p) (newActivityDecisionStateMachine a)).
  change (makeDecisionID decisionTypeActivity (sat_ActivityId a)) with (id d) in *.
  rewrite (withBack_getDecision d h H).
  change (dsm_cancel d) with (moveState decisionStateCompleted eventCancel d).
  rewrite (withBack_moveState _ _ d d h) by (exact H || reflexivity).
  reflexivity.
Qed.

(** The part of [ExecuteActivity] after the activity ID is chosen, followed
    by the cancel request. *)
Lemma activity_cancelled_before_sent_from (a : ScheduleActivityTaskDecisionAttributes)
    (callback : handlerRef) (wait : bool) (e0 : env) (r : string) :
  let c :=
    (decision <- liftH (helper_scheduleActivityTask a) ;;
     p <- newWaiter
            (dataActivity
               {| activity_callback := callback;
                  activity_waitForCancelRequest := wait;
                  activity_handled := false |}) ;;
     liftH (dsm_setData p decision) ;;;
     ret r) in
  forall e1,
    c e0 = (Returned r, e1) ->
    exists e2,
      RequestCancelActivity (sat_ActivityId a) e1 = (Returned tt, e2)
      /\ wc_decisionsHelper e2 = wc_decisionsHelper e0
      /\ wc_calls e2
         = wc_calls e0 ++ [call_resultHandler (Some (wc_nextWaiter e0)) callback None
                             (Some ErrCanceled)].
Proof.
  cbv zeta. intros e1.
  set (h := wc_decisionsHelper e0).
  destruct (decisions h (makeDecisionID decisionTypeActivity (sat_ActivityId a)))
    as [existing|] eqn:Hfree.
  { destruct (scheduleActivityTask_taken a h existing Hfree) as [p Hp].
    rewrite (bind_panicked _ _ _ _ _ (liftH_run _ e0 _ _ Hp)). discriminate. }
  set (d0 := newActivityDecisionStateMachine a).
  set (d1 := set_data (Some (wc_nextWaiter e0)) d0).
  set (w := dataActivity {| activity_callback := callback;
                            activity_waitForCancelRequest := wait;
                            activity_handled := false |}).
  set (x1 := set_wc_decisionsHelper (withBack d0 h) e0).
  set (x2 := set_wc_nextWaiter (N.succ (wc_nextWaiter e0))
               (set_wc_waiters (<[wc_nextWaiter e0 := w]> (wc_waiters e0)) x1)).
  set (x3 := set_wc_decisionsHelper (withBack d1 h) x2).
  assert (S1 : liftH (helper_scheduleActivityTask a) e0 = (Returned d0, x1))
    by (apply liftH_run; exact (scheduleActivityTask_free a h Hfree)).
  assert (S2 : liftH (dsm_setData (wc_nextWaiter e0) d0) x2 = (Returned d1, x3))
    by (apply liftH_run; exact (withBack_sync d0 d1 h Hfree eq_refl)).
  assert (S3 : liftH (helper_requestCancelActivityTask (sat_ActivityId a)) x3
               = (Returned (moved decisionStateCompleted eventCancel d1),
                  set_wc_decisionsHelper h x3))
    by (apply liftH_run;
        exact (requestCancelActivityTask_before_sent a (wc_nextWaiter e0) h Hfree)).
  rewrite (bind_run _ _ _ _ _ S1).
  rewrite (bind_run (newWaiter w) _ x1 x2 (wc_nextWaiter e0) eq_refl).
  rewrite (bind_run _ _ _ _ _ S2). intros [= <-].
  eexists. split; [|split].
  - unfold RequestCancelActivity. rewrite (bind_run _ _ _ _ _ S3).
    unfold asScheduledActivity, bind, get. simpl.
    rewrite lookup_insert_eq. simpl.
    unfold scheduledActivity_handle, bind, get. simpl.
    rewrite lookup_insert_eq. simpl. reflexivity.
  - reflexivity.
  - reflexivity.
Qed.

(** X7. An activity that is cancelled before its ScheduleActivityTask
    decision was sent leaves no decision behind: when [ExecuteActivity]
    returned an activity ID and [RequestCancelActivity] is called for it
    before the decisions are collected, the request returns, the collection
    of decision state machines is exactly what it was before
    [ExecuteActivity], and the activity's callback was called once, with
    [ErrCanceled]. *)
Theorem activity_cancelled_before_sent (parameters : executeActivityParams)
    (callback : handlerRef) (e e1 : env) (activityID : string) :
  ExecuteActivity parameters callback e = (Returned activityID, e1) ->
  exists e2,
    RequestCancelActivity activityID e1 = (Returned tt, e2)
    /\ wc_decisionsHelper e2 = wc_decisionsHelper e
    /\ wc_calls e2
       = wc_calls e ++ [call_resultHandler (Some (wc_nextWaiter e)) callback None
                          (Some ErrCanceled)].
Proof.
  unfold ExecuteActivity. intros H.
  assert (G : forall e0 r,
             wc_decisionsHelper e0 = wc_decisionsHelper e ->
             wc_calls e0 = wc_calls e -> wc_nextWaiter e0 = wc_nextWaiter e ->
             (let scheduleTaskAttr :=
                {| sat_ActivityId := r;
                   sat_ActivityType := ap_ActivityType parameters;
                   sat_TaskList := ap_TaskListName parameters;
                   sat_Input := ap_Input parameters;
                   sat_ScheduleToCloseTimeout :=
                     ap_ScheduleToCloseTimeoutSeconds parameters;
                   sat_StartToCloseTimeout := ap_StartToCloseTimeoutSeconds parameters;
                   sat_ScheduleToStartTimeout :=
                     ap_ScheduleToStartTimeoutSeconds parameters;
                   sat_HeartbeatTimeout := ap_HeartbeatTimeoutSeconds parameters;
                   sat_RetryPolicy := ap_RetryPolicy parameters;
                   sat_Header := ap_Header parameters |} in
              decision <- liftH (helper_scheduleActivityTask scheduleTaskAttr) ;;
              p <- newWaiter
                     (dataActivity
                        {| activity_callback := callback;
                           activity_waitForCancelRequest :=
                             ap_WaitForCancellation parameters;
                           activity_handled := false |}) ;;
              liftH (dsm_setData p decision) ;;;
              ret r) e0 = (Returned activityID, e1) ->
             exists e2,
               RequestCancelActivity activityID e1 = (Returned tt, e2)
               /\ wc_decisionsHelper e2 = wc_decisionsHelper e
               /\ wc_calls e2
                  = wc_calls e
                    ++ [call_resultHandler (Some (wc_nextWaiter e)) callback None
                          (Some ErrCanceled)]).
  { intros e0 r Hh Hc Hn Hr. cbv zeta in Hr.
    assert (r = activityID).
    { unfold bind in Hr.
      repeat match type of Hr with
             | (let (_, _) := ?x in _) = _ => destruct x as [[?|?] ?]
             end; try discriminate Hr.
      unfold ret in Hr. congruence. }
    subst r.
    destruct (activity_cancelled_before_sent_from _ callback
                (ap_WaitForCancellation parameters) e0 activityID e1 Hr)
      as (e2 & H1 & H2 & H3).
    exists e2. rewrite <- Hh, <- Hc, <- Hn. auto. }
  destruct (ap_ActivityID parameters) as [given|].
  - destruct (String.eqb given "").
    + rewrite (bind_run _ _ _ _ _ (GenerateSequenceID_eq e)) in H.
      exact (G (set_wc_counterID (wrap_int32 (wc_counterID e + 1)) e)
               (fmt_int (wc_counterID e)) eq_refl eq_refl eq_refl H).
    + rewrite (bind_run (ret given) _ e e given eq_refl) in H.
      exact (G e given eq_refl eq_refl eq_refl H).
  - rewrite (bind_run _ _ _ _ _ (GenerateSequenceID_eq e)) in H.
    exact (G (set_wc_counterID (wrap_int32 (wc_counterID e + 1)) e)
             (fmt_int (wc_counterID e)) eq_refl eq_refl eq_refl H).
Qed.

(** ** The version of a change stays *)

Lemma validateVersion_returned (changeID : string) (version minSupported maxSupported : Z)
    (e e1 : env) (r : unit) :
  validateVersion changeID version minSupported maxSupported e = (Returned r, e1) ->
  inRange version minSupported maxSupported = true /\ e1 = e.
Proof.
  intros H.
  destruct (validateVersion_eq changeID version minSupported maxSupported e)
    as [[Hr Hv]|[Hr [m Hv]]]; rewrite Hv in H.
  - injection H as _ <-. auto.
  - discriminate H.
Qed.

Lemma validateVersion_inRange (changeID : string) (version minSupported maxSupported : Z)
    (e : env) :
  inRange version minSupported maxSupported = true ->
  validateVersion changeID version minSupported maxSupported e = (Returned tt, e).
Proof.
  intros H.
  destruct (validateVersion_eq changeID version minSupported maxSupported e)
    as [[Hr Hv]|[Hr [m Hv]]]; [exact Hv | congruence].
Qed.

Lemma GetVersion_recorded (changeID : string) (minSupported maxSupported version : Z)
    (e e1 : env) :
  GetVersion changeID minSupported maxSupported e = (Returned version, e1) ->
  inRange version minSupported maxSupported = true
  /\ wc_changeVersions e1 !! changeID = Some version.
Proof.
  unfold GetVersion. unfold bind at 1. unfold get at 1.
  destruct (wc_changeVersions e !! changeID) as [v0|] eqn:El.
  - unfold bind.
    destruct (validateVersion changeID v0 minSupported maxSupported e)
      as [[[]|p] ex] eqn:Ev; [|discriminate].
    apply validateVersion_returned in Ev. destruct Ev as [Hr ->].
    intros [= <- <-]. auto.
  - unfold bind at 1.
    match goal with
    | |- (let (_, _) := ?c e in _) = _ -> _ =>
        destruct (c e) as [[v|p] ea] eqn:Ea; [|discriminate]
    end.
    unfold bind at 1.
    destruct (validateVersion changeID v minSupported maxSupported ea)
      as [[[]|p] ex] eqn:Ev; [|discriminate].
    apply validateVersion_returned in Ev. destruct Ev as [Hr ->].
    unfold bind, modify, ret. intros [= <- <-]. simpl.
    rewrite lookup_insert_eq. auto.
Qed.

#[local] Instance changeVersionsSame_refl : Reflexive changeVersionsSame.
Proof. intros e. reflexivity. Qed.

#[local] Instance changeVersionsSame_trans : Transitive changeVersionsSame.
Proof. intros e1 e2 e3. unfold changeVersionsSame. congruence. Qed.

Ltac versions_leaf := intros; unfold changeVersionsSame; simpl; reflexivity.

Lemma ProcessEvent_keeps_versions (now : Time) (event : HistoryEvent)
    (isReplay isLast : bool) :
  isVersionMarker event = false ->
  preserves changeVersionsSame (ProcessEvent now (Some event) isReplay isLast).
Proof.
  unfold isVersionMarker.
  destruct event as [eid et attrs]. cbn [Attributes]. intros H.
  unfold ProcessEvent, ProcessEvent_body. cbn [Attributes].
  destruct attrs;
    try (unfold handleMarkerRecorded; rewrite H);
    preserves_auto no_known versions_leaf.
Qed.

Ltac versions_known :=
  idtac;
  lazymatch goal with
  | |- preserves changeVersionsSame (ProcessEvent _ (Some _) _ _) =>
      apply ProcessEvent_keeps_versions; reflexivity
  end.

(** [GetVersion] writes the map of change versions only to record a change
    ID it did not hold. *)
Lemma GetVersion_changeVersions (changeID : string) (minSupported maxSupported : Z)
    (e : env) :
  let e1 := snd (GetVersion changeID minSupported maxSupported e) in
  wc_changeVersions e1 = wc_changeVersions e
  \/ (wc_changeVersions e !! changeID = None
      /\ exists version,
           wc_changeVersions e1 = <[changeID := version]> (wc_changeVersions e)).
Proof.
  cbv zeta.
  destruct (wc_changeVersions e !! changeID) as [v0|] eqn:El.
  - left.
    assert (Heq : GetVersion changeID minSupported maxSupported e =
                  (validateVersion changeID v0 minSupported maxSupported ;;;
                   ret v0) e).
    { unfold GetVersion. unfold bind at 1. unfold get at 1. rewrite El. reflexivity. }
    rewrite Heq. unfold bind.
    destruct (validateVersion_eq changeID v0 minSupported maxSupported e)
      as [[_ Hv]|[_ [m Hv]]]; rewrite Hv; reflexivity.
  - set (c := (if wc_isReplay e then ret DefaultVersion
               else
                 liftH (helper_recordVersionMarker changeID maxSupported
                          (wc_dataConverter e)) ;;;
                 UpsertSearchAttributes
                   (createSearchAttributesForChangeVersion changeID maxSupported
                      (wc_changeVersions e)) ;;;
                 ret maxSupported) : M env Z).
    assert (Heq : GetVersion changeID minSupported maxSupported e =
                  (version <- c ;;
                   validateVersion changeID version minSupported maxSupported ;;;
                   modify (fun e => set_wc_changeVersions
                                      (<[changeID := version]> (wc_changeVersions e)) e) ;;;
                   ret version) e).
    { unfold GetVersion. unfold bind at 1. unfold get at 1. rewrite El. reflexivity. }
    rewrite Heq.
    assert (Hc : preserves changeVersionsSame c)
      by (unfold c; preserves_auto no_known versions_leaf).
    specialize (Hc e).
    destruct (c e) as [[v|p] ea] eqn:Ec; simpl in Hc;
      [rewrite (bind_run _ _ _ _ _ Ec)
      |rewrite (bind_panicked _ _ _ _ _ Ec); left; exact Hc].
    destruct (validateVersion_eq changeID v minSupported maxSupported ea)
      as [[_ Hv]|[_ [m Hv]]];
      [rewrite (bind_run _ _ _ _ _ Hv)
      |rewrite (bind_panicked _ _ _ _ _ Hv); left; exact Hc].
    right. split; [reflexivity|]. exists v.
    unfold bind, modify, ret. simpl. rewrite <- Hc. reflexivity.
Qed.

Lemma runEnvOp_keeps_version (changeID : string) (version : Z) (o : envOp) :
  replaysVersionMarker o = false ->
  preserves (changeVersionKept changeID version) (runEnvOp o).
Proof.
  assert (Hsame : forall c : M env unit,
             preserves changeVersionsSame c ->
             preserves (changeVersionKept changeID version) c).
  { intros c Hc e Hl. rewrite (Hc e). exact Hl. }
  destruct o as [now event isReplay isLast | | | | | | | | | | | | |
                 | | | | | | | | | | | | | changeID' minSupported maxSupported | | | ];
    cbn [runEnvOp replaysVersionMarker]; intros H;
    try (apply Hsame; preserves_auto versions_known versions_leaf; fail).
  - destruct event as [event|].
    + apply Hsame. refine (preserves_bind _ _ _ _ _).
      * apply ProcessEvent_keeps_versions. exact H.
      * intros ?. refine (preserves_ret _ _).
    + apply Hsame. preserves_auto no_known versions_leaf.
  - intros e Hl. unfold bind.
    pose proof (GetVersion_changeVersions changeID' minSupported maxSupported e) as Hg.
    cbv zeta in Hg.
    destruct (GetVersion changeID' minSupported maxSupported e) as [[v|p] e1];
      simpl in *;
      (destruct Hg as [Hg|[Hn [v' Hg]]]; rewrite Hg; [exact Hl|];
       rewrite lookup_insert_ne by congruence; exact Hl).
Qed.

Lemma runEnvOps_keeps_version (changeID : string) (version : Z) (os : list envOp) :
  forall e,
    forallb (fun o => negb (replaysVersionMarker o)) os = true ->
    wc_changeVersions e !! changeID = Some version ->
    wc_changeVersions (runEnvOps os e) !! changeID = Some version.
Proof.
  induction os as [|o os IH]; intros e Hos Hl; [exact Hl|].
  simpl in Hos. apply andb_true_iff in Hos. destruct Hos as [Ho Hos].
  apply negb_true_iff in Ho. simpl. apply IH; [exact Hos|].
  exact (runEnvOp_keeps_version changeID version o Ho e Hl).
Qed.

(** X8. The version of a change stays until the history says otherwise:
    once [GetVersion] has returned a version for a change ID, that version
    lies in the range that was asked for, and after any operations of the
    environment among which no MarkerRecorded event of a Version marker is
    processed, [GetVersion] for the same change ID with a range that
    contains the version returns the same version and changes nothing: no
    marker, no search attribute and no entry is added a second time. *)
Theorem GetVersion_stays (changeID : string) (minSupported maxSupported version : Z)
    (e e1 : env) (os : list envOp) :
  GetVersion changeID minSupported maxSupported e = (Returned version, e1) ->
  forallb (fun o => negb (replaysVersionMarker o)) os = true ->
  inRange version minSupported maxSupported = true
  /\ forall min' max',
       inRange version min' max' = true ->
       GetVersion changeID min' max' (runEnvOps os e1)
       = (Returned version, runEnvOps os e1).
Proof.
  intros H Hos. destruct (GetVersion_recorded _ _ _ _ _ _ H) as [Hr Hl].
  split; [exact Hr|]. intros min' max' Hr'.
  pose proof (runEnvOps_keeps_version changeID version os e1 Hos Hl) as Hl'.
  unfold GetVersion. unfold bind at 1. unfold get at 1. rewrite Hl'.
  unfold bind. rewrite (validateVersion_inRange _ _ _ _ _ Hr'). reflexivity.
Qed.

(** ** Markers of the history are replayed *)

Lemma SideEffect_replay_hit (f : unit -> bytes * option goError)
    (callback : handlerRef) (e : env) (result : bytes) :
  wc_isReplay e = true ->
  wc_sideEffectResult e !! wc_counterID e = Some result ->
  decisions (wc_decisionsHelper e)
    (makeDecisionID decisionTypeMarker ("SideEffect_" +:+ fmt_int (wc_counterID e)))
    = None ->
  SideEffect f callback e =
    (Returned tt,
     afterSideEffect e [sideEffectMarker (wc_counterID e) result]
       [call_resultHandler None callback (Some result) None]).
Proof.
  intros Hr Hc Hfresh. unfold SideEffect, GenerateSequence.
  unfold bind at 1. unfold bind at 1. unfold get at 1. unfold bind at 1.
  unfold modify at 1. unfold ret at 1. unfold bind at 1. unfold get at 1.
  simpl. rewrite Hr, Hc. unfold bind. rewrite liftH_eq. simpl.
  unfold helper_recordSideEffectMarker, bind.
  change (newMarkerDecisionStateMachine _ _)
    with (sideEffectMarker (wc_counterID e) result).
  rewrite addDecision_free by exact Hfresh. reflexivity.
Qed.

Lemma ProcessEvent_sideEffect_marker (now : Time) (eventID : Z) (details : option bytes)
    (isReplay : bool) (e : env) :
  ProcessEvent now (Some (markerRecorded eventID sideEffectMarkerName details))
    isReplay false e
  = (Returned None,
     let vals := fst (EncodedValues_Get (wc_dataConverter e) details
                        [VInt32 0; VBytes []]) in
     set_wc_sideEffectResult
       (<[match vals with VInt32 i :: _ => i | _ => 0 end :=
            match vals with [_; VBytes r] => r | _ => [] end]>
          (wc_sideEffectResult e))
       (set_wc_isReplay isReplay e)).
Proof. reflexivity. Qed.

Lemma ProcessEvent_version_marker (now : Time) (eventID : Z) (details : option bytes)
    (isReplay : bool) (e : env) :
  ProcessEvent now (Some (markerRecorded eventID versionMarkerName details))
    isReplay false e
  = (Returned None,
     let vals := fst (EncodedValues_Get (wc_dataConverter e) details
                        [VString ""; VVersion 0]) in
     set_wc_changeVersions
       (<[match vals with VString s :: _ => s | _ => "" end :=
            match vals with [_; VVersion v] => v | _ => 0 end]>
          (wc_changeVersions e))
       (set_wc_isReplay isReplay e)).
Proof. reflexivity. Qed.

(** X9. A side effect recorded in the history is what replay delivers: when
    the MarkerRecorded event of a SideEffect marker was processed in replay
    and its details decode to a side-effect ID and a result, the
    [SideEffect] call that draws this ID does not run the user function; it
    calls the callback once with the recorded result and no error, and adds
    one decision to those the collection offered before the event:
    RecordMarker with the name SideEffect, whose details are the recorded
    result itself (not the details of the marker in the history). *)
Theorem SideEffect_replays_recorded_marker (now : Time) (eventID : Z)
    (details : option bytes) (sideEffectID : Z) (result : bytes)
    (f : unit -> bytes * option goError) (callback : handlerRef) (e : env) :
  fst (EncodedValues_Get (wc_dataConverter e) details [VInt32 0; VBytes []])
    = [VInt32 sideEffectID; VBytes result] ->
  wc_counterID e = sideEffectID ->
  decisions (wc_decisionsHelper e)
    (makeDecisionID decisionTypeMarker ("SideEffect_" +:+ fmt_int sideEffectID))
    = None ->
  let e1 :=
    snd (ProcessEvent now (Some (markerRecorded eventID sideEffectMarkerName details))
           true false e) in
  let e2 :=
    afterSideEffect e1 [sideEffectMarker sideEffectID result]
      [call_resultHandler None callback (Some result) None] in
  wc_sideEffectResult e1 !! sideEffectID = Some result
  /\ SideEffect f callback e1 = (Returned tt, e2)
  /\ offered (wc_decisionsHelper e2)
     = offered (wc_decisionsHelper e) ++ [recordMarker "SideEffect" result]
  /\ wc_calls e2
     = wc_calls e ++ [call_resultHandler None callback (Some result) None].
Proof.
  intros Hdec Hc Hfresh. subst sideEffectID. cbv zeta.
  rewrite ProcessEvent_sideEffect_marker. cbv zeta. rewrite Hdec. simpl snd.
  set (e1 := set_wc_sideEffectResult _ _).
  assert (Hl : wc_sideEffectResult e1 !! wc_counterID e1 = Some result)
    by (unfold e1; simpl; apply lookup_insert_eq).
  split; [exact Hl|]. split; [|split].
  - exact (SideEffect_replay_hit f callback e1 result eq_refl Hl Hfresh).
  - rewrite offered_afterSideEffect. unfold e1. destruct e; reflexivity.
  - unfold e1. destruct e; reflexivity.
Qed.

(** X10. A version recorded in the history is what [GetVersion] returns:
    when the MarkerRecorded event of a Version marker was processed and its
    details decode to a change ID and a version, [GetVersion] for this
    change ID returns the recorded version if the supported range contains
    it, adding no decision and changing nothing, and panics if it does
    not. *)
Theorem GetVersion_returns_recorded_marker (now : Time) (eventID : Z)
    (details : option bytes) (changeID : string) (version : Z)
    (isReplay : bool) (minSupported maxSupported : Z) (e : env) :
  fst (EncodedValues_Get (wc_dataConverter e) details [VString ""; VVersion 0])
    = [VString changeID; VVersion version] ->
  let e1 :=
    snd (ProcessEvent now (Some (markerRecorded eventID versionMarkerName details))
           isReplay false e) in
  (inRange version minSupported maxSupported = true ->
   GetVersion changeID minSupported maxSupported e1 = (Returned version, e1))
  /\ (inRange version minSupported maxSupported = false ->
      exists message,
        GetVersion changeID minSupported maxSupported e1
        = (Panicked (panicString message), e1)).
Proof.
  intros Hdec. cbv zeta.
  rewrite ProcessEvent_version_marker. cbv zeta. rewrite Hdec. simpl snd.
  set (e1 := set_wc_changeVersions _ _).
  assert (Hl : wc_changeVersions e1 !! changeID = Some version)
    by (unfold e1; simpl; apply lookup_insert_eq).
  assert (Hg : GetVersion changeID minSupported maxSupported e1
               = (validateVersion changeID version minSupported maxSupported ;;;
                  ret version) e1).
  { unfold GetVersion. unfold bind at 1. unfold get. rewrite Hl. reflexivity. }
  rewrite Hg. unfold bind.
  destruct (validateVersion_eq changeID version minSupported maxSupported e1)
    as [[Hr Hv]|[Hr [m Hv]]]; rewrite Hv.
  - split; [reflexivity | congruence].
  - split; [congruence | intros _; exists m; reflexivity].
Qed.

(** ** Search attributes *)

Lemma encodeFields_ok (enc : goValue -> bytes * option goError)
    (wrapErr : string -> goError -> goError) (l : list (string * goValue)) :
  forall acc,
  (forall k v, (k, v) ∈ l -> snd (enc v) = None) ->
  NoDup (fst <$> l) ->
  snd (encodeFields enc wrapErr l acc) = None
  /\ forall k,
       fst (encodeFields enc wrapErr l acc) !! k =
         match list_to_map (M := gmap string goValue) l !! k with
         | Some v => Some (fst (enc v))
         | None => acc !! k
         end.
Proof.
  induction l as [|[k0 v0] l IH]; intros acc Hok Hnd.
  - split; [reflexivity|]. intros k. simpl. rewrite lookup_empty. reflexivity.
  - simpl. pose proof (Hok k0 v0 (list_elem_of_here _ _)) as H0.
    destruct (enc v0) as [b [err|]] eqn:E0; [discriminate H0|].
    rewrite fmap_cons in Hnd. apply NoDup_cons in Hnd. destruct Hnd as [Hk0 Hnd].
    destruct (IH (<[k0 := b]> acc)) as [IH1 IH2];
      [intros k v Hin; apply (Hok k v); right; exact Hin | exact Hnd |].
    split; [exact IH1|]. intros k. rewrite IH2.
    destruct (decide (k = k0)) as [->|Hne].
    + rewrite lookup_insert_eq.
      rewrite (not_elem_of_list_to_map_1 (M := gmap string) l k0 Hk0).
      rewrite lookup_insert_eq. rewrite E0. reflexivity.
    + rewrite (lookup_insert_ne (list_to_map l)) by congruence.
      destruct (list_to_map l !! k); [reflexivity|].
      rewrite lookup_insert_ne by congruence. reflexivity.
Qed.

Lemma encodeFields_error (enc : goValue -> bytes * option goError)
    (wrapErr : string -> goError -> goError) (l : list (string * goValue)) :
  forall acc e,
  snd (encodeFields enc wrapErr l acc) = Some e ->
  exists k v err, (k, v) ∈ l /\ snd (enc v) = Some err /\ e = wrapErr k err.
Proof.
  induction l as [|[k0 v0] l IH]; intros acc e; simpl; [discriminate|].
  destruct (enc v0) as [b [err|]] eqn:E0; simpl.
  - intros [= <-]. exists k0, v0, err. rewrite E0. split; [left|auto].
  - intros H. destruct (IH _ _ H) as (k & v & err & Hin & He & ->).
    exists k, v, err. split; [right; exact Hin | auto].
Qed.

(** X11. [serializeSearchAttributes] encodes every attribute under its own
    key or fails as a whole: when [json.Marshal] succeeds on every value,
    the result has exactly the keys of the input, each bound to the encoding
    of its value; otherwise the result is no attributes and an error that
    names a key of the input whose value could not be encoded.
    [validateAndSerializeSearchAttributes] does the same and refuses an
    empty map with [errSearchAttributesNotSet]. *)
Theorem serializeSearchAttributes_all_or_error (input : gmap string goValue) :
  ((forall k v, input !! k = Some v -> snd (json_Marshal v) = None) ->
   exists attr,
     serializeSearchAttributes (Some input) = (Some attr, None)
     /\ forall k, IndexedFields attr !! k = (fun v => fst (json_Marshal v)) <$> input !! k)
  /\ (forall r err,
        serializeSearchAttributes (Some input) = (r, Some err) ->
        r = None
        /\ exists k v cause,
             input !! k = Some v /\ snd (json_Marshal v) = Some cause
             /\ err = ErrorfWrap ("encode search attribute [" +:+ k +:+ "] error: ") cause)
  /\ validateAndSerializeSearchAttributes input =
       (if decide (size input = 0%nat) then (None, Some errSearchAttributesNotSet)
        else match serializeSearchAttributes (Some input) with
             | (_, Some err) => (None, Some err)
             | (attr, None) => (attr, None)
             end)
  /\ validateAndSerializeSearchAttributes ∅ = (None, Some errSearchAttributesNotSet).
Proof.
  split; [|split; [|split; reflexivity]].
  - intros Hok. unfold serializeSearchAttributes.
    destruct (encodeFields_ok json_Marshal
                (fun k err => ErrorfWrap ("encode search attribute [" +:+ k +:+ "] error: ")
                                err)
                (map_to_list input) ∅) as [H1 H2].
    + intros k v Hin. apply elem_of_map_to_list in Hin. exact (Hok k v Hin).
    + apply NoDup_fst_map_to_list.
    + destruct (encodeFields _ _ _ _) as [attr [err|]]; [discriminate H1|].
      eexists. split; [reflexivity|]. intros k. simpl in *. rewrite H2.
      rewrite list_to_map_to_list, lookup_empty.
      destruct (input !! k); reflexivity.
  - intros r err. unfold serializeSearchAttributes.
    destruct (encodeFields _ _ (map_to_list input) ∅) as [attr [e0|]] eqn:E;
      [|discriminate].
    intros [= <- <-]. split; [reflexivity|].
    destruct (encodeFields_error _ _ _ _ e0 (f_equal snd E))
      as (k & v & cause & Hin & Hc & ->).
    exists k, v, cause. apply elem_of_map_to_list in Hin. auto.
Qed.

(** X12. [mergeSearchAttributes] lets the upserted attributes win: when it
    returns attributes, a key has the upserted value if the upsert binds it
    and the current value otherwise; it returns no attributes when both
    sides are empty or nil; and with current attributes present and a nil
    upsert it panics with a nil dereference. *)
Theorem mergeSearchAttributes_upsert_wins (current upsert : option SearchAttributes) :
  (forall u,
      upsert = Some u -> (0 < lenIndexedFields current + size (IndexedFields u))%nat ->
      exists merged,
        mergeSearchAttributes current upsert = Returned (Some merged)
        /\ forall k,
             IndexedFields merged !! k =
               match IndexedFields u !! k with
               | Some v => Some v
               | None => match current with
                         | Some c => IndexedFields c !! k
                         | None => None
                         end
               end)
  /\ (lenIndexedFields current = 0%nat -> lenIndexedFields upsert = 0%nat ->
      mergeSearchAttributes current upsert = Returned None)
  /\ ((0 < lenIndexedFields current)%nat -> upsert = None ->
      mergeSearchAttributes current upsert
      = Panicked (runtimePanic "invalid memory address or nil pointer dereference")).
Proof.
  unfold mergeSearchAttributes. split; [|split].
  - intros u -> Hpos.
    destruct (decide (lenIndexedFields current = 0%nat)) as [Hc|Hc].
    + destruct (decide (lenIndexedFields (Some u) = 0%nat)) as [Hu|Hu];
        [simpl in Hu; lia|].
      eexists. split; [reflexivity|]. intros k. simpl.
      rewrite lookup_union, lookup_empty.
      destruct (IndexedFields u !! k) eqn:Ek; simpl.
      * reflexivity.
      * destruct current as [c|]; [|reflexivity]. simpl in Hc.
        apply map_size_empty_inv in Hc. rewrite Hc, lookup_empty. reflexivity.
    + destruct current as [c|]; [|simpl in Hc; congruence].
      eexists. split; [reflexivity|]. intros k. simpl.
      rewrite lookup_union.
      destruct (IndexedFields u !! k), (IndexedFields c !! k); reflexivity.
  - intros Hc Hu. rewrite decide_True by exact Hc. rewrite decide_True by exact Hu.
    reflexivity.
  - intros Hc ->. rewrite decide_False by lia.
    destruct current; [reflexivity | simpl in Hc; lia].
Qed.

(** ** The marker of a local activity *)

Lemma SetCurrentReplayTime_returns (now replayTime : Time) (e : env) :
  exists e1,
    SetCurrentReplayTime now replayTime e = (Returned tt, e1)
    /\ wc_pendingLaTasks e1 = wc_pendingLaTasks e
    /\ wc_dataConverter e1 = wc_dataConverter e
    /\ wc_calls e1 = wc_calls e
    /\ weh_workflowDefinition e1 = weh_workflowDefinition e.
Proof.
  unfold SetCurrentReplayTime, bind, get.
  destruct (replayTime <? wc_currentReplayTime e); eexists;
    (split; [reflexivity|]); repeat split; reflexivity.
Qed.

(** X13. The marker of a local activity is applied once: for a pending local
    activity whose type agrees with the marker, [handleLocalActivityMarker]
    records the marker decision, takes the activity out of the pending
    activities, hands the marker's result to the activity's callback once
    and then resumes the workflow; the same marker arriving again finds no
    pending activity, returns no error and changes nothing.  A marker whose
    activity type disagrees with the pending activity panics. *)
Theorem local_activity_marker_applied_once (now : Time) (markerData : option bytes)
    (lamd : localActivityMarkerData) (la : localActivityTask)
    (wd : workflowDefinition) (e : env) :
  EncodedValues_Get (wc_dataConverter e) markerData
    [VLocalActivityMarkerData zero_localActivityMarkerData]
    = ([VLocalActivityMarkerData lamd], None) ->
  wc_pendingLaTasks e !! lamd_ActivityID lamd = Some la ->
  (activityTypeMismatch lamd la = false ->
   decisions (wc_decisionsHelper e)
     (makeDecisionID decisionTypeMarker ("LocalActivity_" +:+ lamd_ActivityID lamd))
     = None ->
   weh_workflowDefinition e = Some wd ->
   exists e1,
     handleLocalActivityMarker now markerData e = (Returned None, e1)
     /\ wc_pendingLaTasks e1 !! lamd_ActivityID lamd = None
     /\ wc_calls e1
        = wc_calls e ++ [call_laResultHandler (lat_callback la) (markerResult lamd);
                         call_OnDecisionTaskStarted (wd_name wd)]
     /\ handleLocalActivityMarker now markerData e1 = (Returned None, e1))
  /\ (activityTypeMismatch lamd la = true ->
      exists message,
        handleLocalActivityMarker now markerData e
        = (Panicked (stateMachineIllegalStatePanic message), e)).
Proof.
  intros Hdec Hla. split.
  - intros Hty Hfree Hwd.
    set (d := newMarkerDecisionStateMachine
                ("LocalActivity_" +:+ lamd_ActivityID lamd)
                {| rm_MarkerName := localActivityMarkerName;
                   rm_Details := default [] markerData |}).
    set (x1 := set_wc_decisionsHelper (withBack d (wc_decisionsHelper e)) e).
    set (x2 := set_wc_unstartedLaTasks
                 (wc_unstartedLaTasks e ∖ {[lamd_ActivityID lamd]})
                 (set_wc_pendingLaTasks
                    (delete (lamd_ActivityID lamd) (wc_pendingLaTasks e)) x1)).
    set (x3 := set_wc_calls
                 (wc_calls e ++ [call_laResultHandler (lat_callback la)
                                   (markerResult lamd)]) x2).
    destruct (SetCurrentReplayTime_returns now (lamd_ReplayTime lamd) x3)
      as (x4 & Hset & Hp4 & Hdc4 & Hc4 & Hwd4).
    set (x5 := set_wc_calls (wc_calls x4 ++ [call_OnDecisionTaskStarted (wd_name wd)])
                 x4).
    assert (Hrun : handleLocalActivityMarker now markerData e = (Returned None, x5)).
    { unfold handleLocalActivityMarker. unfold bind at 1. unfold get at 1.
      rewrite Hdec, Hla. fold (activityTypeMismatch lamd la). rewrite Hty.
      rewrite (bind_run (ret tt) _ e e tt eq_refl).
      assert (S1 : liftH (helper_recordLocalActivityMarker (lamd_ActivityID lamd)
                            (default [] markerData)) e = (Returned d, x1)).
      { apply liftH_run. unfold helper_recordLocalActivityMarker, bind.
        fold d. rewrite addDecision_free by exact Hfree. reflexivity. }
      rewrite (bind_run _ _ _ _ _ S1).
      unfold bind at 1. unfold modify at 1.
      unfold bind at 1. unfold modify at 1.
      fold (markerResult lamd).
      unfold bind at 1. unfold logCall at 1. unfold modify at 1.
      change (set_wc_calls _ _) with x3.
      rewrite (bind_run _ _ _ _ _ Hset).
      unfold OnDecisionTaskStarted, bind, get. rewrite Hwd4. simpl.
      rewrite Hwd. reflexivity. }
    exists x5. split; [exact Hrun|].
    assert (Hp5 : wc_pendingLaTasks x5 !! lamd_ActivityID lamd = None).
    { unfold x5. simpl. rewrite Hp4. simpl. apply lookup_delete_eq. }
    split; [exact Hp5|]. split.
    + unfold x5. simpl. rewrite Hc4. simpl. rewrite <- app_assoc. reflexivity.
    + unfold handleLocalActivityMarker. unfold bind at 1. unfold get at 1.
      assert (Hdc5 : wc_dataConverter x5 = wc_dataConverter e)
        by (unfold x5; simpl; rewrite Hdc4; reflexivity).
      rewrite Hdc5, Hdec, Hp5. reflexivity.
  - intros Hty. unfold handleLocalActivityMarker. unfold bind at 1. unfold get at 1.
    rewrite Hdec, Hla. fold (activityTypeMismatch lamd la). rewrite Hty.
    eexists. unfold bind, liftH, panicIllegalState, panic. simpl.
    rewrite set_wc_decisionsHelper_same. reflexivity.
Qed.

(** ** Sequence IDs *)

Lemma to_int_not_nil (z : Z) :
  Z.to_int z <> Decimal.Pos Decimal.Nil /\ Z.to_int z <> Decimal.Neg Decimal.Nil.
Proof.
  split; intros H; pose proof (DecimalZ.of_to z) as Hz; rewrite H in Hz;
    simpl in Hz; subst z; discriminate H.
Qed.

Lemma fmt_int_inj (a b : Z) : fmt_int a = fmt_int b -> a = b.
Proof.
  unfold fmt_int. intros H. apply DecimalZ.to_int_inj.
  destruct (to_int_not_nil a) as [Ha1 Ha2]. destruct (to_int_not_nil b) as [Hb1 Hb2].
  pose proof (NilZero.isi (Z.to_int a) Ha1 Ha2) as Ia.
  pose proof (NilZero.isi (Z.to_int b) Hb1 Hb2) as Ib.
  rewrite H in Ia. congruence.
Qed.

Lemma wrap_int32_mod (z : Z) : wrap_int32 z mod 4294967296 = z mod 4294967296.
Proof.
  unfold wrap_int32.
  rewrite Zminus_mod_idemp_l. f_equal. lia.
Qed.

Lemma wrap_int32_range (z : Z) : -2147483648 <= wrap_int32 z < 2147483648.
Proof.
  unfold wrap_int32.
  pose proof (Z.mod_pos_bound (z + 2147483648) 4294967296 eq_refl). lia.
Qed.

Lemma counterAfter_mod (n : nat) :
  forall c, counterAfter n c mod 4294967296 = (c + Z.of_nat n) mod 4294967296.
Proof.
  induction n as [|n IH]; intros c.
  - simpl. f_equal. lia.
  - simpl counterAfter. rewrite IH.
    rewrite <- Zplus_mod_idemp_l, wrap_int32_mod, Zplus_mod_idemp_l.
    f_equal. lia.
Qed.

Lemma counterAfter_S (n : nat) (c : Z) :
  counterAfter (S n) c = wrap_int32 (counterAfter n c + 1).
Proof.
  revert c. induction n as [|n IH]; intros c; [reflexivity|].
  change (counterAfter (S (S n)) c) with (counterAfter (S n) (wrap_int32 (c + 1))).
  rewrite IH. reflexivity.
Qed.

Lemma sequenceIDs_eq (n : nat) :
  forall e,
    sequenceIDs n e
    = (fun i => fmt_int (counterAfter i (wc_counterID e))) <$> seq 0 n.
Proof.
  induction n as [|n IH]; intros e; [reflexivity|].
  cbn [sequenceIDs]. rewrite GenerateSequenceID_eq. rewrite IH.
  change (seq 0 (S n)) with (0%nat :: seq 1 n). rewrite fmap_cons.
  f_equal. rewrite <- (fmap_S_seq 0 n). rewrite <- list_fmap_compose. reflexivity.
Qed.

Lemma counterAfter_range (n : nat) (c : Z) :
  -2147483648 <= c < 2147483648 ->
  -2147483648 <= counterAfter n c < 2147483648.
Proof.
  intros Hc. destruct n as [|n]; [exact Hc|].
  rewrite counterAfter_S. apply wrap_int32_range.
Qed.

Lemma counterAfter_round (m : nat) (c : Z) :
  Z.of_nat m = 4294967296 ->
  -2147483648 <= c < 2147483648 ->
  counterAfter m c = c.
Proof.
  intros Hm Hc.
  pose proof (counterAfter_mod m c) as H. rewrite Hm in H.
  rewrite <- Zplus_mod_idemp_r, Z.mod_same, Z.add_0_r in H by lia.
  pose proof (counterAfter_range m c Hc) as Hr.
  generalize dependent (counterAfter m c). intros x H Hr.
  assert (Hx : (x + 2147483648) mod 4294967296 = (c + 2147483648) mod 4294967296).
  { rewrite <- Zplus_mod_idemp_l, H, Zplus_mod_idemp_l. reflexivity. }
  rewrite !Z.mod_small in Hx by lia. lia.
Qed.

(** X14. The IDs of the environment do not repeat before the counter has
    gone round: up to 2^32 calls of [GenerateSequenceID] in a row return
    pairwise different IDs, whatever the counter was.  One call more and
    the 32-bit counter is back at its value, so the last ID repeats the
    first one. *)
Theorem sequence_IDs_distinct (n : nat) (e : env) :
  Z.of_nat n <= 4294967296 ->
  NoDup (sequenceIDs n e)
  /\ (forall m : nat,
        Z.of_nat m = 4294967296 ->
        -2147483648 <= wc_counterID e < 2147483648 ->
        ~ NoDup (sequenceIDs (S m) e)).
Proof.
  intros Hn. split.
  - rewrite sequenceIDs_eq. apply NoDup_fmap_2_strong; [|apply NoDup_seq].
    intros i j Hi Hj H. apply fmt_int_inj in H.
    apply elem_of_seq in Hi. apply elem_of_seq in Hj.
    pose proof (f_equal (fun z => z mod 4294967296) H) as Hm. simpl in Hm.
    rewrite !counterAfter_mod in Hm.
    assert (Hd : (Z.of_nat i - Z.of_nat j) mod 4294967296 = 0).
    { replace (Z.of_nat i - Z.of_nat j)
        with ((wc_counterID e + Z.of_nat i) - (wc_counterID e + Z.of_nat j)) by lia.
      rewrite Zminus_mod, Hm, Z.sub_diag. reflexivity. }
    apply Z.mod_divide in Hd; [|lia]. destruct Hd as [q Hq].
    assert (q = 0) by nia. lia.
  - intros m Hm Hc. rewrite sequenceIDs_eq.
    change (seq 0 (S m)) with (0%nat :: seq 1 m). rewrite fmap_cons.
    intros Hnd. apply NoDup_cons in Hnd. destruct Hnd as [Hnotin _].
    apply Hnotin. apply list_elem_of_fmap. exists m. split.
    + cbn [counterAfter]. rewrite counterAfter_round by assumption. reflexivity.
    + apply elem_of_seq. lia.
Qed.

(** ** The close event of an activity *)

Lemma handleActivityTaskClosed_initiated (activityID : string) (a : _)
    (d : decisionStateMachine) (h : decisionsHelper) :
  decisions h (makeDecisionID decisionTypeActivity activityID) = Some d ->
  kind d = activityDecisionStateMachine a ->
  state d = decisionStateInitiated \/ state d = decisionStateCanceledAfterInitiated ->
  exists l,
    helper_handleActivityTaskClosed activityID h
    = (Returned (moved decisionStateCompleted eventCompletion d),
       set_orderedDecisions l h).
Proof.
  intros Hd Hk Hs. unfold helper_handleActivityTaskClosed.
  rewrite (bind_run _ _ _ _ _ (getDecision_eq _ h d Hd)).
  unfold dsm_handleCompletionEvent. rewrite Hk.
  unfold base_handleCompletionEvent.
  destruct Hs as [-> | ->]; rewrite moveState_eq; destruct h; eexists; reflexivity.
Qed.

(** X15. The completion event of an activity whose machine is Initiated
    (or CanceledAfterInitiated) and whose callback has not run: the handler
    returns no error, calls the activity's callback once with the result of
    the event and no error, marks it handled and takes the machine out of
    the collection; a second close event for the same activity then panics
    with an unknown decision. *)
Theorem activity_completion_reaches_callback (event : HistoryEvent) (result : bytes)
    (i : Z) (activityID : string) (a : _) (d : decisionStateMachine)
    (p : waiterRef) (s : scheduledActivity) (e : env) :
  NoDup (keys (wc_decisionsHelper e)) ->
  closedScheduledEventID event = Some i ->
  scheduledEventIDToActivityID (wc_decisionsHelper e) !! i = Some activityID ->
  decisions (wc_decisionsHelper e) (makeDecisionID decisionTypeActivity activityID)
    = Some d ->
  kind d = activityDecisionStateMachine a ->
  state d = decisionStateInitiated \/ state d = decisionStateCanceledAfterInitiated ->
  data d = Some p ->
  wc_waiters e !! p = Some (dataActivity s) ->
  activity_handled s = false ->
  exists e1,
    handleActivityTaskCompleted event result e = (Returned None, e1)
    /\ wc_calls e1
       = wc_calls e
         ++ [call_resultHandler (Some p) (activity_callback s) (Some result) None]
    /\ handledOf <$> wc_waiters e1 !! p = Some true
    /\ decisions (wc_decisionsHelper e1)
         (makeDecisionID decisionTypeActivity activityID) = None
    /\ fst (handleActivityTaskCompleted event result e1)
       = Panicked
           (stateMachineIllegalStatePanic
              ("unknown decision "
               +:+ decisionID_String (makeDecisionID decisionTypeActivity activityID)
               +:+ ", possible causes are nondeterministic workflow definition code"
               +:+ " or incompatible change in the workflow definition")).
Proof.
  intros Hnd Hi Hm Hd Hk Hs Hp Hw Hh.
  destruct (handleActivityTaskClosed_initiated activityID a d _ Hd Hk Hs) as [l Hc].
  assert (Hgone : decisions (set_orderedDecisions l (wc_decisionsHelper e))
                    (makeDecisionID decisionTypeActivity activityID) = None).
  { eapply handleActivityTaskClosed_removes; [exact Hnd|exact Hc|reflexivity]. }
  assert (Hid : helper_getActivityID event (wc_decisionsHelper e)
                = (Returned activityID, wc_decisionsHelper e)).
  { rewrite getActivityID_eq, Hi, Hm. reflexivity. }
  exists (set_wc_calls
            (wc_calls e
             ++ [call_resultHandler (Some p) (activity_callback s) (Some result) None])
            (set_wc_waiters
               (<[p := markHandled (dataActivity s)]> (wc_waiters e))
               (set_wc_decisionsHelper
                  (set_orderedDecisions l (wc_decisionsHelper e)) e))).
  split; [|split; [|split; [|split]]].
  - unfold handleActivityTaskCompleted.
    rewrite (bind_run _ _ _ _ _ (liftH_run _ _ _ _ Hid)).
    rewrite set_wc_decisionsHelper_same.
    rewrite (bind_run _ _ _ _ _ (liftH_run _ _ _ _ Hc)).
    unfold dsm_getData. change (data (moved _ _ d)) with (data d). rewrite Hp.
    unfold asScheduledActivity, scheduledActivity_handle, bind, get, storeWaiter,
      logCall, modify, ret.
    destruct e; simpl in *. rewrite Hw, Hh. simpl.
    rewrite Hw, Hh. reflexivity.
  - destruct e; reflexivity.
  - destruct e; simpl. rewrite lookup_insert_eq. reflexivity.
  - destruct e; exact Hgone.
  - unfold handleActivityTaskCompleted.
    match goal with |- fst (bind _ _ ?x) = _ => set (e1 := x) end.
    assert (Hid1 : helper_getActivityID event (wc_decisionsHelper e1)
                   = (Returned activityID, wc_decisionsHelper e1)).
    { rewrite getActivityID_eq, Hi. subst e1. destruct e; simpl in *.
      rewrite Hm. reflexivity. }
    rewrite (bind_run _ _ _ _ _ (liftH_run _ _ _ _ Hid1)).
    rewrite set_wc_decisionsHelper_same.
    assert (Hg1 : decisions (wc_decisionsHelper e1)
                    (makeDecisionID decisionTypeActivity activityID) = None).
    { subst e1. destruct e; exact Hgone. }
    unfold bind at 1. rewrite liftH_eq. unfold helper_handleActivityTaskClosed.
    rewrite (bind_panicked _ _ _ _ _ (getDecision_missing _ _ Hg1)). reflexivity.
Qed.

(** ** Signals and cancellations of other workflows are found by event ID *)

Lemma handleSignalExternalWorkflowExecutionInitiated_map (initiatedEventID : Z)
    (signalID : string) (h : decisionsHelper) :
  scheduledEventIDToSignalID
    (snd (helper_handleSignalExternalWorkflowExecutionInitiated
            initiatedEventID signalID h))
  = <[initiatedEventID := signalID]> (scheduledEventIDToSignalID h).
Proof.
  unfold helper_handleSignalExternalWorkflowExecutionInitiated.
  unfold bind at 1. unfold modify at 1.
  set (h0 := set_scheduledEventIDToSignalID _ h).
  change (<[initiatedEventID:=signalID]> (scheduledEventIDToSignalID h))
    with (scheduledEventIDToSignalID h0).
  unfold bind.
  pose proof (getDecision_maps (makeDecisionID decisionTypeSignal signalID) h0)
    as (_ & _ & Hg).
  destruct (helper_getDecision (makeDecisionID decisionTypeSignal signalID) h0)
    as [[d|p] h1]; simpl in *; [|exact Hg].
  pose proof (dsm_apply_maps evInitiated d h1) as (_ & _ & Ha). simpl in Ha.
  destruct (dsm_handleInitiatedEvent d h1) as [[d'|p] h2]; simpl in *; congruence.
Qed.

(** X16. The helper remembers which signal an initiated event belongs to:
    once [handleSignalExternalWorkflowExecutionInitiated] ran for an event
    ID and a signal ID (even when no such signal decision exists),
    [getSignalID] of that event ID is the signal ID; other event IDs
    resolve as before, and an event ID never seen panics with
    unable to find signal ID, leaving the helper as it is. *)
Theorem getSignalID_after_initiated (initiatedEventID i : Z) (signalID : string)
    (h : decisionsHelper) :
  let h1 := snd (helper_handleSignalExternalWorkflowExecutionInitiated
                   initiatedEventID signalID h) in
  helper_getSignalID i h1 =
    if decide (i = initiatedEventID) then (Returned signalID, h1)
    else match scheduledEventIDToSignalID h !! i with
         | Some s => (Returned s, h1)
         | None =>
             (Panicked (panicString ("unable to find signal ID: " +:+ fmt_int i)), h1)
         end.
Proof.
  cbv zeta. unfold helper_getSignalID, bind, get.
  rewrite handleSignalExternalWorkflowExecutionInitiated_map.
  destruct (decide (i = initiatedEventID)) as [->|Hne].
  - rewrite lookup_insert_eq. reflexivity.
  - rewrite lookup_insert_ne by congruence.
    destruct (scheduledEventIDToSignalID h !! i); reflexivity.
Qed.

Lemma dsm_apply_id (ev : dsmEvent) (d d' : decisionStateMachine)
    (h h' : decisionsHelper) :
  dsm_apply ev d h = (Returned d', h') -> id d' = id d.
Proof.
  destruct d as [i st hi da k]. destruct h as [l m1 m2 m3].
  destruct ev, k, st; cbn; rewrite ?moveState_eq; cbn;
    intros [= <- <-]; reflexivity.
Qed.

Lemma getDecision_returned (k : decisionID) (d : decisionStateMachine)
    (h h' : decisionsHelper) :
  helper_getDecision k h = (Returned d, h') -> id d = k.
Proof.
  destruct (decisions h k) as [d0|] eqn:E.
  - rewrite (getDecision_eq k h d0 E). intros [= <- <-].
    unfold decisions in E. apply find_hasKey_Some_keys in E. apply E.
  - rewrite (getDecision_missing k h E). discriminate.
Qed.

Lemma handleRequestCancelExternalWorkflowExecutionInitiated_map
    (initiatedeventID : Z) (workflowID cancellationID : string) (h : decisionsHelper) :
  scheduledEventIDToCancellationID
    (snd (helper_handleRequestCancelExternalWorkflowExecutionInitiated
            initiatedeventID workflowID cancellationID h))
  = if isCancelExternalWorkflowEventForChildWorkflow cancellationID
    then scheduledEventIDToCancellationID h
    else <[initiatedeventID := cancellationID]> (scheduledEventIDToCancellationID h).
Proof.
  unfold helper_handleRequestCancelExternalWorkflowExecutionInitiated.
  destruct (isCancelExternalWorkflowEventForChildWorkflow cancellationID).
  - unfold bind.
    pose proof (getDecision_maps (makeDecisionID decisionTypeChildWorkflow workflowID) h)
      as (_ & Hg & _).
    destruct (helper_getDecision _ h) as [[d|p] h1]; simpl in *; [|exact Hg].
    pose proof (dsm_apply_maps evCancelInitiated d h1) as (_ & Ha & _). simpl in Ha.
    destruct (dsm_handleCancelInitiatedEvent d h1) as [[d'|p] h2]; simpl in *;
      congruence.
  - unfold bind at 1. unfold modify at 1.
    set (h0 := set_scheduledEventIDToCancellationID _ h).
    change (<[initiatedeventID:=cancellationID]> (scheduledEventIDToCancellationID h))
      with (scheduledEventIDToCancellationID h0).
    unfold bind.
    pose proof (getDecision_maps
                  (makeDecisionID decisionTypeCancellation cancellationID) h0)
      as (_ & Hg & _).
    destruct (helper_getDecision _ h0) as [[d|p] h1]; simpl in *; [|exact Hg].
    pose proof (dsm_apply_maps evInitiated d h1) as (_ & Ha & _). simpl in Ha.
    destruct (dsm_handleInitiatedEvent d h1) as [[d'|p] h2]; simpl in *; congruence.
Qed.

(** X17. A cancel-requested event is routed by the initiated event it
    answers.  After [handleRequestCancelExternalWorkflowExecutionInitiated]
    for an event ID that was not seen before, when
    [handleExternalWorkflowExecutionCancelRequested] for that event ID
    returns, its flag tells whether the initiated event carried a
    cancellation ID, and the machine it returns is the cancellation decision
    of that ID if so, and the child-workflow decision of the given workflow
    ID if the cancellation ID was empty. *)
Theorem cancel_requested_routed_by_initiated_event (initiatedeventID : Z)
    (workflowID cancellationID w : string) (h h2 : decisionsHelper)
    (isExternal : bool) (d : decisionStateMachine) :
  scheduledEventIDToCancellationID h !! initiatedeventID = None ->
  helper_handleExternalWorkflowExecutionCancelRequested initiatedeventID w
    (snd (helper_handleRequestCancelExternalWorkflowExecutionInitiated
            initiatedeventID workflowID cancellationID h))
  = (Returned (isExternal, d), h2) ->
  isExternal = negb (String.eqb cancellationID "")
  /\ id d = if isExternal
            then makeDecisionID decisionTypeCancellation cancellationID
            else makeDecisionID decisionTypeChildWorkflow w.
Proof.
  intros Hfresh.
  pose proof (handleRequestCancelExternalWorkflowExecutionInitiated_map
                initiatedeventID workflowID cancellationID h) as Hmap.
  set (h1 := snd _) in *.
  unfold helper_handleExternalWorkflowExecutionCancelRequested.
  unfold bind at 1. unfold get at 1. rewrite Hmap.
  assert (Hz : isCancelExternalWorkflowEventForChildWorkflow cancellationID
               = String.eqb cancellationID "").
  { destruct cancellationID; reflexivity. }
  rewrite Hz. destruct (String.eqb cancellationID "").
  - rewrite Hfresh. unfold bind.
    destruct (helper_getDecision _ h1) as [[d0|p] h3] eqn:Eg; [|discriminate].
    intros [= <- <- <-]. split; [reflexivity|].
    exact (getDecision_returned _ _ _ _ Eg).
  - rewrite lookup_insert_eq. unfold bind.
    destruct (helper_getDecision _ h1) as [[d0|p] h3] eqn:Eg; [|discriminate].
    destruct (dsm_handleCompletionEvent d0 h3) as [[d1|p] h4] eqn:Ec; [|discriminate].
    intros [= <- <- <-]. split; [reflexivity|].
    rewrite (dsm_apply_id evCompletion d0 d1 h3 h4 Ec).
    exact (getDecision_returned _ _ _ _ Eg).
Qed.

(** ** A timer that fires after it was cancelled *)

Lemma getDecision_withBack (k : decisionID) (d : decisionStateMachine)
    (h : decisionsHelper) :
  NoDup (keys h) ->
  decisions h k = Some d ->
  let h0 := set_orderedDecisions (Remove k (orderedDecisions h)) h in
  id d = k /\ decisions h0 (id d) = None
  /\ helper_getDecision k h = (Returned d, withBack d h0).
Proof.
  intros Hnd Hd h0. pose proof Hd as Hd'. unfold decisions in Hd'.
  apply find_hasKey_Some_keys in Hd'. destruct Hd' as [Hid _].
  split; [exact Hid|]. split.
  - rewrite Hid. subst h0. unfold decisions. destruct h; simpl in *.
    apply Remove_gone. exact Hnd.
  - rewrite (getDecision_eq k h d Hd). subst h0. destruct h; reflexivity.
Qed.

(** X18. A started timer that is cancelled and then fires resumes the
    workflow once.  For a timer whose machine is Initiated and whose
    callback has not run, [RequestCancelTimer] calls the callback with
    [ErrCanceled]; a TimerFired event for the same timer that is handled
    next, before the cancel decision is sent, is accepted without a panic
    and without a second call, and takes the machine out of the
    collection. *)
Theorem timer_fired_after_cancel_is_silent (timerID : string)
    (a : StartTimerDecisionAttributes) (c : bool) (d : decisionStateMachine)
    (p : waiterRef) (s : scheduledTimer) (e : env) :
  NoDup (keys (wc_decisionsHelper e)) ->
  decisions (wc_decisionsHelper e) (makeDecisionID decisionTypeTimer timerID) = Some d ->
  kind d = timerDecisionStateMachine a c ->
  state d = decisionStateInitiated ->
  data d = Some p ->
  wc_waiters e !! p = Some (dataTimer s) ->
  timer_handled s = false ->
  exists e1 e2,
    RequestCancelTimer timerID e = (Returned tt, e1)
    /\ wc_calls e1
       = wc_calls e
         ++ [call_resultHandler (Some p) (timer_callback s) None (Some ErrCanceled)]
    /\ handleTimerFired timerID e1 = (Returned tt, e2)
    /\ wc_calls e2 = wc_calls e1
    /\ decisions (wc_decisionsHelper e2) (makeDecisionID decisionTypeTimer timerID)
       = None.
Proof.
  intros Hnd Hd Hk Hs Hp Hw Hh.
  destruct (getDecision_withBack _ d _ Hnd Hd) as (Hid & Hfree & Hg).
  set (k := makeDecisionID decisionTypeTimer timerID) in *.
  set (h0 := set_orderedDecisions (Remove k (orderedDecisions (wc_decisionsHelper e)))
               (wc_decisionsHelper e)) in *.
  set (d1 := set_kind (timerDecisionStateMachine a true) d).
  set (d2 := moved decisionStateCanceledAfterInitiated eventCancel d1).
  set (d3 := moved decisionStateCompleted eventCompletion d2).
  assert (S1 : helper_cancelTimer timerID (wc_decisionsHelper e)
               = (Returned d2, withBack d2 h0)).
  { unfold helper_cancelTimer. rewrite (bind_run _ _ _ _ _ Hg).
    unfold dsm_cancel. rewrite Hk. unfold timer_cancel.
    rewrite (bind_run _ _ _ _ _ (withBack_sync d d1 h0 Hfree eq_refl)).
    unfold base_cancel. change (state d1) with (state d). rewrite Hs.
    rewrite (withBack_moveState _ _ d1 d1 h0) by (exact Hfree || reflexivity).
    reflexivity. }
  assert (S2 : helper_handleTimerClosed timerID (withBack d2 h0) = (Returned d3, h0)).
  { unfold helper_handleTimerClosed. fold k. rewrite <- Hid.
    change (id d) with (id d2).
    rewrite (bind_run _ _ _ _ _ (withBack_getDecision d2 h0 Hfree)).
    unfold dsm_handleCompletionEvent. change (kind d2) with (kind d1).
    unfold base_handleCompletionEvent. simpl.
    rewrite (withBack_moveState _ _ d2 d2 h0) by (exact Hfree || reflexivity).
    reflexivity. }
  set (w := dataTimer {| timer_callback := timer_callback s; timer_handled := true |}).
  set (e1 := set_wc_calls
               (wc_calls e
                ++ [call_resultHandler (Some p) (timer_callback s) None
                      (Some ErrCanceled)])
               (set_wc_waiters (<[p := w]> (wc_waiters e))
                  (set_wc_decisionsHelper (withBack d2 h0) e))).
  exists e1, (set_wc_decisionsHelper h0 e1).
  split; [|split; [|split; [|split]]].
  - unfold RequestCancelTimer.
    rewrite (bind_run _ _ _ _ _ (liftH_run _ _ _ _ S1)).
    unfold dsm_getData. change (data d2) with (data d). rewrite Hp.
    unfold asScheduledTimer, scheduledTimer_handle, bind, get, storeWaiter,
      logCall, modify, ret.
    subst e1. destruct e; simpl in *. rewrite Hw, Hh. simpl.
    rewrite Hw, Hh. reflexivity.
  - subst e1. destruct e; reflexivity.
  - unfold handleTimerFired.
    assert (S2' : helper_handleTimerClosed timerID (wc_decisionsHelper e1)
                  = (Returned d3, h0)).
    { subst e1. destruct e; exact S2. }
    rewrite (bind_run _ _ _ _ _ (liftH_run _ _ _ _ S2')).
    unfold dsm_getData. change (data d3) with (data d). rewrite Hp.
    unfold asScheduledTimer, bind, get, ret.
    subst e1. destruct e; simpl in *. rewrite lookup_insert_eq. reflexivity.
  - subst e1. destruct e; reflexivity.
  - subst e1. destruct e; simpl in *. rewrite <- Hid. exact Hfree.
Qed.

(** ** Upserted search attributes show in the workflow info *)

Lemma encodeFields_none (enc : goValue -> bytes * option goError)
    (wrapErr : string -> goError -> goError) (l : list (string * goValue)) :
  forall acc,
  snd (encodeFields enc wrapErr l acc) = None ->
  forall k v, (k, v) ∈ l -> snd (enc v) = None.
Proof.
  induction l as [|[k0 v0] l IH]; intros acc H k v Hin.
  - inversion Hin.
  - simpl in H. destruct (enc v0) as [b [err|]] eqn:E0; [discriminate H|].
    apply elem_of_cons in Hin. destruct Hin as [[= -> ->]|Hin].
    + rewrite E0. reflexivity.
    + exact (IH _ H k v Hin).
Qed.

Lemma validateAndSerializeSearchAttributes_ok (attributes : gmap string goValue)
    (attr : option SearchAttributes) :
  validateAndSerializeSearchAttributes attributes = (attr, None) ->
  exists a,
    attr = Some a
    /\ forall k, IndexedFields a !! k
                 = (fun v => fst (json_Marshal v)) <$> attributes !! k.
Proof.
  unfold validateAndSerializeSearchAttributes, serializeSearchAttributes.
  destruct (decide (size attributes = 0%nat)); [discriminate|].
  destruct (encodeFields _ _ (map_to_list attributes) ∅) as [fields [err|]] eqn:E;
    [discriminate|].
  intros [= <-]. eexists. split; [reflexivity|]. intros k. simpl.
  destruct (encodeFields_ok json_Marshal
              (fun k err => ErrorfWrap ("encode search attribute [" +:+ k +:+ "] error: ")
                              err)
              (map_to_list attributes) ∅) as [_ H2].
  - apply (encodeFields_none json_Marshal
             (fun k err =>
                ErrorfWrap ("encode search attribute [" +:+ k +:+ "] error: ") err)
             _ ∅).
    rewrite E. reflexivity.
  - apply NoDup_fst_map_to_list.
  - rewrite E in H2. simpl in H2. rewrite H2.
    rewrite list_to_map_to_list, lookup_empty.
    destruct (attributes !! k); reflexivity.
Qed.

Lemma updateWorkflowInfoWithSearchAttributes_some (a : SearchAttributes) (e : env) :
  exists merged e1,
    updateWorkflowInfoWithSearchAttributes (Some a) e = (Returned tt, e1)
    /\ wc_decisionsHelper e1 = wc_decisionsHelper e
    /\ (wi_SearchAttributes (wc_workflowInfo e1) = Some merged \/
        (wi_SearchAttributes (wc_workflowInfo e1) = None /\ merged = a
         /\ IndexedFields a = ∅))
    /\ forall k,
         IndexedFields merged !! k =
           match IndexedFields a !! k with
           | Some v => Some v
           | None => match wi_SearchAttributes (wc_workflowInfo e) with
                     | Some c => IndexedFields c !! k
                     | None => None
                     end
           end.
Proof.
  unfold updateWorkflowInfoWithSearchAttributes, bind, get, mergeSearchAttributes.
  set (current := wi_SearchAttributes (wc_workflowInfo e)).
  destruct (decide (lenIndexedFields current = 0%nat)) as [Hc|Hc].
  - destruct (decide (lenIndexedFields (Some a) = 0%nat)) as [Ha|Ha].
    + exists a. eexists. split; [reflexivity|]. split; [destruct e; reflexivity|].
      simpl in Ha. apply map_size_empty_inv in Ha.
      split; [right; destruct e; auto|].
      intros k. rewrite Ha, lookup_empty.
      destruct current as [c|]; [|reflexivity]. simpl in Hc.
      apply map_size_empty_inv in Hc. rewrite Hc, lookup_empty. reflexivity.
    + eexists. eexists. split; [reflexivity|]. split; [destruct e; reflexivity|].
      split; [left; destruct e; reflexivity|].
      intros k. simpl. rewrite lookup_union, lookup_empty.
      destruct (IndexedFields a !! k) eqn:Ek; simpl; [reflexivity|].
      destruct current as [c|]; [|reflexivity]. simpl in Hc.
      apply map_size_empty_inv in Hc. rewrite Hc, lookup_empty. reflexivity.
  - destruct current as [c|] eqn:Ecur; [|simpl in Hc; congruence].
    eexists. eexists. split; [reflexivity|]. split; [destruct e; reflexivity|].
    split; [left; destruct e; reflexivity|].
    intros k. simpl. rewrite lookup_union.
    destruct (IndexedFields a !! k), (IndexedFields c !! k); reflexivity.
Qed.

(** X19. Search attributes that were upserted show in the workflow info.
    When [UpsertSearchAttributes] returns no error, the search attributes of
    the workflow info bind every upserted key to the JSON encoding of its
    value and every other key as before.  When it returns an error, nothing
    was changed: no decision was added and the workflow info is as it was.
    An empty map is refused with [errSearchAttributesNotSet]. *)
Theorem UpsertSearchAttributes_shows_in_workflow_info
    (attributes : gmap string goValue) (e : env) :
  (forall e1,
      UpsertSearchAttributes attributes e = (Returned None, e1) ->
      exists merged,
        wi_SearchAttributes (wc_workflowInfo e1) = Some merged
        /\ forall k,
             IndexedFields merged !! k =
               match attributes !! k with
               | Some v => Some (fst (json_Marshal v))
               | None => match wi_SearchAttributes (wc_workflowInfo e) with
                         | Some c => IndexedFields c !! k
                         | None => None
                         end
               end)
  /\ (forall err e1,
        UpsertSearchAttributes attributes e = (Returned (Some err), e1) -> e1 = e)
  /\ UpsertSearchAttributes ∅ e = (Returned (Some errSearchAttributesNotSet), e).
Proof.
  split; [|split; [|reflexivity]].
  - intros e1. unfold UpsertSearchAttributes.
    destruct (validateAndSerializeSearchAttributes attributes) as [attr [err|]] eqn:Ev;
      [discriminate|].
    destruct (validateAndSerializeSearchAttributes_ok attributes attr Ev)
      as (a & -> & Ha).
    assert (Hsize : size attributes <> 0%nat).
    { unfold validateAndSerializeSearchAttributes in Ev.
      destruct (decide (size attributes = 0%nat)); [discriminate|assumption]. }
    unfold bind at 1.
    match goal with
    | |- (let (_, _) := ?c e in _) = _ -> _ =>
        assert (Hid : forall r e0, c e = (r, e0) ->
                        wc_workflowInfo e0 = wc_workflowInfo e);
        [|destruct (c e) as [[upsertID|p] e0] eqn:Eid; [|discriminate];
          specialize (Hid _ _ eq_refl)]
    end.
    { intros r e0. destruct (attributes !! CadenceChangeVersion) as [[]|].
      all: try (intros [= <- <-]; reflexivity).
      - destruct l; intros [= <- <-]; reflexivity. }
    unfold bind at 1. rewrite liftH_eq.
    destruct (fst (helper_upsertSearchAttributes upsertID (Some a)
                     (wc_decisionsHelper e0))) as [d|p]; [|discriminate].
    set (e2 := set_wc_decisionsHelper _ e0).
    assert (Hwi2 : wc_workflowInfo e2 = wc_workflowInfo e)
      by (rewrite <- Hid; subst e2; destruct e0; reflexivity).
    destruct (updateWorkflowInfoWithSearchAttributes_some a e2)
      as (merged & e3 & Hu & _ & Hm & Hk).
    unfold bind. rewrite Hu. intros [= <-].
    destruct Hm as [Hm|(_ & _ & Hempty)].
    + exists merged. split; [exact Hm|]. intros k. rewrite Hk, Ha, Hwi2.
      destruct (attributes !! k); reflexivity.
    + exfalso. apply Hsize. apply map_size_empty_iff.
      apply map_eq. intros k. rewrite lookup_empty.
      pose proof (Ha k) as Hak. rewrite Hempty, lookup_empty in Hak.
      destruct (attributes !! k); [discriminate Hak|reflexivity].
  - intros err e1. unfold UpsertSearchAttributes.
    destruct (validateAndSerializeSearchAttributes attributes) as [attr [err0|]];
      [intros [= _ <-]; reflexivity|].
    unfold bind.
    destruct (match attributes !! CadenceChangeVersion with _ => _ end e)
      as [[upsertID|p] e0]; [|discriminate].
    destruct (liftH _ e0) as [[d|p] e2]; [|discriminate].
    destruct (updateWorkflowInfoWithSearchAttributes attr e2) as [[[]|p] e3];
      discriminate.
Qed.

(** ** A child workflow that starts and completes *)

(** X20. A child workflow whose machine is Initiated and whose result
    callback has not run: its ChildWorkflowExecutionStarted event calls the
    started callback with the workflow ID and run ID of the child and no
    error, and keeps the machine; the ChildWorkflowExecutionCompleted event
    that follows calls the result callback once with the result, and takes
    the machine out of the collection. *)
Theorem child_workflow_started_then_completed (childWorkflowID childRunID : string)
    (result : bytes) (a : _) (d : decisionStateMachine)
    (p : waiterRef) (s : scheduledChildWorkflow) (e : env) :
  NoDup (keys (wc_decisionsHelper e)) ->
  decisions (wc_decisionsHelper e)
    (makeDecisionID decisionTypeChildWorkflow childWorkflowID) = Some d ->
  kind d = childWorkflowDecisionStateMachine a ->
  state d = decisionStateInitiated ->
  data d = Some p ->
  wc_waiters e !! p = Some (dataChildWorkflow s) ->
  child_handled s = false ->
  exists e1 e2,
    handleChildWorkflowExecutionStarted childWorkflowID childRunID e
    = (Returned None, e1)
    /\ wc_calls e1
       = wc_calls e
         ++ [call_startedCallback (child_startedCallback s) childWorkflowID
               childRunID None]
    /\ (state <$> decisions (wc_decisionsHelper e1)
                    (makeDecisionID decisionTypeChildWorkflow childWorkflowID))
       = Some decisionStateStarted
    /\ handleChildWorkflowExecutionCompleted childWorkflowID result e1
       = (Returned None, e2)
    /\ wc_calls e2
       = wc_calls e1
         ++ [call_resultHandler (Some p) (child_resultCallback s) (Some result) None]
    /\ decisions (wc_decisionsHelper e2)
         (makeDecisionID decisionTypeChildWorkflow childWorkflowID) = None.
Proof.
  intros Hnd Hd Hk Hs Hp Hw Hh.
  destruct (getDecision_withBack _ d _ Hnd Hd) as (Hid & Hfree & Hg).
  set (k := makeDecisionID decisionTypeChildWorkflow childWorkflowID) in *.
  set (h0 := set_orderedDecisions (Remove k (orderedDecisions (wc_decisionsHelper e)))
               (wc_decisionsHelper e)) in *.
  set (d1 := moved decisionStateStarted eventStarted d).
  set (d2 := moved decisionStateCompleted eventCompletion d1).
  assert (S1 : helper_handleChildWorkflowExecutionStarted childWorkflowID
                 (wc_decisionsHelper e)
               = (Returned d1, withBack d1 h0)).
  { unfold helper_handleChildWorkflowExecutionStarted.
    rewrite (bind_run _ _ _ _ _ Hg).
    unfold dsm_handleStartedEvent. rewrite Hk.
    unfold childWorkflow_handleStartedEvent. rewrite Hs.
    rewrite (withBack_moveState _ _ d d h0) by (exact Hfree || reflexivity).
    reflexivity. }
  assert (S2 : helper_handleChildWorkflowExecutionClosed childWorkflowID
                 (withBack d1 h0) = (Returned d2, h0)).
  { unfold helper_handleChildWorkflowExecutionClosed. fold k. rewrite <- Hid.
    change (id d) with (id d1).
    rewrite (bind_run _ _ _ _ _ (withBack_getDecision d1 h0 Hfree)).
    unfold dsm_handleCompletionEvent. change (kind d1) with (kind d). rewrite Hk.
    unfold childWorkflow_handleCompletionEvent. simpl.
    rewrite (withBack_moveState _ _ d1 d1 h0) by (exact Hfree || reflexivity).
    reflexivity. }
  set (e1 := set_wc_calls
               (wc_calls e
                ++ [call_startedCallback (child_startedCallback s) childWorkflowID
                      childRunID None])
               (set_wc_decisionsHelper (withBack d1 h0) e)).
  set (e2 := set_wc_calls
               (wc_calls e1
                ++ [call_resultHandler (Some p) (child_resultCallback s) (Some result)
                      None])
               (set_wc_waiters (<[p := markHandled (dataChildWorkflow s)]>
                                  (wc_waiters e1))
                  (set_wc_decisionsHelper h0 e1))).
  exists e1, e2.
  split; [|split; [|split; [|split; [|split]]]].
  - unfold handleChildWorkflowExecutionStarted.
    rewrite (bind_run _ _ _ _ _ (liftH_run _ _ _ _ S1)).
    unfold dsm_getData. change (data d1) with (data d). rewrite Hp.
    unfold asScheduledChildWorkflow, bind, get, logCall, modify, ret.
    subst e1. destruct e; simpl in *. rewrite Hw, Hh. reflexivity.
  - subst e1. destruct e; reflexivity.
  - assert (Hd1 : decisions (wc_decisionsHelper e1) k = Some d1).
    { subst e1. destruct e; simpl in *. rewrite <- Hid.
      exact (withBack_decisions d1 h0 Hfree). }
    rewrite Hd1. reflexivity.
  - unfold handleChildWorkflowExecutionCompleted.
    assert (S2' : helper_handleChildWorkflowExecutionClosed childWorkflowID
                    (wc_decisionsHelper e1) = (Returned d2, h0)).
    { subst e1. destruct e; exact S2. }
    rewrite (bind_run _ _ _ _ _ (liftH_run _ _ _ _ S2')).
    unfold dsm_getData. change (data d2) with (data d). rewrite Hp.
    unfold asScheduledChildWorkflow, scheduledChildWorkflow_handle, bind, get,
      storeWaiter, logCall, modify, ret.
    subst e2 e1. destruct e; simpl in *. rewrite Hw, Hh. simpl.
    rewrite Hw, Hh. reflexivity.
  - subst e2. reflexivity.
  - subst e2 e1. destruct e; simpl in *. rewrite <- Hid. exact Hfree.
Qed.

End Core.


(** * The theorems at concrete inputs *)

(** Stand-ins for the functions and constants from outside. *)
Definition the_GetHistoryEventType (event : HistoryEvent) : string := "Event".
Definition the_HistoryEventToString (event : HistoryEvent) : string := "event".
Definition the_lastPartOfName (name : string) : string := name.
Definition the_json_Marshal (v : goValue) : bytes * option goError :=
  (list_byte_of_string "json", None).
Definition the_getErrorDetails (err : goError) (dc : DataConverter) : string * bytes :=
  ("error", []).
Definition the_fmt_func (f : N) : string := "0x1".

(** A runtime that ranges over the two maps in the order of
    [map_to_list]. *)
Definition the_range_changeVersions (m : gmap string Z) : list nat := [].
Definition the_range_sideEffectResult (m : gmap Z bytes) : list nat := [].

(** A converter that encodes everything as one byte and decodes every
    local activity marker as the record of activity "0" at replay time 5. *)
Definition the_dataConverter : DataConverter :=
  {| ToData := fun _ => ([Byte.x01], None);
     FromData := fun _ ptrs =>
       (match ptrs with
        | [VLocalActivityMarkerData _] =>
            [VLocalActivityMarkerData
               {| lamd_ActivityID := "0"; lamd_ActivityType := "";
                  lamd_ErrReason := ""; lamd_ErrJSON := ""; lamd_ResultJSON := "r";
                  lamd_ReplayTime := 5; lamd_Attempt := 0; lamd_Backoff := 0 |}]
        | _ => ptrs
        end, None) |}.

Definition the_workflowInfo : WorkflowInfo :=
  {| wi_WorkflowExecution_ID := "w"; wi_WorkflowExecution_RunID := "r";
     wi_WorkflowType_Name := "t"; wi_TaskListName := "l";
     wi_SearchAttributes := None |}.

Definition the_env : workflowEnvironmentImpl :=
  newWorkflowExecutionEventHandler the_workflowInfo (Some 9%N) false (Some 8%N)
    (fun _ => (None, None)) the_dataConverter.

Definition the_runEnvOps : list envOp -> workflowEnvironmentImpl -> workflowEnvironmentImpl :=
  runEnvOps the_GetHistoryEventType the_HistoryEventToString the_lastPartOfName
    the_json_Marshal the_getErrorDetails the_fmt_func fmt_int fmt_int
    "__stack_trace" "__open_sessions" 0 0
    the_range_changeVersions the_range_sideEffectResult.

Definition timer1 : StartTimerDecisionAttributes :=
  {| st_TimerId := "1"; st_StartToFireTimeout := 10 |}.

Definition timer2 : StartTimerDecisionAttributes :=
  {| st_TimerId := "2"; st_StartToFireTimeout := 10 |}.

(** Two timers are started, their decisions sent, and the first timer's
    TimerStarted event arrives. *)
Definition two_timers : list helperOp :=
  [helperTouch (touchAdd (newTimerDecisionStateMachine timer1));
   helperTouch (touchAdd (newTimerDecisionStateMachine timer2));
   helperGetDecisions true;
   helperTouch (touchRoute (makeDecisionID decisionTypeTimer "1") evInitiated)].

Definition activity_a : executeActivityParams :=
  {| ap_ActivityID := Some "a"; ap_TaskListName := "l";
     ap_ScheduleToCloseTimeoutSeconds := 10; ap_ScheduleToStartTimeoutSeconds := 10;
     ap_StartToCloseTimeoutSeconds := 10; ap_HeartbeatTimeoutSeconds := 0;
     ap_WaitForCancellation := false; ap_RetryPolicy := None;
     ap_ActivityType := "A"; ap_Input := []; ap_Header := None |}.

(** Activity "a" is executed, its decision sent, and its
    ActivityTaskScheduled event (event 5) applied. *)
Definition activity_a_scheduled : workflowEnvironmentImpl :=
  the_runEnvOps
    [opExecuteActivity activity_a 1%N;
     opGetDecisions true;
     opProcessEvent 0
       (Some {| EventId := 5; EventTime := 0;
                Attributes := ActivityTaskScheduledEventAttributes "a" |})
       false false]
    the_env.

(** The machine of activity "a" after its close event. *)
Definition activity_a_closed : decisionStateMachine :=
  moved decisionStateCompleted eventCompletion
    (moved decisionStateInitiated eventInitiated
       (moved decisionStateDecisionSent eventDecisionSent
          (set_data (Some 0%N)
             (newActivityDecisionStateMachine
                {| sat_ActivityId := "a"; sat_ActivityType := "A";
                   sat_TaskList := "l"; sat_Input := [];
                   sat_ScheduleToCloseTimeout := 10; sat_StartToCloseTimeout := 10;
                   sat_ScheduleToStartTimeout := 10; sat_HeartbeatTimeout := 0;
                   sat_RetryPolicy := None; sat_Header := None |})))).

Definition activity_a_completed : workflowEnvironmentImpl :=
  snd (liftH (helper_handleActivityTaskClosed "a") activity_a_scheduled).

(** The same through the event handler: the ActivityTaskCompleted event of
    the activity scheduled by event 5. *)
Definition activity_a_completed_by_event : workflowEnvironmentImpl :=
  the_runEnvOps
    [opProcessEvent 0
       (Some {| EventId := 6; EventTime := 0;
                Attributes := ActivityTaskCompletedEventAttributes 5 [Byte.x01] |})
       false false]
    activity_a_scheduled.

(** A local activity is executed; it gets the activity ID "0". *)
Definition local_activity_pending : workflowEnvironmentImpl :=
  the_runEnvOps
    [opExecuteLocalActivity
       {| lap_ActivityType := "L"; lap_RetryPolicy := None; lap_Attempt := 0;
          lap_ScheduledTime := 0; lap_Header := None |} 3%N]
    the_env.

Definition local_activity_marker : HistoryEvent :=
  {| EventId := 7; EventTime := 0;
     Attributes := MarkerRecordedEventAttributes localActivityMarkerName
                     (Some [Byte.x01]) |}.

Definition decision_task_started (t : Time) : HistoryEvent :=
  {| EventId := 3; EventTime := t; Attributes := DecisionTaskStartedEventAttributes |}.

(** A replaying environment with a recorded result for side effect 0. *)
Definition replaying_env : workflowEnvironmentImpl :=
  set_wc_isReplay true (set_wc_sideEffectResult {[ 0 := [Byte.x01] ]} the_env).


Lemma decisions_in_order_of_last_touch_witness :
  let h' := snd (runOps two_timers newDecisionsHelper) in
  NoDup (keys newDecisionsHelper)
  /\ runOps two_timers newDecisionsHelper = (Returned tt, h')
  /\ keys h' = filter (fun k => k ∈ keys h') (lastTouchOrder two_timers)
  /\ lastTouchOrder two_timers
     = [makeDecisionID decisionTypeTimer "2"; makeDecisionID decisionTypeTimer "1"]
  /\ keys h'
     = [makeDecisionID decisionTypeTimer "2"; makeDecisionID decisionTypeTimer "1"].
Proof.
  cbv zeta.
  assert (Hnd : NoDup (keys newDecisionsHelper)) by constructor.
  assert (Hrun : runOps two_timers newDecisionsHelper
                 = (Returned tt, snd (runOps two_timers newDecisionsHelper)))
    by (vm_compute; reflexivity).
  split; [exact Hnd|]. split; [exact Hrun|].
  split; [|split; vm_compute; reflexivity].
  destruct (decisions_in_order_of_last_touch two_timers true newDecisionsHelper
              _ Hnd Hrun) as (_ & _ & _ & H & _).
  apply H. reflexivity.
Defined.

Lemma SideEffect_replay_and_live_witness :
  decisions (wc_decisionsHelper replaying_env)
    (makeDecisionID decisionTypeMarker
       ("SideEffect_" +:+ fmt_int (wc_counterID replaying_env))) = None
  /\ SideEffect the_range_sideEffectResult (fun _ => ([], None)) 7%N replaying_env =
       (Returned tt,
        afterSideEffect replaying_env [sideEffectMarker 0 [Byte.x01]]
          [call_resultHandler None 7%N (Some [Byte.x01]) None])
  /\ offered
       (wc_decisionsHelper
          (afterSideEffect replaying_env [sideEffectMarker 0 [Byte.x01]]
             [call_resultHandler None 7%N (Some [Byte.x01]) None]))
     = [recordMarker "SideEffect" [Byte.x01]].
Proof.
  assert (H : decisions (wc_decisionsHelper replaying_env)
                (makeDecisionID decisionTypeMarker
                   ("SideEffect_" +:+ fmt_int (wc_counterID replaying_env))) = None)
    by reflexivity.
  split; [exact H|].
  destruct (SideEffect_replay_and_live the_range_sideEffectResult replaying_env
              (fun _ => ([], None)) 7%N H) as [Hhit _].
  exact (Hhit [Byte.x01] eq_refl eq_refl).
Defined.

Lemma timer_isDone_after_cancel_witness :
  timerOf (newTimerDecisionStateMachine timer1) = Some (timer1, false)
  /\ forall evs h d' h',
       dsm_run (evCancel :: evs) (newTimerDecisionStateMachine timer1) h
         = (Returned d', h') ->
       dsm_isDone d' = true.
Proof.
  assert (H : timerOf (newTimerDecisionStateMachine timer1) = Some (timer1, false))
    by reflexivity.
  split; [exact H|].
  destruct (timer_isDone_after_cancel _ _ _ H) as [Hdone _]. exact Hdone.
Defined.


Lemma RequestCancelActivity_after_Completed_panics_witness :
  NoDup (keys (wc_decisionsHelper activity_a_scheduled))
  /\ liftH (helper_handleActivityTaskClosed "a") activity_a_scheduled
     = (Returned activity_a_closed, activity_a_completed)
  /\ state activity_a_closed = decisionStateCompleted
  /\ RequestCancelActivity the_fmt_func "a" activity_a_completed
     = (Panicked
          (stateMachineIllegalStatePanic
             ("unknown decision DecisionType: Activity, ID: a, possible causes are "
              +:+ "nondeterministic workflow definition code or incompatible "
              +:+ "change in the workflow definition")),
        activity_a_completed).
Proof.
  assert (Hnd : NoDup (keys (wc_decisionsHelper activity_a_scheduled)))
    by (apply (bool_decide_unpack _); vm_compute; exact I).
  assert (Hc : liftH (helper_handleActivityTaskClosed "a") activity_a_scheduled
               = (Returned activity_a_closed, activity_a_completed))
    by (vm_compute; reflexivity).
  assert (Hst : state activity_a_closed = decisionStateCompleted)
    by (vm_compute; reflexivity).
  split; [exact Hnd|]. split; [exact Hc|]. split; [exact Hst|].
  destruct (RequestCancelActivity_after_Completed_panics the_fmt_func "a" _ _ _
              Hnd Hc Hst) as [_ H].
  exact H.
Defined.

(** After the ActivityTaskCompleted event of activity "a" was processed, the
    callback of the activity was called once, and a cancel request for the
    activity panics. *)
Lemma RequestCancelActivity_after_completion_event :
  wc_calls activity_a_completed_by_event
    = [call_resultHandler (Some 0%N) 1%N (Some [Byte.x01]) None]
  /\ keys (wc_decisionsHelper activity_a_completed_by_event) = []
  /\ RequestCancelActivity the_fmt_func "a" activity_a_completed_by_event
     = (Panicked
          (stateMachineIllegalStatePanic
             ("unknown decision DecisionType: Activity, ID: a, possible causes are "
              +:+ "nondeterministic workflow definition code or incompatible "
              +:+ "change in the workflow definition")),
        activity_a_completed_by_event).
Proof.
  split; [vm_compute; reflexivity|]. split; [vm_compute; reflexivity|].
  apply RequestCancelActivity_unknown. vm_compute. reflexivity.
Qed.


(** The clock follows the DecisionTaskStarted events forward, stays when an
    earlier timestamp arrives, and stays through other operations. *)
Lemma observedNow_example :
  observedNow the_GetHistoryEventType the_HistoryEventToString the_lastPartOfName
    the_json_Marshal the_getErrorDetails the_fmt_func fmt_int fmt_int
    "__stack_trace" "__open_sessions" 0 0
    the_range_changeVersions the_range_sideEffectResult
    [opProcessEvent 1 (Some (decision_task_started 10)) true false;
     opNewTimer 5 2%N;
     opProcessEvent 2 (Some (decision_task_started 7)) true false;
     opProcessEvent 3 (Some local_activity_marker) true false;
     opProcessEvent 4 (Some (decision_task_started 12)) true false]
    local_activity_pending
  = [0; 10; 10; 10; 10; 12].
Proof. vm_compute. reflexivity. Qed.

(** The race after a cancel request: activity "a" is cancelled while it
    runs, which resumes its waiter with [ErrCanceled]; the
    ActivityTaskCompleted event that arrives afterwards is accepted without
    a second call of the callback. *)
Lemma completion_after_cancel_is_silent :
  let cancelled := the_runEnvOps [opRequestCancelActivity "a"] activity_a_scheduled in
  let completed :=
    ProcessEvent the_GetHistoryEventType the_HistoryEventToString the_lastPartOfName
      the_fmt_func fmt_int 0 0 0
      (Some {| EventId := 6; EventTime := 0;
               Attributes := ActivityTaskCompletedEventAttributes 5 [Byte.x01] |})
      false false cancelled in
  wc_calls cancelled = [call_resultHandler (Some 0%N) 1%N None (Some ErrCanceled)]
  /\ fst completed = Returned None
  /\ wc_calls (snd completed) = wc_calls cancelled.
Proof. vm_compute. repeat split; reflexivity. Qed.

(** * The further theorems at concrete inputs *)

(** The helper after two timers were started. *)
Definition two_timers_created : decisionsHelper :=
  snd (runOps
         [helperTouch (touchAdd (newTimerDecisionStateMachine timer1));
          helperTouch (touchAdd (newTimerDecisionStateMachine timer2))]
         newDecisionsHelper).

(** A converter that decodes the details of a side-effect marker as side
    effect 0 with result [2], and those of a version marker as version 2 of
    change "c". *)
Definition the_markerConverter : DataConverter :=
  {| ToData := fun _ => ([Byte.x01], None);
     FromData := fun _ ptrs =>
       (match ptrs with
        | [VInt32 _; VBytes _] => [VInt32 0; VBytes [Byte.x02]]
        | [VString _; VVersion _] => [VString "c"; VVersion 2]
        | _ => ptrs
        end, None) |}.

Definition marker_env : workflowEnvironmentImpl :=
  newWorkflowExecutionEventHandler the_workflowInfo (Some 9%N) false (Some 8%N)
    (fun _ => (None, None)) the_markerConverter.

(** What [the_dataConverter] decodes a local activity marker to. *)
Definition the_localActivityMarkerData : localActivityMarkerData :=
  {| lamd_ActivityID := "0"; lamd_ActivityType := "";
     lamd_ErrReason := ""; lamd_ErrJSON := ""; lamd_ResultJSON := "r";
     lamd_ReplayTime := 5; lamd_Attempt := 0; lamd_Backoff := 0 |}.

(** The pending local activity, in a workflow whose definition is set. *)
Definition the_workflowDefinition : workflowDefinition :=
  {| wd_name := 4%N; wd_StackTrace := "trace" |}.

Definition local_activity_replayed : workflowEnvironmentImpl :=
  set_weh_workflowDefinition (Some the_workflowDefinition) local_activity_pending.

(** The machine of activity "a" once its ActivityTaskScheduled event was
    applied. *)
Definition activity_a_attributes : ScheduleActivityTaskDecisionAttributes :=
  {| sat_ActivityId := "a"; sat_ActivityType := "A";
     sat_TaskList := "l"; sat_Input := [];
     sat_ScheduleToCloseTimeout := 10; sat_StartToCloseTimeout := 10;
     sat_ScheduleToStartTimeout := 10; sat_HeartbeatTimeout := 0;
     sat_RetryPolicy := None; sat_Header := None |}.

Definition activity_a_initiated : decisionStateMachine :=
  moved decisionStateInitiated eventInitiated
    (moved decisionStateDecisionSent eventDecisionSent
       (set_data (Some 0%N) (newActivityDecisionStateMachine activity_a_attributes))).

Definition activity_a_completion : HistoryEvent :=
  {| EventId := 6; EventTime := 0;
     Attributes := ActivityTaskCompletedEventAttributes 5 [Byte.x01] |}.

(** A timer of 10 is started, its decision sent, and its TimerStarted event
    applied. *)
Definition timer_0_started : workflowEnvironmentImpl :=
  the_runEnvOps
    [opNewTimer 10 2%N;
     opGetDecisions true;
     opProcessEvent 0
       (Some {| EventId := 5; EventTime := 0;
                Attributes := TimerStartedEventAttributes "0" |})
       false false]
    the_env.

Definition timer_0 : StartTimerDecisionAttributes :=
  {| st_TimerId := "0"; st_StartToFireTimeout := 10 |}.

Definition timer_0_initiated : decisionStateMachine :=
  moved decisionStateInitiated eventInitiated
    (moved decisionStateDecisionSent eventDecisionSent
       (set_data (Some 0%N) (newTimerDecisionStateMachine timer_0))).

(** The helper after the cancellation "c" of workflow "w" was requested and
    its decision sent. *)
Definition cancellation_c_sent : decisionsHelper :=
  snd ((helper_requestCancelExternalWorkflowExecution "d" "w" "" "c" false ;;;
        helper_getDecisions true) newDecisionsHelper).

Lemma getDecisions_sent_once_witness :
  NoDup (keys two_timers_created)
  /\ exists ds h1,
       helper_getDecisions true two_timers_created = (Returned ds, h1)
       /\ ds = omap dsm_getDecision (orderedDecisions two_timers_created)
       /\ helper_getDecisions true h1 = (Returned [], h1).
Proof.
  assert (Hnd : NoDup (keys two_timers_created))
    by (apply (bool_decide_unpack _); vm_compute; exact I).
  split; [exact Hnd|].
  exact (getDecisions_sent_once two_timers_created Hnd).
Defined.

Lemma collection_never_holds_Completed_witness :
  addsCreated two_timers /\ noCompleted newDecisionsHelper
  /\ noCompleted (snd (runOps two_timers newDecisionsHelper)).
Proof.
  assert (Ha : addsCreated two_timers) by (simpl; auto).
  assert (Hn : noCompleted newDecisionsHelper) by constructor.
  split; [exact Ha|]. split; [exact Hn|].
  exact (collection_never_holds_Completed two_timers newDecisionsHelper Ha Hn).
Defined.

Lemma getDecisions_false_only_reads_witness :
  NoDup (keys two_timers_created) /\ noCompleted two_timers_created
  /\ helper_getDecisions false two_timers_created
     = (Returned (omap dsm_getDecision (orderedDecisions two_timers_created)),
        two_timers_created).
Proof.
  assert (Hnd : NoDup (keys two_timers_created))
    by (apply (bool_decide_unpack _); vm_compute; exact I).
  assert (Hn : noCompleted two_timers_created)
    by (repeat constructor; discriminate).
  split; [exact Hnd|]. split; [exact Hn|].
  destruct (getDecisions_false_only_reads two_timers_created Hnd Hn) as [H _].
  exact H.
Defined.

Lemma ProcessEvent_recovers_panics_witness :
  wc_completeHandler the_env = Some 9%N
  /\ ProcessEvent the_GetHistoryEventType the_HistoryEventToString the_lastPartOfName
       the_fmt_func fmt_int 0 0 1 (Some activity_a_completion) false false the_env
     = (Returned None,
        set_wc_calls
          [call_completeHandler 9%N None
             (Some (newWorkflowPanicError
                      (stateMachineIllegalStatePanic
                         "unable to find activity ID for the event event")))]
          the_env).
Proof.
  assert (H : wc_completeHandler the_env = Some 9%N) by reflexivity.
  split; [exact H|].
  destruct (ProcessEvent_recovers_panics the_GetHistoryEventType
              the_HistoryEventToString the_lastPartOfName the_fmt_func fmt_int 0 0
              1 activity_a_completion false false the_env 9%N H) as [Hp _].
  rewrite Hp. vm_compute. reflexivity.
Defined.

(** The same event in an environment that was created without a metrics
    scope: the completion handler is not called, [ProcessEvent] panics. *)
Lemma ProcessEvent_panics_without_metrics_scope :
  let e := newWorkflowExecutionEventHandler the_workflowInfo (Some 9%N) false None
             (fun _ => (None, None)) the_dataConverter in
  ProcessEvent the_GetHistoryEventType the_HistoryEventToString the_lastPartOfName
    the_fmt_func fmt_int 0 0 1 (Some activity_a_completion) false false e
  = (Panicked (runtimePanic "invalid memory address or nil pointer dereference"), e).
Proof. vm_compute. reflexivity. Qed.

Lemma timer_cancelled_before_sent_witness :
  0 < 10
  /\ decisions (wc_decisionsHelper the_env)
       (makeDecisionID decisionTypeTimer (fmt_int (wc_counterID the_env))) = None
  /\ exists e1 e2,
       NewTimer fmt_int 10 2%N the_env = (Returned (Some "0"), e1)
       /\ RequestCancelTimer the_fmt_func "0" e1 = (Returned tt, e2)
       /\ wc_decisionsHelper e2 = wc_decisionsHelper the_env
       /\ wc_calls e2 = [call_resultHandler (Some 0%N) 2%N None (Some ErrCanceled)].
Proof.
  assert (H1 : 0 < 10) by lia.
  assert (H2 : decisions (wc_decisionsHelper the_env)
                 (makeDecisionID decisionTypeTimer (fmt_int (wc_counterID the_env)))
               = None) by reflexivity.
  split; [exact H1|]. split; [exact H2|].
  destruct (timer_cancelled_before_sent the_fmt_func fmt_int 10 2%N the_env H1 H2)
    as (e1 & e2 & Hn & Hc & Hh & Hcalls & _).
  exists e1, e2. repeat split; assumption.
Defined.

Lemma activity_cancelled_before_sent_witness :
  ExecuteActivity activity_a 1%N the_env
  = (Returned "a", snd (ExecuteActivity activity_a 1%N the_env))
  /\ exists e2,
       RequestCancelActivity the_fmt_func "a"
         (snd (ExecuteActivity activity_a 1%N the_env)) = (Returned tt, e2)
       /\ wc_decisionsHelper e2 = wc_decisionsHelper the_env
       /\ wc_calls e2 = [call_resultHandler (Some 0%N) 1%N None (Some ErrCanceled)].
Proof.
  assert (H : ExecuteActivity activity_a 1%N the_env
              = (Returned "a", snd (ExecuteActivity activity_a 1%N the_env)))
    by (vm_compute; reflexivity).
  split; [exact H|].
  exact (activity_cancelled_before_sent the_fmt_func activity_a 1%N the_env _ "a" H).
Defined.

Lemma GetVersion_stays_witness :
  let e1 := snd (GetVersion the_json_Marshal the_range_changeVersions "c" 1 3 the_env) in
  let os := [opNewTimer 10 2%N; opGetVersion "d" 1 2;
             opProcessEvent 1 (Some (decision_task_started 7)) false false] in
  GetVersion the_json_Marshal the_range_changeVersions "c" 1 3 the_env = (Returned 3, e1)
  /\ forallb (fun o => negb (replaysVersionMarker o)) os = true
  /\ GetVersion the_json_Marshal the_range_changeVersions "c" 3 5 (the_runEnvOps os e1)
     = (Returned 3, the_runEnvOps os e1).
Proof.
  cbv zeta.
  assert (H : GetVersion the_json_Marshal the_range_changeVersions "c" 1 3 the_env
              = (Returned 3,
                 snd (GetVersion the_json_Marshal the_range_changeVersions "c" 1 3
                        the_env)))
    by (vm_compute; reflexivity).
  assert (Hos : forallb (fun o => negb (replaysVersionMarker o))
                  [opNewTimer 10 2%N; opGetVersion "d" 1 2;
                   opProcessEvent 1 (Some (decision_task_started 7)) false false]
                = true) by reflexivity.
  split; [exact H|]. split; [exact Hos|].
  destruct (GetVersion_stays the_GetHistoryEventType the_HistoryEventToString
              the_lastPartOfName the_json_Marshal the_getErrorDetails the_fmt_func
              fmt_int fmt_int "__stack_trace" "__open_sessions" 0 0
              the_range_changeVersions the_range_sideEffectResult
              "c" 1 3 3 the_env _ _ H Hos) as [_ Hs].
  apply Hs. reflexivity.
Defined.

(** The MarkerRecorded event of a Version marker overwrites a recorded
    version: [GetVersion] returned 3 for change "c"; after the marker of
    version 2 for "c" was processed it returns 2. *)
Lemma GetVersion_overwritten_by_marker :
  let e1 := snd (GetVersion the_json_Marshal the_range_changeVersions "c" 1 3 marker_env) in
  let e2 :=
    snd (ProcessEvent the_GetHistoryEventType the_HistoryEventToString
           the_lastPartOfName the_fmt_func fmt_int 0 0 1
           (Some (markerRecorded 4 versionMarkerName (Some [Byte.x01])))
           false false e1) in
  fst (GetVersion the_json_Marshal the_range_changeVersions "c" 1 3 marker_env)
  = Returned 3
  /\ fst (GetVersion the_json_Marshal the_range_changeVersions "c" 1 3 e2) = Returned 2.
Proof. vm_compute. split; reflexivity. Qed.

Lemma SideEffect_replays_recorded_marker_witness :
  let e1 :=
    snd (ProcessEvent the_GetHistoryEventType the_HistoryEventToString
           the_lastPartOfName the_fmt_func fmt_int 0 0 1
           (Some (markerRecorded 4 sideEffectMarkerName (Some [Byte.x01])))
           true false marker_env) in
  let e2 :=
    afterSideEffect e1 [sideEffectMarker 0 [Byte.x02]]
      [call_resultHandler None 7%N (Some [Byte.x02]) None] in
  fst (EncodedValues_Get (wc_dataConverter marker_env) (Some [Byte.x01])
         [VInt32 0; VBytes []])
  = [VInt32 0; VBytes [Byte.x02]]
  /\ wc_counterID marker_env = 0
  /\ decisions (wc_decisionsHelper marker_env)
       (makeDecisionID decisionTypeMarker ("SideEffect_" +:+ fmt_int 0)) = None
  /\ wc_sideEffectResult e1 !! 0 = Some [Byte.x02]
  /\ SideEffect the_range_sideEffectResult (fun _ => ([], None)) 7%N e1
     = (Returned tt, e2)
  /\ offered (wc_decisionsHelper e2) = [recordMarker "SideEffect" [Byte.x02]]
  /\ wc_calls e2 = [call_resultHandler None 7%N (Some [Byte.x02]) None].
Proof.
  cbv zeta.
  assert (H1 : fst (EncodedValues_Get (wc_dataConverter marker_env) (Some [Byte.x01])
                      [VInt32 0; VBytes []])
               = [VInt32 0; VBytes [Byte.x02]]) by reflexivity.
  assert (H2 : wc_counterID marker_env = 0) by reflexivity.
  assert (H3 : decisions (wc_decisionsHelper marker_env)
                 (makeDecisionID decisionTypeMarker ("SideEffect_" +:+ fmt_int 0))
               = None) by reflexivity.
  split; [exact H1|]. split; [exact H2|]. split; [exact H3|].
  exact (SideEffect_replays_recorded_marker the_GetHistoryEventType
           the_HistoryEventToString the_lastPartOfName the_fmt_func fmt_int 0 0
           the_range_sideEffectResult
           1 4 (Some [Byte.x01]) 0 [Byte.x02] (fun _ => ([], None)) 7%N
           marker_env H1 H2 H3).
Defined.

Lemma GetVersion_returns_recorded_marker_witness :
  fst (EncodedValues_Get (wc_dataConverter marker_env) (Some [Byte.x01])
         [VString EmptyString; VVersion 0])
  = [VString "c"; VVersion 2]
  /\ (let e1 :=
        snd (ProcessEvent the_GetHistoryEventType the_HistoryEventToString
               the_lastPartOfName the_fmt_func fmt_int 0 0 1
               (Some (markerRecorded 4 versionMarkerName (Some [Byte.x01])))
               true false marker_env) in
      GetVersion the_json_Marshal the_range_changeVersions "c" 1 3 e1 = (Returned 2, e1)).
Proof.
  assert (H1 : fst (EncodedValues_Get (wc_dataConverter marker_env) (Some [Byte.x01])
                      [VString EmptyString; VVersion 0])
               = [VString "c"; VVersion 2]) by reflexivity.
  split; [exact H1|].
  destruct (GetVersion_returns_recorded_marker the_GetHistoryEventType
              the_HistoryEventToString the_lastPartOfName the_json_Marshal
              the_fmt_func fmt_int 0 0 the_range_changeVersions
              1 4 (Some [Byte.x01]) "c" 2 true 1 3 marker_env H1) as [H _].
  apply H. reflexivity.
Defined.

Lemma local_activity_marker_applied_once_witness :
  EncodedValues_Get (wc_dataConverter local_activity_replayed) (Some [Byte.x01])
    [VLocalActivityMarkerData zero_localActivityMarkerData]
  = ([VLocalActivityMarkerData the_localActivityMarkerData], None)
  /\ wc_pendingLaTasks local_activity_replayed !! "0"
     = Some (newLocalActivityTask
               {| lap_ActivityType := "L"; lap_RetryPolicy := None; lap_Attempt := 0;
                  lap_ScheduledTime := 0; lap_Header := None |} 3%N "0")
  /\ exists e1,
       handleLocalActivityMarker the_lastPartOfName 1 (Some [Byte.x01])
         local_activity_replayed = (Returned None, e1)
       /\ wc_pendingLaTasks e1 !! "0" = None
       /\ wc_calls e1
          = [call_laResultHandler 3%N (markerResult the_localActivityMarkerData);
             call_OnDecisionTaskStarted 4%N]
       /\ handleLocalActivityMarker the_lastPartOfName 1 (Some [Byte.x01]) e1
          = (Returned None, e1).
Proof.
  assert (H1 : EncodedValues_Get (wc_dataConverter local_activity_replayed)
                 (Some [Byte.x01])
                 [VLocalActivityMarkerData zero_localActivityMarkerData]
               = ([VLocalActivityMarkerData the_localActivityMarkerData], None))
    by reflexivity.
  assert (H2 : wc_pendingLaTasks local_activity_replayed
                 !! lamd_ActivityID the_localActivityMarkerData
               = Some (newLocalActivityTask
                         {| lap_ActivityType := "L"; lap_RetryPolicy := None;
                            lap_Attempt := 0; lap_ScheduledTime := 0;
                            lap_Header := None |} 3%N "0"))
    by (vm_compute; reflexivity).
  split; [exact H1|]. split; [exact H2|].
  destruct (local_activity_marker_applied_once the_lastPartOfName 1 (Some [Byte.x01])
              the_localActivityMarkerData _ the_workflowDefinition
              local_activity_replayed H1 H2) as [Hok _].
  apply Hok; reflexivity.
Defined.

Lemma sequence_IDs_distinct_witness :
  Z.of_nat 3 <= 4294967296
  /\ NoDup (sequenceIDs 3 the_env)
  /\ sequenceIDs 3 the_env = ["0"; "1"; "2"].
Proof.
  assert (H : Z.of_nat 3 <= 4294967296) by lia.
  split; [exact H|]. split; [|reflexivity].
  destruct (sequence_IDs_distinct 3 the_env H) as [Hnd _]. exact Hnd.
Defined.

Lemma activity_completion_reaches_callback_witness :
  NoDup (keys (wc_decisionsHelper activity_a_scheduled))
  /\ closedScheduledEventID activity_a_completion = Some 5
  /\ scheduledEventIDToActivityID (wc_decisionsHelper activity_a_scheduled) !! 5
     = Some "a"
  /\ decisions (wc_decisionsHelper activity_a_scheduled)
       (makeDecisionID decisionTypeActivity "a") = Some activity_a_initiated
  /\ wc_waiters activity_a_scheduled !! 0%N
     = Some (dataActivity {| activity_callback := 1%N;
                             activity_waitForCancelRequest := false;
                             activity_handled := false |})
  /\ exists e1,
       handleActivityTaskCompleted the_GetHistoryEventType the_HistoryEventToString
         the_fmt_func activity_a_completion [Byte.x01] activity_a_scheduled
       = (Returned None, e1)
       /\ wc_calls e1 = [call_resultHandler (Some 0%N) 1%N (Some [Byte.x01]) None]
       /\ decisions (wc_decisionsHelper e1) (makeDecisionID decisionTypeActivity "a")
          = None.
Proof.
  assert (H1 : NoDup (keys (wc_decisionsHelper activity_a_scheduled)))
    by (apply (bool_decide_unpack _); vm_compute; exact I).
  assert (H2 : closedScheduledEventID activity_a_completion = Some 5) by reflexivity.
  assert (H3 : scheduledEventIDToActivityID (wc_decisionsHelper activity_a_scheduled)
                 !! 5 = Some "a") by (vm_compute; reflexivity).
  assert (H4 : decisions (wc_decisionsHelper activity_a_scheduled)
                 (makeDecisionID decisionTypeActivity "a") = Some activity_a_initiated)
    by (vm_compute; reflexivity).
  assert (H5 : kind activity_a_initiated
               = activityDecisionStateMachine activity_a_attributes) by reflexivity.
  assert (H6 : state activity_a_initiated = decisionStateInitiated
               \/ state activity_a_initiated = decisionStateCanceledAfterInitiated)
    by (left; reflexivity).
  assert (H7 : data activity_a_initiated = Some 0%N) by reflexivity.
  assert (H8 : wc_waiters activity_a_scheduled !! 0%N
               = Some (dataActivity {| activity_callback := 1%N;
                                       activity_waitForCancelRequest := false;
                                       activity_handled := false |}))
    by (vm_compute; reflexivity).
  split; [exact H1|]. split; [exact H2|]. split; [exact H3|]. split; [exact H4|].
  split; [exact H8|].
  destruct (activity_completion_reaches_callback the_GetHistoryEventType
              the_HistoryEventToString the_fmt_func activity_a_completion [Byte.x01]
              5 "a" activity_a_attributes activity_a_initiated 0%N _
              activity_a_scheduled H1 H2 H3 H4 H5 H6 H7 H8 eq_refl)
    as (e1 & Hr & Hc & _ & Hg & _).
  exists e1. split; [exact Hr|]. split; [exact Hc|exact Hg].
Defined.

Lemma cancel_requested_routed_by_initiated_event_witness :
  scheduledEventIDToCancellationID cancellation_c_sent !! 4 = None
  /\ exists isExternal d h2,
       helper_handleExternalWorkflowExecutionCancelRequested 4 "w"
         (snd (helper_handleRequestCancelExternalWorkflowExecutionInitiated
                 4 "w" "c" cancellation_c_sent))
       = (Returned (isExternal, d), h2)
       /\ isExternal = true
       /\ id d = makeDecisionID decisionTypeCancellation "c".
Proof.
  assert (H1 : scheduledEventIDToCancellationID cancellation_c_sent !! 4 = None)
    by reflexivity.
  split; [exact H1|].
  destruct (helper_handleExternalWorkflowExecutionCancelRequested 4 "w"
              (snd (helper_handleRequestCancelExternalWorkflowExecutionInitiated
                      4 "w" "c" cancellation_c_sent)))
    as [[[isExternal d]|p] h2] eqn:E.
  - exists isExternal, d, h2. split; [reflexivity|].
    destruct (cancel_requested_routed_by_initiated_event 4 "w" "c" "w"
                cancellation_c_sent h2 isExternal d H1 E) as [Hb Hd].
    subst isExternal. split; [reflexivity|exact Hd].
  - vm_compute in E. discriminate E.
Defined.

Lemma timer_fired_after_cancel_is_silent_witness :
  NoDup (keys (wc_decisionsHelper timer_0_started))
  /\ decisions (wc_decisionsHelper timer_0_started)
       (makeDecisionID decisionTypeTimer "0") = Some timer_0_initiated
  /\ wc_waiters timer_0_started !! 0%N
     = Some (dataTimer {| timer_callback := 2%N; timer_handled := false |})
  /\ exists e1 e2,
       RequestCancelTimer the_fmt_func "0" timer_0_started = (Returned tt, e1)
       /\ wc_calls e1 = [call_resultHandler (Some 0%N) 2%N None (Some ErrCanceled)]
       /\ handleTimerFired the_fmt_func "0" e1 = (Returned tt, e2)
       /\ wc_calls e2 = wc_calls e1.
Proof.
  assert (H1 : NoDup (keys (wc_decisionsHelper timer_0_started)))
    by (apply (bool_decide_unpack _); vm_compute; exact I).
  assert (H2 : decisions (wc_decisionsHelper timer_0_started)
                 (makeDecisionID decisionTypeTimer "0") = Some timer_0_initiated)
    by (vm_compute; reflexivity).
  assert (H3 : kind timer_0_initiated = timerDecisionStateMachine timer_0 false)
    by reflexivity.
  assert (H4 : state timer_0_initiated = decisionStateInitiated) by reflexivity.
  assert (H5 : data timer_0_initiated = Some 0%N) by reflexivity.
  assert (H6 : wc_waiters timer_0_started !! 0%N
               = Some (dataTimer {| timer_callback := 2%N; timer_handled := false |}))
    by (vm_compute; reflexivity).
  split; [exact H1|]. split; [exact H2|]. split; [exact H6|].
  destruct (timer_fired_after_cancel_is_silent the_fmt_func "0" timer_0 false
              timer_0_initiated 0%N _ timer_0_started H1 H2 H3 H4 H5 H6 eq_refl)
    as (e1 & e2 & Hc & Hcalls & Hf & Hsame & _).
  exists e1, e2. repeat split; assumption.
Defined.

(** Child workflow "cw" is started, its decision sent, and its
    StartChildWorkflowExecutionInitiated event applied. *)
Definition child_cw : executeWorkflowParams :=
  {| wp_domain := Some "d"; wp_taskListName := Some "l"; wp_workflowID := "cw";
     wp_executionStartToCloseTimeoutSeconds := Some 10;
     wp_taskStartToCloseTimeoutSeconds := Some 10;
     wp_workflowIDReusePolicy := 0; wp_parentClosePolicy := 0;
     wp_retryPolicy := None; wp_header := None; wp_memo := None;
     wp_searchAttributes := None; wp_cronSchedule := "";
     wp_waitForCancellation := false; wp_workflowType := Some "W";
     wp_input := [] |}.

Definition child_cw_attributes : StartChildWorkflowExecutionDecisionAttributes :=
  {| scw_Domain := "d"; scw_TaskList := "l"; scw_WorkflowId := "cw";
     scw_ExecutionStartToCloseTimeout := 10; scw_TaskStartToCloseTimeout := 10;
     scw_Input := []; scw_WorkflowType := "W"; scw_WorkflowIdReusePolicy := 0;
     scw_ParentClosePolicy := 0; scw_RetryPolicy := None; scw_Header := None;
     scw_Memo := None; scw_SearchAttributes := None; scw_CronSchedule := "" |}.

Definition child_cw_initiated_env : workflowEnvironmentImpl :=
  the_runEnvOps
    [opExecuteChildWorkflow child_cw 1%N 2%N;
     opGetDecisions true;
     opProcessEvent 0
       (Some {| EventId := 5; EventTime := 0;
                Attributes := StartChildWorkflowExecutionInitiatedEventAttributes "cw" |})
       false false]
    the_env.

Definition child_cw_initiated : decisionStateMachine :=
  moved decisionStateInitiated eventInitiated
    (moved decisionStateDecisionSent eventDecisionSent
       (set_data (Some 0%N)
          (newChildWorkflowDecisionStateMachine child_cw_attributes))).

Lemma child_workflow_started_then_completed_witness :
  NoDup (keys (wc_decisionsHelper child_cw_initiated_env))
  /\ decisions (wc_decisionsHelper child_cw_initiated_env)
       (makeDecisionID decisionTypeChildWorkflow "cw") = Some child_cw_initiated
  /\ wc_waiters child_cw_initiated_env !! 0%N
     = Some (dataChildWorkflow {| child_resultCallback := 1%N;
                                  child_startedCallback := 2%N;
                                  child_waitForCancellation := false;
                                  child_handled := false |})
  /\ exists e1 e2,
       handleChildWorkflowExecutionStarted "cw" "run" child_cw_initiated_env
       = (Returned None, e1)
       /\ wc_calls e1 = [call_startedCallback 2%N "cw" "run" None]
       /\ handleChildWorkflowExecutionCompleted the_fmt_func "cw" [Byte.x01] e1
          = (Returned None, e2)
       /\ wc_calls e2
          = wc_calls e1 ++ [call_resultHandler (Some 0%N) 1%N (Some [Byte.x01]) None].
Proof.
  assert (H1 : NoDup (keys (wc_decisionsHelper child_cw_initiated_env)))
    by (apply (bool_decide_unpack _); vm_compute; exact I).
  assert (H2 : decisions (wc_decisionsHelper child_cw_initiated_env)
                 (makeDecisionID decisionTypeChildWorkflow "cw")
               = Some child_cw_initiated) by (vm_compute; reflexivity).
  assert (H3 : kind child_cw_initiated
               = childWorkflowDecisionStateMachine child_cw_attributes) by reflexivity.
  assert (H4 : state child_cw_initiated = decisionStateInitiated) by reflexivity.
  assert (H5 : data child_cw_initiated = Some 0%N) by reflexivity.
  assert (H6 : wc_waiters child_cw_initiated_env !! 0%N
               = Some (dataChildWorkflow {| child_resultCallback := 1%N;
                                            child_startedCallback := 2%N;
                                            child_waitForCancellation := false;
                                            child_handled := false |}))
    by (vm_compute; reflexivity).
  split; [exact H1|]. split; [exact H2|]. split; [exact H6|].
  destruct (child_workflow_started_then_completed the_fmt_func "cw" "run" [Byte.x01]
              child_cw_attributes child_cw_initiated 0%N _ child_cw_initiated_env
              H1 H2 H3 H4 H5 H6 eq_refl)
    as (e1 & e2 & Hs & Hcalls & _ & Hc & Hcalls2 & _).
  exists e1, e2. repeat split; assumption.
Defined.
